(* ===== verification/_CoqProject ===== *)
-Q . S2P
Prelude.v
PyStr.v
DateTime.v
TaskStore.v
Scanner.v
Gates.v
Keyboards.v
Handlers.v
Bot.v
Invariants.v
Interleave.v
Concurrency.v
Isolation.v
EventLoop.v
