(* ===== verification/Prelude.v ===== *)
(** * A verified model of the Bot-Scheduler task-reminder bot

    The repository is one Python program, [src/main.py], an aiogram
    Telegram bot.  It keeps every user's tasks in the global dictionary
    [tasks] ([{user_id: {task_id: {name, deadline, completed, reminded,
    created_at, reminded_at}}}]), lets a user pick a deadline with a
    multi-step inline calendar whose progress lives in aiogram's per-user
    FSM storage, and runs a background coroutine [check_deadlines] that
    every 30 seconds scans all tasks and calls [send_reminder].

    The parts and how they interact:
    - the calendar handlers ([process_month_selection] ...
      [process_exact_time], [process_time_all_day]) write a deadline
      string ["dd.mm.YYYY HH:MM"] or ["dd.mm.YYYY"] into [tasks];
    - the task handlers ([process_complete_task], [process_delete_task],
      [process_edit_name_input]) mutate [tasks];
    - [check_deadlines] reads [tasks], parses each deadline with
      [datetime.strptime], and through [send_reminder] emits a message and
      appends a ["%d.%m.%Y %H:%M"] stamp to the task's [reminded_at] list,
      whose concatenation is searched as a substring to avoid duplicates.

    Files of the development (in dependency order):
    - [Prelude] (this file): the Python exception type [exn], the
      state-and-exception monad [PyM] in which handlers are written (state
      changes made before an exception survive it, as with Python's in-place
      mutation), its notation in [py_scope], the loop combinator [for_],
      invariant-preservation lemmas ([preserves] and the [pres_struct]
      tactic), the [pybot] hint and [pyrw] rewrite databases, tactics.
    - [PyStr]: Python strings as [list ascii]: [str.split], [str.split()]
      without argument, [str.strip], the [in] operator on strings, ["".join],
      [str(int)], [f"{n:02d}"] and [int()]; printing/parsing round trips.
    - [DateTime]: the proleptic Gregorian calendar of [datetime]
      ([days_in_month] as [get_day_keyboard] computes it, [toordinal]),
      [datetime] and the normalised [timedelta] of [deadline - now], and
      [strftime]/[strptime] for the formats ["%d.%m.%Y %H:%M"],
      ["%d.%m.%Y %H"] and ["%d.%m.%Y"].
    - [TaskStore]: the [tasks] dictionary as insertion-ordered association
      lists with Python dict semantics (assignment to an existing key keeps
      its position), the task record, and the store mutations performed by
      the handlers: task creation with [str(len(tasks[user_id]) + 1)],
      completion toggle, deletion, renaming, deadline change.
    - [Scanner]: one pass of [check_deadlines] and [send_reminder],
      including the parse of date-only deadlines as 23:59, the four ordered
      reminder windows, the substring de-duplication and the crash on a
      [None] deadline.

    - [Gates]: the de-duplication gates of [check_deadlines] (substring
      searches of [strftime] probes in ["".join(reminded_at)]) are, on a
      record of minute stamps, the structured checks "a stamp starts with
      the probe" and "the stamp is in the record"; hence the 24-hour
      reminder, gated on today's date over a 24-hour window, is sent on
      each of the two dates the window spans.
    - [Keyboards]: the callback payloads and row layouts of
      [get_task_keyboard], [get_month_keyboard], [get_day_keyboard] and the
      hour and minute pickers of [process_day_selection] and
      [process_hour_selection], with [InlineKeyboardBuilder.adjust].
    - [Handlers]: aiogram's FSM storage ([TaskStates], the data bag, the
      [get_data]/[update_data]/[set_state]/[clear] calls) and every
      message and callback handler as a computation in [PyM bot reply]
      over the store and the sessions; the creation dialog end to end.
      The Telegram objects of aiogram 3 are frozen, so the assignment to
      [callback.data] in [process_back_to_time] raises a [ValueError]
      and the Back button of the minute picker never reaches
      [process_day_selection].
    - [Bot]: the dispatcher (the filters of the [@dp.message] and
      [@dp.callback_query] decorators, first match in registration order)
      and the whole bot as a transition system [step] over updates and
      scanner passes, with the invariant of its reachable states (unique
      keys; no session in the edit states, which the ["edit_"] filter makes
      unreachable).
    - [Invariants]: the interface [StoreInv] between the mutations of the
      store (by the handlers and by [send_reminder]) and a predicate on the
      store, proved once for every update, pass and reachable state, and
      its instances: unique keys, users only ever added, and the types of
      the task records.
    - [Interleave]: a pass of the scanner during whose [await]s the
      dispatcher runs handlers: CPython's size check on [for user_id in
      tasks], the task objects shared between the snapshot and the store;
      the atomic pass of [Bot] when no handler runs; a pass raises
      [RuntimeError] exactly through that size check, so a handler adding
      a user during a send kills the scanner.
    - [Concurrency]: [dp.start_polling] runs every update as a task of the
      event loop and the [Dispatcher] has no event isolation, so the
      handlers of one user interleave at their network [await]s
      ([callback.answer], [message.answer], [edit_text]).  A handler is a
      resumption [htask] split at those awaits; the event loop delivers
      updates and resumes any pending task.  Run without interleaving the
      split handlers are the handlers of [Handlers] (an equivalence, and
      a refinement of [Bot]'s step); every interleaving keeps every store
      invariant of [Invariants]' interface; and three races: a double tap
      on a minute button stores the task twice, a deletion during the
      await of [process_complete_task] makes it raise [KeyError], and the
      pending [state.clear()] of a finished dialog cancels an Add Task.
    - [Isolation]: what each handler touches.  Every handler reads and
      writes only the tasks and the FSM session of the user who sent the
      update ([dispatch_rel], a two-run relation [rel2] on bots that agree
      at that user, and a frame property for every other user), and so does
      every segment of its split task, re-checked after each await against
      whatever the other tasks did meanwhile ([task_local]).  Hence the
      updates of two users commute ([dispatch_commute]), and every
      interleaving that keeps at most one pending task per user, the
      per-chat serialization the spec assumes of the framework, ends in the
      bot and replies of the updates dispatched in delivery order
      ([per_user_serial_equiv]): the races of [Concurrency] all need two
      concurrent updates of one user.
    - [EventLoop]: the scanner as one more task of that event loop.  A
      pass of [check_deadlines] is written in continuation-passing style
      and suspends at every [await bot.send_message]; the loop delivers an
      update, resumes a handler task, wakes the sleeping scanner (the end
      of [asyncio.sleep(30)]) or resumes it, in any order.  Run alone the
      suspended pass is [Interleave]'s pass and the atomic pass of
      [Scanner] ([pass_alone_is_step]), and in every reachable state of
      the loop it computes [Scanner]'s specification
      ([ureachable_wake_spec]); the pass in progress always ends when
      resumed ([scanner_pass_ends]); every interleaving of handler and
      scanner segments keeps every store invariant of [Invariants]'
      interface ([ureachable_store_inv]); and the one handler segment that
      adds a user kills the scanner when it runs during the scanner's
      await and not when it runs after the pass.

    What the theorems show is listed in each file's header.  Bounds: years
    are taken in [1000, 9999] where [strftime("%Y")] prints exactly four
    digits; the clock is an input ([now]), and one scan pass is modelled
    with the clock standing still ([send_reminder]'s own [datetime.now()]
    equals the pass's [now]).  In [Bot] and [Interleave] a handler runs as a
    whole: in [Interleave] the handlers run during a pass run whole inside
    one [await bot.send_message], which is exact for the scanner because
    every handler changes [tasks] within one segment between two awaits
    ([Concurrency.dispatch_task_writes_once]);
    the interleaving of handlers with each other at their own awaits is
    [Concurrency], and of handler segments with scanner segments
    [EventLoop].  A handler's clock
    reading is fixed at its update.  Three resumptions finish every handler
    task ([serial_dispatch]).  Not modelled: message texts and keyboard
    markup beyond the callback payloads they carry, the Telegram network,
    logging, the 30-second sleep (a pass is a function of [now], and
    waking the scanner an event of the loop), and the identity of task
    objects beyond their user and id: a task deleted and another created
    under the same id during one pass is read as the new one.  Modelling
    that identity would take a heap of task objects through every file
    (the store, the handlers, the scanner and both event loops) for a
    behaviour that differs from the model only when [create_task]
    overwrites or recreates a task under an id the scanner is still
    iterating over; [Interleave] keeps the snapshot's objects shared with
    the store, which is the aliasing every other run observes. *)

From stdpp Require Import base list decidable.
From Stdlib Require Import Ascii ZArith Lia.
From Stdlib Require String.

Declare Scope py_scope.
Delimit Scope py_scope with py.

(** ** Python exceptions and results *)

(** The exceptions the modelled code can raise. *)
Inductive exn : Type :=
| ValueError
| TypeError
| KeyError
| AttributeError
| IndexError
| RuntimeError.

#[export] Instance exn_eq_dec : EqDecision exn.
Proof. solve_decision. Defined.

(** The outcome of a Python computation: a value or a raised exception. *)
Inductive result (A : Type) : Type :=
| Ok (a : A)
| Raise (e : exn).
Arguments Ok {A} a.
Arguments Raise {A} e.

Definition result_bind {A B} (r : result A) (k : A -> result B) : result B :=
  match r with
  | Ok a => k a
  | Raise e => Raise e
  end.

Notation "x <-? r ;; k" := (result_bind r (fun x => k))
  (at level 100, r at next level, right associativity) : py_scope.

Definition is_ok {A} (r : result A) : bool :=
  match r with Ok _ => true | Raise _ => false end.

(** ** The state-and-exception monad of handlers *)

(** A handler reads and mutates a state [S]; when it raises, the mutations
    done before the [raise] are kept, as they are in Python. *)
Definition PyM (S A : Type) : Type := S -> result A * S.

Definition ret {S A} (a : A) : PyM S A := fun s => (Ok a, s).

Definition bind {S A B} (m : PyM S A) (k : A -> PyM S B) : PyM S B :=
  fun s =>
    match m s with
    | (Ok a, s') => k a s'
    | (Raise e, s') => (Raise e, s')
    end.

Definition raise {S A} (e : exn) : PyM S A := fun s => (Raise e, s).
Definition get {S} : PyM S S := fun s => (Ok s, s).
Definition put {S} (s : S) : PyM S unit := fun _ => (Ok tt, s).
Definition modify {S} (f : S -> S) : PyM S unit := fun s => (Ok tt, f s).

Definition lift {S A} (r : result A) : PyM S A :=
  fun s => (r, s).

(** [try: m except E: h]: the handler runs on the exceptions [caught]
    selects, in the state reached when the exception was raised. *)
Definition try_except {S A} (m : PyM S A) (caught : exn -> bool)
    (h : PyM S A) : PyM S A :=
  fun s =>
    match m s with
    | (Raise e, s') => if caught e then h s' else (Raise e, s')
    | r => r
    end.

Notation "x <- m ;; k" := (bind m (fun x => k))
  (at level 100, m at next level, right associativity) : py_scope.
Notation "m ;; k" := (bind m (fun _ => k))
  (at level 100, right associativity) : py_scope.

Local Open Scope py_scope.

(** [for x in xs: body(x)]. *)
Fixpoint for_ {S A} (xs : list A) (body : A -> PyM S unit) : PyM S unit :=
  match xs with
  | [] => ret tt
  | x :: xs' => body x ;; for_ xs' body
  end.

(** ** Monad laws and loop lemmas *)

Lemma bind_ret_l {S A B} (a : A) (k : A -> PyM S B) s :
  bind (ret a) k s = k a s.
Proof. reflexivity. Qed.

Lemma bind_assoc {S A B C} (m : PyM S A) (k : A -> PyM S B) (k' : B -> PyM S C) s :
  bind (bind m k) k' s = bind m (fun a => bind (k a) k') s.
Proof. unfold bind. destruct (m s) as [[a|e] s']; reflexivity. Qed.

Lemma for_app {S A} (xs ys : list A) (body : A -> PyM S unit) s :
  for_ (xs ++ ys) body s = bind (for_ xs body) (fun _ => for_ ys body) s.
Proof.
  revert s. induction xs as [|x xs IH]; intros s; simpl; [reflexivity|].
  rewrite bind_assoc. unfold bind at 1 2.
  destruct (body x s) as [[[]|e] s']; [apply IH|reflexivity].
Qed.

(** ** Equivalence of computations

    Two computations are equivalent when they agree on every state: the
    same outcome and the same final state.  Rewriting with the monad laws
    under the binders of a handler is setoid rewriting for [≡]. *)

#[export] Instance pym_equiv {S A} : Equiv (PyM S A) := fun m1 m2 => forall s, m1 s = m2 s.

#[export] Instance pym_equivalence {S A} : Equivalence (≡@{PyM S A}).
Proof.
  split; [intros m s; reflexivity|intros m1 m2 H s; symmetry; apply H|].
  intros m1 m2 m3 H1 H2 s. rewrite H1. apply H2.
Qed.

#[export] Instance bind_proper {S A B} :
  Proper ((≡) ==> pointwise_relation A (≡) ==> (≡)) (@bind S A B).
Proof.
  intros m1 m2 Hm k1 k2 Hk s. unfold bind. rewrite Hm.
  destruct (m2 s) as [[a|e] s']; [apply Hk|reflexivity].
Qed.

Lemma bind_ret_l_eqv {S A B} (a : A) (k : A -> PyM S B) : bind (ret a) k ≡ k a.
Proof. intros s. reflexivity. Qed.

Lemma bind_assoc_eqv {S A B C} (m : PyM S A) (k : A -> PyM S B) (k' : B -> PyM S C) :
  bind (bind m k) k' ≡ bind m (fun a => bind (k a) k').
Proof. intros s. apply bind_assoc. Qed.

Lemma bind_ret_r_eqv {S A} (m : PyM S A) : bind m ret ≡ m.
Proof. intros s. unfold bind, ret. destruct (m s) as [[a|e] s']; reflexivity. Qed.

(** A state predicate every reachable state of [m] satisfies, whether [m]
    returns or raises. *)
Definition preserves {S A} (I : S -> Prop) (m : PyM S A) : Prop :=
  forall s, I s -> I (snd (m s)).

Lemma preserves_ret {S A} (I : S -> Prop) (a : A) : preserves I (ret a).
Proof. intros s Hs. exact Hs. Qed.

Lemma preserves_raise {S A} (I : S -> Prop) e : preserves I (@raise S A e).
Proof. intros s Hs. exact Hs. Qed.

Lemma preserves_get {S} (I : S -> Prop) : preserves I get.
Proof. intros s Hs. exact Hs. Qed.

Lemma preserves_lift {S A} (I : S -> Prop) (r : result A) : preserves I (lift r).
Proof. intros s Hs. exact Hs. Qed.

Lemma preserves_bind {S A B} (I : S -> Prop) (m : PyM S A) (k : A -> PyM S B) :
  preserves I m -> (forall a, preserves I (k a)) -> preserves I (bind m k).
Proof.
  intros Hm Hk s Hs. unfold bind.
  specialize (Hm s Hs). destruct (m s) as [[a|e] s']; simpl in *; auto.
  apply Hk, Hm.
Qed.

Lemma preserves_for {S A} (I : S -> Prop) (xs : list A) (body : A -> PyM S unit) :
  (forall x, In x xs -> preserves I (body x)) -> preserves I (for_ xs body).
Proof.
  induction xs as [|x xs IH]; intros Hb; simpl.
  - apply preserves_ret.
  - apply preserves_bind; [apply Hb; left; reflexivity|].
    intros _. apply IH. intros y Hy. apply Hb. right. exact Hy.
Qed.

Lemma preserves_try {S A} (I : S -> Prop) (m : PyM S A) caught h :
  preserves I m -> preserves I h -> preserves I (try_except m caught h).
Proof.
  intros Hm Hh s Hs. unfold try_except.
  specialize (Hm s Hs). destruct (m s) as [[a|e] s']; simpl in *; auto.
  destruct (caught e); simpl; auto.
Qed.

Lemma preserves_modify {S} (I : S -> Prop) (f : S -> S) :
  (forall s, I s -> I (f s)) -> preserves I (modify f).
Proof. intros Hf s Hs. exact (Hf s Hs). Qed.

(** ** Hint database and tactics *)

Create HintDb pybot.
Create Rewrite HintDb pyrw.

#[export] Hint Resolve preserves_ret preserves_raise preserves_modify preserves_get preserves_lift : pybot.
#[export] Hint Resolve preserves_bind preserves_for preserves_try : pybot.
#[export] Hint Rewrite @bind_ret_l @bind_assoc : pyrw.

(** Unfold the monad so that a concrete run or a case analysis proceeds. *)
Ltac py_unfold :=
  unfold bind, ret, raise, get, put, modify, lift, try_except in *.

(** [lia] after turning [/] and [mod] by constants into their Euclidean
    equations, which [lia] alone misses on some goals. *)
Ltac zlia := Z.to_euclidean_division_equations; lia.

(** Proves a decidable proposition about concrete data by evaluating its
    decision procedure. *)
Ltac decide_by_eval :=
  match goal with |- ?P => apply (bool_decide_eq_true_1 P); vm_compute; reflexivity end.

(** An invariant through a computation: its binds, [try]s, [let]s and
    branches, the primitive steps closed by the [pybot] hints. *)
Ltac pres_struct :=
  repeat first
    [ match goal with
      | |- preserves _ (bind _ _) => apply preserves_bind; [|intros ?]
      | |- preserves _ (try_except _ _ _) => apply preserves_try
      end
    | progress cbv zeta
    | match goal with
      | |- preserves _ (match ?x with _ => _ end) => destruct x
      | |- preserves _ (if ?x then _ else _) => destruct x
      end
    | solve [eauto with pybot] ].

(** Case analysis on every [if] and [match] on a decidable test in the goal. *)
Ltac py_cases :=
  repeat (case_decide || case_match); simplify_eq; simpl in *.

(** ** The exceptions a computation can raise *)

(** [raises_only E m]: every exception [m] lets escape satisfies [E]. *)
Definition raises_only {S A} (E : exn -> Prop) (m : PyM S A) : Prop :=
  forall s e s', m s = (Raise e, s') -> E e.

Section RaisesOnly.
Context {S : Type} (E : exn -> Prop).

Lemma raises_only_ret {A} (a : A) : raises_only (S:=S) E (ret a).
Proof. intros s e s' [=]. Qed.

Lemma raises_only_get : raises_only (S:=S) E get.
Proof. intros s e s' [=]. Qed.

Lemma raises_only_modify f : raises_only (S:=S) E (modify f).
Proof. intros s e s' [=]. Qed.

Lemma raises_only_raise {A} e : E e -> raises_only (S:=S) (A:=A) E (raise e).
Proof. intros He s e' s' [= <- _]. exact He. Qed.

Lemma raises_only_lift {A} (r : result A) :
  (forall e, r = Raise e -> E e) -> raises_only (S:=S) E (lift r).
Proof. intros Hr s e s' [= He _]. exact (Hr e He). Qed.

Lemma raises_only_bind {A B} (m : PyM S A) (k : A -> PyM S B) :
  raises_only E m -> (forall a, raises_only E (k a)) -> raises_only E (bind m k).
Proof.
  intros Hm Hk s e s'. unfold bind.
  destruct (m s) as [[a|e'] s1] eqn:Es; [apply Hk|intros [= <- _]; exact (Hm _ _ _ Es)].
Qed.

Lemma raises_only_for {A} (xs : list A) (body : A -> PyM S unit) :
  (forall x, raises_only E (body x)) -> raises_only E (for_ xs body).
Proof.
  intros Hb. induction xs as [|x xs IH]; cbn [for_];
    [apply raises_only_ret|apply raises_only_bind; [apply Hb|intros _; exact IH]].
Qed.

(** [try: m except ...: h]: what [m] raises and the clause does not
    catch, and what the handler raises. *)
Lemma raises_only_try {A} (E0 : exn -> Prop) (m : PyM S A) caught h :
  raises_only E0 m -> raises_only E h -> (forall e, E0 e -> caught e = false -> E e) ->
  raises_only E (try_except m caught h).
Proof.
  intros Hm Hh Hc s e s'. unfold try_except.
  destruct (m s) as [[a|e'] s1] eqn:Es; [intros [=]|].
  destruct (caught e') eqn:Ec; [apply Hh|intros [= <- _]; exact (Hc e' (Hm _ _ _ Es) Ec)].
Qed.

End RaisesOnly.

#[export] Hint Resolve raises_only_ret raises_only_get raises_only_modify : pybot.

(** Walk a computation, splitting binds, loops and tests. *)
Ltac raises_walk :=
  repeat first
    [ match goal with
      | |- raises_only _ (bind _ _) => apply raises_only_bind; [|intros ?]
      | |- raises_only _ (for_ _ _) => apply raises_only_for; intros ?
      end
    | progress cbv zeta
    | match goal with
      | |- raises_only _ (match ?x with _ => _ end) => destruct x
      | |- raises_only _ (if ?x then _ else _) => destruct x
      end
    | solve [eauto with pybot] ].

(** ** Generic list lemmas *)

Lemma app_cons_assoc {A} (xs : list A) (x : A) (ys : list A) :
  xs ++ x :: ys = (xs ++ [x]) ++ ys.
Proof. rewrite <- app_assoc. reflexivity. Qed.

#[export] Hint Rewrite @length_app @app_nil_r : pyrw.

(** ** Python's [range] and list indexing on [int]s *)

Local Open Scope Z_scope.

(** [range(a, b)] *)
Definition py_range (a b : Z) : list Z :=
  map (fun i => a + Z.of_nat i) (seq 0 (Z.to_nat (b - a))).

(** [range(a, b, st)] for a positive step [st]. *)
Definition py_range_step (a b st : Z) : list Z :=
  map (fun i => a + st * Z.of_nat i) (seq 0 (Z.to_nat ((b - a + st - 1) / st))).

(** [xs[i]]: a negative index counts from the end; out of range raises
    [IndexError]. *)
Definition py_getitem {A} (xs : list A) (i : Z) : result A :=
  let n := Z.of_nat (length xs) in
  let j := if i <? 0 then i + n else i in
  if (0 <=? j) && (j <? n) then
    match nth_error xs (Z.to_nat j) with Some x => Ok x | None => Raise IndexError end
  else Raise IndexError.

(** [sum(xs)] *)
Fixpoint sum_list (xs : list Z) : Z :=
  match xs with [] => 0 | x :: xs' => x + sum_list xs' end.

Lemma length_py_range a b : length (py_range a b) = Z.to_nat (b - a).
Proof. unfold py_range. rewrite length_map, length_seq. reflexivity. Qed.

Lemma in_py_range a b x : In x (py_range a b) <-> a <= x < b.
Proof.
  unfold py_range. rewrite in_map_iff. split.
  - intros (i & <- & Hi). apply in_seq in Hi. lia.
  - intros Hx. exists (Z.to_nat (x - a)). split; [lia|]. apply in_seq. lia.
Qed.

Lemma in_py_range_step a b st x : 0 < st ->
  In x (py_range_step a b st) <-> a <= x < b /\ (x - a) mod st = 0.
Proof.
  intros Hst. unfold py_range_step. rewrite in_map_iff. split.
  - intros (i & <- & Hi). apply in_seq in Hi. destruct Hi as [_ Hi]. simpl in Hi.
    split; [split|].
    + lia.
    + assert (Z.of_nat i < (b - a + st - 1) / st) by lia.
      assert (Z.of_nat i + 1 <= (b - a + st - 1) / st) by lia.
      assert (st * (Z.of_nat i + 1) <= b - a + st - 1).
      { transitivity (st * ((b - a + st - 1) / st)); [nia|apply Z.mul_div_le; lia]. }
      nia.
    + replace (a + st * Z.of_nat i - a) with (Z.of_nat i * st) by lia. apply Z_mod_mult.
  - intros [[Ha Hb] Hm]. exists (Z.to_nat ((x - a) / st)).
    pose proof (Z.div_mod (x - a) st ltac:(lia)) as Hd. split.
    + rewrite Z2Nat.id by (apply Z.div_pos; lia). lia.
    + apply in_seq. split; [lia|]. simpl.
      assert (0 <= (x - a) / st) by (apply Z.div_pos; lia).
      assert ((x - a) / st < (b - a + st - 1) / st); [|lia].
      apply Z.div_lt_upper_bound; [lia|]. zlia.
Qed.

Lemma sum_list_app xs ys : sum_list (xs ++ ys) = sum_list xs + sum_list ys.
Proof. induction xs; simpl; lia. Qed.

Lemma sum_list_repeat x n : sum_list (repeat x n) = Z.of_nat n * x.
Proof. induction n; simpl; lia. Qed.

#[export] Hint Rewrite sum_list_app sum_list_repeat : pyrw.
