(* ===== verification/PyStr.v ===== *)
(** * Python strings

    The string operations [src/main.py] applies to callback payloads,
    deadlines and reminder stamps, on strings as [list ascii]:
    [str.split("_")], [str.split()] on whitespace runs, [str.strip()],
    the substring test [p in s], ["".join(xs)], [str(n)] for an [int],
    [f"{n:02d}"] and [int(s)].  The theorems are the round trips the
    callback protocol relies on ([int(str(n)) == n], splitting a payload
    built with ["_"] gives its fields back) and the characterisation of
    [in] by an occurrence. *)

From stdpp Require Import base list decidable strings.
From Stdlib Require Import Ascii ZArith Lia.
From Stdlib Require String.
From S2P Require Import Prelude.

Local Open Scope Z_scope.
Local Open Scope py_scope.

(** A Python [str] of ASCII characters. *)
Abbreviation pystr := (list ascii).

(** A literal of the source. *)
Definition lit (s : String.string) : pystr := String.list_ascii_of_string s.

(** ** Character classes *)

Definition code (c : ascii) : Z := Z.of_nat (nat_of_ascii c).

(** [c.isdigit()] on ASCII. *)
Definition is_digit (c : ascii) : bool := (48 <=? code c) && (code c <=? 57).

(** [c.isspace()] on ASCII, the separators of [str.split()] and
    [str.strip()]: tab to carriage return, the four information
    separators 0x1c-0x1f, and space. *)
Definition is_space (c : ascii) : bool :=
  ((9 <=? code c) && (code c <=? 13)) || ((28 <=? code c) && (code c <=? 32)).

Definition digit_val (c : ascii) : Z := code c - 48.
Definition digit_char (d : Z) : ascii := ascii_of_nat (Z.to_nat (d + 48)).

Lemma code_digit_char d : 0 <= d < 10 -> code (digit_char d) = d + 48.
Proof.
  intros Hd. unfold code, digit_char.
  rewrite nat_ascii_embedding by lia. lia.
Qed.

Lemma code_lt_256 c : 0 <= code c < 256.
Proof.
  unfold code. pose proof (nat_ascii_bounded c). lia.
Qed.

Lemma digit_char_is_digit d : 0 <= d < 10 -> is_digit (digit_char d) = true.
Proof. intros Hd. unfold is_digit. rewrite code_digit_char by lia. lia. Qed.

Lemma digit_val_char d : 0 <= d < 10 -> digit_val (digit_char d) = d.
Proof. intros Hd. unfold digit_val. rewrite code_digit_char by lia. lia. Qed.

Lemma is_digit_code c : is_digit c = true -> 48 <= code c <= 57.
Proof. unfold is_digit. lia. Qed.

Lemma code_inj c c' : code c = code c' -> c = c'.
Proof.
  unfold code. intros H.
  rewrite <- (ascii_nat_embedding c), <- (ascii_nat_embedding c').
  f_equal. lia.
Qed.

(** A character is distinguished from a digit by its code. *)
Lemma digit_char_neq d c : 0 <= d < 10 -> (code c < 48 \/ 57 < code c) -> digit_char d <> c.
Proof. intros Hd Hc <-. rewrite code_digit_char in Hc by lia. lia. Qed.

Lemma digit_not_space c : is_digit c = true -> is_space c = false.
Proof. unfold is_digit, is_space. lia. Qed.

#[export] Hint Resolve digit_char_is_digit digit_val_char digit_not_space : pybot.

(** ** Prefix and substring: the [in] operator *)

Fixpoint prefixb (p s : pystr) : bool :=
  match p, s with
  | [], _ => true
  | c :: p', d :: s' => bool_decide (c = d) && prefixb p' s'
  | _ :: _, [] => false
  end.

(** [p in s] for strings: [p] occurs in [s] at some offset. *)
Fixpoint py_in (p s : pystr) : bool :=
  prefixb p s ||
  match s with
  | [] => false
  | _ :: s' => py_in p s'
  end.

(** ["".join(xs)]. *)
Definition join (xs : list pystr) : pystr := concat xs.

Lemma prefixb_spec p s : prefixb p s = true <-> exists r, s = p ++ r.
Proof.
  revert s. induction p as [|c p IH]; intros [|d s]; simpl.
  - split; eauto.
  - split; eauto.
  - split; [discriminate|]. intros [r Hr]. discriminate.
  - rewrite andb_true_iff, bool_decide_eq_true, IH. split.
    + intros [-> [r ->]]. eauto.
    + intros [r Hr]. injection Hr as -> ->. eauto.
Qed.

Lemma py_in_spec p s : py_in p s = true <-> exists a b, s = a ++ p ++ b.
Proof.
  induction s as [|d s IH]; simpl; rewrite orb_true_iff, prefixb_spec.
  - split.
    + intros [[r Hr]|Hf]; [exists [], r; exact Hr|discriminate].
    + intros [[|x a] [b Hab]]; [left; exists b; exact Hab|discriminate].
  - rewrite IH. split.
    + intros [[r Hr]|[a [b ->]]]; [exists [], r; exact Hr|exists (d :: a), b; reflexivity].
    + intros [[|x a] [b Hab]]; [left; exists b; exact Hab|].
      injection Hab as -> ->. right. eauto.
Qed.

Lemma py_in_app_r p a s : py_in p s = true -> py_in p (a ++ s) = true.
Proof.
  rewrite !py_in_spec. intros [x [y ->]]. exists (a ++ x), y.
  rewrite app_assoc. reflexivity.
Qed.

Lemma py_in_app_l p s b : py_in p s = true -> py_in p (s ++ b) = true.
Proof.
  rewrite !py_in_spec. intros [x [y ->]]. exists x, (y ++ b).
  rewrite <- !app_assoc. reflexivity.
Qed.

(** A probe that is a prefix of one of the joined strings is found in the
    join. *)
Lemma py_in_join_prefix p r xs :
  In r xs -> prefixb p r = true -> py_in p (join xs) = true.
Proof.
  unfold join. induction xs as [|x xs IH]; simpl; [tauto|].
  intros [->|Hin] Hp.
  - apply py_in_app_l. apply py_in_spec. apply prefixb_spec in Hp as [t ->].
    exists [], t. reflexivity.
  - apply py_in_app_r, IH; assumption.
Qed.

#[export] Hint Resolve py_in_join_prefix py_in_app_l py_in_app_r : pybot.

(** ** [str.split(sep)], [str.split()] and [str.strip()] *)

(** Splitting at every character [is_sep] selects; [str.split("_")] is
    [split_by] at ["_"], which keeps empty pieces. *)
Fixpoint split_by (is_sep : ascii -> bool) (s : pystr) : list pystr :=
  match s with
  | [] => [[]]
  | c :: s' =>
      if is_sep c then [] :: split_by is_sep s'
      else match split_by is_sep s' with
           | w :: ws => (c :: w) :: ws
           | [] => [[c]]
           end
  end.

Definition split_on (sep : ascii) (s : pystr) : list pystr :=
  split_by (fun c => bool_decide (c = sep)) s.

(** [str.split()]: runs of whitespace separate words, and leading or
    trailing whitespace gives no empty word. *)
Definition split_ws (s : pystr) : list pystr :=
  filter (fun w => negb (bool_decide (w = []))) (split_by is_space s).

Fixpoint lstrip (s : pystr) : pystr :=
  match s with
  | c :: s' => if is_space c then lstrip s' else s
  | [] => []
  end.

(** [str.strip()]. *)
Definition strip (s : pystr) : pystr := rev (lstrip (rev (lstrip s))).

Lemma split_by_no_sep is_sep s :
  Forall (fun c => is_sep c = false) s -> split_by is_sep s = [s].
Proof.
  induction 1 as [|c s Hc _ IH]; simpl; [reflexivity|].
  rewrite Hc, IH. reflexivity.
Qed.

(** Splitting a string made of a separator-free field, a separator and a
    rest gives the field and the pieces of the rest. *)
Lemma split_by_app is_sep a c b :
  Forall (fun x => is_sep x = false) a -> is_sep c = true ->
  split_by is_sep (a ++ c :: b) = a :: split_by is_sep b.
Proof.
  intros Ha Hc. induction Ha as [|x a Hx _ IH]; simpl.
  - rewrite Hc. reflexivity.
  - rewrite Hx, IH. reflexivity.
Qed.

Lemma lstrip_no_space c s : is_space c = false -> lstrip (c :: s) = c :: s.
Proof. simpl. intros ->. reflexivity. Qed.

(** A string that neither starts nor ends with whitespace is its own
    [strip()]. *)
Lemma strip_id c s d :
  is_space c = false -> is_space d = false -> strip (c :: s ++ [d]) = c :: s ++ [d].
Proof.
  intros Hc Hd. unfold strip. rewrite lstrip_no_space by exact Hc.
  rewrite app_comm_cons, rev_unit, lstrip_no_space by exact Hd.
  rewrite <- rev_unit, rev_involutive. reflexivity.
Qed.

(** ** [str(n)] and [f"{n:02d}"] *)

(** Decimal digits of [n >= 0], most significant first; [fuel] bounds the
    number of digits. *)
Fixpoint digits_fuel (fuel : nat) (n : Z) : pystr :=
  match fuel with
  | O => []
  | S f =>
      if n <? 10 then [digit_char n]
      else digits_fuel f (n / 10) ++ [digit_char (n mod 10)]
  end.

(** [str(n)] for [n >= 0]: [n] has at most [log2 n + 1] decimal digits,
    and [digits_fuel] needs one more unit of fuel than digits. *)
Definition str_nat (n : Z) : pystr := digits_fuel (S (S (Z.to_nat (Z.log2 n)))) n.

(** [str(z)] for an [int]. *)
Definition py_str (z : Z) : pystr :=
  if z <? 0 then "-"%char :: str_nat (- z) else str_nat z.

(** [f"{z:02d}"]: zero-padded to width two. *)
Definition fmt02 (z : Z) : pystr :=
  if (0 <=? z) && (z <? 10) then "0"%char :: py_str z else py_str z.

Lemma digits_fuel_enough f g n :
  0 <= n < 2 ^ Z.of_nat f -> (f <= g)%nat -> digits_fuel (S f) n = digits_fuel (S g) n.
Proof.
  revert g n. induction f as [|f IH]; intros g n Hn Hfg.
  - simpl in Hn. assert (n = 0) as -> by lia. destruct g; reflexivity.
  - destruct g as [|g]; [lia|].
    cbn [digits_fuel]. destruct (n <? 10) eqn:E; [reflexivity|].
    cbn [digits_fuel] in IH. rewrite (IH g (n / 10)); [reflexivity| |lia].
    rewrite Nat2Z.inj_succ, Z.pow_succ_r in Hn by lia.
    set (P := 2 ^ Z.of_nat f) in *. clearbody P. zlia.
Qed.

Lemma digits_fuel_agree f g n :
  0 <= n < 2 ^ Z.of_nat f -> 0 <= n < 2 ^ Z.of_nat g ->
  digits_fuel (S f) n = digits_fuel (S g) n.
Proof.
  intros Hf Hg. destruct (Nat.le_ge_cases f g).
  - apply digits_fuel_enough; assumption.
  - symmetry. apply digits_fuel_enough; assumption.
Qed.

Lemma str_nat_bound n : 0 <= n -> n < 2 ^ Z.of_nat (S (Z.to_nat (Z.log2 n))).
Proof.
  intros Hn. destruct (Z.eq_dec n 0) as [->|Hne]; [simpl; lia|].
  rewrite Nat2Z.inj_succ, Z2Nat.id by apply Z.log2_nonneg.
  apply Z.log2_spec. lia.
Qed.

(** The recursive equation of [str(n)]: the digits of [n / 10] followed by
    the last digit. *)
Lemma str_nat_eq n : 0 <= n ->
  str_nat n = if n <? 10 then [digit_char n]
              else str_nat (n / 10) ++ [digit_char (n mod 10)].
Proof.
  intros Hn. pose proof (str_nat_bound n Hn) as Hb.
  unfold str_nat at 1. cbn [digits_fuel].
  destruct (n <? 10) eqn:E; [reflexivity|]. f_equal.
  unfold str_nat. apply digits_fuel_agree.
  - rewrite Nat2Z.inj_succ, Z.pow_succ_r in Hb by lia.
    set (P := 2 ^ Z.of_nat (Z.to_nat (Z.log2 n))) in *. clearbody P. zlia.
  - split; [apply Z.div_pos; lia|]. apply str_nat_bound. apply Z.div_pos; lia.
Qed.

Lemma str_nat_digits n : 0 <= n -> Forall (fun c => is_digit c = true) (str_nat n).
Proof.
  revert n. apply (Z.strong_right_induction _ 0). intros n Hn IH.
  rewrite str_nat_eq by exact Hn. destruct (n <? 10) eqn:E.
  - constructor; [apply digit_char_is_digit; lia|constructor].
  - apply Forall_app. split; [apply IH; zlia|].
    constructor; [apply digit_char_is_digit; zlia|constructor].
Qed.

Lemma str_nat_cons n : 0 <= n -> exists c s, str_nat n = c :: s.
Proof.
  revert n. apply (Z.strong_right_induction _ 0). intros n Hn IH.
  rewrite str_nat_eq by exact Hn. destruct (n <? 10) eqn:E; [eauto|].
  destruct (IH (n / 10)) as [c [s ->]]; [zlia|zlia|]. eauto.
Qed.

(** ** [int(s)] *)

(** The digits of a base-10 literal, with single underscores allowed
    between digits; [after_digit] says the previous character was a
    digit. *)
Fixpoint parse_digits (s : pystr) (acc : Z) (after_digit : bool) : result Z :=
  match s with
  | [] => if after_digit then Ok acc else Raise ValueError
  | c :: s' =>
      if is_digit c then parse_digits s' (10 * acc + digit_val c) true
      else if bool_decide (c = "_"%char) && after_digit then parse_digits s' acc false
      else Raise ValueError
  end.

(** [int(s)]: surrounding whitespace is stripped, one sign is allowed,
    anything else raises [ValueError]. *)
Definition py_int (s : pystr) : result Z :=
  match strip s with
  | c :: ds =>
      if bool_decide (c = "-"%char) then (v <-? parse_digits ds 0 false ;; Ok (- v))
      else if bool_decide (c = "+"%char) then parse_digits ds 0 false
      else parse_digits (c :: ds) 0 false
  | [] => Raise ValueError
  end.

Definition digits_value (ds : pystr) (acc : Z) : Z :=
  fold_left (fun a c => 10 * a + digit_val c) ds acc.

Lemma parse_digits_all c ds acc b :
  Forall (fun x => is_digit x = true) (c :: ds) ->
  parse_digits (c :: ds) acc b = Ok (digits_value (c :: ds) acc).
Proof.
  revert c acc b. induction ds as [|d ds IH]; intros c acc b Hall;
    inversion Hall as [|? ? Hc Hrest]; subst; simpl; rewrite Hc; [reflexivity|].
  apply IH. exact Hrest.
Qed.

Lemma digits_value_str_nat n : 0 <= n -> digits_value (str_nat n) 0 = n.
Proof.
  revert n. apply (Z.strong_right_induction _ 0). intros n Hn IH.
  rewrite str_nat_eq by exact Hn. destruct (n <? 10) eqn:E.
  - simpl. rewrite digit_val_char by lia. lia.
  - unfold digits_value. rewrite fold_left_app. fold (digits_value (str_nat (n / 10)) 0).
    rewrite IH by zlia. simpl. rewrite digit_val_char by zlia. zlia.
Qed.

Lemma lstrip_all s : Forall (fun c => is_space c = false) s -> lstrip s = s.
Proof. intros [|c s' Hc _]; [reflexivity|]. apply lstrip_no_space. exact Hc. Qed.

(** A string without whitespace is its own [strip()]. *)
Lemma strip_no_space s : Forall (fun c => is_space c = false) s -> strip s = s.
Proof.
  intros Hs. unfold strip. rewrite (lstrip_all s) by exact Hs.
  rewrite lstrip_all; [apply rev_involutive|]. apply Forall_rev, Hs.
Qed.

Lemma parse_digits_value ds :
  ds <> [] -> Forall (fun x => is_digit x = true) ds ->
  parse_digits ds 0 false = Ok (digits_value ds 0).
Proof. destruct ds as [|c ds]; [congruence|]. intros _. apply parse_digits_all. Qed.

(** Every character of [str(z)] is a digit or the minus sign. *)
Lemma py_str_chars z :
  Forall (fun c => is_digit c = true \/ c = "-"%char) (py_str z).
Proof.
  unfold py_str. destruct (z <? 0) eqn:E.
  - constructor; [right; reflexivity|].
    eapply Forall_impl; [apply str_nat_digits; lia|]. simpl. auto.
  - eapply Forall_impl; [apply str_nat_digits; lia|]. simpl. auto.
Qed.

Lemma minus_not_space : is_space "-"%char = false.
Proof. reflexivity. Qed.

Lemma minus_not_digit : is_digit "-"%char = false.
Proof. reflexivity. Qed.

Lemma is_digit_not_sign c :
  is_digit c = true -> c <> "-"%char /\ c <> "+"%char.
Proof. intros Hc. split; intros ->; discriminate Hc. Qed.

(** [int(str(z)) == z] for every [int]. *)
Theorem py_int_py_str z : py_int (py_str z) = Ok z.
Proof.
  unfold py_int. rewrite strip_no_space.
  2:{ eapply Forall_impl; [apply py_str_chars|].
      intros c [Hc| ->]; [apply digit_not_space, Hc|reflexivity]. }
  unfold py_str. destruct (z <? 0) eqn:E.
  - rewrite bool_decide_eq_true_2 by reflexivity. simpl.
    destruct (str_nat_cons (- z)) as [c [s Hcs]]; [lia|].
    rewrite parse_digits_value by (try (rewrite Hcs; discriminate); apply str_nat_digits; lia).
    simpl. rewrite digits_value_str_nat by lia. f_equal. lia.
  - destruct (str_nat_cons z) as [c [s Hcs]]; [lia|]. rewrite Hcs.
    pose proof (str_nat_digits z ltac:(lia)) as Hd. rewrite Hcs in Hd.
    inversion Hd as [|? ? Hc _]; subst.
    destruct (is_digit_not_sign c Hc) as [Hm Hp].
    rewrite !bool_decide_eq_false_2 by assumption.
    rewrite <- Hcs, parse_digits_value by (try (rewrite Hcs; discriminate); apply str_nat_digits; lia).
    rewrite digits_value_str_nat by lia. reflexivity.
Qed.

(** [int(f"{z:02d}") == z]: the padding zero is read back as a leading
    zero. *)
Theorem py_int_fmt02 z : py_int (fmt02 z) = Ok z.
Proof.
  unfold fmt02. destruct ((0 <=? z) && (z <? 10)) eqn:E; [|apply py_int_py_str].
  assert (z = 0 \/ z = 1 \/ z = 2 \/ z = 3 \/ z = 4 \/ z = 5 \/ z = 6 \/ z = 7
          \/ z = 8 \/ z = 9) as Hz by lia.
  repeat (destruct Hz as [->|Hz]; [reflexivity|]). subst. reflexivity.
Qed.

Lemma fmt02_chars z :
  Forall (fun c => is_digit c = true \/ c = "-"%char) (fmt02 z).
Proof.
  unfold fmt02. destruct (_ && _); [|apply py_str_chars].
  constructor; [left; reflexivity|apply py_str_chars].
Qed.

(** Characters that are neither digits nor the minus sign do not occur in
    a printed [int]. *)
Lemma num_chars_not c (s : pystr) :
  Forall (fun x => is_digit x = true \/ x = "-"%char) s ->
  is_digit c = false -> c <> "-"%char -> Forall (fun x => x <> c) s.
Proof.
  intros Hs Hc Hm. eapply Forall_impl; [exact Hs|].
  intros x Hx Heq. subst x. destruct Hx; congruence.
Qed.

Example py_str_examples :
  py_str 2025 = lit "2025" /\ py_str (-7) = lit "-7" /\ fmt02 7 = lit "07"
  /\ fmt02 12 = lit "12" /\ py_int (lit " +0_7 ") = Ok 7 /\ py_int (lit "7_") = Raise ValueError.
Proof. vm_compute. repeat split. Qed.

Lemma parse_digits_raise s acc b e : parse_digits s acc b = Raise e -> e = ValueError.
Proof.
  revert acc b. induction s as [|c s IH]; intros acc b; simpl.
  - destruct b; congruence.
  - destruct (is_digit c); [apply IH|]. destruct (_ && b); [apply IH|congruence].
Qed.

(** [int()] raises nothing but [ValueError]. *)
Lemma py_int_raise s e : py_int s = Raise e -> e = ValueError.
Proof.
  unfold py_int. destruct (strip s) as [|c ds]; [congruence|].
  destruct (bool_decide (c = "-"%char)).
  - destruct (parse_digits ds 0 false) eqn:E; simpl; [congruence|].
    intros [= <-]. eapply parse_digits_raise, E.
  - destruct (bool_decide (c = "+"%char)); apply parse_digits_raise.
Qed.

Lemma result_bind_raise {A B} (r : result A) (k : A -> result B) e :
  result_bind r k = Raise e -> r = Raise e \/ exists a, r = Ok a /\ k a = Raise e.
Proof. destruct r as [a|e']; simpl; [eauto|intros [= ->]; auto]. Qed.
