(* ===== verification/DateTime.v ===== *)
(** * Dates, times and their string forms

    The part of Python's [datetime] that [src/main.py] relies on: the
    Gregorian month lengths as [get_day_keyboard] computes them, [datetime]
    values, the normalised [timedelta] of [deadline - now] with its
    [.days], [.seconds] and [total_seconds()], [strftime] for the three
    stamp formats the scanner uses, and [strptime] for
    ["%d.%m.%Y %H:%M"], modelled on CPython's regular expression for that
    format (ordered alternatives, backtracking, then the "unconverted data
    remains" check and the date validation).  Theorems: a printed stamp
    parses back to its minute, and the coarser stamps are prefixes of the
    minute stamp. *)

From stdpp Require Import base list decidable strings.
From Stdlib Require Import Ascii ZArith Lia.
From Stdlib Require String.
From S2P Require Import Prelude PyStr.

Local Open Scope Z_scope.
Local Open Scope py_scope.

(** ** The calendar *)

(** The leap-year test of [get_day_keyboard]. *)
Definition is_leap (year : Z) : bool :=
  (year mod 4 =? 0) && (negb (year mod 100 =? 0) || (year mod 400 =? 0)).

(** [days_in_month] as [get_day_keyboard] computes it: 30 for the months
    4, 6, 9, 11, 29 or 28 for February, 31 otherwise. *)
Definition days_in_month (month year : Z) : Z :=
  if existsb (Z.eqb month) [4; 6; 9; 11] then 30
  else if month =? 2 then (if is_leap year then 29 else 28)
  else 31.

Record datetime : Type := mk_datetime {
  year : Z; month : Z; day : Z;
  hour : Z; minute : Z; second : Z; microsecond : Z
}.

#[export] Instance datetime_eq_dec : EqDecision datetime.
Proof. solve_decision. Defined.

(** The range checks of the [datetime] constructor. *)
Definition valid_date (y m d : Z) : bool :=
  (1 <=? y) && (y <=? 9999) && (1 <=? m) && (m <=? 12)
  && (1 <=? d) && (d <=? days_in_month m y).

Definition valid_datetime (t : datetime) : bool :=
  valid_date (year t) (month t) (day t)
  && (0 <=? hour t) && (hour t <? 24) && (0 <=? minute t) && (minute t <? 60)
  && (0 <=? second t) && (second t <? 60)
  && (0 <=? microsecond t) && (microsecond t <? 1000000).

(** [date.toordinal()]: days since 0001-01-00 of the proleptic Gregorian
    calendar. *)
Definition days_before_year (y : Z) : Z :=
  let y' := y - 1 in y' * 365 + y' / 4 - y' / 100 + y' / 400.

Fixpoint days_before_month_aux (k : nat) (y : Z) : Z :=
  match k with
  | O => 0
  | S k' => days_before_month_aux k' y + days_in_month (Z.of_nat k) y
  end.

Definition days_before_month (y m : Z) : Z := days_before_month_aux (Z.to_nat (m - 1)) y.

Definition toordinal (y m d : Z) : Z := days_before_year y + days_before_month y m + d.

(** A [datetime] as microseconds since the ordinal epoch. *)
Definition to_us (t : datetime) : Z :=
  ((toordinal (year t) (month t) (day t) * 86400
    + hour t * 3600 + minute t * 60 + second t) * 1000000) + microsecond t.

(** ** [timedelta] *)

(** A normalised [timedelta]: [0 <= seconds < 86400] and
    [0 <= microseconds < 10^6], the sign carried by [days]. *)
Record timedelta : Type := mk_timedelta {
  td_days : Z; td_seconds : Z; td_microseconds : Z
}.

Definition us_per_day : Z := 86400 * 1000000.

(** The normalisation of the [timedelta] constructor (floor division). *)
Definition td_of_us (x : Z) : timedelta :=
  mk_timedelta (x / us_per_day) ((x mod us_per_day) / 1000000) (x mod 1000000).

(** [a - b] on [datetime] values. *)
Definition dt_sub (a b : datetime) : timedelta := td_of_us (to_us a - to_us b).

(** [td.total_seconds()], scaled to microseconds: comparisons of
    [total_seconds()] with the integers 0 and 60 are comparisons of this
    integer with 0 and [60 * 10^6]. *)
Definition total_us (td : timedelta) : Z :=
  (td_days td * 86400 + td_seconds td) * 1000000 + td_microseconds td.

Lemma total_us_td_of_us x : total_us (td_of_us x) = x.
Proof. unfold total_us, td_of_us, us_per_day. simpl. zlia. Qed.

Lemma td_seconds_range x : 0 <= td_seconds (td_of_us x) < 86400.
Proof. unfold td_of_us, us_per_day. simpl. zlia. Qed.

#[export] Hint Rewrite total_us_td_of_us : pyrw.

(** ** [strftime] *)

(** ["%d.%m.%Y"]; [%Y] prints the year in decimal, four digits for the
    years 1000-9999. *)
Definition fmt_date (t : datetime) : pystr :=
  fmt02 (day t) ++ "."%char :: fmt02 (month t) ++ "."%char :: py_str (year t).

(** ["%d.%m.%Y %H"] *)
Definition fmt_date_hour (t : datetime) : pystr :=
  fmt_date t ++ " "%char :: fmt02 (hour t).

(** ["%d.%m.%Y %H:%M"], the stamp appended to [reminded_at]. *)
Definition fmt_minute (t : datetime) : pystr :=
  fmt_date_hour t ++ ":"%char :: fmt02 (minute t).

Lemma fmt_date_prefix_hour t : prefixb (fmt_date t) (fmt_date_hour t) = true.
Proof. apply prefixb_spec. eexists. reflexivity. Qed.

Lemma fmt_hour_prefix_minute t : prefixb (fmt_date_hour t) (fmt_minute t) = true.
Proof. apply prefixb_spec. eexists. reflexivity. Qed.

Lemma fmt_date_prefix_minute t : prefixb (fmt_date t) (fmt_minute t) = true.
Proof.
  apply prefixb_spec. exists (" "%char :: fmt02 (hour t) ++ ":"%char :: fmt02 (minute t)).
  unfold fmt_minute, fmt_date_hour. rewrite <- app_assoc. reflexivity.
Qed.

Lemma prefixb_refl s : prefixb s s = true.
Proof. apply prefixb_spec. exists []. symmetry. apply app_nil_r. Qed.

#[export] Hint Resolve fmt_date_prefix_hour fmt_hour_prefix_minute
  fmt_date_prefix_minute prefixb_refl : pybot.

(** ** The regular expression of [strptime("%d.%m.%Y %H:%M")] *)

(** A backtracking matcher: every way to match a prefix, in the order
    Python's [re] tries them, with the text matched and the rest. *)
Definition matcher := pystr -> list (pystr * pystr).

Definition rx_class (p : ascii -> bool) : matcher :=
  fun s => match s with
           | c :: s' => if p c then [([c], s')] else []
           | [] => []
           end.

Definition rx_char (c : ascii) : matcher := rx_class (fun x => bool_decide (x = c)).

Definition rx_range (lo hi : ascii) : matcher :=
  rx_class (fun x => (code lo <=? code x) && (code x <=? code hi)).

Definition rx_digit : matcher := rx_class is_digit.

(** [r1 r2]: the matches of [r2] after each match of [r1], in order. *)
Definition rx_cat (r1 r2 : matcher) : matcher :=
  fun s => flat_map (fun '(a, r) => map (fun '(b, r') => (a ++ b, r')) (r2 r)) (r1 s).

(** [r1|r2|...]: the alternatives from left to right. *)
Definition rx_alt (rs : list matcher) : matcher :=
  fun s => flat_map (fun r => r s) rs.

(** [\s+], greedy: the longest run of whitespace first, then shorter ones. *)
Fixpoint space_run (s : pystr) : nat :=
  match s with
  | c :: s' => if is_space c then S (space_run s') else O
  | [] => O
  end.

Definition rx_spaces : matcher :=
  fun s => map (fun n => (take n s, drop n s)) (rev (seq 1 (space_run s))).

(** The group patterns of CPython's [_strptime.TimeRE]. *)
Definition rx_d : matcher :=
  rx_alt [rx_cat (rx_char "3") (rx_range "0" "1"); rx_cat (rx_range "1" "2") rx_digit;
          rx_cat (rx_char "0") (rx_range "1" "9"); rx_range "1" "9";
          rx_cat (rx_char " ") (rx_range "1" "9")].
Definition rx_m : matcher :=
  rx_alt [rx_cat (rx_char "1") (rx_range "0" "2"); rx_cat (rx_char "0") (rx_range "1" "9");
          rx_range "1" "9"].
Definition rx_Y : matcher := rx_cat rx_digit (rx_cat rx_digit (rx_cat rx_digit rx_digit)).
Definition rx_H : matcher :=
  rx_alt [rx_cat (rx_char "2") (rx_range "0" "3"); rx_cat (rx_range "0" "1") rx_digit; rx_digit].
Definition rx_M : matcher := rx_alt [rx_cat (rx_range "0" "5") rx_digit; rx_digit].

(** Matching [r] at [s] and continuing with [k] on each match. *)
Definition rx_then {X} (r : matcher) (s : pystr) (k : pystr -> pystr -> list X) : list X :=
  flat_map (fun '(g, rest) => k g rest) (r s).

(** The groups [d], [m], [Y], [H], [M] of a match of
    ["%d\\.%m\\.%Y\\s+%H:%M"] and the unmatched rest, every match in
    backtracking order. *)
Definition rx_deadline (s : pystr) : list ((pystr * pystr * pystr * pystr * pystr) * pystr) :=
  rx_then rx_d s (fun d s1 =>
  rx_then (rx_char ".") s1 (fun _ s2 =>
  rx_then rx_m s2 (fun m s3 =>
  rx_then (rx_char ".") s3 (fun _ s4 =>
  rx_then rx_Y s4 (fun y s5 =>
  rx_then rx_spaces s5 (fun _ s6 =>
  rx_then rx_H s6 (fun h s7 =>
  rx_then (rx_char ":") s7 (fun _ s8 =>
  rx_then rx_M s8 (fun mi s9 => [((d, m, y, h, mi), s9)]))))))))).

(** [datetime.strptime(s, "%d.%m.%Y %H:%M")]: [re.match] takes the first
    match; text after it is "unconverted data" and raises [ValueError];
    the groups are converted with [int()]; an impossible date raises
    [ValueError]. *)
Definition strptime (s : pystr) : result datetime :=
  match rx_deadline s with
  | [] => Raise ValueError
  | ((d, m, y, h, mi), rest) :: _ =>
      match rest with
      | _ :: _ => Raise ValueError
      | [] =>
          dv <-? py_int d ;; mv <-? py_int m ;; yv <-? py_int y ;;
          hv <-? py_int h ;; miv <-? py_int mi ;;
          if valid_date yv mv dv then Ok (mk_datetime yv mv dv hv miv 0 0)
          else Raise ValueError
      end
  end.

Lemma rx_then_head {X} (r : matcher) s g rest t (k : pystr -> pystr -> list X) x :
  r s = (g, rest) :: t -> (exists xs, k g rest = x :: xs) -> exists ys, rx_then r s k = x :: ys.
Proof. unfold rx_then. intros -> [xs Hk]. simpl. rewrite Hk. eexists. reflexivity. Qed.

Lemma rx_char_hit c rest : rx_char c (c :: rest) = [([c], rest)].
Proof. unfold rx_char, rx_class. rewrite bool_decide_eq_true_2 by reflexivity. reflexivity. Qed.

Lemma rx_spaces_one c rest :
  is_space c = false -> rx_spaces (" "%char :: c :: rest) = [([" "%char], c :: rest)].
Proof. intros Hc. unfold rx_spaces. simpl. rewrite Hc. reflexivity. Qed.

(** Checks a goal about [Z.of_nat n] for each [n] its bounds allow, by
    evaluation. *)
Ltac enum_small n :=
  destruct n as [|n];
  [first [lia | vm_compute; eexists; reflexivity] | first [lia | enum_small n]].

Lemma rx_d_fmt02 d rest : 1 <= d <= 31 -> exists t, rx_d (fmt02 d ++ rest) = (fmt02 d, rest) :: t.
Proof.
  intros Hd. rewrite <- (Z2Nat.id d) in * by lia.
  assert (Z.to_nat d < 32)%nat as Hn by lia. revert Hd Hn. generalize (Z.to_nat d). intros n.
  enum_small n.
Qed.

Lemma rx_m_fmt02 m rest : 1 <= m <= 12 -> exists t, rx_m (fmt02 m ++ rest) = (fmt02 m, rest) :: t.
Proof.
  intros Hm. rewrite <- (Z2Nat.id m) in * by lia.
  assert (Z.to_nat m < 13)%nat as Hn by lia. revert Hm Hn. generalize (Z.to_nat m). intros n.
  enum_small n.
Qed.

Lemma rx_H_fmt02 h rest : 0 <= h < 24 -> exists t, rx_H (fmt02 h ++ rest) = (fmt02 h, rest) :: t.
Proof.
  intros Hh. rewrite <- (Z2Nat.id h) in * by lia.
  assert (Z.to_nat h < 24)%nat as Hn by lia. revert Hh Hn. generalize (Z.to_nat h). intros n.
  enum_small n.
Qed.

Lemma rx_M_fmt02 mi rest : 0 <= mi < 60 -> exists t, rx_M (fmt02 mi ++ rest) = (fmt02 mi, rest) :: t.
Proof.
  intros Hm. rewrite <- (Z2Nat.id mi) in * by lia.
  assert (Z.to_nat mi < 60)%nat as Hn by lia. revert Hm Hn. generalize (Z.to_nat mi). intros n.
  enum_small n.
Qed.

(** A year of [1000, 9999] prints as four digits. *)
Lemma py_str_year y : 1000 <= y <= 9999 ->
  py_str y = [digit_char (y / 1000); digit_char (y / 100 mod 10);
              digit_char (y / 10 mod 10); digit_char (y mod 10)].
Proof.
  intros Hy. unfold py_str. rewrite (proj2 (Z.ltb_ge y 0)) by lia.
  rewrite str_nat_eq, (proj2 (Z.ltb_ge y 10)) by lia.
  rewrite str_nat_eq, (proj2 (Z.ltb_ge (y / 10) 10)) by zlia.
  rewrite str_nat_eq, (proj2 (Z.ltb_ge (y / 10 / 10) 10)) by zlia.
  rewrite str_nat_eq, (proj2 (Z.ltb_lt (y / 10 / 10 / 10) 10)) by zlia.
  rewrite !Z.div_div by lia. reflexivity.
Qed.

Lemma rx_Y_digits a b c d rest :
  is_digit a = true -> is_digit b = true -> is_digit c = true -> is_digit d = true ->
  rx_Y (a :: b :: c :: d :: rest) = [([a; b; c; d], rest)].
Proof.
  intros Ha Hb Hc Hd. unfold rx_Y, rx_cat, rx_digit, rx_class.
  rewrite Ha; simpl. rewrite Hb; simpl. rewrite Hc; simpl. rewrite Hd. reflexivity.
Qed.

Lemma valid_datetime_ranges t :
  valid_datetime t = true ->
  1 <= year t <= 9999 /\ 1 <= month t <= 12 /\ 1 <= day t <= days_in_month (month t) (year t)
  /\ 0 <= hour t < 24 /\ 0 <= minute t < 60 /\ 0 <= second t < 60
  /\ 0 <= microsecond t < 1000000.
Proof. unfold valid_datetime, valid_date. intros Hv. repeat rewrite andb_true_iff in Hv. lia. Qed.

Lemma days_in_month_le m y : days_in_month m y <= 31.
Proof. unfold days_in_month. repeat case_match; lia. Qed.

Lemma fmt_minute_fields t :
  fmt_minute t = fmt02 (day t) ++ "."%char :: fmt02 (month t) ++ "."%char :: py_str (year t)
    ++ " "%char :: fmt02 (hour t) ++ ":"%char :: fmt02 (minute t) ++ [].
Proof.
  unfold fmt_minute, fmt_date_hour, fmt_date. rewrite app_nil_r.
  rewrite <- !app_assoc. simpl. rewrite <- !app_assoc. reflexivity.
Qed.

Lemma fmt02_head z : 0 <= z -> exists c s, fmt02 z = c :: s /\ is_digit c = true.
Proof.
  intros Hz. unfold fmt02. destruct (_ && _); [eauto|].
  unfold py_str. rewrite (proj2 (Z.ltb_ge z 0)) by lia.
  pose proof (str_nat_digits z Hz) as Hd.
  destruct (str_nat_cons z Hz) as [c [s Hcs]]. rewrite Hcs in *.
  inversion Hd. eauto.
Qed.

(** The match of a printed minute stamp: every group is the printed field
    and nothing remains. *)
Lemma rx_deadline_fmt_minute t :
  valid_datetime t = true -> 1000 <= year t ->
  exists ys, rx_deadline (fmt_minute t) =
    ((fmt02 (day t), fmt02 (month t), py_str (year t), fmt02 (hour t), fmt02 (minute t)), [])
      :: ys.
Proof.
  intros Hv Hy. pose proof (valid_datetime_ranges t Hv) as R.
  pose proof (days_in_month_le (month t) (year t)).
  rewrite fmt_minute_fields. unfold rx_deadline.
  destruct (rx_d_fmt02 (day t) ("."%char :: fmt02 (month t) ++ "."%char :: py_str (year t)
    ++ " "%char :: fmt02 (hour t) ++ ":"%char :: fmt02 (minute t) ++ [])) as [t1 E1]; [lia|].
  eapply rx_then_head; [exact E1|]. cbv beta.
  eapply rx_then_head; [apply rx_char_hit|]. cbv beta.
  destruct (rx_m_fmt02 (month t) ("."%char :: py_str (year t)
    ++ " "%char :: fmt02 (hour t) ++ ":"%char :: fmt02 (minute t) ++ [])) as [t2 E2]; [lia|].
  eapply rx_then_head; [exact E2|]. cbv beta.
  eapply rx_then_head; [apply rx_char_hit|]. cbv beta.
  rewrite py_str_year by lia. cbn [app].
  eapply rx_then_head; [apply rx_Y_digits; apply digit_char_is_digit; zlia|]. cbv beta.
  destruct (fmt02_head (hour t)) as [c [h' [Eh Hc]]]; [lia|]. rewrite Eh. cbn [app].
  eapply rx_then_head; [apply rx_spaces_one, digit_not_space, Hc|]. cbv beta.
  destruct (rx_H_fmt02 (hour t) (":"%char :: fmt02 (minute t) ++ [])) as [t3 E3]; [lia|].
  rewrite Eh in E3. cbn [app] in E3.
  eapply rx_then_head; [exact E3|]. cbv beta.
  eapply rx_then_head; [apply rx_char_hit|]. cbv beta.
  destruct (rx_M_fmt02 (minute t) []) as [t4 E4]; [lia|].
  eapply rx_then_head; [exact E4|]. cbv beta.
  eexists. reflexivity.
Qed.

(** A minute stamp printed by [strftime("%d.%m.%Y %H:%M")] parses back with
    [strptime] to the same minute (seconds and microseconds zero). *)
Theorem strptime_fmt_minute t :
  valid_datetime t = true -> 1000 <= year t ->
  strptime (fmt_minute t) = Ok (mk_datetime (year t) (month t) (day t) (hour t) (minute t) 0 0).
Proof.
  intros Hv Hy. unfold strptime.
  destruct (rx_deadline_fmt_minute t Hv Hy) as [ys ->].
  rewrite !py_int_fmt02, py_int_py_str. simpl.
  pose proof (valid_datetime_ranges t Hv) as R.
  assert (valid_date (year t) (month t) (day t) = true) as ->.
  { unfold valid_date. repeat rewrite andb_true_iff. lia. }
  reflexivity.
Qed.

(** [strptime] raises nothing but [ValueError]. *)
Lemma strptime_raise s e : strptime s = Raise e -> e = ValueError.
Proof.
  unfold strptime. destruct (rx_deadline s) as [|[[[[[d m] y] h] mi] rest] _]; [congruence|].
  destruct rest; [|congruence].
  intros H. repeat (apply result_bind_raise in H as [H|[? [_ H]]]; [eapply py_int_raise, H|]).
  destruct (valid_date _ _ _); congruence.
Qed.

Example strptime_examples :
  strptime (lit "25.12.2025 23:59") = Ok (mk_datetime 2025 12 25 23 59 0 0)
  /\ strptime (lit "5.1.2025  7:05") = Ok (mk_datetime 2025 1 5 7 5 0 0)
  /\ strptime (lit "29.02.2025 10:00") = Raise ValueError
  /\ strptime (lit "None 10:00") = Raise ValueError
  /\ strptime (lit "01.01.2030 10:75") = Raise ValueError.
Proof. vm_compute. repeat split. Qed.

Lemma strptime_fmt_minute_witness :
  strptime (fmt_minute (mk_datetime 2030 1 1 9 0 17 500000)) = Ok (mk_datetime 2030 1 1 9 0 0 0).
Proof. apply (strptime_fmt_minute (mk_datetime 2030 1 1 9 0 17 500000)); [reflexivity|simpl; lia]. Defined.
