(* ===== verification/TaskStore.v ===== *)
(** * The task store: the global [tasks] dictionary

    [tasks = {user_id: {task_id: {name, deadline, completed, reminded,
    created_at, reminded_at}}}] of [src/main.py], as insertion-ordered
    association lists with Python's dict semantics: assigning to an
    existing key replaces its value in place, assigning to a new key
    appends it, [del] removes it.  The operations are the store mutations
    of the handlers: creation with the identifier [str(len(tasks[user_id])
    + 1)], completion toggle, deletion, renaming, deadline change and the
    scanner's append to [reminded_at].

    Theorems: keys stay unique; every operation touches only its own task;
    toggling twice restores the task, firing record included; creation
    gets a fresh identifier as long as no task was deleted, and after a
    deletion it can overwrite an existing task. *)

From stdpp Require Import base list decidable strings.
From Stdlib Require Import Ascii ZArith Lia.
From S2P Require Import Prelude PyStr.

Local Open Scope Z_scope.
Local Open Scope py_scope.

(** ** Python dictionaries *)

Section Dict.
Context {K V : Type} `{EqDecision K}.

(** [d.get(k)] *)
Fixpoint dict_get (k : K) (d : list (K * V)) : option V :=
  match d with
  | [] => None
  | (k', v) :: d' => if decide (k = k') then Some v else dict_get k d'
  end.

(** [d[k] = v]: in place when [k] is present, appended otherwise. *)
Fixpoint dict_set (k : K) (v : V) (d : list (K * V)) : list (K * V) :=
  match d with
  | [] => [(k, v)]
  | (k', v') :: d' => if decide (k = k') then (k', v) :: d' else (k', v') :: dict_set k v d'
  end.

(** [del d[k]] on a present key; absent keys are left alone (the handlers
    test [task_id in tasks[user_id]] first). *)
Fixpoint dict_del (k : K) (d : list (K * V)) : list (K * V) :=
  match d with
  | [] => []
  | (k', v') :: d' => if decide (k = k') then d' else (k', v') :: dict_del k d'
  end.

(** [d[k] = f(d[k])] when [k] is present. *)
Definition dict_update (k : K) (f : V -> V) (d : list (K * V)) : list (K * V) :=
  match dict_get k d with
  | Some v => dict_set k (f v) d
  | None => d
  end.

Definition dict_keys (d : list (K * V)) : list K := map fst d.

Lemma dict_get_None_notin k d : dict_get k d = None <-> k ∉ dict_keys d.
Proof.
  induction d as [|[k' v'] d IH]; simpl; [split; [intros _ Hin; inversion Hin|reflexivity]|].
  rewrite not_elem_of_cons. case_decide; subst.
  - split; [discriminate|]. intros [? _]. congruence.
  - rewrite IH. tauto.
Qed.

(** Decides every key comparison in the goal and its hypotheses. *)
Ltac dict_cases := repeat (case_decide; simplify_eq/=); auto.

Lemma dict_get_set_eq k v d : dict_get k (dict_set k v d) = Some v.
Proof. induction d as [|[k' v'] d IH]; simpl; dict_cases. Qed.

Lemma dict_get_set_ne k k' v d : k <> k' -> dict_get k' (dict_set k v d) = dict_get k' d.
Proof. intros Hne. induction d as [|[k'' v'] d IH]; simpl; dict_cases. Qed.

Lemma dict_get_del_eq k d : NoDup (dict_keys d) -> dict_get k (dict_del k d) = None.
Proof.
  induction d as [|[k' v'] d IH]; simpl; intros Hnd; [reflexivity|].
  apply NoDup_cons in Hnd as [Hnin Hnd]. dict_cases.
  apply dict_get_None_notin. exact Hnin.
Qed.

Lemma dict_get_del_ne k k' d : k <> k' -> dict_get k' (dict_del k d) = dict_get k' d.
Proof. intros Hne. induction d as [|[k'' v'] d IH]; simpl; dict_cases. Qed.

Lemma dict_get_Some_in k v d : dict_get k d = Some v -> k ∈ dict_keys d.
Proof.
  induction d as [|[k' v'] d IH]; simpl; [discriminate|].
  case_decide; subst; [left|]. intros Hg. right. apply IH, Hg.
Qed.

Lemma dict_keys_set_in k v d : k ∈ dict_keys d -> dict_keys (dict_set k v d) = dict_keys d.
Proof.
  induction d as [|[k' v'] d IH]; simpl; intros Hin; [inversion Hin|].
  case_decide; simpl; [reflexivity|]. f_equal. apply IH.
  apply elem_of_cons in Hin as [->|Hin]; [congruence|exact Hin].
Qed.

Lemma dict_keys_set_notin k v d : k ∉ dict_keys d -> dict_keys (dict_set k v d) = dict_keys d ++ [k].
Proof.
  induction d as [|[k' v'] d IH]; simpl; intros Hnin; [reflexivity|].
  apply not_elem_of_cons in Hnin as [Hne Hnin].
  rewrite decide_False by done. simpl. f_equal. apply IH, Hnin.
Qed.

Lemma dict_set_nodup k v d : NoDup (dict_keys d) -> NoDup (dict_keys (dict_set k v d)).
Proof.
  intros Hnd. destruct (decide (k ∈ dict_keys d)) as [Hin|Hnin].
  - rewrite dict_keys_set_in by exact Hin. exact Hnd.
  - rewrite dict_keys_set_notin by exact Hnin.
    apply NoDup_app. split; [exact Hnd|]. split; [|apply NoDup_singleton].
    intros x Hx Hx'. apply list_elem_of_singleton in Hx' as ->. contradiction.
Qed.

Lemma dict_keys_del_sub k d : forall x, x ∈ dict_keys (dict_del k d) -> x ∈ dict_keys d.
Proof.
  induction d as [|[k' v'] d IH]; simpl; intros x Hx; [exact Hx|].
  case_decide; [right; exact Hx|]. simpl in Hx.
  apply elem_of_cons in Hx as [->|Hx]; [left|right; apply IH, Hx].
Qed.

Lemma dict_del_nodup k d : NoDup (dict_keys d) -> NoDup (dict_keys (dict_del k d)).
Proof.
  induction d as [|[k' v'] d IH]; simpl; intros Hnd; [exact Hnd|].
  apply NoDup_cons in Hnd as [Hnin Hnd]. case_decide; [exact Hnd|]. simpl.
  apply NoDup_cons. split; [|apply IH, Hnd].
  intros Hin. apply Hnin. eapply dict_keys_del_sub, Hin.
Qed.

Lemma dict_update_nodup k f d : NoDup (dict_keys d) -> NoDup (dict_keys (dict_update k f d)).
Proof. unfold dict_update. destruct (dict_get k d); [apply dict_set_nodup|exact id]. Qed.

Lemma length_dict_set_in k v d : k ∈ dict_keys d -> length (dict_set k v d) = length d.
Proof.
  intros Hin. rewrite <- !(length_map fst). fold (dict_keys (dict_set k v d)) (dict_keys d).
  rewrite dict_keys_set_in by exact Hin. reflexivity.
Qed.

Lemma length_dict_set_notin k v d : k ∉ dict_keys d -> length (dict_set k v d) = S (length d).
Proof.
  intros Hnin. rewrite <- !(length_map fst). fold (dict_keys (dict_set k v d)) (dict_keys d).
  rewrite dict_keys_set_notin by exact Hnin. rewrite length_app. simpl. lia.
Qed.
Lemma dict_set_set k v v' d : dict_set k v (dict_set k v' d) = dict_set k v d.
Proof. induction d as [|[k' v''] d IH]; simpl; dict_cases. f_equal. exact IH. Qed.

Lemma dict_set_id k v d : dict_get k d = Some v -> dict_set k v d = d.
Proof.
  induction d as [|[k' v''] d IH]; simpl; intros Hg; [discriminate|].
  case_decide; [congruence|]. f_equal. apply IH, Hg.
Qed.

Lemma dict_get_app_notin k v pre rest :
  k ∉ dict_keys pre -> dict_get k (pre ++ (k, v) :: rest) = Some v.
Proof.
  induction pre as [|[k' v'] pre IH]; simpl; intros Hnin; [by rewrite decide_True|].
  apply not_elem_of_cons in Hnin as [Hne Hnin]. rewrite decide_False by done. apply IH, Hnin.
Qed.

Lemma dict_set_app_notin k v v' pre rest :
  k ∉ dict_keys pre -> dict_set k v' (pre ++ (k, v) :: rest) = pre ++ (k, v') :: rest.
Proof.
  induction pre as [|[k'' v''] pre IH]; simpl; intros Hnin; [by rewrite decide_True|].
  apply not_elem_of_cons in Hnin as [Hne Hnin]. rewrite decide_False by done.
  f_equal. apply IH, Hnin.
Qed.

Lemma dict_keys_update k f d : dict_keys (dict_update k f d) = dict_keys d.
Proof.
  unfold dict_update. destruct (dict_get k d) eqn:E; [|reflexivity].
  apply dict_keys_set_in. eapply dict_get_Some_in, E.
Qed.
End Dict.

#[export] Hint Resolve dict_set_nodup dict_del_nodup dict_update_nodup : pybot.
#[export] Hint Rewrite @dict_get_set_eq : pyrw.

(** ** Tasks and the store *)

(** A task dictionary.  [name] and [deadline] are [None] when the handler
    read them from an FSM data bag that lacked them ([user_data.get]);
    [reminded_at] is the list the scanner appends to, the empty list
    standing also for the absent key (every reader uses
    [task.get("reminded_at", [])]). *)
Record task : Type := mk_task {
  name : option pystr;
  deadline : option pystr;
  completed : bool;
  reminded : bool;
  created_at : pystr;
  reminded_at : list pystr
}.

#[export] Instance task_eq_dec : EqDecision task.
Proof. solve_decision. Defined.

Abbreviation user_tasks := (list (pystr * task)).
Abbreviation store := (list (Z * user_tasks)).

(** The dictionary literal of a new task. *)
Definition new_task (nm dl : option pystr) (created : pystr) : task :=
  mk_task nm dl false false created [].

Definition set_completed (b : bool) (t : task) : task :=
  mk_task (name t) (deadline t) b (reminded t) (created_at t) (reminded_at t).
Definition set_name (nm : option pystr) (t : task) : task :=
  mk_task nm (deadline t) (completed t) (reminded t) (created_at t) (reminded_at t).
Definition set_deadline_field (dl : option pystr) (t : task) : task :=
  mk_task (name t) dl (completed t) (reminded t) (created_at t) (reminded_at t).
Definition push_reminded (stamp : pystr) (t : task) : task :=
  mk_task (name t) (deadline t) (completed t) (reminded t) (created_at t) (reminded_at t ++ [stamp]).

(** [tasks.get(user_id, {})] *)
Definition user_tasks_of (uid : Z) (s : store) : user_tasks := default [] (dict_get uid s).

(** [str(len(tasks[user_id]) + 1)] *)
Definition next_task_id (ut : user_tasks) : pystr := py_str (Z.of_nat (length ut) + 1).

(** Task creation of [process_exact_time] and [process_time_all_day]:
    [tasks[user_id]] is created if missing, then the new task is stored
    under [str(len(tasks[user_id]) + 1)]. *)
Definition create_task (uid : Z) (t : task) (s : store) : store * pystr :=
  let ut := user_tasks_of uid s in
  let tid := next_task_id ut in
  (dict_set uid (dict_set tid t ut) s, tid).

(** [tasks[user_id][task_id] = f(...)] guarded by
    [if user_id in tasks and task_id in tasks[user_id]]. *)
Definition update_task (uid : Z) (tid : pystr) (f : task -> task) (s : store) : store :=
  match dict_get uid s with
  | Some ut =>
      match dict_get tid ut with
      | Some t => dict_set uid (dict_set tid (f t) ut) s
      | None => s
      end
  | None => s
  end.

(** [process_complete_task]: [completed = not completed]. *)
Definition toggle_completed (uid : Z) (tid : pystr) (s : store) : store :=
  update_task uid tid (fun t => set_completed (negb (completed t)) t) s.

(** [process_edit_name_input]: the new name. *)
Definition rename_task (uid : Z) (tid : pystr) (nm : pystr) (s : store) : store :=
  update_task uid tid (set_name (Some nm)) s.

(** [process_delete_task]: [del tasks[user_id][task_id]] when present; the
    user's dictionary stays, possibly empty. *)
Definition delete_task (uid : Z) (tid : pystr) (s : store) : store :=
  match dict_get uid s with
  | Some ut =>
      if decide (tid ∈ dict_keys ut) then dict_set uid (dict_del tid ut) s else s
  | None => s
  end.

(** [tasks[user_id][edit_task_id]["deadline"] = deadline_str] in the editing
    branches: unguarded, so an absent user or task raises [KeyError]. *)
Definition set_deadline (uid : Z) (tid : option pystr) (dl : option pystr) (s : store)
    : result store :=
  match dict_get uid s, tid with
  | Some ut, Some tid' =>
      match dict_get tid' ut with
      | Some t => Ok (dict_set uid (dict_set tid' (set_deadline_field dl t) ut) s)
      | None => Raise KeyError
      end
  | _, _ => Raise KeyError
  end.

(** Python's dictionaries have unique keys, at both levels. *)
Definition store_wf (s : store) : Prop :=
  NoDup (dict_keys s) /\ Forall (fun e => NoDup (dict_keys (snd e))) s.

#[export] Instance store_wf_decision (s : store) : Decision (store_wf s).
Proof. unfold store_wf. apply _. Defined.

(** ** Well-formedness: unique keys at both levels *)

Lemma Forall_dict_set {K V} `{EqDecision K} (P : K * V -> Prop) k v (d : list (K * V)) :
  Forall P d -> P (k, v) -> Forall P (dict_set k v d).
Proof.
  intros Hd Hkv. induction Hd as [|[k' v'] d Hx Hd IH]; simpl; [by constructor|].
  case_decide; subst; constructor; auto.
Qed.

Lemma Forall_dict_del {K V} `{EqDecision K} (P : K * V -> Prop) k (d : list (K * V)) :
  Forall P d -> Forall P (dict_del k d).
Proof.
  induction 1 as [|[k' v'] d Hx Hd IH]; simpl; [by constructor|].
  case_decide; [exact Hd|]. constructor; assumption.
Qed.

Lemma Forall_dict_get {K V} `{EqDecision K} (P : K * V -> Prop) k v (d : list (K * V)) :
  Forall P d -> dict_get k d = Some v -> P (k, v).
Proof.
  induction 1 as [|[k' v'] d Hx Hd IH]; simpl; [discriminate|].
  case_decide; [intros [= <-]; subst; exact Hx|exact IH].
Qed.

Lemma store_wf_set uid ut s :
  store_wf s -> NoDup (dict_keys ut) -> store_wf (dict_set uid ut s).
Proof.
  intros [Hk Hf] Hut. split; [apply dict_set_nodup, Hk|].
  apply Forall_dict_set; assumption.
Qed.

Lemma store_wf_user uid s : store_wf s -> NoDup (dict_keys (user_tasks_of uid s)).
Proof.
  intros [_ Hf]. unfold user_tasks_of. destruct (dict_get uid s) as [ut|] eqn:E; simpl.
  - exact (Forall_dict_get _ _ _ _ Hf E).
  - constructor.
Qed.

#[export] Hint Resolve store_wf_set store_wf_user : pybot.

Lemma create_task_wf uid t s : store_wf s -> store_wf (fst (create_task uid t s)).
Proof. intros Hs. unfold create_task. apply store_wf_set; [exact Hs|]. apply dict_set_nodup, store_wf_user, Hs. Qed.

Lemma dict_get_In {K V} `{EqDecision K} k v (d : list (K * V)) :
  dict_get k d = Some v -> In (k, v) d.
Proof.
  induction d as [|[k' v'] d IH]; simpl; [discriminate|].
  case_decide; [intros [= <-]; subst; left; reflexivity|intros Hg; right; exact (IH Hg)].
Qed.

Lemma update_task_wf uid tid f s : store_wf s -> store_wf (update_task uid tid f s).
Proof.
  intros Hs. pose proof (store_wf_user uid s Hs) as Hu. unfold user_tasks_of in Hu.
  unfold update_task. destruct (dict_get uid s) as [ut|]; simpl in *; [|exact Hs].
  case_match; [|exact Hs]. apply store_wf_set; auto with pybot.
Qed.

Lemma delete_task_wf uid tid s : store_wf s -> store_wf (delete_task uid tid s).
Proof.
  intros Hs. pose proof (store_wf_user uid s Hs) as Hu. unfold user_tasks_of in Hu.
  unfold delete_task. destruct (dict_get uid s) as [ut|]; simpl in *; [|exact Hs].
  case_decide; [|exact Hs]. apply store_wf_set; auto with pybot.
Qed.

Lemma set_deadline_wf uid otid dl s s' :
  store_wf s -> set_deadline uid otid dl s = Ok s' -> store_wf s'.
Proof.
  intros Hs. pose proof (store_wf_user uid s Hs) as Hu. unfold user_tasks_of in Hu.
  unfold set_deadline. destruct (dict_get uid s) as [ut|], otid as [tid|]; try discriminate.
  simpl in Hu. case_match; intros [= <-]. apply store_wf_set; auto with pybot.
Qed.

#[export] Hint Resolve create_task_wf update_task_wf delete_task_wf : pybot.

(** Every store mutation of the handlers keeps the keys unique:
    creation, completion toggle, renaming, deletion and a deadline change
    that does not raise. *)
Theorem store_ops_wf s uid tid otid t nm dl :
  store_wf s ->
  store_wf (fst (create_task uid t s)) /\ store_wf (toggle_completed uid tid s)
  /\ store_wf (rename_task uid tid nm s) /\ store_wf (delete_task uid tid s)
  /\ (forall s', set_deadline uid otid dl s = Ok s' -> store_wf s').
Proof.
  intros Hs. unfold toggle_completed, rename_task.
  refine (conj _ (conj _ (conj _ (conj _ _)))); auto with pybot.
  intros s'. apply set_deadline_wf, Hs.
Qed.

(** ** Functional behaviour of the mutations *)

Lemma user_tasks_of_set uid ut s : user_tasks_of uid (dict_set uid ut s) = ut.
Proof. unfold user_tasks_of. rewrite dict_get_set_eq. reflexivity. Qed.

Lemma user_tasks_of_set_ne uid uid' ut s :
  uid <> uid' -> user_tasks_of uid' (dict_set uid ut s) = user_tasks_of uid' s.
Proof. intros Hne. unfold user_tasks_of. rewrite dict_get_set_ne by exact Hne. reflexivity. Qed.

#[export] Hint Rewrite user_tasks_of_set : pyrw.

(** Applying [f] then [g] to the same present task is applying their
    composition. *)
Lemma update_task_twice uid tid f g s :
  update_task uid tid g (update_task uid tid f s) = update_task uid tid (fun t => g (f t)) s.
Proof.
  unfold update_task. destruct (dict_get uid s) as [ut|] eqn:Eu; [|rewrite Eu; reflexivity].
  destruct (dict_get tid ut) as [t|] eqn:Et; [|rewrite Eu, Et; reflexivity].
  rewrite dict_get_set_eq, dict_get_set_eq, dict_set_set, dict_set_set. reflexivity.
Qed.

Lemma update_task_id uid tid s : update_task uid tid (fun t => t) s = s.
Proof.
  unfold update_task. destruct (dict_get uid s) as [ut|] eqn:Eu; [|reflexivity].
  destruct (dict_get tid ut) as [t|] eqn:Et; [|reflexivity].
  rewrite (dict_set_id tid t ut Et). apply dict_set_id, Eu.
Qed.

Lemma update_task_ext uid tid f g s :
  (forall t, f t = g t) -> update_task uid tid f s = update_task uid tid g s.
Proof. intros Hfg. unfold update_task. repeat case_match; rewrite ?Hfg; reflexivity. Qed.

(** Toggling the completion of a task twice restores the store exactly:
    name, deadline and the [reminded_at] firing record included. *)
Theorem toggle_completed_involutive uid tid s :
  toggle_completed uid tid (toggle_completed uid tid s) = s.
Proof.
  unfold toggle_completed. rewrite update_task_twice.
  rewrite <- (update_task_id uid tid s) at 2. apply update_task_ext.
  intros [n d c r ca ra]. unfold set_completed. simpl. rewrite negb_involutive. reflexivity.
Qed.

(** ** Task identifiers *)

Lemma py_str_inj a b : py_str a = py_str b -> a = b.
Proof. intros H. pose proof (py_int_py_str a) as Ha. rewrite H, py_int_py_str in Ha. congruence. Qed.

Lemma dict_set_notin {K V} `{EqDecision K} k v (d : list (K * V)) :
  k ∉ dict_keys d -> dict_set k v d = d ++ [(k, v)].
Proof.
  induction d as [|[k' v'] d IH]; simpl; intros Hnin; [reflexivity|].
  apply not_elem_of_cons in Hnin as [Hne Hnin]. rewrite decide_False by done.
  f_equal. apply IH, Hnin.
Qed.

Lemma dict_get_in {K V} `{EqDecision K} k (d : list (K * V)) :
  k ∈ dict_keys d -> exists v, dict_get k d = Some v.
Proof.
  intros Hin. destruct (dict_get k d) eqn:E; [eauto|].
  apply dict_get_None_notin in E. contradiction.
Qed.

Lemma length_dict_del {K V} `{EqDecision K} k (d : list (K * V)) :
  k ∈ dict_keys d -> length (dict_del k d) = pred (length d).
Proof.
  induction d as [|[k' v'] d IH]; simpl; intros Hin; [inversion Hin|].
  case_decide; [reflexivity|]. apply elem_of_cons in Hin as [->|Hin]; [congruence|].
  simpl. rewrite IH by exact Hin. destruct d; [inversion Hin|reflexivity].
Qed.

Lemma dict_keys_del_in {K V} `{EqDecision K} k k' (d : list (K * V)) :
  k <> k' -> k' ∈ dict_keys d -> k' ∈ dict_keys (dict_del k d).
Proof.
  intros Hne. induction d as [|[k'' v'] d IH]; simpl; intros Hin; [exact Hin|].
  case_decide; subst.
  - apply elem_of_cons in Hin as [->|Hin]; [congruence|exact Hin].
  - simpl. apply elem_of_cons in Hin as [->|Hin]; [left|right; apply IH, Hin].
Qed.

(** The identifiers of a user's tasks are ["1"], ..., [str(n)], as they
    are when no task of the user was deleted. *)
Definition ids_sequential (ut : user_tasks) : Prop :=
  dict_keys ut = map (fun k => py_str (Z.of_nat k)) (seq 1 (length ut)).

Lemma py_str_in_seq k n :
  py_str (Z.of_nat k) ∈ map (fun i => py_str (Z.of_nat i)) (seq 1 n) <-> (1 <= k <= n)%nat.
Proof.
  rewrite list_elem_of_fmap. split.
  - intros [i [Hi Hin]]. apply py_str_inj, Nat2Z.inj in Hi. subst.
    apply list_elem_of_In, in_seq in Hin. lia.
  - intros Hk. exists k. split; [reflexivity|]. apply list_elem_of_In, in_seq. lia.
Qed.

(** As long as no task was deleted, creation stores the new task under a
    fresh identifier, after the others, and the identifiers stay
    sequential. *)
Theorem create_task_fresh uid t s :
  ids_sequential (user_tasks_of uid s) ->
  let ut := user_tasks_of uid s in
  ((next_task_id ut ∉ dict_keys ut)
   /\ user_tasks_of uid (fst (create_task uid t s)) = ut ++ [(next_task_id ut, t)]
   /\ ids_sequential (user_tasks_of uid (fst (create_task uid t s)))).
Proof.
  intros Hseq. cbv zeta. unfold create_task. simpl. rewrite user_tasks_of_set.
  set (ut := user_tasks_of uid s) in *.
  assert (Hfresh : next_task_id ut ∉ dict_keys ut).
  { unfold next_task_id. rewrite Hseq.
    replace (Z.of_nat (length ut) + 1) with (Z.of_nat (S (length ut))) by lia.
    rewrite py_str_in_seq. lia. }
  rewrite dict_set_notin by exact Hfresh. split; [exact Hfresh|]. split; [reflexivity|].
  unfold ids_sequential, dict_keys. rewrite map_app. fold (dict_keys ut).
  rewrite Hseq, length_app. cbn [length]. rewrite Nat.add_1_r, seq_S, map_app.
  cbn [map fst]. unfold next_task_id. do 3 f_equal. lia.
Qed.

Lemma user_tasks_of_present uid s :
  user_tasks_of uid s <> [] -> dict_get uid s = Some (user_tasks_of uid s).
Proof. unfold user_tasks_of. destruct (dict_get uid s); simpl; congruence. Qed.

(** C23: After the deletion of any task but the last one, the next creation
    computes [str(len + 1)], an identifier still in use, and overwrites that
    task: the user does not gain a task, and the task stored under that
    identifier is replaced by the new one. *)
Theorem create_after_delete_overwrites uid s i t :
  ids_sequential (user_tasks_of uid s) ->
  (1 <= i < length (user_tasks_of uid s))%nat ->
  let s1 := delete_task uid (py_str (Z.of_nat i)) s in
  let s2 := fst (create_task uid t s1) in
  (length (user_tasks_of uid s2) = length (user_tasks_of uid s1)
   /\ (exists old, dict_get (next_task_id (user_tasks_of uid s1)) (user_tasks_of uid s1) = Some old)
   /\ dict_get (next_task_id (user_tasks_of uid s1)) (user_tasks_of uid s2) = Some t).
Proof.
  intros Hseq Hi. cbv zeta. set (ut := user_tasks_of uid s) in *.
  assert (Hin : forall k, (1 <= k <= length ut)%nat -> py_str (Z.of_nat k) ∈ dict_keys ut).
  { intros k Hk. unfold ids_sequential in Hseq. rewrite Hseq. apply py_str_in_seq. exact Hk. }
  assert (Hpres : dict_get uid s = Some ut).
  { apply user_tasks_of_present. intros Hnil. fold ut in Hnil. rewrite Hnil in Hi. simpl in Hi. lia. }
  unfold delete_task. rewrite Hpres, decide_True by (apply Hin; lia).
  set (ut1 := dict_del (py_str (Z.of_nat i)) ut).
  unfold create_task. simpl. rewrite !user_tasks_of_set.
  assert (Hlen : length ut1 = pred (length ut)) by (apply length_dict_del, Hin; lia).
  assert (Hnext : next_task_id ut1 = py_str (Z.of_nat (length ut))).
  { unfold next_task_id. f_equal. lia. }
  assert (Hk : next_task_id ut1 ∈ dict_keys ut1).
  { rewrite Hnext. apply dict_keys_del_in; [|apply Hin; lia].
    intros Heq. apply py_str_inj, Nat2Z.inj in Heq. lia. }
  split; [apply length_dict_set_in, Hk|]. split; [apply dict_get_in, Hk|].
  apply dict_get_set_eq.
Qed.

(** The scenario of the theorem from an empty store: tasks "A" and "B"
    are created, task "1" is deleted, and creating "C" replaces "B". *)
Definition scenario_store : store :=
  let s1 := fst (create_task 7 (new_task (Some (lit "A")) (Some (lit "01.01.2030 10:00")) []) []) in
  let s2 := fst (create_task 7 (new_task (Some (lit "B")) (Some (lit "02.01.2030 10:00")) []) s1) in
  s2.

Lemma create_after_delete_overwrites_witness :
  ids_sequential (user_tasks_of 7 scenario_store)
  /\ (1 <= 1 < length (user_tasks_of 7 scenario_store))%nat
  /\ user_tasks_of 7 (fst (create_task 7 (new_task (Some (lit "C")) None [])
        (delete_task 7 (py_str 1) scenario_store)))
     = [(lit "2", new_task (Some (lit "C")) None [])]
  /\ length (user_tasks_of 7 (fst (create_task 7 (new_task (Some (lit "C")) None [])
        (delete_task 7 (py_str (Z.of_nat 1)) scenario_store))))
     = length (user_tasks_of 7 (delete_task 7 (py_str (Z.of_nat 1)) scenario_store)).
Proof.
  assert (Hseq : ids_sequential (user_tasks_of 7 scenario_store)) by (vm_compute; reflexivity).
  assert (Hi : (1 <= 1 < length (user_tasks_of 7 scenario_store))%nat) by (vm_compute; lia).
  split; [exact Hseq|]. split; [exact Hi|]. split; [vm_compute; reflexivity|].
  exact (proj1 (create_after_delete_overwrites 7 scenario_store 1
    (new_task (Some (lit "C")) None []) Hseq Hi)).
Defined.

Lemma create_task_fresh_witness :
  (next_task_id (user_tasks_of 7 scenario_store) ∉ dict_keys (user_tasks_of 7 scenario_store))
  /\ user_tasks_of 7 (fst (create_task 7 (new_task None None []) scenario_store))
     = user_tasks_of 7 scenario_store ++ [(lit "3", new_task None None [])].
Proof.
  assert (Hseq : ids_sequential (user_tasks_of 7 scenario_store)) by (vm_compute; reflexivity).
  destruct (create_task_fresh 7 (new_task None None []) scenario_store Hseq) as [Hf [He _]].
  split; [exact Hf|]. rewrite He. reflexivity.
Defined.

Lemma store_ops_wf_witness :
  store_wf (fst (create_task 7 (new_task None None []) scenario_store))
  /\ store_wf (delete_task 7 (lit "1") scenario_store).
Proof.
  assert (Hwf : store_wf scenario_store) by decide_by_eval.
  destruct (store_ops_wf scenario_store 7 (lit "1") (Some (lit "1")) (new_task None None []) []
              None Hwf) as (H1 & _ & _ & H4 & _).
  split; assumption.
Defined.
