(* ===== verification/Scanner.v ===== *)
(** * The reminder scanner: [check_deadlines] and [send_reminder]

    One pass of the [while True] loop of [check_deadlines], in the
    state-and-exception monad [PyM] over the [world]: the [tasks] store and
    the messages sent so far.  The pass walks the users of [tasks] and a
    snapshot [list(tasks[user_id].items())] of each user's tasks, skips
    completed tasks, parses the deadline (a date-only deadline gets
    [" 23:59"]), catches [ValueError] only, and evaluates the four ordered
    reminder windows, each gated by a substring test of a [strftime] probe
    against ["".join(reminded_at)].  [send_reminder] looks the task up
    again, picks its message from the [timedelta], sends it and appends the
    minute stamp to [reminded_at].

    The abstract specification [scan_spec] processes the same tasks as a
    pure list function; [check_deadlines_pass_refines] shows the monadic
    pass computes exactly it.  The other theorems are stated on the
    specification or on the per-task decision [task_decision]. *)

From stdpp Require Import base list decidable strings.
From Stdlib Require Import Ascii ZArith Lia.
From S2P Require Import Prelude PyStr DateTime TaskStore.

Local Open Scope Z_scope.
Local Open Scope py_scope.

(** ** Messages and the scanner's world *)

(** The four messages of [send_reminder]. *)
Inductive reminder_kind : Type :=
| Due24h   (** "is due in 24 hours" *)
| Due1h    (** "is due in 1 hour" *)
| Due5min  (** "is due in 5 minutes" *)
| DueNow.  (** "is due now" *)

#[export] Instance reminder_kind_eq_dec : EqDecision reminder_kind.
Proof. solve_decision. Defined.

(** A [bot.send_message(user_id, message, ...)] about a task. *)
Record notification : Type := mk_notification {
  n_user : Z; n_task : pystr; n_kind : reminder_kind
}.

#[export] Instance notification_eq_dec : EqDecision notification.
Proof. solve_decision. Defined.

Record world : Type := mk_world {
  w_tasks : store;
  w_outbox : list notification
}.

(** ** [send_reminder] *)

(** The message [send_reminder] picks from [time_until_deadline]; [None] is
    its final [else: return]. *)
Definition reminder_kind_of (td : timedelta) : option reminder_kind :=
  if td_days td =? 1 then Some Due24h
  else if (td_seconds td <=? 3600) && (300 <? td_seconds td) then Some Due1h
  else if (td_seconds td <=? 300) && (0 <? td_seconds td) then Some Due5min
  else if total_us td <=? 0 then Some DueNow
  else None.

(** [tasks[user_id][task_id]] when both keys are present. *)
Definition lookup_task (uid : Z) (tid : pystr) (s : store) : option task :=
  match dict_get uid s with
  | Some ut => dict_get tid ut
  | None => None
  end.

(** [send_reminder(user_id, task_id, time_until_deadline)]: the message is
    sent, then the stamp [now.strftime("%d.%m.%Y %H:%M")] is appended to
    [reminded_at] (the clock is taken to read [now] at that point). *)
Definition send_reminder (now : datetime) (uid : Z) (tid : pystr) (td : timedelta)
    : PyM world unit :=
  w <- get ;;
  match dict_get uid (w_tasks w) with
  | None => ret tt
  | Some ut =>
      match dict_get tid ut with
      | None => ret tt
      | Some t =>
          if completed t then ret tt
          else match reminder_kind_of td with
               | None => ret tt
               | Some k =>
                   put (mk_world
                          (dict_set uid (dict_set tid (push_reminded (fmt_minute now) t) ut)
                             (w_tasks w))
                          (w_outbox w ++ [mk_notification uid tid k]))
               end
      end
  end.

(** ** [check_deadlines] *)

(** The parse of [task["deadline"]]: [None.split()] raises
    [AttributeError]; a deadline of one word gets [" 23:59"]. *)
Definition parse_deadline (dl : option pystr) : result datetime :=
  match dl with
  | None => Raise AttributeError
  | Some s =>
      if decide (length (split_ws s) = 1%nat) then strptime (s ++ lit " 23:59")
      else strptime s
  end.

(** The four windows of [check_deadlines], each with its de-duplication
    gate on the joined firing record [rec]. *)
Definition window_24h (now : datetime) (td : timedelta) (rec : pystr) : bool :=
  (td_days td =? 1) && negb (py_in (fmt_date now) rec).
Definition window_1h (now : datetime) (td : timedelta) (rec : pystr) : bool :=
  (td_seconds td <=? 3600) && (3540 <? td_seconds td) && negb (py_in (fmt_date_hour now) rec).
Definition window_5min (now : datetime) (td : timedelta) (rec : pystr) : bool :=
  (td_seconds td <=? 300) && (240 <? td_seconds td) && negb (py_in (fmt_minute now) rec).
Definition window_now (now : datetime) (td : timedelta) (rec : pystr) : bool :=
  (Z.abs (total_us td) <? 60 * 1000000) && negb (py_in (fmt_minute now) rec).

(** The body of the loop over a user's tasks, the [if]/[elif] chain as the
    code writes it. *)
Definition scan_task (now : datetime) (uid : Z) (tid : pystr) (t : task) : PyM world unit :=
  if completed t then ret tt
  else try_except
    (dl <- lift (parse_deadline (deadline t)) ;;
     let td := dt_sub dl now in
     let rec := join (reminded_at t) in
     if window_24h now td rec then send_reminder now uid tid td
     else if window_1h now td rec then send_reminder now uid tid td
     else if window_5min now td rec then send_reminder now uid tid td
     else if window_now now td rec then send_reminder now uid tid td
     else ret tt)
    (fun e => bool_decide (e = ValueError))
    (ret tt).

(** One pass of [check_deadlines]: [for user_id in tasks], then
    [for task_id, task in list(tasks[user_id].items())]. *)
Definition check_deadlines_pass (now : datetime) : PyM world unit :=
  w <- get ;;
  for_ (dict_keys (w_tasks w)) (fun uid =>
    w' <- get ;;
    for_ (user_tasks_of uid (w_tasks w')) (fun '(tid, t) => scan_task now uid tid t)).

(** The [while True] loop of [check_deadlines] over a finite sequence of
    clock readings, one per pass (the [asyncio.sleep(30)] separates them):
    an exception a pass raises ends the loop, and with it the background
    task started by [start_background_tasks]. *)
Definition check_deadlines_loop (nows : list datetime) : PyM world unit :=
  for_ nows check_deadlines_pass.

(** ** The specification of a pass *)

(** The four windows as one test: every branch of the chain calls
    [send_reminder] with the same arguments, so the first match and any
    match make the same call. *)
Definition reminder_due (now : datetime) (td : timedelta) (rec : pystr) : bool :=
  window_24h now td rec || window_1h now td rec || window_5min now td rec
  || window_now now td rec.

(** What the pass does with one task: raise, do nothing ([Ok None]), or
    send a message of the given kind and record the stamp. *)
Definition task_decision (now : datetime) (t : task) : result (option reminder_kind) :=
  if completed t then Ok None
  else match parse_deadline (deadline t) with
       | Raise e => if bool_decide (e = ValueError) then Ok None else Raise e
       | Ok dl =>
           let td := dt_sub dl now in
           if reminder_due now td (join (reminded_at t)) then Ok (reminder_kind_of td)
           else Ok None
       end.

(** A user's tasks after the pass, and the messages, in order; the first
    raising task stops the pass. *)
Fixpoint scan_user_spec (now : datetime) (uid : Z) (items : user_tasks)
    : result unit * user_tasks * list notification :=
  match items with
  | [] => (Ok tt, [], [])
  | (tid, t) :: rest =>
      match task_decision now t with
      | Raise e => (Raise e, items, [])
      | Ok None =>
          let '(r, rest', ns) := scan_user_spec now uid rest in (r, (tid, t) :: rest', ns)
      | Ok (Some k) =>
          let '(r, rest', ns) := scan_user_spec now uid rest in
          (r, (tid, push_reminded (fmt_minute now) t) :: rest', mk_notification uid tid k :: ns)
      end
  end.

Fixpoint scan_spec (now : datetime) (s : store) : result unit * store * list notification :=
  match s with
  | [] => (Ok tt, [], [])
  | (uid, ut) :: rest =>
      let '(r, ut', ns) := scan_user_spec now uid ut in
      match r with
      | Raise e => (Raise e, (uid, ut') :: rest, ns)
      | Ok _ => let '(r', rest', ns') := scan_spec now rest in (r', (uid, ut') :: rest', ns ++ ns')
      end
  end.

(** ** Refinement: the pass computes its specification *)

Lemma if_chain_same {S} (a b c d : bool) (x y : PyM S unit) :
  (if a then x else if b then x else if c then x else if d then x else y)
  = if a || b || c || d then x else y.
Proof. destruct a, b, c, d; reflexivity. Qed.

(** One task, in a store where the user's dictionary is [pre ++ (tid, t) ::
    rest] and [tid] does not occur in [pre]. *)
Lemma scan_task_spec now uid tid t pre rest s out :
  dict_get uid s = Some (pre ++ (tid, t) :: rest) -> tid ∉ dict_keys pre ->
  scan_task now uid tid t (mk_world s out) =
    match task_decision now t with
    | Raise e => (Raise e, mk_world s out)
    | Ok None => (Ok tt, mk_world s out)
    | Ok (Some k) =>
        (Ok tt, mk_world (dict_set uid (pre ++ (tid, push_reminded (fmt_minute now) t) :: rest) s)
                  (out ++ [mk_notification uid tid k]))
    end.
Proof.
  intros Hu Hnin. unfold scan_task, task_decision, reminder_due.
  destruct (completed t) eqn:Ec; [reflexivity|].
  unfold try_except, bind, lift. destruct (parse_deadline (deadline t)) as [dl|e].
  - rewrite if_chain_same.
    destruct (window_24h _ _ _ || window_1h _ _ _ || window_5min _ _ _ || window_now _ _ _);
      [|reflexivity].
    unfold send_reminder, bind, get. cbn [w_tasks w_outbox]. rewrite Hu, dict_get_app_notin, Ec by exact Hnin.
    destruct (reminder_kind_of (dt_sub dl now)); [|reflexivity].
    unfold put. rewrite dict_set_app_notin by exact Hnin. reflexivity.
  - destruct (bool_decide (e = ValueError)); reflexivity.
Qed.

Lemma nodup_keys_split {K V} (pre rest : list (K * V)) k v :
  NoDup (dict_keys (pre ++ (k, v) :: rest)) -> k ∉ dict_keys pre.
Proof.
  unfold dict_keys. rewrite map_app. intros Hnd. apply NoDup_app in Hnd as [_ [Hd _]].
  intros Hin. apply (Hd k Hin). left.
Qed.

Lemma dict_keys_replace {K V} (pre rest : list (K * V)) k v v' :
  dict_keys (pre ++ (k, v) :: rest) = dict_keys (pre ++ (k, v') :: rest).
Proof. unfold dict_keys. rewrite !map_app. reflexivity. Qed.

(** The loop over one user's tasks computes [scan_user_spec], the
    processed tasks [pre] staying in front of the remaining ones. *)
Lemma scan_user_loop now uid items : forall pre s out,
  dict_get uid s = Some (pre ++ items) -> NoDup (dict_keys (pre ++ items)) ->
  for_ items (fun '(tid, t) => scan_task now uid tid t) (mk_world s out) =
    let '(r, items', ns) := scan_user_spec now uid items in
    (r, mk_world (dict_set uid (pre ++ items') s) (out ++ ns)).
Proof.
  induction items as [|[tid t] rest IH]; intros pre s out Hu Hnd.
  - cbn. rewrite app_nil_r in *. rewrite dict_set_id by exact Hu. rewrite app_nil_r. reflexivity.
  - cbn [for_ scan_user_spec]. unfold bind at 1.
    pose proof (nodup_keys_split pre rest tid t Hnd) as Hnin.
    rewrite (scan_task_spec now uid tid t pre rest s out Hu Hnin).
    destruct (task_decision now t) as [[k|]|e].
    + rewrite (IH (pre ++ [(tid, push_reminded (fmt_minute now) t)])).
      * destruct (scan_user_spec now uid rest) as [[r rest'] ns]. rewrite dict_set_set.
        rewrite <- app_assoc, <- app_assoc. reflexivity.
      * rewrite dict_get_set_eq, <- app_assoc. reflexivity.
      * rewrite <- app_assoc. cbn [app]. erewrite <- dict_keys_replace. exact Hnd.
    + rewrite (IH (pre ++ [(tid, t)])).
      * destruct (scan_user_spec now uid rest) as [[r rest'] ns].
        rewrite <- app_assoc. reflexivity.
      * rewrite <- app_assoc. exact Hu.
      * rewrite <- app_assoc. exact Hnd.
    + rewrite dict_set_id by exact Hu. rewrite app_nil_r. reflexivity.
Qed.

Lemma user_tasks_of_app_notin uid ut (pre rest : store) :
  uid ∉ dict_keys pre -> user_tasks_of uid (pre ++ (uid, ut) :: rest) = ut.
Proof. intros Hnin. unfold user_tasks_of. rewrite dict_get_app_notin by exact Hnin. reflexivity. Qed.

(** The loop over the users computes [scan_spec]; the users already
    scanned, [pre], stay in front. *)
Lemma scan_users_loop now rest : forall pre out,
  NoDup (dict_keys (pre ++ rest)) -> Forall (fun e => NoDup (dict_keys (snd e))) rest ->
  for_ (dict_keys rest) (fun uid =>
      w' <- get ;;
      for_ (user_tasks_of uid (w_tasks w')) (fun '(tid, t) => scan_task now uid tid t))
    (mk_world (pre ++ rest) out) =
  let '(r, rest', ns) := scan_spec now rest in (r, mk_world (pre ++ rest') (out ++ ns)).
Proof.
  induction rest as [|[uid ut] rest IH]; intros pre out Hnd Hf.
  - cbn. rewrite !app_nil_r. reflexivity.
  - inversion Hf as [|? ? Hut Hf']; subst. cbn [snd] in Hut.
    pose proof (nodup_keys_split pre rest uid ut Hnd) as Hnin.
    change (dict_keys ((uid, ut) :: rest)) with (uid :: dict_keys rest).
    cbn [for_ scan_spec]. unfold bind at 1 2, get at 1. cbn [w_tasks].
    rewrite user_tasks_of_app_notin by exact Hnin.
    rewrite (scan_user_loop now uid ut [] (pre ++ (uid, ut) :: rest) out);
      [|rewrite dict_get_app_notin by exact Hnin; reflexivity|exact Hut].
    destruct (scan_user_spec now uid ut) as [[r ut'] ns]. cbn [app].
    rewrite dict_set_app_notin by exact Hnin.
    destruct r as [[]|e]; [|reflexivity].
    rewrite (app_cons_assoc pre (uid, ut') rest), (IH (pre ++ [(uid, ut')])).
    + destruct (scan_spec now rest) as [[r' rest'] ns'].
      rewrite <- !app_assoc. reflexivity.
    + rewrite <- app_assoc. cbn [app]. erewrite <- dict_keys_replace. exact Hnd.
    + exact Hf'.
Qed.

(** On a store with unique keys, one pass of [check_deadlines] returns and
    leaves exactly what [scan_spec] computes, the messages appended to those
    already sent. *)
Lemma pass_computes_spec now s out :
  store_wf s ->
  check_deadlines_pass now (mk_world s out) =
    let '(r, s', ns) := scan_spec now s in (r, mk_world s' (out ++ ns)).
Proof.
  intros [Hnd Hf]. unfold check_deadlines_pass, bind at 1, get. cbn [w_tasks].
  exact (scan_users_loop now s [] out Hnd Hf).
Qed.

(** ** What a pass does to each task *)

Lemma nodup_in_unique {K V} (d : list (K * V)) k v v' :
  NoDup (dict_keys d) -> In (k, v) d -> In (k, v') d -> v = v'.
Proof.
  induction d as [|[k'' v''] d IH]; simpl; [tauto|]. intros Hnd Hv Hv'.
  apply NoDup_cons in Hnd as [Hnin Hnd].
  destruct Hv as [Hv|Hv], Hv' as [Hv'|Hv']; simplify_eq; auto.
  all: exfalso; apply Hnin, list_elem_of_In, in_map_iff; eexists; split; [|eassumption]; reflexivity.
Qed.

Lemma task_decision_send now t k :
  task_decision now t = Ok (Some k) -> completed t = false.
Proof. unfold task_decision. destruct (completed t); [discriminate|reflexivity]. Qed.

(** Every message of a user's scan is about one of its tasks that the
    decision selects, and that task carries the stamp afterwards. *)
Lemma scan_user_spec_notif now uid items r items' ns n :
  scan_user_spec now uid items = (r, items', ns) -> In n ns ->
  n_user n = uid /\ exists t, In (n_task n, t) items
    /\ task_decision now t = Ok (Some (n_kind n))
    /\ In (n_task n, push_reminded (fmt_minute now) t) items'.
Proof.
  revert r items' ns. induction items as [|[tid t] rest IH]; intros r items' ns; simpl.
  - intros [= <- <- <-] [].
  - destruct (task_decision now t) as [[k|]|e] eqn:Ed.
    + destruct (scan_user_spec now uid rest) as [[r0 rest'] ns0] eqn:Er.
      intros [= <- <- <-] [<-|Hin].
      * split; [reflexivity|]. exists t. split; [left; reflexivity|]. split; [exact Ed|left; reflexivity].
      * destruct (IH _ _ _ eq_refl Hin) as [Hu [t' (H1 & H2 & H3)]].
        split; [exact Hu|]. exists t'. split; [right; exact H1|]. split; [exact H2|right; exact H3].
    + destruct (scan_user_spec now uid rest) as [[r0 rest'] ns0] eqn:Er.
      intros [= <- <- <-] Hin.
      destruct (IH _ _ _ eq_refl Hin) as [Hu [t' (H1 & H2 & H3)]].
      split; [exact Hu|]. exists t'. split; [right; exact H1|]. split; [exact H2|right; exact H3].
    + intros [= <- <- <-] [].
Qed.

Lemma scan_user_spec_keys now uid items r items' ns :
  scan_user_spec now uid items = (r, items', ns) -> dict_keys items' = dict_keys items.
Proof.
  revert r items' ns. induction items as [|[tid t] rest IH]; intros r items' ns; simpl.
  - intros [= <- <- <-]. reflexivity.
  - destruct (task_decision now t) as [[k|]|e];
      [destruct (scan_user_spec now uid rest) as [[r0 rest'] ns0] eqn:Er..|];
      intros [= <- <- <-]; try reflexivity; cbn; f_equal; eapply IH; eauto.
Qed.

Lemma scan_spec_notif now s r s' ns n :
  scan_spec now s = (r, s', ns) -> In n ns ->
  exists ut t, In (n_user n, ut) s /\ In (n_task n, t) ut
    /\ task_decision now t = Ok (Some (n_kind n))
    /\ exists ut', In (n_user n, ut') s' /\ In (n_task n, push_reminded (fmt_minute now) t) ut'.
Proof.
  revert r s' ns. induction s as [|[uid ut] rest IH]; intros r s' ns; simpl.
  - intros [= <- <- <-] [].
  - destruct (scan_user_spec now uid ut) as [[r0 ut'] ns0] eqn:Eu.
    destruct r0 as [[]|e].
    + destruct (scan_spec now rest) as [[r1 rest'] ns1] eqn:Er.
      intros [= <- <- <-] Hin. apply in_app_or in Hin as [Hin|Hin].
      * destruct (scan_user_spec_notif _ _ _ _ _ _ _ Eu Hin) as [<- [t (? & ? & ?)]].
        exists ut, t. split; [left; reflexivity|]. repeat split; auto.
        exists ut'. split; [left; reflexivity|assumption].
      * destruct (IH _ _ _ eq_refl Hin) as (ut1 & t & ? & ? & ? & ut1' & ? & ?).
        exists ut1, t. repeat split; auto. exists ut1'. split; [right|]; assumption.
    + intros [= <- <- <-] Hin.
      destruct (scan_user_spec_notif _ _ _ _ _ _ _ Eu Hin) as [<- [t (? & ? & ?)]].
      exists ut, t. split; [left; reflexivity|]. repeat split; auto.
      exists ut'. split; [left; reflexivity|assumption].
Qed.

(** A pass keeps the keys of the store and of every user's tasks. *)
Lemma scan_spec_shape now s r s' ns :
  scan_spec now s = (r, s', ns) ->
  Forall2 (fun e e' => fst e = fst e' /\ dict_keys (snd e) = dict_keys (snd e')) s s'.
Proof.
  revert r s' ns. induction s as [|[uid ut] rest IH]; intros r s' ns; simpl.
  - intros [= <- <- <-]. constructor.
  - destruct (scan_user_spec now uid ut) as [[r0 ut'] ns0] eqn:Eu.
    pose proof (scan_user_spec_keys _ _ _ _ _ _ Eu) as Hk.
    destruct r0 as [[]|e].
    + destruct (scan_spec now rest) as [[r1 rest'] ns1] eqn:Er.
      intros [= <- <- <-]. constructor; [simpl; auto|]. eapply IH. reflexivity.
    + intros [= <- <- <-]. constructor; [simpl; auto|].
      clear. induction rest; constructor; auto.
Qed.

Lemma Forall2_transfer {A B} (R : A -> B -> Prop) (P : A -> Prop) (Q : B -> Prop) l l' :
  Forall2 R l l' -> (forall a b, R a b -> P a -> Q b) -> Forall P l -> Forall Q l'.
Proof. intros HR HPQ HP. induction HR; inversion HP; subst; constructor; eauto. Qed.

Lemma store_wf_shape s s' :
  Forall2 (fun e e' => fst e = fst e' /\ dict_keys (snd e) = dict_keys (snd e')) s s' ->
  store_wf s -> store_wf s'.
Proof.
  intros Hsh [Hnd Hf]. split.
  - replace (dict_keys s') with (dict_keys s); [exact Hnd|].
    unfold dict_keys. clear Hnd Hf. induction Hsh as [|e e' l l' [He _] _ IH]; simpl; congruence.
  - eapply Forall2_transfer; [exact Hsh| |exact Hf]. intros e e' [_ Hd] He. rewrite <- Hd. exact He.
Qed.

#[export] Hint Resolve store_wf_shape scan_spec_shape : pybot.

(** C1: Refinement: on a store with unique keys, a pass of [check_deadlines]
    computes [scan_spec] (the store it leaves and the messages it appends),
    and the store it leaves has unique keys again. *)
Theorem check_deadlines_pass_refines now s out :
  store_wf s ->
  (check_deadlines_pass now (mk_world s out) =
     let '(r, s', ns) := scan_spec now s in (r, mk_world s' (out ++ ns)))
  /\ store_wf (w_tasks (snd (check_deadlines_pass now (mk_world s out)))).
Proof.
  intros Hwf. rewrite (pass_computes_spec now s out Hwf). split; [reflexivity|].
  destruct (scan_spec now s) as [[r s'] ns] eqn:E. cbn [snd w_tasks].
  exact (store_wf_shape _ _ (scan_spec_shape _ _ _ _ _ E) Hwf).
Qed.

(** ** De-duplication *)

(** A task whose firing record holds the minute stamp of [now] passes none
    of the four gates at [now]: the date probe, the hour probe and the
    minute probe are all prefixes of that stamp. *)
Lemma reminder_due_stamped now td rs :
  In (fmt_minute now) rs -> reminder_due now td (join rs) = false.
Proof.
  intros Hin. unfold reminder_due, window_24h, window_1h, window_5min, window_now.
  rewrite (py_in_join_prefix (fmt_date now) _ rs Hin (fmt_date_prefix_minute now)).
  rewrite (py_in_join_prefix (fmt_date_hour now) _ rs Hin (fmt_hour_prefix_minute now)).
  rewrite (py_in_join_prefix (fmt_minute now) _ rs Hin (prefixb_refl _)).
  rewrite !andb_false_r. reflexivity.
Qed.

Lemma task_decision_stamped now t k :
  In (fmt_minute now) (reminded_at t) -> task_decision now t <> Ok (Some k).
Proof.
  intros Hin. unfold task_decision. destruct (completed t); [discriminate|].
  destruct (parse_deadline (deadline t)) as [dl|e].
  - rewrite reminder_due_stamped by exact Hin. discriminate.
  - destruct (bool_decide _); discriminate.
Qed.

Lemma in_push_reminded stamp t : In stamp (reminded_at (push_reminded stamp t)).
Proof. simpl. apply in_or_app. right. left. reflexivity. Qed.

Lemma store_in_unique (s : store) uid ut ut' tid t t' :
  store_wf s -> In (uid, ut) s -> In (uid, ut') s -> In (tid, t) ut -> In (tid, t') ut' -> t = t'.
Proof.
  intros [Hnd Hf] Hu Hu' Ht Ht'. pose proof (nodup_in_unique _ _ _ _ Hnd Hu Hu') as <-.
  rewrite Forall_forall in Hf. apply list_elem_of_In in Hu.
  exact (nodup_in_unique _ _ _ _ (Hf _ Hu) Ht Ht').
Qed.

(** Two passes whose clocks read the same minute never message the same
    task twice: the first pass stamps every task it messages. *)
Lemma scan_spec_no_double_fire now now' s r1 s1 ns1 r2 s2 ns2 :
  store_wf s -> fmt_minute now = fmt_minute now' ->
  scan_spec now s = (r1, s1, ns1) -> scan_spec now' s1 = (r2, s2, ns2) ->
  forall n1 n2, In n1 ns1 -> In n2 ns2 -> (n_user n1, n_task n1) <> (n_user n2, n_task n2).
Proof.
  intros Hwf Hmin E1 E2 n1 n2 H1 H2 [= Hu Ht].
  pose proof (store_wf_shape _ _ (scan_spec_shape _ _ _ _ _ E1) Hwf) as Hwf1.
  destruct (scan_spec_notif _ _ _ _ _ _ E1 H1) as (_ & t1 & _ & _ & _ & ut1' & Hu1 & Ht1).
  destruct (scan_spec_notif _ _ _ _ _ _ E2 H2) as (ut2 & t2 & Hu2 & Ht2 & Hd2 & _).
  rewrite <- Hu in Hu2. rewrite <- Ht in Ht2.
  pose proof (store_in_unique _ _ _ _ _ _ _ Hwf1 Hu1 Hu2 Ht1 Ht2) as <-.
  apply (task_decision_stamped now' (push_reminded (fmt_minute now) t1) (n_kind n2)); [|exact Hd2].
  rewrite <- Hmin. apply in_push_reminded.
Qed.

(** C2: The same for the code: two passes of [check_deadlines] within one
    minute send at most one message per task between them. *)
Theorem check_deadlines_no_double_fire now now' s out :
  store_wf s -> fmt_minute now = fmt_minute now' ->
  let w1 := snd (check_deadlines_pass now (mk_world s out)) in
  let w2 := snd (check_deadlines_pass now' w1) in
  forall n1 n2,
    In n1 (drop (length out) (w_outbox w1)) ->
    In n2 (drop (length (w_outbox w1)) (w_outbox w2)) ->
    (n_user n1, n_task n1) <> (n_user n2, n_task n2).
Proof.
  intros Hwf Hmin. cbv zeta.
  rewrite (pass_computes_spec now s out Hwf).
  destruct (scan_spec now s) as [[r1 s1] ns1] eqn:E1. cbn [snd w_tasks w_outbox].
  pose proof (store_wf_shape _ _ (scan_spec_shape _ _ _ _ _ E1) Hwf) as Hwf1.
  rewrite (pass_computes_spec now' s1 (out ++ ns1) Hwf1).
  destruct (scan_spec now' s1) as [[r2 s2] ns2] eqn:E2. cbn [snd w_outbox].
  rewrite !drop_app_length.
  exact (scan_spec_no_double_fire now now' s r1 s1 ns1 r2 s2 ns2 Hwf Hmin E1 E2).
Qed.

(** ** Completed tasks *)

Lemma in_nodup_get {K V} `{EqDecision K} (d : list (K * V)) k v :
  NoDup (dict_keys d) -> In (k, v) d -> dict_get k d = Some v.
Proof.
  induction d as [|[k' v'] d IH]; simpl; [tauto|]. intros Hnd [Heq|Hin].
  - injection Heq as -> ->. by rewrite decide_True.
  - apply NoDup_cons in Hnd as [Hnin Hnd]. case_decide; [subst|apply IH; assumption].
    exfalso. apply Hnin, list_elem_of_In, in_map_iff. exists (k', v). auto.
Qed.

Lemma store_in_lookup s uid ut tid t :
  store_wf s -> In (uid, ut) s -> In (tid, t) ut -> lookup_task uid tid s = Some t.
Proof.
  intros [Hnd Hf] Hu Ht. unfold lookup_task. rewrite (in_nodup_get _ _ _ Hnd Hu).
  rewrite Forall_forall in Hf. apply (in_nodup_get _ _ _ (Hf _ (proj2 (list_elem_of_In _ _) Hu)) Ht).
Qed.

(** C21: A pass of [check_deadlines] sends messages only about tasks that are in
    the store and not completed: a completed task never gets a reminder. *)
Theorem check_deadlines_skips_completed now s out :
  store_wf s ->
  forall n, In n (drop (length out) (w_outbox (snd (check_deadlines_pass now (mk_world s out))))) ->
  exists t, lookup_task (n_user n) (n_task n) s = Some t /\ completed t = false.
Proof.
  intros Hwf n. rewrite (pass_computes_spec now s out Hwf).
  destruct (scan_spec now s) as [[r s'] ns] eqn:E. cbn [snd w_outbox].
  rewrite drop_app_length. intros Hin.
  destruct (scan_spec_notif _ _ _ _ _ _ E Hin) as (ut & t & Hu & Ht & Hd & _).
  exists t. split; [exact (store_in_lookup _ _ _ _ _ Hwf Hu Ht)|].
  exact (task_decision_send _ _ _ Hd).
Qed.

(** ** Which message is sent *)

(** C4: [send_reminder] says "due in 24 hours" for every remaining time from
    24 hours up to, but excluding, 48 hours: [.days == 1]. *)
Theorem reminder_kind_24h x :
  reminder_kind_of (td_of_us x) = Some Due24h <-> us_per_day <= x < 2 * us_per_day.
Proof.
  unfold reminder_kind_of. rewrite total_us_td_of_us.
  unfold td_of_us, us_per_day. cbn [td_days td_seconds].
  destruct (x / (86400 * 1000000) =? 1) eqn:E; [split; [intros _; zlia|reflexivity]|].
  split; [repeat case_match; discriminate|zlia].
Qed.

(** The parse of a deadline of one word without whitespace is the parse of
    the same word followed by [" 23:59"]: a date-only deadline expires at
    23:59 of its day. *)
Theorem parse_deadline_date_only s :
  s <> [] -> Forall (fun c => is_space c = false) s ->
  parse_deadline (Some s) = parse_deadline (Some (s ++ lit " 23:59")).
Proof.
  intros Hne Hs. unfold parse_deadline, split_ws.
  rewrite split_by_no_sep by exact Hs.
  change (lit " 23:59") with (" "%char :: lit "23:59").
  rewrite split_by_app by (exact Hs || reflexivity).
  rewrite (split_by_no_sep is_space (lit "23:59")) by (repeat constructor).
  cbn [filter list_filter]. rewrite bool_decide_eq_false_2 by exact Hne. simpl.
  reflexivity.
Qed.

(** C7: The "1 hour" window looks only at the part of the remaining time below
    a day: whenever that part is just under an hour and the hour was not
    stamped yet, a non-completed task gets "due in 1 hour", whatever the
    number [k] of whole days left, negative (overdue) included, except
    [k = 1]. *)
Theorem one_hour_message_any_day now t dl k r :
  completed t = false -> parse_deadline (deadline t) = Ok dl ->
  to_us dl - to_us now = k * us_per_day + r -> 3541 * 1000000 <= r < 3601 * 1000000 ->
  k <> 1 -> py_in (fmt_date_hour now) (join (reminded_at t)) = false ->
  task_decision now t = Ok (Some Due1h).
Proof.
  intros Hc Hp Hx Hr Hk Hg. unfold task_decision. rewrite Hc, Hp. unfold dt_sub. rewrite Hx.
  assert (Hd : (k * us_per_day + r) / us_per_day = k) by (unfold us_per_day; zlia).
  assert (Hs : ((k * us_per_day + r) mod us_per_day) / 1000000 = r / 1000000)
    by (unfold us_per_day; zlia).
  unfold reminder_due, window_1h, reminder_kind_of, td_of_us. cbn [td_days td_seconds].
  rewrite Hd, Hs, Hg. rewrite (proj2 (Z.eqb_neq k 1) Hk).
  rewrite (proj2 (Z.leb_le (r / 1000000) 3600)) by zlia.
  rewrite (proj2 (Z.ltb_lt 3540 (r / 1000000))) by zlia.
  rewrite (proj2 (Z.ltb_lt 300 (r / 1000000))) by zlia.
  rewrite !orb_true_r. simpl. reflexivity.
Qed.

(** Only [AttributeError] escapes the [except ValueError] of a task. *)
Lemma task_decision_raise now t e : task_decision now t = Raise e -> e = AttributeError.
Proof.
  unfold task_decision. destruct (completed t); [discriminate|].
  destruct (parse_deadline (deadline t)) as [dl|e'] eqn:Ep;
    [destruct (reminder_due _ _ _); discriminate|].
  destruct (bool_decide (e' = ValueError)) eqn:Eb; [discriminate|].
  intros [= <-]. apply bool_decide_eq_false in Eb.
  unfold parse_deadline in Ep. destruct (deadline t) as [dl|]; [|congruence].
  exfalso. apply Eb. case_decide; eapply strptime_raise; exact Ep.
Qed.

Lemma task_decision_none_deadline now t :
  completed t = false -> deadline t = None -> task_decision now t = Raise AttributeError.
Proof. intros Hc Hd. unfold task_decision. rewrite Hc, Hd. reflexivity. Qed.

Lemma scan_user_spec_raises now uid items tid t :
  In (tid, t) items -> task_decision now t = Raise AttributeError ->
  fst (fst (scan_user_spec now uid items)) = Raise AttributeError.
Proof.
  induction items as [|[tid' t'] rest IH]; simpl; [tauto|]. intros Hin Hd.
  destruct (task_decision now t') as [[k|]|e] eqn:Ed.
  - destruct Hin as [[= <- <-]|Hin]; [congruence|].
    destruct (scan_user_spec now uid rest) as [[r rest'] ns] eqn:E. simpl.
    specialize (IH Hin Hd). exact IH.
  - destruct Hin as [[= <- <-]|Hin]; [congruence|].
    destruct (scan_user_spec now uid rest) as [[r rest'] ns] eqn:E. simpl.
    specialize (IH Hin Hd). exact IH.
  - simpl. f_equal. eapply task_decision_raise, Ed.
Qed.

Lemma scan_user_spec_raise_kind now uid items e :
  fst (fst (scan_user_spec now uid items)) = Raise e -> e = AttributeError.
Proof.
  induction items as [|[tid t] rest IH]; simpl; [discriminate|].
  destruct (task_decision now t) as [[k|]|e'] eqn:Ed;
    [destruct (scan_user_spec now uid rest) as [[r rest'] ns]; exact IH..|].
  intros [= <-]. eapply task_decision_raise, Ed.
Qed.

Lemma scan_spec_raises now s uid ut tid t :
  In (uid, ut) s -> In (tid, t) ut -> task_decision now t = Raise AttributeError ->
  fst (fst (scan_spec now s)) = Raise AttributeError.
Proof.
  induction s as [|[uid' ut'] rest IH]; simpl; [tauto|]. intros Hu Ht Hd.
  pose proof (scan_user_spec_raise_kind now uid' ut') as Hk.
  destruct (scan_user_spec now uid' ut') as [[r ut''] ns] eqn:Eu.
  destruct r as [[]|e].
  - destruct Hu as [[= -> ->]|Hu].
    + pose proof (scan_user_spec_raises now uid ut tid t Ht Hd) as H. rewrite Eu in H. discriminate.
    + destruct (scan_spec now rest) as [[r' rest'] ns'] eqn:E. simpl.
      specialize (IH Hu Ht Hd). exact IH.
  - simpl. f_equal. apply Hk. reflexivity.
Qed.

(** C3: A task that is not completed and whose deadline is [None] makes the
    pass raise [AttributeError] ([None.split()]), which the [except
    ValueError] does not catch: the [check_deadlines] coroutine ends. *)
Theorem check_deadlines_crashes_on_none_deadline now s out uid ut tid t :
  store_wf s -> In (uid, ut) s -> In (tid, t) ut ->
  completed t = false -> deadline t = None ->
  fst (check_deadlines_pass now (mk_world s out)) = Raise AttributeError.
Proof.
  intros Hwf Hu Ht Hc Hd. rewrite (pass_computes_spec now s out Hwf).
  pose proof (scan_spec_raises now s uid ut tid t Hu Ht (task_decision_none_deadline now t Hc Hd)) as H.
  destruct (scan_spec now s) as [[r s'] ns]. exact H.
Qed.

(** C22: Once a pass meets such a task, no later pass runs: whatever the clock
    readings that follow, the loop ends with that pass's exception and
    state, so no reminder is ever sent again. *)
Theorem check_deadlines_loop_stops now nows s out uid ut tid t :
  store_wf s -> In (uid, ut) s -> In (tid, t) ut ->
  completed t = false -> deadline t = None ->
  check_deadlines_loop (now :: nows) (mk_world s out)
  = (Raise AttributeError, snd (check_deadlines_pass now (mk_world s out))).
Proof.
  intros Hwf Hu Ht Hc Hd. unfold check_deadlines_loop. cbn [for_]. unfold bind at 1.
  rewrite (pass_computes_spec now s out Hwf).
  pose proof (scan_spec_raises now s uid ut tid t Hu Ht (task_decision_none_deadline now t Hc Hd)) as H.
  destruct (scan_spec now s) as [[r s'] ns]. cbn in H. subst r. reflexivity.
Qed.

(** ** Scenarios *)

Definition report_store : store :=
  fst (create_task 42 (new_task (Some (lit "Report")) (Some (lit "01.01.2030 10:00"))
                         (lit "09.11.2026 12:00")) []).

Definition at_0900 : datetime := mk_datetime 2030 1 1 9 0 0 0.
Definition at_0900_30 : datetime := mk_datetime 2030 1 1 9 0 30 0.

Lemma check_deadlines_no_double_fire_witness :
  store_wf report_store /\ fmt_minute at_0900 = fmt_minute at_0900_30
  /\ (let w1 := snd (check_deadlines_pass at_0900 (mk_world report_store [])) in
      let w2 := snd (check_deadlines_pass at_0900_30 w1) in
      forall n1 n2,
        In n1 (drop (length (@nil notification)) (w_outbox w1)) ->
        In n2 (drop (length (w_outbox w1)) (w_outbox w2)) ->
        (n_user n1, n_task n1) <> (n_user n2, n_task n2)).
Proof.
  assert (Hwf : store_wf report_store) by decide_by_eval.
  assert (Hm : fmt_minute at_0900 = fmt_minute at_0900_30) by (vm_compute; reflexivity).
  split; [exact Hwf|]. split; [exact Hm|].
  exact (check_deadlines_no_double_fire at_0900 at_0900_30 report_store [] Hwf Hm).
Defined.

Definition two_task_store : store :=
  let s1 := toggle_completed 42 (lit "1") report_store in
  fst (create_task 42 (new_task (Some (lit "Call")) (Some (lit "01.01.2030 10:00"))
                         (lit "09.11.2026 12:00")) s1).

Lemma check_deadlines_skips_completed_witness :
  store_wf two_task_store
  /\ forall n, In n (drop (length (@nil notification))
                 (w_outbox (snd (check_deadlines_pass at_0900 (mk_world two_task_store []))))) ->
       exists t, lookup_task (n_user n) (n_task n) two_task_store = Some t /\ completed t = false.
Proof.
  assert (Hwf : store_wf two_task_store) by decide_by_eval.
  split; [exact Hwf|]. exact (check_deadlines_skips_completed at_0900 two_task_store [] Hwf).
Defined.

Lemma check_deadlines_pass_refines_witness :
  store_wf two_task_store
  /\ store_wf (w_tasks (snd (check_deadlines_pass at_0900 (mk_world two_task_store [])))).
Proof.
  assert (Hwf : store_wf two_task_store) by decide_by_eval.
  split; [exact Hwf|]. exact (proj2 (check_deadlines_pass_refines at_0900 two_task_store [] Hwf)).
Defined.

(** The task of [report_store], 23 hours after its deadline. *)
Definition report_task : task :=
  new_task (Some (lit "Report")) (Some (lit "01.01.2030 10:00")) (lit "09.11.2026 12:00").
Definition overdue_now : datetime := mk_datetime 2030 1 2 9 0 30 0.

Lemma one_hour_message_any_day_witness :
  task_decision overdue_now report_task = Ok (Some Due1h).
Proof.
  apply (one_hour_message_any_day overdue_now report_task (mk_datetime 2030 1 1 10 0 0 0)
           (-1) (3570 * 1000000)).
  - reflexivity.
  - vm_compute. reflexivity.
  - vm_compute. reflexivity.
  - lia.
  - lia.
  - vm_compute. reflexivity.
Defined.

Lemma parse_deadline_date_only_witness :
  parse_deadline (Some (lit "25.12.2025")) = parse_deadline (Some (lit "25.12.2025" ++ lit " 23:59"))
  /\ parse_deadline (Some (lit "25.12.2025")) = Ok (mk_datetime 2025 12 25 23 59 0 0).
Proof.
  split; [|vm_compute; reflexivity].
  apply parse_deadline_date_only; [discriminate|repeat constructor].
Defined.

Definition none_deadline_store : store :=
  fst (create_task 42 (new_task None None (lit "09.11.2026 12:00")) report_store).

Lemma check_deadlines_crashes_on_none_deadline_witness :
  fst (check_deadlines_pass at_0900 (mk_world none_deadline_store [])) = Raise AttributeError.
Proof.
  apply (check_deadlines_crashes_on_none_deadline at_0900 none_deadline_store [] 42
           (user_tasks_of 42 none_deadline_store) (lit "2") (new_task None None (lit "09.11.2026 12:00"))).
  - decide_by_eval.
  - apply list_elem_of_In. decide_by_eval.
  - apply list_elem_of_In. decide_by_eval.
  - reflexivity.
  - reflexivity.
Defined.

(** C27: When one of the windows fires, [send_reminder] still sends nothing, and
    records nothing, exactly when less than a second is left: the
    at-deadline window is open but [.seconds] is 0 and [total_seconds()]
    is positive, so no message branch applies. *)
Theorem due_but_silent now x rec :
  reminder_due now (td_of_us x) rec = true ->
  (reminder_kind_of (td_of_us x) = None <-> 0 < x < 1000000).
Proof.
  unfold reminder_due, window_24h, window_1h, window_5min, window_now, reminder_kind_of.
  rewrite total_us_td_of_us. unfold td_of_us, us_per_day. cbn [td_days td_seconds].
  destruct (py_in (fmt_date now) rec), (py_in (fmt_date_hour now) rec), (py_in (fmt_minute now) rec);
    cbn [negb]; rewrite ?andb_false_r, ?andb_true_r, ?orb_false_r; intros Hdue;
    repeat match goal with
    | |- context [if ?b then _ else _] => destruct b eqn:?
    end; split; intros; first [discriminate | reflexivity | zlia | exfalso; zlia].
Qed.

Lemma due_but_silent_witness : reminder_kind_of (td_of_us 500000) = None.
Proof.
  apply (proj2 (due_but_silent at_0900 500000 [] ltac:(vm_compute; reflexivity))). lia.
Defined.

(** The end-to-end scenario of the specification: "Report" is due
    01.01.2030 10:00; it is listed pending with no firing record; a pass
    exactly one hour before sends one "1 hour" message and records
    ["01.01.2030 09:00"]; the pass 30 seconds later sends nothing. *)
Example report_one_hour_end_to_end :
  lookup_task 42 (lit "1") report_store = Some report_task
  /\ completed report_task = false /\ reminded_at report_task = []
  /\ w_outbox (snd (check_deadlines_pass at_0900 (mk_world report_store [])))
     = [mk_notification 42 (lit "1") Due1h]
  /\ option_map reminded_at
       (lookup_task 42 (lit "1") (w_tasks (snd (check_deadlines_pass at_0900 (mk_world report_store [])))))
     = Some [lit "01.01.2030 09:00"]
  /\ w_outbox (snd (check_deadlines_pass at_0900_30
                      (snd (check_deadlines_pass at_0900 (mk_world report_store [])))))
     = [mk_notification 42 (lit "1") Due1h].
Proof. vm_compute. repeat split. Qed.

(** A task due 12.01.2030 10:00, for the two-day window of the 24-hour
    reminder ([Gates]). *)
Definition trip_task : task :=
  new_task (Some (lit "Trip")) (Some (lit "12.01.2030 10:00")) (lit "09.11.2026 12:00").

(** In the last minute before the deadline the at-deadline window sends
    the "5 minutes" message; in the last second it sends nothing at all. *)
Example last_minute_messages :
  w_outbox (snd (check_deadlines_pass (mk_datetime 2030 1 1 9 59 30 0) (mk_world report_store [])))
  = [mk_notification 42 (lit "1") Due5min]
  /\ check_deadlines_pass (mk_datetime 2030 1 1 9 59 59 500000) (mk_world report_store [])
     = (Ok tt, mk_world report_store []).
Proof. vm_compute. split; reflexivity. Qed.

Lemma check_deadlines_loop_stops_witness :
  check_deadlines_loop [at_0900; at_0900_30] (mk_world none_deadline_store [])
  = (Raise AttributeError, snd (check_deadlines_pass at_0900 (mk_world none_deadline_store []))).
Proof.
  apply (check_deadlines_loop_stops at_0900 [at_0900_30] none_deadline_store [] 42
           (user_tasks_of 42 none_deadline_store) (lit "2") (new_task None None (lit "09.11.2026 12:00"))).
  - decide_by_eval.
  - apply list_elem_of_In. decide_by_eval.
  - apply list_elem_of_In. decide_by_eval.
  - reflexivity.
  - reflexivity.
Defined.
