(* ===== verification/Gates.v ===== *)
(** * The de-duplication gates of [check_deadlines] are structured checks

    Each reminder window of [check_deadlines] is gated by a substring
    search, [now.strftime(...) not in "".join(reminded_at)], of a date,
    hour or minute probe in the concatenation of the firing record.  A
    substring search over concatenated stamps could match across the
    boundary of two stamps (the risk the repository's notes raise).  This
    file shows it cannot, as long as the record holds minute stamps of
    clock readings of the years 1000-9999 (the shape [tasks_typed] of
    [Invariants] gives to every record): every [strftime] probe matches
    only at the start of a stamp, so the gate is the structured check
    "some stamp starts with the probe", and for the minute probe
    "the stamp is in the record".

    The argument is on character classes: a stamp reads
    [DD.DD.DDDD DD:DD] with [D] a digit, and the six first classes of a
    probe, [DD.DD.], occur in a concatenation of stamps at offsets that
    are multiples of 16 only.

    The same reading of the date gate shows what it does not prevent: the
    window of the 24-hour reminder ([.days == 1]) lasts 24 hours and so
    spans two dates, and the gate probes today's date, so two passes on
    the two dates both send the message ([reminder_24h_each_day]). *)

From stdpp Require Import base list decidable.
From Stdlib Require Import Ascii ZArith Lia.
From S2P Require Import Prelude PyStr DateTime TaskStore Scanner.

Local Open Scope Z_scope.
Local Open Scope py_scope.

(** ** Character classes of a stamp *)

Inductive cclass : Type := CDigit | CLit (c : ascii).

#[export] Instance cclass_eq_dec : EqDecision cclass.
Proof. solve_decision. Defined.

Definition cls (c : ascii) : cclass := if is_digit c then CDigit else CLit c.

(** The classes of ["%d.%m.%Y %H:%M"] for a four-digit year. *)
Definition stamp_mask : list cclass :=
  [CDigit; CDigit; CLit "."%char; CDigit; CDigit; CLit "."%char; CDigit; CDigit; CDigit; CDigit;
   CLit " "%char; CDigit; CDigit; CLit ":"%char; CDigit; CDigit].

(** A valid clock reading whose year prints with four digits. *)
Definition modern (t : datetime) : bool := valid_datetime t && (1000 <=? year t).

(** ** The probes and the stamps have the shape of the mask *)

Lemma cls_fmt02 z : 0 <= z < 100 -> map cls (fmt02 z) = [CDigit; CDigit].
Proof.
  intros Hz.
  assert (H : forallb (fun n => bool_decide (map cls (fmt02 (Z.of_nat n)) = [CDigit; CDigit]))
                (seq 0 100) = true) by (vm_compute; reflexivity).
  rewrite forallb_forall in H. specialize (H (Z.to_nat z)). rewrite Z2Nat.id in H by lia.
  assert (Hin : In (Z.to_nat z) (seq 0 100)) by (apply in_seq; lia).
  specialize (H Hin). apply bool_decide_eq_true_1 in H. exact H.
Qed.

Lemma cls_year y : 1000 <= y <= 9999 -> map cls (py_str y) = [CDigit; CDigit; CDigit; CDigit].
Proof.
  intros Hy. rewrite py_str_year by exact Hy. cbn [map]. unfold cls.
  rewrite !digit_char_is_digit by zlia. reflexivity.
Qed.

Lemma modern_ranges t :
  modern t = true ->
  0 <= day t < 100 /\ 0 <= month t < 100 /\ 1000 <= year t <= 9999
  /\ 0 <= hour t < 100 /\ 0 <= minute t < 100.
Proof.
  unfold modern. rewrite andb_true_iff, Z.leb_le. intros [Hv Hy].
  pose proof (valid_datetime_ranges t Hv). pose proof (days_in_month_le (month t) (year t)). lia.
Qed.

Lemma cls_fmt_date t : modern t = true -> map cls (fmt_date t) = take 10 stamp_mask.
Proof.
  intros Ht. destruct (modern_ranges t Ht) as (Hd & Hm & Hy & Hh & Hi).
  unfold fmt_date. rewrite !map_app. cbn [map]. rewrite !map_app. cbn [map].
  rewrite cls_fmt02, cls_fmt02, cls_year by lia.
  reflexivity.
Qed.

Lemma cls_fmt_date_hour t : modern t = true -> map cls (fmt_date_hour t) = take 13 stamp_mask.
Proof.
  intros Ht. unfold fmt_date_hour. rewrite map_app, cls_fmt_date by exact Ht. cbn [map].
  rewrite cls_fmt02 by (pose proof (modern_ranges t Ht); lia). reflexivity.
Qed.

Lemma cls_fmt_minute t : modern t = true -> map cls (fmt_minute t) = stamp_mask.
Proof.
  intros Ht. unfold fmt_minute. rewrite map_app, cls_fmt_date_hour by exact Ht. cbn [map].
  rewrite cls_fmt02 by (pose proof (modern_ranges t Ht); lia). reflexivity.
Qed.

(** ** A substring search over concatenated stamps *)

Lemma prefixb_app_long p x r : (length p <= length x)%nat -> prefixb p (x ++ r) = prefixb p x.
Proof.
  revert x. induction p as [|c p IH]; intros [|d x] Hl; cbn [length] in *; try lia; try reflexivity.
  cbn [app prefixb]. rewrite IH by lia. reflexivity.
Qed.

Lemma existsb_map {A B} (f : B -> bool) (g : A -> B) (l : list A) :
  existsb f (map g l) = existsb (fun x => f (g x)) l.
Proof. induction l as [|x l IH]; cbn; [reflexivity|rewrite IH; reflexivity]. Qed.

(** The search in [x ++ r]: at an offset inside [x], or inside [r]. *)
Lemma py_in_app p x r :
  py_in p (x ++ r) = existsb (fun k => prefixb p (drop k (x ++ r))) (seq 0 (length x)) || py_in p r.
Proof.
  induction x as [|c x IH]; [reflexivity|].
  cbn [app length py_in]. rewrite IH. cbn [seq existsb drop]. rewrite <- seq_shift, existsb_map.
  cbn [drop]. rewrite orb_assoc. reflexivity.
Qed.

Lemma prefixb_cls p w : prefixb p w = true -> map cls p = take (length p) (map cls w).
Proof.
  intros H. apply prefixb_spec in H as [r ->]. rewrite map_app, take_app_length'; [reflexivity|].
  symmetry; apply length_map.
Qed.

Lemma take_app_take {A} (n : nat) (u v : list A) : take n (u ++ v) = take n (u ++ take n v).
Proof. rewrite !take_app, take_take. f_equal. f_equal. lia. Qed.

(** The first six classes of the mask, [DD.DD.], occur at no offset 1-15
    of a stamp followed by nothing or by another stamp. *)
Lemma misaligned k M :
  (1 <= k <= 15)%nat -> M = [] \/ M = take 6 stamp_mask ->
  take 6 (drop k stamp_mask ++ M) <> take 6 stamp_mask.
Proof.
  intros Hk HM.
  assert (H : forallb (fun k => bool_decide (take 6 (drop k stamp_mask) <> take 6 stamp_mask)
                  && bool_decide (take 6 (drop k stamp_mask ++ take 6 stamp_mask) <> take 6 stamp_mask))
                (seq 1 15) = true) by (vm_compute; reflexivity).
  rewrite forallb_forall in H. specialize (H k). rewrite andb_true_iff in H.
  destruct H as [H1 H2]; [apply in_seq; lia|].
  apply bool_decide_eq_true_1 in H1, H2.
  destruct HM as [->| ->]; [rewrite app_nil_r|]; assumption.
Qed.

Section Probe.
Variable p : pystr.
Hypothesis Hp6 : take 6 (map cls p) = take 6 stamp_mask.
Hypothesis Hplen : (6 <= length p <= 16)%nat.

Lemma aligned_only st r k :
  map cls st = stamp_mask ->
  take 6 (map cls r) = [] \/ take 6 (map cls r) = take 6 stamp_mask ->
  (1 <= k <= 15)%nat -> prefixb p (drop k (st ++ r)) = false.
Proof.
  intros Hst Hr Hk. destruct (prefixb p (drop k (st ++ r))) eqn:E; [exfalso|reflexivity].
  apply prefixb_cls in E.
  assert (Hl : length st = 16%nat) by (rewrite <- (length_map cls), Hst; reflexivity).
  rewrite <- skipn_map, map_app, Hst, drop_app_le in E by (cbn; lia).
  apply (f_equal (take 6)) in E. rewrite Hp6, take_take, Nat.min_l in E by lia.
  rewrite take_app_take in E. exact (misaligned k _ Hk Hr (eq_sym E)).
Qed.

Lemma take6_concat rec :
  Forall (fun st => map cls st = stamp_mask) rec ->
  take 6 (map cls (concat rec)) = [] \/ take 6 (map cls (concat rec)) = take 6 stamp_mask.
Proof.
  intros H. destruct H as [|st rest Hst _]; [left; reflexivity|right].
  cbn [concat]. rewrite map_app, Hst, take_app_le by (cbn; lia). reflexivity.
Qed.

(** The search of a probe in a record of stamps is the search of a stamp
    the probe starts. *)
Lemma py_in_stamps rec :
  Forall (fun st => map cls st = stamp_mask) rec -> py_in p (concat rec) = existsb (prefixb p) rec.
Proof.
  induction 1 as [|st rest Hst Hrest IH].
  - destruct p; [cbn in Hplen; lia|reflexivity].
  - cbn [concat existsb]. rewrite py_in_app, IH.
    assert (Hl : length st = 16%nat) by (rewrite <- (length_map cls), Hst; reflexivity).
    rewrite Hl. change (seq 0 16) with (0%nat :: seq 1 15). cbn [existsb drop].
    change (drop 0 (st ++ concat rest)) with (st ++ concat rest).
    rewrite prefixb_app_long by lia. f_equal.
    replace (existsb _ (seq 1 15)) with false; [apply orb_false_r|].
    symmetry. apply not_true_iff_false. rewrite existsb_exists. intros (k & Hk & E).
    apply in_seq in Hk. rewrite (aligned_only st (concat rest) k Hst (take6_concat rest Hrest)) in E;
      [discriminate|lia].
Qed.

End Probe.

Lemma prefix_stamp_eq p st :
  length p = length st -> prefixb p st = true -> p = st.
Proof.
  intros Hl H. apply prefixb_spec in H as [r ->]. rewrite length_app in Hl.
  destruct r; [rewrite app_nil_r; reflexivity|cbn in Hl; lia].
Qed.

Lemma probe_shape q n :
  map cls q = take n stamp_mask -> (6 <= n <= 16)%nat ->
  take 6 (map cls q) = take 6 stamp_mask /\ (6 <= length q <= 16)%nat.
Proof.
  intros Hq Hn. rewrite Hq, take_take, Nat.min_l by lia. split; [reflexivity|].
  rewrite <- (length_map cls), Hq, length_take. cbn [length stamp_mask]. lia.
Qed.

Lemma stamps_shape rec :
  Forall (fun st => exists t, modern t = true /\ st = fmt_minute t) rec ->
  Forall (fun st => map cls st = stamp_mask) rec.
Proof. intros H. eapply Forall_impl; [|exact H]. intros st (t & Ht & ->). apply cls_fmt_minute, Ht. Qed.

(** ** The gates *)

(** C30: Equivalence of the de-duplication gates with structured checks:
    on a firing record of minute stamps of clock readings of the years
    1000-9999, the substring search of the date probe and of the hour
    probe in ["".join(reminded_at)] finds exactly the stamps the probe
    starts, and the search of the minute probe finds exactly the stamps
    equal to it: no probe ever matches across two stamps. *)
Theorem dedup_gates_structured now rec :
  modern now = true ->
  Forall (fun st => exists t, modern t = true /\ st = fmt_minute t) rec ->
  py_in (fmt_date now) (join rec) = existsb (prefixb (fmt_date now)) rec
  /\ py_in (fmt_date_hour now) (join rec) = existsb (prefixb (fmt_date_hour now)) rec
  /\ (py_in (fmt_minute now) (join rec) = true <-> In (fmt_minute now) rec).
Proof.
  intros Hn Hr. apply stamps_shape in Hr. unfold join.
  destruct (probe_shape _ 10 (cls_fmt_date now Hn)) as [D1 D2]; [lia|].
  destruct (probe_shape _ 13 (cls_fmt_date_hour now Hn)) as [H1 H2]; [lia|].
  destruct (probe_shape _ 16 (cls_fmt_minute now Hn)) as [M1 M2]; [lia|].
  split; [exact (py_in_stamps _ D1 D2 rec Hr)|split; [exact (py_in_stamps _ H1 H2 rec Hr)|]].
  rewrite (py_in_stamps _ M1 M2 rec Hr), existsb_exists. split.
  - intros (st & Hin & Hp). rewrite Forall_forall in Hr.
    assert (Hl : length (fmt_minute now) = length st)
      by (rewrite <- (length_map cls (fmt_minute now)), <- (length_map cls st), (Hr st Hin),
            (cls_fmt_minute now Hn); reflexivity).
    rewrite (prefix_stamp_eq _ _ Hl Hp). exact Hin.
  - intros Hin. exists (fmt_minute now). split; [exact Hin|]. apply prefixb_spec. exists []. symmetry. apply app_nil_r.
Qed.

Definition gate_now : datetime := mk_datetime 2026 11 9 14 57 0 0.

Definition gate_record : list pystr :=
  [fmt_minute (mk_datetime 2026 11 8 9 5 0 0); fmt_minute (mk_datetime 2026 11 9 13 57 0 0)].

Lemma dedup_gates_structured_witness :
  modern gate_now = true
  /\ Forall (fun st => exists t, modern t = true /\ st = fmt_minute t) gate_record
  /\ (py_in (fmt_minute gate_now) (join gate_record) = true <-> In (fmt_minute gate_now) gate_record).
Proof.
  assert (H1 : modern gate_now = true) by reflexivity.
  assert (H2 : Forall (fun st => exists t, modern t = true /\ st = fmt_minute t) gate_record)
    by (unfold gate_record; repeat (apply Forall_cons_2; [eexists; split; [|reflexivity]; reflexivity|]); apply Forall_nil_2).
  split; [exact H1|split; [exact H2|]].
  exact (proj2 (proj2 (dedup_gates_structured gate_now gate_record H1 H2))).
Defined.

(** ** The 24-hour reminder on two calendar days *)

(** The date gate alone, on a record of minute stamps. *)
Lemma gate_date_structured now rec :
  modern now = true ->
  Forall (fun st => exists t, modern t = true /\ st = fmt_minute t) rec ->
  py_in (fmt_date now) (join rec) = existsb (prefixb (fmt_date now)) rec.
Proof.
  intros Hn Hr. apply stamps_shape in Hr. unfold join.
  destruct (probe_shape _ 10 (cls_fmt_date now Hn)) as [D1 D2]; [lia|].
  exact (py_in_stamps _ D1 D2 rec Hr).
Qed.

Lemma length_fmt_date t : modern t = true -> length (fmt_date t) = 10%nat.
Proof. intros Ht. rewrite <- (length_map cls), (cls_fmt_date t Ht). reflexivity. Qed.

(** The minute stamp of one day does not start with the date of another. *)
Lemma date_probe_other n1 n2 :
  modern n1 = true -> modern n2 = true -> fmt_date n1 <> fmt_date n2 ->
  prefixb (fmt_date n2) (fmt_minute n1) = false.
Proof.
  intros H1 H2 Hne. destruct (proj1 (prefixb_spec _ _) (fmt_date_prefix_minute n1)) as [r ->].
  rewrite prefixb_app_long by (rewrite !length_fmt_date by assumption; lia).
  destruct (prefixb _ _) eqn:E; [|reflexivity]. exfalso. apply Hne. symmetry.
  apply prefix_stamp_eq; [rewrite !length_fmt_date by assumption; reflexivity|exact E].
Qed.

(** With [.days == 1] and no stamp of today's date, the task is due for
    the 24-hour message: the first window of the chain fires. *)
Lemma task_decision_24h now t dl :
  completed t = false -> parse_deadline (deadline t) = Ok dl ->
  td_days (dt_sub dl now) = 1 -> py_in (fmt_date now) (join (reminded_at t)) = false ->
  task_decision now t = Ok (Some Due24h).
Proof.
  intros Hc Hp Hd Hg. unfold task_decision, reminder_due, window_24h, reminder_kind_of.
  rewrite Hc, Hp, Hd, Hg. reflexivity.
Qed.

Lemma one_task_wf uid tid t : store_wf [(uid, [(tid, t)])].
Proof. split; cbn; repeat constructor; apply not_elem_of_nil. Qed.

(** C26: The "24 hours" reminder of a deadline fires once on each calendar day
    on which [.days == 1] holds at a pass: the gate probes today's date,
    and the window lasts 24 hours, so it spans two dates.  Two passes at
    readings of different dates both inside the window, on a task whose
    record has no stamp of either date, send the message twice. *)
Theorem reminder_24h_each_day n1 n2 uid tid t dl out :
  modern n1 = true -> modern n2 = true -> fmt_date n1 <> fmt_date n2 ->
  completed t = false -> parse_deadline (deadline t) = Ok dl ->
  td_days (dt_sub dl n1) = 1 -> td_days (dt_sub dl n2) = 1 ->
  Forall (fun st => exists x, modern x = true /\ st = fmt_minute x) (reminded_at t) ->
  existsb (prefixb (fmt_date n1)) (reminded_at t) = false ->
  existsb (prefixb (fmt_date n2)) (reminded_at t) = false ->
  w_outbox (snd (check_deadlines_pass n2 (snd (check_deadlines_pass n1 (mk_world [(uid, [(tid, t)])] out)))))
  = out ++ [mk_notification uid tid Due24h; mk_notification uid tid Due24h].
Proof.
  intros H1 H2 Hne Hc Hp Hd1 Hd2 Hr Hg1 Hg2.
  rewrite pass_computes_spec by apply one_task_wf. cbn [scan_spec scan_user_spec].
  rewrite (task_decision_24h n1 t dl) by (rewrite ?gate_date_structured; assumption).
  cbn [snd]. rewrite pass_computes_spec by apply one_task_wf. cbn [scan_spec scan_user_spec].
  rewrite (task_decision_24h n2 _ dl); [cbn; rewrite <- app_assoc; reflexivity|assumption..|].
  cbn [reminded_at push_reminded]. rewrite gate_date_structured by (try apply Forall_app_2; eauto).
  rewrite existsb_app, Hg2. cbn. rewrite date_probe_other by assumption. reflexivity.
Qed.

Lemma reminder_24h_each_day_witness :
  w_outbox (snd (check_deadlines_pass (mk_datetime 2030 1 11 0 0 10 0)
                   (snd (check_deadlines_pass (mk_datetime 2030 1 10 10 0 30 0)
                           (mk_world [(42, [(["1"%char], trip_task)])] [])))))
  = [] ++ [mk_notification 42 ["1"%char] Due24h; mk_notification 42 ["1"%char] Due24h].
Proof.
  apply (reminder_24h_each_day (mk_datetime 2030 1 10 10 0 30 0) (mk_datetime 2030 1 11 0 0 10 0)
           42 ["1"%char] trip_task (mk_datetime 2030 1 12 10 0 0 0) []);
    try reflexivity.
  - intros H. vm_compute in H. discriminate.
  - apply Forall_nil_2.
Defined.

