(* ===== verification/Keyboards.v ===== *)
(** * The inline keyboards: [get_task_keyboard], [get_month_keyboard],
      [get_day_keyboard] and the hour and minute pickers

    A keyboard is the list of its buttons' [callback_data] payloads, in the
    order the code adds them with [kb.button], and the row sizes passed to
    [kb.adjust].  Button captions are not modelled: they are display text
    only, and no handler reads them back.  [adjust] is aiogram's
    [InlineKeyboardBuilder.adjust] (the last size repeats for the buttons
    that remain), used to state where the buttons land.

    The theorems: [adjust] terminates with every button placed, the fuel
    [rows] gives it (the number of buttons) being enough
    ([adjust_rows_terminates]); every layout the code computes places each
    button in the intended row ([keyboard_layouts_honoured]); the month picker offers exactly the
    consecutive months from the current one, 6 to 15 of them, and never the
    previous December its first season lists; the day picker lists the days
    from today (in the current month) or from the 1st to the month's last
    day, so its "no available days" branch is dead; the hour picker's hours
    and the minute picker's minutes are the future ones, the latter empty
    exactly from minute 55 on. *)

From stdpp Require Import base list decidable strings.
From Stdlib Require Import Ascii ZArith Lia.
From S2P Require Import Prelude PyStr DateTime TaskStore.

Local Open Scope Z_scope.
Local Open Scope py_scope.

(** ** Keyboards and aiogram's row layout *)

Record markup : Type := mk_markup {
  kb_buttons : list pystr;
  kb_layout : list Z
}.

#[export] Instance markup_eq_dec : EqDecision markup.
Proof. solve_decision. Defined.

(** [InlineKeyboardBuilder.adjust( *sizes)]: a row is closed when it holds
    the current size, and the next size is taken, the last one repeating. *)
Fixpoint adjust_rows (sizes : list Z) (btns : list pystr) (fuel : nat)
    : list (list pystr) :=
  match fuel with
  | O => []
  | S f =>
      match btns with
      | [] => []
      | _ =>
          let sz := match sizes with [] => 1 | s :: _ => s end in
          let rest := match sizes with [_] | [] => sizes | _ :: ss => ss end in
          take (Z.to_nat sz) btns :: adjust_rows rest (drop (Z.to_nat sz) btns) f
      end
  end.

Definition rows (m : markup) : list (list pystr) :=
  adjust_rows (kb_layout m) (kb_buttons m) (length (kb_buttons m)).

(** ** [get_task_keyboard] *)

Definition get_task_keyboard (s : store) (uid : Z) (tid : option pystr) : markup :=
  match tid with
  | Some t =>
      mk_markup [lit "complete_" ++ t; lit "edit_" ++ t; lit "delete_" ++ t; lit "list_tasks"]
        [2; 2]
  | None =>
      let views :=
        match dict_get uid s with
        | Some (_ :: _ as ut) => map (fun '(k, _) => lit "view_" ++ k) ut
        | _ => []
        end in
      mk_markup (views ++ [lit "add_task"]) [1]
  end.

(** ** [get_month_keyboard] *)

(** The month groups by season, [(month, year)] pairs. *)
Definition seasons (cm cy : Z) : list (list (Z * Z)) :=
  (if cm <=? 2 then [[(12, cy - 1); (1, cy); (2, cy)]] else [])
  ++ (if cm <=? 5 then [[(3, cy); (4, cy); (5, cy)]] else [])
  ++ (if cm <=? 8 then [[(6, cy); (7, cy); (8, cy)]] else [])
  ++ (if cm <=? 11 then [[(9, cy); (10, cy); (11, cy)]] else [])
  ++ [[(12, cy); (1, cy + 1); (2, cy + 1)]]
  ++ (if 2 <? cm then [[(3, cy + 1); (4, cy + 1); (5, cy + 1)]] else []).

(** [year > current_year or (year == current_year and month_num >= current_month)] *)
Definition not_past (cm cy : Z) (p : Z * Z) : bool :=
  (cy <? p.2) || ((p.2 =? cy) && (cm <=? p.1)).

Definition month_payload (p : Z * Z) : pystr :=
  lit "month_" ++ py_str p.1 ++ "_"%char :: py_str p.2.

(** The months offered, in the order of their buttons. *)
Definition month_options (now : datetime) : list (Z * Z) :=
  concat (map (List.filter (not_past (month now) (year now))) (seasons (month now) (year now))).

(** [num_months], computed by the code with a separate sum. *)
Definition num_months (now : datetime) : Z :=
  sum_list (map (fun season => Z.of_nat (length (List.filter (not_past (month now) (year now)) season)))
              (seasons (month now) (year now))).

Definition month_layout (n : Z) : list Z :=
  [1] ++ repeat 3 (Z.to_nat (n / 3)) ++ (if 0 <? n mod 3 then [n mod 3] else []) ++ [1].

Definition get_month_keyboard (now : datetime) : markup :=
  mk_markup (lit "ignore" :: map month_payload (month_options now) ++ [lit "hide_calendar"])
    (month_layout (num_months now)).

(** ** [get_day_keyboard] *)

Definition day_payload (d m y : Z) : pystr :=
  lit "day_" ++ py_str d ++ "_"%char :: py_str m ++ "_"%char :: py_str y.

(** [start_day]: today in the current month, the 1st otherwise. *)
Definition start_day (now : datetime) (m y : Z) : Z :=
  if (m =? month now) && (y =? year now) then day now else 1.

Definition day_layout (n : Z) : list Z :=
  let num_day_rows := (n + 7 - 1) / 7 in
  repeat 7 (Z.to_nat (num_day_rows - 1))
  ++ (if 0 <? n mod 7 then [n mod 7] else [7]) ++ [3].

(** [datetime(year, month, 1)] and [datetime(year, month, start_day)]
    raise [ValueError] on an invalid date; the weekday computed from the
    latter is unused. *)
Definition get_day_keyboard (now : datetime) (m y : Z) : result markup :=
  let dim := days_in_month m y in
  let sd := start_day now m y in
  if negb (valid_date y m 1) then Raise ValueError
  else if negb (valid_date y m sd) then Raise ValueError
  else
    let days := py_range sd (dim + 1) in
    match days with
    | [] => Ok (mk_markup [lit "ignore"; lit "back_to_month"; lit "hide_calendar"] [1; 2])
    | _ =>
        Ok (mk_markup
              (map (fun d => day_payload d m y) days
               ++ [lit "back_to_month"; lit "hide_calendar"; day_payload (day now) (month now) (year now)])
              (day_layout (Z.of_nat (length days))))
    end.

(** ** The hour picker of [process_day_selection] *)

Definition available_hours (now : datetime) (d m y : Z) : list Z :=
  if (d =? day now) && (m =? month now) && (y =? year now)
  then py_range (hour now) 24 else py_range 0 24.

Definition picker_rows (per_row n : Z) : list Z :=
  let bpr := Z.min per_row n in
  repeat bpr (Z.to_nat (n / bpr)) ++ (if 0 <? n mod bpr then [n mod bpr] else []).

Definition hour_keyboard (now : datetime) (d m y : Z) : markup :=
  let hs := available_hours now d m y in
  let n := Z.of_nat (length hs) in
  mk_markup
    (lit "ignore" :: map (fun h => lit "hour_" ++ fmt02 h) hs
     ++ [lit "time_all_day"; lit "back_to_day"; lit "hide_calendar"])
    (if 0 <? n then [1] ++ picker_rows 6 n ++ [1; 2] else [1; 1; 2]).

(** ** The minute picker of [process_hour_selection] *)

Definition available_minutes (now : datetime) (d m y h : Z) : list Z :=
  if (d =? day now) && (m =? month now) && (y =? year now) && (h =? hour now) then
    let r := (minute now / 5 + 1) * 5 in
    if r <? 60 then py_range_step r 60 5 else []
  else py_range_step 0 60 5.

(** The keyboard for [hour], the payload string kept as the callback
    carried it; without minutes, the one-button keyboard of the "No
    available minutes" reply, built without [adjust]. *)
Definition minute_keyboard (hour_s : pystr) (ms : list Z) : markup :=
  let n := Z.of_nat (length ms) in
  if 0 <? n then
    mk_markup
      (lit "ignore" :: map (fun mi => lit "fulltime_" ++ hour_s ++ ":"%char :: fmt02 mi) ms
       ++ [lit "back_to_time"; lit "hide_calendar"])
      ([1] ++ picker_rows 4 n ++ [2])
  else mk_markup [lit "back_to_time"] [].

(** ** The month picker's specification *)

(** The [k]-th month after [(cm, cy)] on the calendar. *)
Definition month_after (cm cy : Z) (k : nat) : Z * Z :=
  let i := cm - 1 + Z.of_nat k in (i mod 12 + 1, cy + i / 12).

(** The [n] consecutive months from [(cm, cy)]. *)
Definition months_from (cm cy : Z) (n : nat) : list (Z * Z) :=
  map (month_after cm cy) (seq 0 n).

(** ** Layouts *)

(** A layout fits its keyboard: every row size is positive and the sizes
    add up to the number of buttons. *)
Definition layout_fits (m : markup) : Prop :=
  Forall (fun sz => 0 < sz) (kb_layout m)
  /\ sum_list (kb_layout m) = Z.of_nat (length (kb_buttons m)).

(** aiogram lays the keyboard out in rows of exactly the layout's sizes,
    the buttons in their order. *)
Definition honours_layout (m : markup) : Prop :=
  map (fun r => Z.of_nat (length r)) (rows m) = kb_layout m /\ concat (rows m) = kb_buttons m.

#[export] Instance layout_fits_decision m : Decision (layout_fits m).
Proof. unfold layout_fits. apply _. Defined.

Lemma length_le_sum sizes :
  Forall (fun sz => 0 < sz) sizes -> Z.of_nat (length sizes) <= sum_list sizes.
Proof. induction 1; simpl; lia. Qed.

Lemma adjust_rows_exact sizes : forall btns fuel,
  Forall (fun sz => 0 < sz) sizes ->
  sum_list sizes = Z.of_nat (length btns) ->
  (length btns <= fuel)%nat ->
  map (fun r => Z.of_nat (length r)) (adjust_rows sizes btns fuel) = sizes
  /\ concat (adjust_rows sizes btns fuel) = btns.
Proof.
  induction sizes as [|sz ss IH]; intros btns fuel Hpos Hsum Hf.
  - destruct btns; [|cbn [sum_list length] in Hsum; lia]. destruct fuel; split; reflexivity.
  - inversion Hpos as [|? ? Hsz Hss]; subst. cbn [sum_list] in Hsum.
    pose proof (length_le_sum ss Hss).
    destruct fuel as [|f]; [destruct btns; cbn [length] in *; lia|].
    destruct btns as [|b bs]; [cbn [length] in *; lia|].
    destruct ss as [|sz' ss'].
    + cbn [sum_list length] in *. cbn [adjust_rows].
      rewrite take_ge, drop_ge by (cbn [length]; lia).
      destruct f; cbn [adjust_rows map concat]; rewrite ?app_nil_r; split; try reflexivity;
        f_equal; cbn [length]; lia.
    + cbn [adjust_rows].
      assert (Hl : length (take (Z.to_nat sz) (b :: bs)) = Z.to_nat sz)
        by (rewrite length_take; cbn [length sum_list] in *; lia).
      destruct (IH (drop (Z.to_nat sz) (b :: bs)) f) as [IH1 IH2]; auto;
        try (rewrite length_drop; cbn [length] in *; lia).
      cbn [map concat]. rewrite IH1, IH2, take_drop, Hl. split; [f_equal; lia|reflexivity].
Qed.

(** Under a fitting layout, aiogram's rows have exactly the sizes of the
    layout and hold the buttons in their order. *)
Lemma rows_layout m :
  layout_fits m ->
  map (fun r => Z.of_nat (length r)) (rows m) = kb_layout m /\ concat (rows m) = kb_buttons m.
Proof. intros [Hpos Hsum]. apply adjust_rows_exact; auto. Qed.

Lemma adjust_rows_ones btns fuel :
  (length btns <= fuel)%nat -> adjust_rows [1] btns fuel = map (fun b => [b]) btns.
Proof.
  revert fuel. induction btns as [|b bs IH]; intros [|f] Hf; cbn [length] in *; try lia;
    [reflexivity|reflexivity|].
  cbn [adjust_rows]. change (Z.to_nat 1) with 1%nat. cbn [take drop map]. f_equal. apply IH. lia.
Qed.

(** Positivity of the sizes of a literal list of row sizes. *)
Ltac forall_lit := repeat first [apply Forall_nil_2 | apply Forall_cons_2; [lia|]].

(** Positivity of the row sizes of a computed layout. *)
Ltac sizes_pos :=
  repeat apply Forall_app_2;
  first [ apply Forall_forall; intros ? Hx; apply list_elem_of_In, repeat_spec in Hx; lia
        | case_match; repeat constructor; first [apply Z.ltb_lt; assumption | lia]
        | repeat constructor; lia ].

Lemma picker_rows_fit per n : 0 < per -> 0 < n ->
  Forall (fun sz => 0 < sz) (picker_rows per n) /\ sum_list (picker_rows per n) = n.
Proof.
  intros Hp Hn. unfold picker_rows. set (b := Z.min per n).
  assert (Hb : 0 < b) by lia.
  pose proof (Z.div_mod n b ltac:(lia)). pose proof (Z.mod_pos_bound n b Hb).
  split.
  - sizes_pos.
  - autorewrite with pyrw. rewrite Z2Nat.id by (apply Z.div_pos; lia).
    destruct (0 <? n mod b) eqn:E; cbn [sum_list]; [lia|]. apply Z.ltb_ge in E. lia.
Qed.

Lemma day_layout_fit n : 0 < n ->
  Forall (fun sz => 0 < sz) (day_layout n) /\ sum_list (day_layout n) = n + 3.
Proof.
  intros Hn. unfold day_layout.
  assert (0 <= (n + 7 - 1) / 7 - 1) by zlia.
  split.
  - sizes_pos.
  - autorewrite with pyrw. rewrite Z2Nat.id by lia.
    destruct (0 <? n mod 7) eqn:E; cbn [sum_list];
      [apply Z.ltb_lt in E|apply Z.ltb_ge in E]; zlia.
Qed.

Lemma month_layout_fit n : 0 <= n ->
  Forall (fun sz => 0 < sz) (month_layout n) /\ sum_list (month_layout n) = n + 2.
Proof.
  intros Hn. unfold month_layout. split.
  - sizes_pos.
  - autorewrite with pyrw. rewrite Z2Nat.id by (apply Z.div_pos; lia).
    destruct (0 <? n mod 3) eqn:E; cbn [sum_list];
      [apply Z.ltb_lt in E|apply Z.ltb_ge in E]; zlia.
Qed.

Lemma sum_filter_lengths {A} (p : A -> bool) (ls : list (list A)) :
  sum_list (map (fun l => Z.of_nat (length (List.filter p l))) ls)
  = Z.of_nat (length (concat (map (List.filter p) ls))).
Proof. induction ls as [|l ls IH]; cbn [map concat sum_list]; [reflexivity|]. rewrite length_app. lia. Qed.

Lemma num_months_length now : num_months now = Z.of_nat (length (month_options now)).
Proof. apply sum_filter_lengths. Qed.

Lemma year_cmp_simpl cy :
  (cy <? cy - 1) = false /\ (cy - 1 =? cy) = false /\ (cy <? cy) = false
  /\ (cy =? cy) = true /\ (cy <? cy + 1) = true /\ (cy + 1 =? cy) = false.
Proof. repeat split; first [apply Z.ltb_ge | apply Z.eqb_neq | apply Z.ltb_lt | apply Z.eqb_eq]; lia. Qed.

(** Enumerates the value of an integer in a small interval. *)
Ltac enum_range x :=
  let rec go :=
    first [ assert (x = x) as _ by reflexivity;
            match goal with H : ?lo <= x <= ?hi |- _ =>
              first [ assert (lo = hi) by lia; assert (x = lo) as -> by lia
                    | destruct (Z.eq_dec x lo) as [->|?];
                      [| assert (Z.succ lo <= x <= hi) by lia; clear H; go] ] end ] in
  go.

Lemma month_options_from now :
  1 <= month now <= 12 ->
  month_options now
  = months_from (month now) (year now)
      (Z.to_nat (if month now <=? 2 then 15 - month now else 18 - month now)).
Proof.
  unfold month_options, months_from, month_after, seasons.
  destruct now as [cy cm ? ? ? ? ?]. cbn [month year]. intros Hm.
  destruct (year_cmp_simpl cy) as (E1 & E2 & E3 & E4 & E5 & E6).
  unfold not_past.
  enum_range cm; simpl; rewrite ?E1, ?E2, ?E3, ?E4, ?E5, ?E6; simpl;
    rewrite ?Z.add_0_r; reflexivity.
Qed.

Lemma months_from_not_before cm cy n m y :
  1 <= cm -> In (m, y) (months_from cm cy n) -> cy <= y.
Proof.
  unfold months_from, month_after. rewrite in_map_iff. intros Hcm (k & Hk & _).
  injection Hk as _ <-. assert (0 <= (cm - 1 + Z.of_nat k) / 12) by (apply Z.div_pos; lia). lia.
Qed.

Lemma days_in_month_ge m y : 28 <= days_in_month m y.
Proof. unfold days_in_month. repeat case_match; lia. Qed.

Lemma start_day_range now m y :
  valid_datetime now = true -> 1 <= start_day now m y <= days_in_month m y.
Proof.
  intros Hv. apply valid_datetime_ranges in Hv. unfold start_day.
  pose proof (days_in_month_ge m y).
  destruct (Z.eqb_spec m (month now)), (Z.eqb_spec y (year now)); cbn [andb]; subst; lia.
Qed.

Lemma valid_date_iff y m d :
  valid_date y m d = true <-> 1 <= y <= 9999 /\ 1 <= m <= 12 /\ 1 <= d <= days_in_month m y.
Proof. unfold valid_date. rewrite !andb_true_iff, !Z.leb_le. tauto. Qed.

Lemma py_range_nil a b : py_range a b = [] <-> b <= a.
Proof. rewrite <- length_zero_iff_nil, length_py_range. lia. Qed.

Lemma get_day_keyboard_ok now m y :
  valid_datetime now = true -> 1 <= y <= 9999 -> 1 <= m <= 12 ->
  get_day_keyboard now m y
  = Ok (mk_markup
          (map (fun d => day_payload d m y) (py_range (start_day now m y) (days_in_month m y + 1))
           ++ [lit "back_to_month"; lit "hide_calendar"; day_payload (day now) (month now) (year now)])
          (day_layout (Z.of_nat (length (py_range (start_day now m y) (days_in_month m y + 1)))))).
Proof.
  intros Hv Hy Hm. pose proof (start_day_range now m y Hv) as Hs.
  pose proof (days_in_month_ge m y).
  unfold get_day_keyboard.
  replace (valid_date y m 1) with true by (symmetry; apply valid_date_iff; lia).
  replace (valid_date y m (start_day now m y)) with true by (symmetry; apply valid_date_iff; lia).
  cbn [negb]. destruct (py_range _ _) eqn:E; [apply py_range_nil in E; lia|reflexivity].
Qed.

Lemma get_day_keyboard_raise now m y e :
  valid_datetime now = true ->
  get_day_keyboard now m y = Raise e -> e = ValueError /\ ~ (1 <= y <= 9999 /\ 1 <= m <= 12).
Proof.
  intros Hv H. split.
  - unfold get_day_keyboard in H. repeat case_match; congruence.
  - intros [Hy Hm]. rewrite get_day_keyboard_ok in H by assumption. discriminate.
Qed.

Lemma available_hours_spec now d m y h :
  valid_datetime now = true ->
  In h (available_hours now d m y)
  <-> 0 <= h < 24 /\ ((d = day now /\ m = month now /\ y = year now) -> hour now <= h).
Proof.
  intros Hv. apply valid_datetime_ranges in Hv. unfold available_hours.
  destruct (Z.eqb_spec d (day now)), (Z.eqb_spec m (month now)), (Z.eqb_spec y (year now));
    cbn [andb]; rewrite in_py_range; intuition lia.
Qed.

Lemma available_hours_nonempty now d m y :
  valid_datetime now = true -> available_hours now d m y <> [].
Proof.
  intros Hv. apply valid_datetime_ranges in Hv. unfold available_hours.
  case_match; rewrite py_range_nil; lia.
Qed.

(** The guard of the minute picker: the picked day and hour are now. *)
Definition is_current_hour (now : datetime) (d m y h : Z) : Prop :=
  d = day now /\ m = month now /\ y = year now /\ h = hour now.

Lemma available_minutes_cases now d m y h :
  (is_current_hour now d m y h
   /\ available_minutes now d m y h
      = if (minute now / 5 + 1) * 5 <? 60 then py_range_step ((minute now / 5 + 1) * 5) 60 5 else [])
  \/ (~ is_current_hour now d m y h /\ available_minutes now d m y h = py_range_step 0 60 5).
Proof.
  unfold available_minutes, is_current_hour.
  destruct (Z.eqb_spec d (day now)), (Z.eqb_spec m (month now)), (Z.eqb_spec y (year now)),
    (Z.eqb_spec h (hour now)); cbn [andb]; [left; auto|right; split; [intuition|reflexivity]..].
Qed.

Lemma available_minutes_spec now d m y h mi :
  valid_datetime now = true ->
  In mi (available_minutes now d m y h)
  <-> 0 <= mi < 60 /\ mi mod 5 = 0 /\ (is_current_hour now d m y h -> minute now < mi).
Proof.
  intros Hv. apply valid_datetime_ranges in Hv.
  destruct (available_minutes_cases now d m y h) as [[Hc ->]|[Hc ->]].
  - destruct (Z.ltb_spec ((minute now / 5 + 1) * 5) 60).
    + rewrite in_py_range_step by lia. split; intros; intuition zlia.
    + split; [intros []|intros (? & ? & Hlt); specialize (Hlt Hc); zlia].
  - rewrite in_py_range_step by lia. split; intros; intuition zlia.
Qed.

Lemma available_minutes_nil now d m y h :
  valid_datetime now = true ->
  available_minutes now d m y h = [] <-> is_current_hour now d m y h /\ 55 <= minute now.
Proof.
  intros Hv. apply valid_datetime_ranges in Hv.
  destruct (available_minutes_cases now d m y h) as [[Hc ->]|[Hc ->]].
  - destruct (Z.ltb_spec ((minute now / 5 + 1) * 5) 60).
    + rewrite <- length_zero_iff_nil. unfold py_range_step. rewrite length_map, length_seq.
      split; [intros; zlia|intros [_ ?]; zlia].
    + split; [intros _; split; [assumption|zlia]|reflexivity].
  - split; [discriminate|intros [? _]; contradiction].
Qed.

Lemma hour_keyboard_fits now d m y : layout_fits (hour_keyboard now d m y).
Proof.
  unfold hour_keyboard, layout_fits. cbn [kb_layout kb_buttons].
  set (n := Z.of_nat (length (available_hours now d m y))).
  rewrite length_cons, !length_app, length_map. cbn [length].
  destruct (Z.ltb_spec 0 n).
  - destruct (picker_rows_fit 6 n) as [Hp Hs]; [lia|lia|].
    split; [apply Forall_app_2; [forall_lit|apply Forall_app_2; [exact Hp|forall_lit]]|].
    cbn [sum_list app]. rewrite ?sum_list_app, Hs. cbn [sum_list]. lia.
  - split; [forall_lit|]. cbn [sum_list]. lia.
Qed.

Lemma minute_keyboard_fits hs ms : ms <> [] -> layout_fits (minute_keyboard hs ms).
Proof.
  intros Hne. unfold minute_keyboard.
  assert (Hn : 0 < Z.of_nat (length ms)) by (destruct ms; [congruence|cbn [length]; lia]).
  destruct (Z.ltb_spec 0 (Z.of_nat (length ms))); [|lia].
  destruct (picker_rows_fit 4 (Z.of_nat (length ms))) as [Hp Hs]; [lia|lia|].
  unfold layout_fits. cbn [kb_layout kb_buttons].
  split; [apply Forall_app_2; [forall_lit|apply Forall_app_2; [exact Hp|forall_lit]]|].
  cbn [sum_list app]. rewrite ?sum_list_app, Hs, length_cons, length_app, length_map.
  cbn [sum_list length]. lia.
Qed.

Lemma month_keyboard_fits now : layout_fits (get_month_keyboard now).
Proof.
  unfold get_month_keyboard, layout_fits. cbn [kb_layout kb_buttons].
  rewrite num_months_length.
  destruct (month_layout_fit (Z.of_nat (length (month_options now)))) as [Hp Hs]; [lia|].
  split; [exact Hp|]. rewrite Hs, length_cons, length_app, length_map. cbn [length]. lia.
Qed.

Lemma day_keyboard_fits now m y kb : get_day_keyboard now m y = Ok kb -> layout_fits kb.
Proof.
  unfold get_day_keyboard.
  destruct (negb _); [discriminate|]. destruct (negb _); [discriminate|].
  destruct (py_range _ _) as [|d0 ds]; intros Hk; injection Hk as <-.
  - split; [forall_lit|reflexivity].
  - destruct (day_layout_fit (Z.of_nat (length (d0 :: ds)))) as [Hp Hs]; [cbn [length]; lia|].
    split; [exact Hp|]. cbn [kb_buttons kb_layout length] in *. rewrite length_app, length_map. cbn [length] in *. lia.
Qed.

(** ** The keyboards' properties *)

(** every keyboard the bot builds is laid out exactly as its row
    sizes say: the month picker, any day picker [get_day_keyboard]
    returns, the hour picker and the minute picker when it has minutes. *)
Theorem keyboard_layouts_honoured now d m y h hs kb :
  get_day_keyboard now m y = Ok kb ->
  honours_layout (get_month_keyboard now) /\ honours_layout kb
  /\ honours_layout (hour_keyboard now d m y)
  /\ (available_minutes now d m y h <> [] ->
      honours_layout (minute_keyboard hs (available_minutes now d m y h))).
Proof.
  intros Hd. unfold honours_layout.
  split; [|split; [|split; [|intros Hne]]]; apply rows_layout;
    eauto using month_keyboard_fits, day_keyboard_fits, hour_keyboard_fits, minute_keyboard_fits.
Qed.

(** C28: the month picker of [get_month_keyboard] offers, after its
    header, exactly the consecutive calendar months starting with the
    current one (14 or 13 in January and February, [18 - month] from March
    on), then the Cancel button; the December of the previous year that
    the first season lists is never offered. *)
Theorem month_picker_consecutive now :
  1 <= month now <= 12 ->
  kb_buttons (get_month_keyboard now)
  = lit "ignore"
    :: map month_payload
         (months_from (month now) (year now)
            (Z.to_nat (if month now <=? 2 then 15 - month now else 18 - month now)))
    ++ [lit "hide_calendar"]
  /\ ~ In (12, year now - 1) (month_options now).
Proof.
  intros Hm. unfold get_month_keyboard. cbn [kb_buttons].
  rewrite month_options_from by exact Hm. split; [reflexivity|].
  intros Hin. apply months_from_not_before in Hin; lia.
Qed.

(** the day picker: for a valid year and month it lists a button
    [day_<d>_<m>_<y>] for every day from [start_day] (today in the current
    month, the 1st otherwise) to the month's last day, a nonempty list, so
    the "no available days" keyboard is never built; otherwise
    [get_day_keyboard] raises [ValueError] from the [datetime]
    constructor. *)
Theorem day_picker_days now m y :
  valid_datetime now = true ->
  match get_day_keyboard now m y with
  | Ok kb =>
      1 <= y <= 9999 /\ 1 <= m <= 12
      /\ exists days,
           kb_buttons kb
           = map (fun d => day_payload d m y) days
             ++ [lit "back_to_month"; lit "hide_calendar"; day_payload (day now) (month now) (year now)]
           /\ days <> []
           /\ (forall d, In d days <-> start_day now m y <= d <= days_in_month m y)
  | Raise e => e = ValueError /\ ~ (1 <= y <= 9999 /\ 1 <= m <= 12)
  end.
Proof.
  intros Hv. destruct (get_day_keyboard now m y) as [kb|e] eqn:E.
  - destruct (decide (1 <= y <= 9999 /\ 1 <= m <= 12)) as [[Hy Hm]|Hn].
    + rewrite get_day_keyboard_ok in E by assumption. injection E as <-.
      pose proof (start_day_range now m y Hv).
      split; [assumption|split; [assumption|]].
      eexists. split; [reflexivity|]. split.
      * rewrite py_range_nil. lia.
      * intros d. rewrite in_py_range. lia.
    + exfalso. unfold get_day_keyboard in E.
      destruct (valid_date y m 1) eqn:V; [|discriminate].
      apply valid_date_iff in V. lia.
  - eapply get_day_keyboard_raise; eassumption.
Qed.

(** the hour picker of [process_day_selection] offers the hours 0-23,
    from the current hour on when the picked date is today, and never
    none, so its "no hours" layout is never used. *)
Theorem hour_picker_hours now d m y :
  valid_datetime now = true ->
  available_hours now d m y <> []
  /\ forall h, In h (available_hours now d m y)
       <-> 0 <= h < 24 /\ ((d = day now /\ m = month now /\ y = year now) -> hour now <= h).
Proof.
  intros Hv. split; [apply available_hours_nonempty, Hv|intros h; apply available_hours_spec, Hv].
Qed.

(** C29: the minute picker of [process_hour_selection] offers the multiples
    of 5 below 60, only those after the current minute when the picked day
    and hour are now; it offers none, and the bot answers "No available
    minutes", exactly in the current hour from minute 55 on. *)
Theorem minute_picker_minutes now d m y h :
  valid_datetime now = true ->
  (forall mi, In mi (available_minutes now d m y h)
     <-> 0 <= mi < 60 /\ mi mod 5 = 0 /\ (is_current_hour now d m y h -> minute now < mi))
  /\ (available_minutes now d m y h = [] <-> is_current_hour now d m y h /\ 55 <= minute now).
Proof.
  intros Hv. split; [intros mi; apply available_minutes_spec, Hv|apply available_minutes_nil, Hv].
Qed.

(** ** Witnesses *)

Definition nov_9_2026 : datetime := mk_datetime 2026 11 9 14 57 0 0.

(** [InlineKeyboardBuilder.adjust] terminates and loses no button:
    for row sizes that are positive, any fuel at least the number of
    buttons gives the same rows (so the fuel [rows] chooses, the number of
    buttons, is enough), and the rows hold all the buttons in order. *)
Theorem adjust_rows_terminates sizes btns f g :
  Forall (fun sz => 0 < sz) sizes -> (length btns <= f)%nat -> (length btns <= g)%nat ->
  adjust_rows sizes btns f = adjust_rows sizes btns g /\ concat (adjust_rows sizes btns f) = btns.
Proof.
  revert sizes btns g. induction f as [|f IH]; intros sizes btns g Hpos Hf Hg.
  - destruct btns; [|cbn in Hf; lia]. destruct g; split; reflexivity.
  - destruct btns as [|b bs]; [destruct g; split; reflexivity|].
    destruct g as [|g]; [cbn in Hg; lia|]. cbn [adjust_rows].
    set (sz := match sizes with [] => 1 | s :: _ => s end).
    set (rest := match sizes with [_] | [] => sizes | _ :: ss => ss end).
    assert (Hsz : 0 < sz)
      by (subst sz; destruct sizes as [|s0 ss]; [lia|inversion Hpos; assumption]).
    assert (Hrest : Forall (fun sz => 0 < sz) rest)
      by (subst rest; destruct sizes as [|s0 [|s1 ss]]; [constructor|exact Hpos|inversion Hpos; assumption]).
    assert (Hd : (length (drop (Z.to_nat sz) (b :: bs)) <= length bs)%nat)
      by (rewrite length_drop; cbn [length]; lia).
    destruct (IH rest (drop (Z.to_nat sz) (b :: bs)) g Hrest) as [E C];
      [cbn [length] in Hf; lia|cbn [length] in Hg; lia|].
    rewrite E. split; [reflexivity|]. cbn [concat]. rewrite <- E, C. apply take_drop.
Qed.

Lemma keyboard_layouts_honoured_witness :
  exists kb, get_day_keyboard nov_9_2026 11 2026 = Ok kb
  /\ honours_layout kb /\ honours_layout (hour_keyboard nov_9_2026 9 11 2026).
Proof.
  destruct (get_day_keyboard nov_9_2026 11 2026) as [kb|e] eqn:E; [|vm_compute in E; discriminate].
  exists kb. split; [reflexivity|].
  destruct (keyboard_layouts_honoured nov_9_2026 9 11 2026 14 (lit "14") kb E) as (_ & H1 & H2 & _).
  split; assumption.
Defined.

Lemma month_picker_consecutive_witness :
  ~ In (12, 2025) (month_options nov_9_2026).
Proof. apply (month_picker_consecutive nov_9_2026). cbn. lia. Defined.

Lemma day_picker_days_witness :
  match get_day_keyboard nov_9_2026 2 2028 with Ok _ => True | Raise _ => False end.
Proof.
  pose proof (day_picker_days nov_9_2026 2 2028 ltac:(reflexivity)) as H.
  destruct (get_day_keyboard nov_9_2026 2 2028); [exact I|destruct H as [_ H]; apply H; decide_by_eval].
Defined.

Lemma hour_picker_hours_witness : In 14 (available_hours nov_9_2026 9 11 2026).
Proof. apply (hour_picker_hours nov_9_2026 9 11 2026 eq_refl). cbn. lia. Defined.

Lemma minute_picker_minutes_witness : available_minutes nov_9_2026 9 11 2026 14 = [].
Proof.
  apply (minute_picker_minutes nov_9_2026 9 11 2026 14 eq_refl).
  split; [repeat split|cbn; lia].
Defined.

Lemma adjust_rows_terminates_witness :
  Forall (fun sz => 0 < sz) [2; 2]
  /\ adjust_rows [2; 2] (kb_buttons (get_task_keyboard [] 7 (Some (lit "1")))) 4
     = adjust_rows [2; 2] (kb_buttons (get_task_keyboard [] 7 (Some (lit "1")))) 10.
Proof.
  assert (H : Forall (fun sz => 0 < sz) [2; 2]) by (forall_lit).
  split; [exact H|]. apply (adjust_rows_terminates _ _ 4 10 H); cbn; lia.
Defined.
