(* ===== verification/Handlers.v ===== *)
(** * The aiogram handlers and the per-user FSM storage

    aiogram keeps, for every user, an FSM state ([TaskStates]) and a data
    bag in its [MemoryStorage]; a handler reads it with [state.get_data()],
    merges keys with [state.update_data(...)], sets the state with
    [state.set_state(...)] and resets both with [state.clear()].  The bag
    is a record of the keys the handlers use, [None] standing for an absent
    key ([user_data.get(key)] returns [None]).

    Every handler of [src/main.py] is a computation in [PyM bot reply]: it
    mutates the [tasks] store and the sessions, keeps its mutations when it
    raises, and returns the reply it shows (the keyboard of its last
    [answer]/[edit_text], or the task card of a task view).  The clock is an
    argument [now]: a handler's [datetime.now()] calls all read it.  The
    Telegram objects aiogram 3 delivers are frozen pydantic models: the
    assignment [callback.data = ...] of [process_back_to_time] raises
    [ValidationError], a [ValueError].  The dispatch of an update to a
    handler is in [Bot]. *)

From stdpp Require Import base list decidable strings.
From Stdlib Require Import Ascii ZArith Lia.
From S2P Require Import Prelude PyStr DateTime TaskStore Scanner Keyboards.

Local Open Scope Z_scope.
Local Open Scope py_scope.

(** ** The FSM storage *)

(** [class TaskStates(StatesGroup)] *)
Inductive task_state : Type :=
| waiting_for_task_name
| waiting_for_date_selection
| waiting_for_time_selection
| waiting_for_edit_name
| waiting_for_edit_deadline.

#[export] Instance task_state_eq_dec : EqDecision task_state.
Proof. solve_decision. Defined.

(** The data bag: the keys the handlers store, [None] when absent. *)
Record fsm_data : Type := mk_data {
  task_name : option pystr;
  selected_month : option Z;
  selected_year : option Z;
  selected_day : option Z;
  date_str : option pystr;
  selected_hour : option pystr;
  edit_task_id : option pystr;
  is_editing : option bool
}.

#[export] Instance fsm_data_eq_dec : EqDecision fsm_data.
Proof. solve_decision. Defined.

Definition empty_data : fsm_data := mk_data None None None None None None None None.

Record session : Type := mk_session {
  fsm_state : option task_state;
  fsm_bag : fsm_data
}.

#[export] Instance session_eq_dec : EqDecision session.
Proof. solve_decision. Defined.

Definition empty_session : session := mk_session None empty_data.

(** The bot's state: the global [tasks] and the FSM storage by user. *)
Record bot : Type := mk_bot {
  b_tasks : store;
  b_sessions : list (Z * session)
}.

Definition session_of (uid : Z) (b : bot) : session :=
  default empty_session (dict_get uid (b_sessions b)).

Definition put_session (uid : Z) (se : session) (b : bot) : bot :=
  mk_bot (b_tasks b) (dict_set uid se (b_sessions b)).

(** [await state.get_data()] *)
Definition fsm_get_data (uid : Z) : PyM bot fsm_data :=
  b <- get ;; ret (fsm_bag (session_of uid b)).

(** [await state.update_data(...)]: [f] sets the given keys. *)
Definition fsm_update (uid : Z) (f : fsm_data -> fsm_data) : PyM bot unit :=
  modify (fun b => let se := session_of uid b in
                   put_session uid (mk_session (fsm_state se) (f (fsm_bag se))) b).

(** [await state.set_state(...)] *)
Definition fsm_set_state (uid : Z) (st : option task_state) : PyM bot unit :=
  modify (fun b => put_session uid (mk_session st (fsm_bag (session_of uid b))) b).

(** [await state.clear()]: no state and an empty bag. *)
Definition fsm_clear (uid : Z) : PyM bot unit :=
  modify (put_session uid empty_session).

(** The keys the handlers pass to [update_data]. *)
Definition set_task_name v (d : fsm_data) : fsm_data :=
  mk_data (Some v) (selected_month d) (selected_year d) (selected_day d) (date_str d)
    (selected_hour d) (edit_task_id d) (is_editing d).
Definition set_month_year m y (d : fsm_data) : fsm_data :=
  mk_data (task_name d) (Some m) (Some y) (selected_day d) (date_str d)
    (selected_hour d) (edit_task_id d) (is_editing d).
Definition set_selected_day v (d : fsm_data) : fsm_data :=
  mk_data (task_name d) (selected_month d) (selected_year d) (Some v) (date_str d)
    (selected_hour d) (edit_task_id d) (is_editing d).
Definition set_date_str v (d : fsm_data) : fsm_data :=
  mk_data (task_name d) (selected_month d) (selected_year d) (selected_day d) (Some v)
    (selected_hour d) (edit_task_id d) (is_editing d).
Definition set_selected_hour v (d : fsm_data) : fsm_data :=
  mk_data (task_name d) (selected_month d) (selected_year d) (selected_day d) (date_str d)
    (Some v) (edit_task_id d) (is_editing d).
Definition set_edit_task_id v (d : fsm_data) : fsm_data :=
  mk_data (task_name d) (selected_month d) (selected_year d) (selected_day d) (date_str d)
    (selected_hour d) (Some v) (is_editing d).
Definition set_is_editing v (d : fsm_data) : fsm_data :=
  mk_data (task_name d) (selected_month d) (selected_year d) (selected_day d) (date_str d)
    (selected_hour d) (edit_task_id d) (Some v).

(** ** Replies *)

(** The remaining-time line of a task card. *)
Inductive time_status : Type :=
| ts_empty
| ts_passed
| ts_days (days hours minutes : Z)
| ts_hours (hours minutes : Z)
| ts_minutes (minutes : Z).

#[export] Instance time_status_eq_dec : EqDecision time_status.
Proof. solve_decision. Defined.

Inductive reply : Type :=
| no_reply
| text_only
| main_menu
| with_keyboard (kb : markup)
| task_card (ts : time_status) (kb : markup)
| message_deleted.

#[export] Instance reply_eq_dec : EqDecision reply.
Proof. solve_decision. Defined.

(** ** Helpers the handlers share *)

(** [callback.data.split("_")[i]] *)
Definition data_field (data : pystr) (i : Z) : result pystr :=
  py_getitem (split_on "_"%char data) i.

(** [int(user_data.get(key))] on a value stored as an [int]: [int(None)]
    raises [TypeError]. *)
Definition int_of_stored (v : option Z) : result Z :=
  match v with Some z => Ok z | None => Raise TypeError end.

(** [f"{x}"] of a value that is a [str] or [None]. *)
Definition fstr_opt (v : option pystr) : pystr :=
  match v with Some s => s | None => lit "None" end.

Definition month_names : list pystr :=
  map lit ["January"; "February"; "March"; "April"; "May"; "June"; "July";
           "August"; "September"; "October"; "November"; "December"]%string.

Definition get_store : PyM bot store := b <- get ;; ret (b_tasks b).

Definition put_store (s : store) : PyM bot unit :=
  modify (fun b => mk_bot s (b_sessions b)).

(** The remaining-time computation of [process_view_task] and
    [process_complete_task]: the deadline is parsed as the scanner parses
    it, [ValueError] gives the empty line, other exceptions propagate. *)
Definition time_status_of (now : datetime) (dl : option pystr) : result time_status :=
  match parse_deadline dl with
  | Raise ValueError => Ok ts_empty
  | Raise e => Raise e
  | Ok d =>
      let td := dt_sub d now in
      if total_us td <? 0 then Ok ts_passed
      else
        let hours := td_seconds td / 3600 in
        let minutes := (td_seconds td mod 3600) / 60 in
        if 0 <? td_days td then Ok (ts_days (td_days td) hours minutes)
        else if 0 <? hours then Ok (ts_hours hours minutes)
        else Ok (ts_minutes minutes)
  end.

(** The remaining time a task card shows, in seconds, when it shows one. *)
Definition shown_seconds (ts : time_status) : option Z :=
  match ts with
  | ts_days d h m => Some (d * 86400 + h * 3600 + m * 60)
  | ts_hours h m => Some (h * 3600 + m * 60)
  | ts_minutes m => Some (m * 60)
  | _ => None
  end.

(** [if user_id in tasks and task_id in tasks[user_id]] *)
Definition task_present (uid : Z) (tid : pystr) (s : store) : bool :=
  match dict_get uid s with
  | Some ut => bool_decide (tid ∈ dict_keys ut)
  | None => false
  end.

(** [tasks[user_id] = {}] when [user_id not in tasks]. *)
Definition ensure_user (uid : Z) (s : store) : store :=
  if bool_decide (uid ∈ dict_keys s) then s else dict_set uid [] s.

(** [message.text.strip()]: a message without text has [text = None]. *)
Definition strip_text (text : option pystr) : result pystr :=
  match text with Some s => Ok (strip s) | None => Raise AttributeError end.

(** ** Message handlers *)

(** [cmd_start] and [cmd_help]: a text with the main reply keyboard. *)
Definition cmd_start : PyM bot reply := ret main_menu.
Definition cmd_help : PyM bot reply := ret main_menu.

(** [cmd_tasks] and [process_list_tasks]: the task list keyboard (both
    branches of their [if] show the same keyboard). *)
Definition cmd_tasks (uid : Z) : PyM bot reply :=
  s <- get_store ;; ret (with_keyboard (get_task_keyboard s uid None)).

(** [cmd_add] and [process_add_task_button]. *)
Definition cmd_add (uid : Z) : PyM bot reply :=
  fsm_set_state uid (Some waiting_for_task_name) ;; ret text_only.

Definition process_list_tasks (uid : Z) : PyM bot reply := cmd_tasks uid.
Definition process_add_task_button (uid : Z) : PyM bot reply := cmd_add uid.

Definition process_task_name (now : datetime) (uid : Z) (text : option pystr) : PyM bot reply :=
  nm <- lift (strip_text text) ;;
  fsm_update uid (set_task_name nm) ;;
  fsm_set_state uid (Some waiting_for_date_selection) ;;
  ret (with_keyboard (get_month_keyboard now)).

Definition process_edit_name_input (uid : Z) (text : option pystr) : PyM bot reply :=
  d <- fsm_get_data uid ;;
  tid <- lift (match edit_task_id d with Some t => Ok t | None => Raise KeyError end) ;;
  s <- get_store ;;
  if task_present uid tid s then
    nm <- lift (strip_text text) ;;
    put_store (rename_task uid tid nm s) ;;
    fsm_clear uid ;;
    ret (with_keyboard (get_task_keyboard (rename_task uid tid nm s) uid (Some tid)))
  else ret no_reply.

(** ** The calendar's callback handlers *)

Definition process_month_selection (now : datetime) (uid : Z) (data : pystr) : PyM bot reply :=
  match split_on "_"%char data with
  | [_; ms; ys] =>
      m <- lift (py_int ms) ;;
      y <- lift (py_int ys) ;;
      fsm_update uid (set_month_year m y) ;;
      _ <- lift (py_getitem month_names (m - 1)) ;;
      kb <- lift (get_day_keyboard now m y) ;;
      ret (with_keyboard kb)
  | _ => raise ValueError
  end.

Definition process_back_to_month (now : datetime) : PyM bot reply :=
  ret (with_keyboard (get_month_keyboard now)).

(** [f"{day:02d}.{month:02d}.{year}"] *)
Definition date_string (d m y : Z) : pystr :=
  fmt02 d ++ "."%char :: fmt02 m ++ "."%char :: py_str y.

Definition process_day_selection (now : datetime) (uid : Z) (data : pystr) : PyM bot reply :=
  match split_on "_"%char data with
  | [_; ds; ms; ys] =>
      d <- lift (py_int ds) ;;
      m <- lift (py_int ms) ;;
      y <- lift (py_int ys) ;;
      fsm_update uid (set_selected_day d) ;;
      _ <- lift (py_getitem month_names (m - 1)) ;;
      fsm_update uid (set_date_str (date_string d m y)) ;;
      ret (with_keyboard (hour_keyboard now d m y))
  | _ => raise ValueError
  end.

(** [if month and year]: [None] and [0] are false. *)
Definition process_back_to_day (now : datetime) (uid : Z) : PyM bot reply :=
  d <- fsm_get_data uid ;;
  match selected_month d, selected_year d with
  | Some m, Some y =>
      if negb (m =? 0) && negb (y =? 0) then
        kb <- lift (get_day_keyboard now m y) ;; ret (with_keyboard kb)
      else ret (with_keyboard (get_month_keyboard now))
  | _, _ => ret (with_keyboard (get_month_keyboard now))
  end.

Definition process_hour_selection (now : datetime) (uid : Z) (data : pystr) : PyM bot reply :=
  hs <- lift (data_field data 1) ;;
  fsm_update uid (set_selected_hour hs) ;;
  d <- fsm_get_data uid ;;
  sd <- lift (int_of_stored (selected_day d)) ;;
  sm <- lift (int_of_stored (selected_month d)) ;;
  sy <- lift (int_of_stored (selected_year d)) ;;
  h <- lift (py_int hs) ;;
  ret (with_keyboard (minute_keyboard hs (available_minutes now sd sm sy h))).

(** The end of [process_exact_time] and [process_time_all_day]: change the
    edited task's deadline, or create the task. *)
Definition store_deadline (now : datetime) (uid : Z) (d : fsm_data) (dl : option pystr)
    : PyM bot reply :=
  s <- get_store ;;
  if default false (is_editing d) then
    s' <- lift (set_deadline uid (edit_task_id d) dl s) ;;
    put_store s' ;;
    ret (with_keyboard (get_task_keyboard s' uid (edit_task_id d)))
  else
    let s' := fst (create_task uid (new_task (task_name d) dl (fmt_minute now)) s) in
    put_store s' ;;
    ret (with_keyboard (get_task_keyboard s' uid None)).

Definition process_exact_time (now : datetime) (uid : Z) (data : pystr) : PyM bot reply :=
  ts <- lift (data_field data 1) ;;
  d <- fsm_get_data uid ;;
  r <- store_deadline now uid d (Some (fstr_opt (date_str d) ++ " "%char :: ts)) ;;
  fsm_clear uid ;;
  ret r.

Definition process_time_all_day (now : datetime) (uid : Z) : PyM bot reply :=
  d <- fsm_get_data uid ;;
  s <- get_store ;;
  put_store (ensure_user uid s) ;;
  r <- store_deadline now uid d (date_str d) ;;
  fsm_clear uid ;;
  ret r.

(** [process_custom_minute] calls [process_back_to_time(callback)] without
    its [state] argument: [TypeError]. *)
Definition process_custom_minute : PyM bot reply := raise TypeError.

(** [process_back_to_time]: the three [int(...)] of the stored selection,
    then [callback.data = callback_data].  A received [CallbackQuery] of
    aiogram 3 is a frozen pydantic model, so the assignment raises
    pydantic's [ValidationError], a subclass of [ValueError], and
    [process_day_selection] is never called. *)
Definition process_back_to_time (uid : Z) : PyM bot reply :=
  d <- fsm_get_data uid ;;
  dd <- lift (int_of_stored (selected_day d)) ;;
  mm <- lift (int_of_stored (selected_month d)) ;;
  yy <- lift (int_of_stored (selected_year d)) ;;
  raise ValueError.

Definition process_hide_calendar : PyM bot reply := ret message_deleted.

Definition process_ignore_button : PyM bot reply := ret no_reply.

(** ** The task handlers *)

Definition process_view_task (now : datetime) (uid : Z) (data : pystr) : PyM bot reply :=
  tid <- lift (data_field data 1) ;;
  s <- get_store ;;
  match lookup_task uid tid s with
  | Some t =>
      ts <- lift (time_status_of now (deadline t)) ;;
      ret (task_card ts (get_task_keyboard s uid (Some tid)))
  | None => ret no_reply
  end.

Definition process_complete_task (now : datetime) (uid : Z) (data : pystr) : PyM bot reply :=
  tid <- lift (data_field data 1) ;;
  s <- get_store ;;
  if task_present uid tid s then
    put_store (toggle_completed uid tid s) ;;
    match lookup_task uid tid (toggle_completed uid tid s) with
    | Some t =>
        ts <- (if completed t then ret ts_empty else lift (time_status_of now (deadline t))) ;;
        ret (task_card ts (get_task_keyboard (toggle_completed uid tid s) uid (Some tid)))
    | None => raise KeyError
    end
  else ret no_reply.

Definition process_delete_task (uid : Z) (data : pystr) : PyM bot reply :=
  tid <- lift (data_field data 1) ;;
  s <- get_store ;;
  if task_present uid tid s then
    put_store (delete_task uid tid s) ;;
    ret (with_keyboard (get_task_keyboard (delete_task uid tid s) uid None))
  else ret no_reply.

Definition process_edit_task (uid : Z) (data : pystr) : PyM bot reply :=
  tid <- lift (data_field data 1) ;;
  s <- get_store ;;
  if task_present uid tid s then
    ret (with_keyboard
           (mk_markup [lit "edit_name_" ++ tid; lit "edit_deadline_" ++ tid; lit "view_" ++ tid] [1]))
  else ret no_reply.

Definition process_edit_name (uid : Z) (data : pystr) : PyM bot reply :=
  tid <- lift (data_field data 2) ;;
  fsm_update uid (set_edit_task_id tid) ;;
  fsm_set_state uid (Some waiting_for_edit_name) ;;
  ret text_only.

Definition process_edit_deadline (now : datetime) (uid : Z) (data : pystr) : PyM bot reply :=
  tid <- lift (data_field data 2) ;;
  fsm_update uid (set_edit_task_id tid) ;;
  fsm_update uid (set_is_editing true) ;;
  fsm_set_state uid (Some waiting_for_date_selection) ;;
  ret (with_keyboard (get_month_keyboard now)).

(** ** The creation dialog *)

(** The dialog as a user drives it with the buttons the pickers offer:
    the task's name, then the month, day, hour and minute buttons. *)
Definition creation_dialog (now : datetime) (uid : Z) (nm : pystr) (d m y h mi : Z)
    : PyM bot reply :=
  process_task_name now uid (Some nm) ;;
  process_month_selection now uid (month_payload (m, y)) ;;
  process_day_selection now uid (day_payload d m y) ;;
  process_hour_selection now uid (lit "hour_" ++ fmt02 h) ;;
  process_exact_time now uid (lit "fulltime_" ++ fmt02 h ++ ":"%char :: fmt02 mi).

(** The dialog ending with the "All Day" button instead of an hour and a
    minute. *)
Definition all_day_dialog (now : datetime) (uid : Z) (nm : pystr) (d m y : Z) : PyM bot reply :=
  process_task_name now uid (Some nm) ;;
  process_month_selection now uid (month_payload (m, y)) ;;
  process_day_selection now uid (day_payload d m y) ;;
  process_time_all_day now uid.

(** ** Payload parsing *)

Lemma num_no_sep (sep : ascii) s :
  Forall (fun x => is_digit x = true \/ x = "-"%char) s ->
  is_digit sep = false -> sep <> "-"%char ->
  Forall (fun c => bool_decide (c = sep) = false) s.
Proof.
  intros Hs Hd Hm. eapply Forall_impl; [exact (num_chars_not sep s Hs Hd Hm)|].
  intros x Hx. apply bool_decide_eq_false. exact Hx.
Qed.

Lemma py_str_no_us z : Forall (fun c => bool_decide (c = "_"%char) = false) (py_str z).
Proof. apply num_no_sep; [apply py_str_chars|reflexivity|discriminate]. Qed.

Lemma fmt02_no_us z : Forall (fun c => bool_decide (c = "_"%char) = false) (fmt02 z).
Proof. apply num_no_sep; [apply fmt02_chars|reflexivity|discriminate]. Qed.

Lemma fmt02_no_colon z : Forall (fun c => bool_decide (c = ":"%char) = false) (fmt02 z).
Proof. apply num_no_sep; [apply fmt02_chars|reflexivity|discriminate]. Qed.

(** Splitting a payload at its separators: [tactic] proves a piece has no
    separator. *)
Ltac payload_side :=
  first [ reflexivity | apply py_str_no_us | apply fmt02_no_us | apply fmt02_no_colon
        | solve [repeat constructor] ].

Ltac split_payload :=
  unfold split_on;
  repeat (rewrite split_by_app by payload_side);
  rewrite split_by_no_sep by payload_side.

Lemma split_month_payload m y :
  split_on "_"%char (month_payload (m, y)) = [lit "month"; py_str m; py_str y].
Proof.
  unfold month_payload. cbn [fst snd].
  change (lit "month_" ++ ?x) with (lit "month" ++ "_"%char :: x). split_payload. reflexivity.
Qed.

Lemma split_day_payload d m y :
  split_on "_"%char (day_payload d m y) = [lit "day"; py_str d; py_str m; py_str y].
Proof.
  unfold day_payload. change (lit "day_" ++ ?x) with (lit "day" ++ "_"%char :: x).
  split_payload. reflexivity.
Qed.

Lemma split_hour_payload h :
  split_on "_"%char (lit "hour_" ++ fmt02 h) = [lit "hour"; fmt02 h].
Proof. change (lit "hour_" ++ ?x) with (lit "hour" ++ "_"%char :: x). split_payload. reflexivity. Qed.

Lemma split_fulltime_payload h mi :
  split_on "_"%char (lit "fulltime_" ++ fmt02 h ++ ":"%char :: fmt02 mi)
  = [lit "fulltime"; fmt02 h ++ ":"%char :: fmt02 mi].
Proof.
  change (lit "fulltime_" ++ ?x) with (lit "fulltime" ++ "_"%char :: x).
  unfold split_on. rewrite split_by_app by payload_side.
  rewrite split_by_no_sep; [reflexivity|].
  apply Forall_app. split; [apply fmt02_no_us|constructor; [reflexivity|apply fmt02_no_us]].
Qed.

Lemma split_view_payload n :
  split_on "_"%char (lit "view_" ++ py_str n) = [lit "view"; py_str n].
Proof. change (lit "view_" ++ ?x) with (lit "view" ++ "_"%char :: x). split_payload. reflexivity. Qed.

Lemma py_getitem_in {A} (xs : list A) i :
  0 <= i < Z.of_nat (length xs) -> exists x, py_getitem xs i = Ok x.
Proof.
  intros Hi. unfold py_getitem.
  destruct (Z.ltb_spec i 0); [lia|].
  destruct (Z.leb_spec 0 i), (Z.ltb_spec i (Z.of_nat (length xs))); try lia. cbn [andb].
  destruct (nth_error xs (Z.to_nat i)) as [x|] eqn:E; [eauto|].
  apply nth_error_None in E. lia.
Qed.

Lemma month_name_ok m : 1 <= m <= 12 -> exists nm, py_getitem month_names (m - 1) = Ok nm.
Proof. intros Hm. apply py_getitem_in. cbn. lia. Qed.

(** ** The FSM storage's algebra *)

Lemma session_of_put uid se b : session_of uid (put_session uid se b) = se.
Proof. unfold session_of, put_session. cbn. rewrite dict_get_set_eq. reflexivity. Qed.

Lemma session_of_put_ne uid uid' se b :
  uid <> uid' -> session_of uid' (put_session uid se b) = session_of uid' b.
Proof. intros Hne. unfold session_of, put_session. cbn. rewrite dict_get_set_ne by exact Hne. reflexivity. Qed.

Lemma put_session_twice uid se se' b :
  put_session uid se (put_session uid se' b) = put_session uid se b.
Proof. unfold put_session. cbn. rewrite dict_set_set. reflexivity. Qed.

Lemma b_tasks_put_session uid se b : b_tasks (put_session uid se b) = b_tasks b.
Proof. reflexivity. Qed.

#[export] Hint Rewrite session_of_put put_session_twice b_tasks_put_session : pyrw.

(** Running one handler step on a concrete bot: unfold the monad and the
    FSM operations, and rewrite with the storage's algebra. *)
Ltac fsm_simpl :=
  cbn [fsm_state fsm_bag b_tasks b_sessions task_name selected_month selected_year
       selected_day date_str selected_hour edit_task_id is_editing set_task_name
       set_month_year set_selected_day set_date_str set_selected_hour set_edit_task_id
       set_is_editing int_of_stored strip_text fstr_opt default negb andb].

Ltac run_handler :=
  unfold fsm_update, fsm_set_state, fsm_get_data, fsm_clear, get_store, put_store in *;
  py_unfold; repeat progress (fsm_simpl; autorewrite with pyrw).

(** ** The handlers of the creation dialog, step by step *)

Lemma process_task_name_ok now uid nm b :
  process_task_name now uid (Some nm) b
  = (Ok (with_keyboard (get_month_keyboard now)),
     put_session uid (mk_session (Some waiting_for_date_selection)
                        (set_task_name (strip nm) (fsm_bag (session_of uid b)))) b).
Proof. unfold process_task_name, strip_text. run_handler. reflexivity. Qed.

Lemma process_month_selection_ok now uid m y b :
  valid_datetime now = true -> 1 <= y <= 9999 -> 1 <= m <= 12 ->
  exists kb, get_day_keyboard now m y = Ok kb
  /\ process_month_selection now uid (month_payload (m, y)) b
     = (Ok (with_keyboard kb),
        put_session uid (mk_session (fsm_state (session_of uid b))
                           (set_month_year m y (fsm_bag (session_of uid b)))) b).
Proof.
  intros Hv Hy Hm. destruct (get_day_keyboard now m y) as [kb|e] eqn:E.
  2:{ rewrite get_day_keyboard_ok in E by assumption. discriminate. }
  exists kb. split; [reflexivity|].
  destruct (month_name_ok m Hm) as [nm Hnm].
  unfold process_month_selection. rewrite split_month_payload.
  run_handler. rewrite !py_int_py_str, Hnm. cbn. rewrite E. reflexivity.
Qed.

Lemma process_day_selection_ok now uid d m y b :
  1 <= m <= 12 ->
  process_day_selection now uid (day_payload d m y) b
  = (Ok (with_keyboard (hour_keyboard now d m y)),
     put_session uid (mk_session (fsm_state (session_of uid b))
                        (set_date_str (date_string d m y)
                           (set_selected_day d (fsm_bag (session_of uid b))))) b).
Proof.
  intros Hm. destruct (month_name_ok m Hm) as [nm Hnm].
  unfold process_day_selection. rewrite split_day_payload.
  run_handler. rewrite !py_int_py_str, Hnm. cbn. autorewrite with pyrw. reflexivity.
Qed.

Lemma process_hour_selection_ok now uid h b d m y :
  selected_day (fsm_bag (session_of uid b)) = Some d ->
  selected_month (fsm_bag (session_of uid b)) = Some m ->
  selected_year (fsm_bag (session_of uid b)) = Some y ->
  process_hour_selection now uid (lit "hour_" ++ fmt02 h) b
  = (Ok (with_keyboard (minute_keyboard (fmt02 h) (available_minutes now d m y h))),
     put_session uid (mk_session (fsm_state (session_of uid b))
                        (set_selected_hour (fmt02 h) (fsm_bag (session_of uid b)))) b).
Proof.
  intros Hd Hm Hy. unfold process_hour_selection.
  assert (Hf : data_field (lit "hour_" ++ fmt02 h) 1 = Ok (fmt02 h))
    by (unfold data_field; rewrite split_hour_payload; reflexivity).
  rewrite Hf. run_handler. rewrite Hd, Hm, Hy, py_int_fmt02. reflexivity.
Qed.

Lemma process_exact_time_create now uid ts b :
  Forall (fun c => bool_decide (c = "_"%char) = false) ts ->
  is_editing (fsm_bag (session_of uid b)) <> Some true ->
  process_exact_time now uid (lit "fulltime_" ++ ts) b
  = let s' := fst (create_task uid
                     (new_task (task_name (fsm_bag (session_of uid b)))
                        (Some (fstr_opt (date_str (fsm_bag (session_of uid b))) ++ " "%char :: ts))
                        (fmt_minute now)) (b_tasks b)) in
    (Ok (with_keyboard (get_task_keyboard s' uid None)),
     mk_bot s' (dict_set uid empty_session (b_sessions b))).
Proof.
  intros Hts Hed.
  assert (Hsp : split_on "_"%char (lit "fulltime_" ++ ts) = [lit "fulltime"; ts]).
  { change (lit "fulltime_" ++ ts) with (lit "fulltime" ++ "_"%char :: ts).
    unfold split_on. rewrite split_by_app by payload_side. rewrite split_by_no_sep by exact Hts.
    reflexivity. }
  unfold process_exact_time, store_deadline, data_field. rewrite Hsp.
  run_handler. cbn.
  destruct (is_editing (fsm_bag (session_of uid b))) as [[]|]; [congruence| |]; reflexivity.
Qed.

(** ** The deadline strings the dialog writes parse back *)

Lemma num_no_space s :
  Forall (fun x => is_digit x = true \/ x = "-"%char) s -> Forall (fun c => is_space c = false) s.
Proof.
  intros Hs. eapply Forall_impl; [exact Hs|].
  intros c [Hc| ->]; [apply digit_not_space, Hc|exact minus_not_space].
Qed.

Lemma fmt_date_no_space t : Forall (fun c => is_space c = false) (fmt_date t).
Proof.
  unfold fmt_date. repeat (apply Forall_app; split; [apply num_no_space, fmt02_chars|]).
  constructor; [reflexivity|]. apply Forall_app; split; [apply num_no_space, fmt02_chars|].
  constructor; [reflexivity|]. apply num_no_space, py_str_chars.
Qed.

Lemma app_cons_nonempty {A} (xs ys : list A) (x : A) : xs ++ x :: ys <> [].
Proof. destruct xs; discriminate. Qed.

Lemma split_ws_fmt_minute t :
  split_ws (fmt_minute t) = [fmt_date t; fmt02 (hour t) ++ ":"%char :: fmt02 (minute t)].
Proof.
  unfold split_ws, fmt_minute, fmt_date_hour. rewrite <- app_assoc. cbn [app].
  rewrite split_by_app by (apply fmt_date_no_space || reflexivity).
  rewrite split_by_no_sep.
  2:{ apply Forall_app. split; [apply num_no_space, fmt02_chars|].
      constructor; [reflexivity|apply num_no_space, fmt02_chars]. }
  assert (fmt_date t <> []) by (unfold fmt_date; apply app_cons_nonempty).
  cbn [filter list_filter].
  rewrite !bool_decide_eq_false_2 by (assumption || apply app_cons_nonempty). reflexivity.
Qed.

Lemma parse_deadline_fmt_minute t :
  valid_datetime t = true -> 1000 <= year t ->
  parse_deadline (Some (fmt_minute t))
  = Ok (mk_datetime (year t) (month t) (day t) (hour t) (minute t) 0 0).
Proof.
  intros Hv Hy. unfold parse_deadline. rewrite split_ws_fmt_minute. cbn [length].
  apply strptime_fmt_minute; assumption.
Qed.

(** The string [process_exact_time] stores for the picked day and time. *)
Lemma exact_deadline_string d m y h mi :
  date_string d m y ++ " "%char :: fmt02 h ++ ":"%char :: fmt02 mi
  = fmt_minute (mk_datetime y m d h mi 0 0).
Proof. unfold fmt_minute, fmt_date_hour, fmt_date, date_string. cbn. rewrite <- !app_assoc. reflexivity. Qed.

(** The date-only string [process_time_all_day] stores expires at 23:59. *)
Lemma parse_deadline_all_day d m y :
  valid_date y m d = true -> 1000 <= y ->
  parse_deadline (Some (date_string d m y)) = Ok (mk_datetime y m d 23 59 0 0).
Proof.
  intros Hv Hy. unfold parse_deadline.
  assert (Hn : Forall (fun c => is_space c = false) (date_string d m y))
    by exact (fmt_date_no_space (mk_datetime y m d 0 0 0 0)).
  unfold split_ws. rewrite split_by_no_sep by exact Hn.
  assert (date_string d m y <> []) by (unfold date_string; apply app_cons_nonempty).
  cbn [filter list_filter]. rewrite bool_decide_eq_false_2 by assumption. cbn [negb length].
  change (lit " 23:59") with (" "%char :: fmt02 23 ++ ":"%char :: fmt02 59).
  rewrite exact_deadline_string. apply strptime_fmt_minute; [|exact Hy].
  unfold valid_datetime. cbn [year month day hour minute second microsecond]. rewrite Hv. reflexivity.
Qed.

(** One step of a sequence of handlers whose first handler's run is given
    by the equation [H]. *)
Ltac handler_step H :=
  unfold bind at 1; rewrite H; cbv beta iota.

Lemma creation_dialog_run now uid nm d m y h mi b :
  valid_datetime now = true -> valid_date y m d = true ->
  is_editing (fsm_bag (session_of uid b)) <> Some true ->
  exists r, creation_dialog now uid nm d m y h mi b
  = (Ok r,
     mk_bot (fst (create_task uid
                    (new_task (Some (strip nm))
                       (Some (fmt_minute (mk_datetime y m d h mi 0 0))) (fmt_minute now))
                    (b_tasks b)))
            (dict_set uid empty_session (b_sessions b))).
Proof.
  intros Hv Hd Hed. apply valid_date_iff in Hd as (Hy & Hm & _).
  unfold creation_dialog.
  handler_step (process_task_name_ok now uid nm b).
  destruct (process_month_selection_ok now uid m y
              (put_session uid (mk_session (Some waiting_for_date_selection)
                                  (set_task_name (strip nm) (fsm_bag (session_of uid b)))) b)
              Hv Hy Hm) as (kb & _ & Hms).
  handler_step Hms. autorewrite with pyrw. fsm_simpl.
  handler_step (process_day_selection_ok now uid d m y
    (put_session uid (mk_session (Some waiting_for_date_selection)
       (set_month_year m y (set_task_name (strip nm) (fsm_bag (session_of uid b))))) b) Hm).
  autorewrite with pyrw. fsm_simpl.
  unfold bind at 1.
  rewrite (process_hour_selection_ok now uid h _ d m y) by (autorewrite with pyrw; reflexivity).
  cbv beta iota. autorewrite with pyrw. fsm_simpl.
  rewrite process_exact_time_create.
  - eexists. autorewrite with pyrw. fsm_simpl. cbn [b_tasks b_sessions put_session fstr_opt].
    rewrite !dict_set_set, exact_deadline_string. reflexivity.
  - apply Forall_app. split; [apply fmt02_no_us|constructor; [reflexivity|apply fmt02_no_us]].
  - autorewrite with pyrw. exact Hed.
Qed.

Lemma create_task_ensure_user uid t s :
  create_task uid t (ensure_user uid s) = create_task uid t s.
Proof.
  unfold ensure_user. case_bool_decide as Hin; [reflexivity|].
  unfold create_task, user_tasks_of. rewrite dict_get_set_eq.
  apply dict_get_None_notin in Hin. rewrite Hin. cbn. rewrite dict_set_set. reflexivity.
Qed.

Lemma process_time_all_day_create now uid b :
  is_editing (fsm_bag (session_of uid b)) <> Some true ->
  process_time_all_day now uid b
  = let s' := fst (create_task uid
                     (new_task (task_name (fsm_bag (session_of uid b)))
                        (date_str (fsm_bag (session_of uid b))) (fmt_minute now))
                     (ensure_user uid (b_tasks b))) in
    (Ok (with_keyboard (get_task_keyboard s' uid None)),
     mk_bot s' (dict_set uid empty_session (b_sessions b))).
Proof.
  intros Hed. unfold process_time_all_day, store_deadline. run_handler. cbn.
  destruct (is_editing (fsm_bag (session_of uid b))) as [[]|]; [congruence| |]; reflexivity.
Qed.

Lemma all_day_dialog_run now uid nm d m y b :
  valid_datetime now = true -> valid_date y m d = true ->
  is_editing (fsm_bag (session_of uid b)) <> Some true ->
  exists r, all_day_dialog now uid nm d m y b
  = (Ok r,
     mk_bot (fst (create_task uid (new_task (Some (strip nm)) (Some (date_string d m y)) (fmt_minute now))
                    (b_tasks b)))
            (dict_set uid empty_session (b_sessions b))).
Proof.
  intros Hv Hd Hed. apply valid_date_iff in Hd as (Hy & Hm & _).
  unfold all_day_dialog.
  handler_step (process_task_name_ok now uid nm b).
  destruct (process_month_selection_ok now uid m y
              (put_session uid (mk_session (Some waiting_for_date_selection)
                                  (set_task_name (strip nm) (fsm_bag (session_of uid b)))) b)
              Hv Hy Hm) as (kb & _ & Hms).
  handler_step Hms. autorewrite with pyrw. fsm_simpl.
  handler_step (process_day_selection_ok now uid d m y
    (put_session uid (mk_session (Some waiting_for_date_selection)
       (set_month_year m y (set_task_name (strip nm) (fsm_bag (session_of uid b))))) b) Hm).
  autorewrite with pyrw. fsm_simpl.
  rewrite process_time_all_day_create.
  - eexists. autorewrite with pyrw. fsm_simpl. cbn [b_tasks b_sessions put_session].
    rewrite !dict_set_set, create_task_ensure_user. reflexivity.
  - autorewrite with pyrw. exact Hed.
Qed.

Lemma lookup_create_task uid t s :
  lookup_task uid (next_task_id (user_tasks_of uid s)) (fst (create_task uid t s)) = Some t.
Proof. unfold create_task, lookup_task. cbn. rewrite !dict_get_set_eq. reflexivity. Qed.

Lemma lookup_task_In uid tid s t :
  lookup_task uid tid s = Some t -> exists ut, In (uid, ut) s /\ In (tid, t) ut.
Proof.
  unfold lookup_task. destruct (dict_get uid s) as [ut|] eqn:E; [|discriminate].
  intros Ht. exists ut. split; apply dict_get_In; assumption.
Qed.

(** A pass over a well-formed store holding a task that is not completed
    and has no deadline raises [AttributeError]. *)
Lemma pass_raises_on_lookup now s out uid tid t :
  store_wf s -> lookup_task uid tid s = Some t -> completed t = false -> deadline t = None ->
  fst (check_deadlines_pass now (mk_world s out)) = Raise AttributeError.
Proof.
  intros Hwf Hl Hc Hd. destruct (lookup_task_In _ _ _ _ Hl) as (ut & Hu & Ht).
  rewrite (pass_computes_spec now s out Hwf).
  pose proof (scan_spec_raises now s uid ut tid t Hu Ht (task_decision_none_deadline now t Hc Hd)) as H.
  destruct (scan_spec now s) as [[r s'] ns]. exact H.
Qed.

Lemma parse_deadline_none_text rest : parse_deadline (Some (lit "None" ++ rest)) = Raise ValueError.
Proof. unfold parse_deadline. case_decide; reflexivity. Qed.

(** ** The dialog's properties *)

(** C5: the creation dialog driven with the pickers' buttons (a name, then
    month, day, hour and minute) for a valid minute of a four-digit year
    stores a new task under [str(len + 1)] whose deadline string the
    reminder scanner parses back to exactly that minute, and clears the
    user's FSM session. *)
Theorem creation_dialog_roundtrip now uid nm d m y h mi b :
  valid_datetime now = true -> valid_datetime (mk_datetime y m d h mi 0 0) = true -> 1000 <= y ->
  is_editing (fsm_bag (session_of uid b)) <> Some true ->
  exists t,
    lookup_task uid (next_task_id (user_tasks_of uid (b_tasks b)))
      (b_tasks (snd (creation_dialog now uid nm d m y h mi b))) = Some t
    /\ name t = Some (strip nm)
    /\ parse_deadline (deadline t) = Ok (mk_datetime y m d h mi 0 0)
    /\ session_of uid (snd (creation_dialog now uid nm d m y h mi b)) = empty_session.
Proof.
  intros Hv Ht Hy Hed.
  assert (Hd : valid_date y m d = true)
    by (unfold valid_datetime in Ht; cbn [year month day] in Ht;
        destruct (valid_date y m d); [reflexivity|discriminate]).
  destruct (creation_dialog_run now uid nm d m y h mi b Hv Hd Hed) as [r ->].
  eexists. cbn [snd b_tasks]. rewrite lookup_create_task. split; [reflexivity|].
  split; [reflexivity|]. split.
  - cbn [deadline new_task]. apply (parse_deadline_fmt_minute (mk_datetime y m d h mi 0 0) Ht Hy).
  - unfold session_of. cbn [b_sessions]. rewrite dict_get_set_eq. reflexivity.
Qed.

(** C20: Round trip of the "All Day" dialog: driving the dialog with the
    name, a month and a valid day and then "All Day" stores a new task
    under [str(len + 1)] whose date-only deadline [check_deadlines] parses
    back to 23:59 of exactly that day, and clears the FSM session. *)
Theorem all_day_dialog_roundtrip now uid nm d m y b :
  valid_datetime now = true -> valid_date y m d = true -> 1000 <= y ->
  is_editing (fsm_bag (session_of uid b)) <> Some true ->
  exists t,
    lookup_task uid (next_task_id (user_tasks_of uid (b_tasks b)))
      (b_tasks (snd (all_day_dialog now uid nm d m y b))) = Some t
    /\ name t = Some (strip nm)
    /\ parse_deadline (deadline t) = Ok (mk_datetime y m d 23 59 0 0)
    /\ session_of uid (snd (all_day_dialog now uid nm d m y b)) = empty_session.
Proof.
  intros Hv Hd Hy Hed.
  destruct (all_day_dialog_run now uid nm d m y b Hv Hd Hed) as [r ->].
  eexists. cbn [snd b_tasks]. rewrite lookup_create_task. split; [reflexivity|].
  split; [reflexivity|]. split.
  - cbn [deadline new_task]. exact (parse_deadline_all_day d m y Hd Hy).
  - unfold session_of. cbn [b_sessions]. rewrite dict_get_set_eq. reflexivity.
Qed.

(** C6: a stale "All Day" button pressed once the session is empty (the
    dialog already finished, or never started) still creates a task, with
    name and deadline [None], and from then on every pass of
    [check_deadlines] raises [AttributeError]. *)
Theorem stale_all_day_kills_scanner now now' uid b out :
  store_wf (b_tasks b) -> fsm_bag (session_of uid b) = empty_data ->
  lookup_task uid (next_task_id (user_tasks_of uid (b_tasks b)))
    (b_tasks (snd (process_time_all_day now uid b)))
  = Some (new_task None None (fmt_minute now))
  /\ fst (check_deadlines_pass now' (mk_world (b_tasks (snd (process_time_all_day now uid b))) out))
     = Raise AttributeError.
Proof.
  intros Hwf He. rewrite process_time_all_day_create by (rewrite He; discriminate).
  cbn [snd b_tasks]. rewrite He, create_task_ensure_user. cbn [task_name date_str empty_data].
  split; [apply lookup_create_task|].
  eapply pass_raises_on_lookup; [apply create_task_wf, Hwf|apply lookup_create_task|reflexivity..].
Qed.

(** C25: a stale minute button pressed once the session is empty creates a
    task whose deadline is the text ["None HH:MM"]: the scanner's parse
    raises [ValueError] at every clock reading, so the task is never
    reminded. *)
Theorem stale_time_button_never_reminded now uid b ts :
  Forall (fun c => bool_decide (c = "_"%char) = false) ts -> fsm_bag (session_of uid b) = empty_data ->
  lookup_task uid (next_task_id (user_tasks_of uid (b_tasks b)))
    (b_tasks (snd (process_exact_time now uid (lit "fulltime_" ++ ts) b)))
  = Some (new_task None (Some (lit "None" ++ " "%char :: ts)) (fmt_minute now))
  /\ forall now', task_decision now' (new_task None (Some (lit "None" ++ " "%char :: ts)) (fmt_minute now))
                  = Ok None.
Proof.
  intros Hts He. rewrite process_exact_time_create by (exact Hts || rewrite He; discriminate).
  cbn [snd b_tasks]. rewrite He. split; [apply lookup_create_task|].
  intros now'. unfold task_decision. cbn [completed deadline new_task].
  rewrite parse_deadline_none_text. reflexivity.
Qed.

(** C24: Cancel does not reset the dialog: after a month is picked, the
    Cancel button ([process_hide_calendar]) and a new "Add Task" leave the
    picked month and year in the session, which is back in
    [waiting_for_task_name]. *)
Theorem cancel_keeps_selection now uid m y b :
  valid_datetime now = true -> 1 <= y <= 9999 -> 1 <= m <= 12 ->
  let b' := snd ((_ <- process_month_selection now uid (month_payload (m, y)) ;;
                  _ <- process_hide_calendar ;; cmd_add uid) b) in
  fsm_state (session_of uid b') = Some waiting_for_task_name
  /\ selected_month (fsm_bag (session_of uid b')) = Some m
  /\ selected_year (fsm_bag (session_of uid b')) = Some y.
Proof.
  intros Hv Hy Hm. cbv zeta.
  destruct (process_month_selection_ok now uid m y b Hv Hy Hm) as (kb & _ & Hms).
  assert (Hrun : (_ <- process_month_selection now uid (month_payload (m, y)) ;;
                  _ <- process_hide_calendar ;; cmd_add uid) b
                 = (Ok text_only,
                    put_session uid (mk_session (Some waiting_for_task_name)
                                       (set_month_year m y (fsm_bag (session_of uid b)))) b)).
  { handler_step Hms. unfold process_hide_calendar, cmd_add. run_handler. reflexivity. }
  rewrite Hrun. cbn [snd]. autorewrite with pyrw. fsm_simpl. repeat split.
Qed.

(** C33: A task card's remaining time is right to the minute: for a
    deadline the scanner's parse accepts, the card says the deadline has
    passed exactly when it is in the past, and otherwise shows a number of
    days, hours and minutes that is the remaining time rounded down to the
    minute. *)
Theorem view_remaining_time now dl d :
  parse_deadline dl = Ok d ->
  exists ts, time_status_of now dl = Ok ts
    /\ (to_us d < to_us now <-> ts = ts_passed)
    /\ (to_us now <= to_us d -> exists sec, shown_seconds ts = Some sec
          /\ sec <= (to_us d - to_us now) / 1000000 < sec + 60).
Proof.
  intros H. unfold time_status_of. rewrite H. unfold dt_sub.
  remember (to_us d - to_us now) as x eqn:Ex.
  rewrite total_us_td_of_us. unfold td_of_us. cbn [td_days td_seconds].
  destruct (Z.ltb_spec x 0).
  - eexists. split; [reflexivity|]. split; [split; [reflexivity|lia]|intros; lia].
  - assert (Hn : forall ts, ts <> ts_passed -> to_us d < to_us now <-> ts = ts_passed)
      by (intros ts Hts; split; [lia|congruence]).
    unfold us_per_day in *.
    destruct (Z.ltb_spec 0 (x / (86400 * 1000000)));
      [|destruct (Z.ltb_spec 0 ((x mod (86400 * 1000000)) / 1000000 / 3600))];
      (eexists; split; [reflexivity|split; [apply Hn; discriminate|]]);
      intros _; eexists; (split; [reflexivity|zlia]).
Qed.

(** ** Witnesses *)

(** The bot after "Report" was created for 01.01.2030 10:00 on 09.11.2026. *)
Definition after_report_dialog : bot :=
  snd (creation_dialog nov_9_2026 42 (lit "Report") 1 1 2030 10 0 (mk_bot [] [])).

Lemma creation_dialog_roundtrip_witness :
  exists t, lookup_task 42 (lit "1") (b_tasks after_report_dialog) = Some t
  /\ parse_deadline (deadline t) = Ok (mk_datetime 2030 1 1 10 0 0 0).
Proof.
  destruct (creation_dialog_roundtrip nov_9_2026 42 (lit "Report") 1 1 2030 10 0 (mk_bot [] [])
              eq_refl eq_refl ltac:(lia) ltac:(discriminate)) as (t & H1 & _ & H3 & _).
  exists t. split; [exact H1|exact H3].
Defined.

Lemma stale_all_day_kills_scanner_witness :
  fst (check_deadlines_pass (mk_datetime 2026 11 9 15 0 0 0)
         (mk_world (b_tasks (snd (process_time_all_day nov_9_2026 42 after_report_dialog))) []))
  = Raise AttributeError.
Proof.
  apply (stale_all_day_kills_scanner nov_9_2026 (mk_datetime 2026 11 9 15 0 0 0) 42
           after_report_dialog []); [decide_by_eval|vm_compute; reflexivity].
Defined.

Lemma stale_time_button_never_reminded_witness :
  task_decision (mk_datetime 2030 1 1 10 5 0 0)
    (new_task None (Some (lit "None" ++ " "%char :: lit "10:05")) (fmt_minute nov_9_2026))
  = Ok None.
Proof.
  apply (stale_time_button_never_reminded nov_9_2026 42 after_report_dialog (lit "10:05"));
    [repeat constructor|vm_compute; reflexivity].
Defined.

Lemma cancel_keeps_selection_witness :
  selected_month (fsm_bag (session_of 42
    (snd ((_ <- process_month_selection nov_9_2026 42 (month_payload (12, 2026)) ;;
           _ <- process_hide_calendar ;; cmd_add 42) (mk_bot [] []))))) = Some 12.
Proof. apply (cancel_keeps_selection nov_9_2026 42 12 2026 (mk_bot [] [])); [reflexivity|lia..]. Defined.

Lemma view_remaining_time_witness :
  parse_deadline (Some (lit "09.11.2026 16:00")) = Ok (mk_datetime 2026 11 9 16 0 0 0)
  /\ time_status_of nov_9_2026 (Some (lit "09.11.2026 16:00")) = Ok (ts_hours 1 3)
  /\ exists ts, time_status_of nov_9_2026 (Some (lit "09.11.2026 16:00")) = Ok ts
       /\ (to_us (mk_datetime 2026 11 9 16 0 0 0) < to_us nov_9_2026 <-> ts = ts_passed)
       /\ (to_us nov_9_2026 <= to_us (mk_datetime 2026 11 9 16 0 0 0) -> exists sec,
             shown_seconds ts = Some sec
             /\ sec <= (to_us (mk_datetime 2026 11 9 16 0 0 0) - to_us nov_9_2026) / 1000000 < sec + 60).
Proof.
  assert (H : parse_deadline (Some (lit "09.11.2026 16:00")) = Ok (mk_datetime 2026 11 9 16 0 0 0))
    by (vm_compute; reflexivity).
  split; [exact H|]. split; [vm_compute; reflexivity|].
  exact (view_remaining_time nov_9_2026 _ _ H).
Defined.

Lemma all_day_dialog_roundtrip_witness :
  exists t,
    lookup_task 42 (next_task_id (user_tasks_of 42 []))
      (b_tasks (snd (all_day_dialog nov_9_2026 42 (lit "Report") 1 1 2030 (mk_bot [] [])))) = Some t
    /\ name t = Some (strip (lit "Report"))
    /\ parse_deadline (deadline t) = Ok (mk_datetime 2030 1 1 23 59 0 0)
    /\ session_of 42 (snd (all_day_dialog nov_9_2026 42 (lit "Report") 1 1 2030 (mk_bot [] [])))
       = empty_session.
Proof.
  apply (all_day_dialog_roundtrip nov_9_2026 42 (lit "Report") 1 1 2030 (mk_bot [] []));
    [reflexivity|reflexivity|lia|discriminate].
Defined.
