(* ===== verification/Bot.v ===== *)
(** * The dispatcher and the whole bot as a transition system

    aiogram's [Dispatcher] hands an update to the first handler, in the
    order of the [@dp.message] and [@dp.callback_query] decorators of
    [src/main.py], whose filters accept it; an update no filter accepts is
    dropped.  A handler without a state filter runs in every FSM state.
    [route_message] and [callback_routes] are these tables, [dispatch]
    runs the chosen handler of [Handlers].

    The bot as a whole is a transition system ([step]) over [system]: the
    bot state of [Handlers], the messages the scanner sent and whether the
    [check_deadlines] task is still running.  An event is an update of a
    user or a pass of the scanner at a clock reading; a handler's exception
    is logged by aiogram and its mutations stay, a scanner's exception ends
    the background task for good.  Passes are atomic here: the
    interleaving of handlers with the [await]s inside a pass is in
    [Interleave].

    The theorems: the "edit_" filter shadows "edit_name_" and
    "edit_deadline_", so renaming and deadline editing never run in any
    reachable state: no session of a reachable state is ever in the edit
    states ([sessions_ok], proved handler by handler with the [preserves]
    combinators, [pres_step]); the invariants of the store are in
    [Invariants]; [custom_minute] always raises, and so does the view of a
    task without a deadline; once the scanner
    has died no message is ever sent again ([run_events_dead]), and one
    user's stale "All Day" button brings that about for everyone. *)

From stdpp Require Import base list decidable strings.
From Stdlib Require Import Ascii ZArith Lia.
From S2P Require Import Prelude PyStr DateTime TaskStore Scanner Keyboards Handlers.

Local Open Scope Z_scope.
Local Open Scope py_scope.

(** ** Updates and routing *)

(** The text of a message: the three reply-keyboard buttons (their
    captions start with an emoji, outside [ascii]), any other text, or no
    text at all (a photo, a sticker: [message.text is None]). *)
Inductive msg_text : Type :=
| plain_text (s : pystr)
| menu_my_tasks
| menu_add_task
| menu_help
| no_text.

#[export] Instance msg_text_eq_dec : EqDecision msg_text.
Proof. solve_decision. Defined.

(** [Command("c")]: the text is ["/c"] or starts with ["/c "]. *)
Definition is_command (c : pystr) (t : msg_text) : bool :=
  match t with
  | plain_text s => bool_decide (s = "/"%char :: c) || prefixb ("/"%char :: c ++ [" "%char]) s
  | _ => false
  end.

Inductive msg_handler : Type :=
| h_cmd_start | h_cmd_help | h_cmd_tasks | h_cmd_add | h_task_name | h_edit_name_input.

#[export] Instance msg_handler_eq_dec : EqDecision msg_handler.
Proof. solve_decision. Defined.

(** The message handlers in registration order (lines 177-228, 876). *)
Definition route_message (st : option task_state) (t : msg_text) : option msg_handler :=
  if is_command (lit "start") t then Some h_cmd_start
  else if is_command (lit "help") t || bool_decide (t = menu_help) then Some h_cmd_help
  else if is_command (lit "tasks") t || bool_decide (t = menu_my_tasks) then Some h_cmd_tasks
  else if is_command (lit "add") t || bool_decide (t = menu_add_task) then Some h_cmd_add
  else if bool_decide (st = Some waiting_for_task_name) then Some h_task_name
  else if bool_decide (st = Some waiting_for_edit_name) then Some h_edit_name_input
  else None.

Inductive cb_handler : Type :=
| h_month_selection | h_back_to_month | h_day_selection | h_back_to_day
| h_hour_selection | h_exact_time | h_list_tasks | h_add_task_button
| h_view_task | h_complete_task | h_delete_task | h_edit_task
| h_edit_name | h_edit_deadline | h_hide_calendar | h_time_all_day
| h_custom_minute | h_back_to_time | h_ignore.

#[export] Instance cb_handler_eq_dec : EqDecision cb_handler.
Proof. solve_decision. Defined.

(** [F.data == s] and [F.data.startswith(s)] *)
Inductive cb_filter : Type :=
| data_eq (s : pystr)
| data_prefix (s : pystr).

Definition cb_matches (f : cb_filter) (data : pystr) : bool :=
  match f with
  | data_eq s => bool_decide (data = s)
  | data_prefix s => prefixb s data
  end.

(** The callback handlers in registration order (lines 417-996). *)
Definition callback_routes : list (cb_filter * cb_handler) :=
  [(data_prefix (lit "month_"), h_month_selection);
   (data_eq (lit "back_to_month"), h_back_to_month);
   (data_prefix (lit "day_"), h_day_selection);
   (data_eq (lit "back_to_day"), h_back_to_day);
   (data_prefix (lit "hour_"), h_hour_selection);
   (data_prefix (lit "fulltime_"), h_exact_time);
   (data_eq (lit "list_tasks"), h_list_tasks);
   (data_eq (lit "add_task"), h_add_task_button);
   (data_prefix (lit "view_"), h_view_task);
   (data_prefix (lit "complete_"), h_complete_task);
   (data_prefix (lit "delete_"), h_delete_task);
   (data_prefix (lit "edit_"), h_edit_task);
   (data_prefix (lit "edit_name_"), h_edit_name);
   (data_prefix (lit "edit_deadline_"), h_edit_deadline);
   (data_eq (lit "hide_calendar"), h_hide_calendar);
   (data_eq (lit "time_all_day"), h_time_all_day);
   (data_eq (lit "custom_minute"), h_custom_minute);
   (data_eq (lit "back_to_time"), h_back_to_time);
   (data_eq (lit "ignore"), h_ignore)].

(** The first route whose filter accepts the payload. *)
Fixpoint first_route (routes : list (cb_filter * cb_handler)) (data : pystr) : option cb_handler :=
  match routes with
  | [] => None
  | (f, h) :: rs => if cb_matches f data then Some h else first_route rs data
  end.

Definition run_message (now : datetime) (uid : Z) (t : msg_text) (h : msg_handler)
    : PyM bot reply :=
  match h with
  | h_cmd_start => cmd_start
  | h_cmd_help => cmd_help
  | h_cmd_tasks => cmd_tasks uid
  | h_cmd_add => cmd_add uid
  | h_task_name =>
      match t with
      | plain_text s => process_task_name now uid (Some s)
      | no_text => process_task_name now uid None
      | _ => ret no_reply
      end
  | h_edit_name_input =>
      match t with
      | plain_text s => process_edit_name_input uid (Some s)
      | no_text => process_edit_name_input uid None
      | _ => ret no_reply
      end
  end.

Definition run_callback (now : datetime) (uid : Z) (data : pystr) (h : cb_handler)
    : PyM bot reply :=
  match h with
  | h_month_selection => process_month_selection now uid data
  | h_back_to_month => process_back_to_month now
  | h_day_selection => process_day_selection now uid data
  | h_back_to_day => process_back_to_day now uid
  | h_hour_selection => process_hour_selection now uid data
  | h_exact_time => process_exact_time now uid data
  | h_list_tasks => process_list_tasks uid
  | h_add_task_button => process_add_task_button uid
  | h_view_task => process_view_task now uid data
  | h_complete_task => process_complete_task now uid data
  | h_delete_task => process_delete_task uid data
  | h_edit_task => process_edit_task uid data
  | h_edit_name => process_edit_name uid data
  | h_edit_deadline => process_edit_deadline now uid data
  | h_hide_calendar => process_hide_calendar
  | h_time_all_day => process_time_all_day now uid
  | h_custom_minute => process_custom_minute
  | h_back_to_time => process_back_to_time uid
  | h_ignore => process_ignore_button
  end.

Inductive update : Type :=
| message_update (uid : Z) (t : msg_text)
| callback_update (uid : Z) (data : pystr).

(** The dispatcher: route, then run; an unrouted update does nothing. *)
Definition dispatch (now : datetime) (u : update) : PyM bot reply :=
  match u with
  | message_update uid t =>
      b <- get ;;
      match route_message (fsm_state (session_of uid b)) t with
      | Some h => run_message now uid t h
      | None => ret no_reply
      end
  | callback_update uid data =>
      match first_route callback_routes data with
      | Some h => run_callback now uid data h
      | None => ret no_reply
      end
  end.

(** ** The bot as a transition system *)

Record system : Type := mk_system {
  sys_bot : bot;
  sys_outbox : list notification;
  sys_scanner_alive : bool
}.

Definition initial_system : system := mk_system (mk_bot [] []) [] true.

Inductive event : Type :=
| ev_update (now : datetime) (u : update)
| ev_pass (now : datetime).

(** One event; [None] when the event cannot happen (a pass of a dead
    scanner). *)
Definition step (e : event) (s : system) : option system :=
  match e with
  | ev_update now u =>
      Some (mk_system (snd (dispatch now u (sys_bot s))) (sys_outbox s) (sys_scanner_alive s))
  | ev_pass now =>
      if sys_scanner_alive s then
        let '(r, w) := check_deadlines_pass now
                         (mk_world (b_tasks (sys_bot s)) (sys_outbox s)) in
        Some (mk_system (mk_bot (w_tasks w) (b_sessions (sys_bot s))) (w_outbox w) (is_ok r))
      else None
  end.

(** Runs a sequence of events, skipping those that cannot happen. *)
Fixpoint run_events (es : list event) (s : system) : system :=
  match es with
  | [] => s
  | e :: es' => run_events es' (default s (step e s))
  end.

Inductive reachable : system -> Prop :=
| reach_init : reachable initial_system
| reach_step e s s' : reachable s -> step e s = Some s' -> reachable s'.

(** ** The invariant of reachable states *)

(** A session of a reachable state: never in the rename or deadline-edit
    states (nor in [waiting_for_time_selection], which no handler sets),
    and never carrying an edit target. *)
Definition session_ok (se : session) : Prop :=
  fsm_state se <> Some waiting_for_edit_name
  /\ fsm_state se <> Some waiting_for_edit_deadline
  /\ fsm_state se <> Some waiting_for_time_selection
  /\ is_editing (fsm_bag se) = None /\ edit_task_id (fsm_bag se) = None.

Definition sessions_ok (b : bot) : Prop := Forall (fun p => session_ok p.2) (b_sessions b).

(** ** Routing lemmas *)

Lemma prefixb_app p q s : prefixb (p ++ q) s = true -> prefixb p s = true.
Proof.
  revert s. induction p as [|c p IH]; intros [|d s]; cbn; try discriminate; auto.
  rewrite !andb_true_iff. intros [Hc Hp]. split; [exact Hc|apply IH, Hp].
Qed.

Lemma prefix_edit_name data :
  prefixb (lit "edit_name_") data = true -> prefixb (lit "edit_") data = true.
Proof. exact (prefixb_app (lit "edit_") (lit "name_") data). Qed.

Lemma prefix_edit_deadline data :
  prefixb (lit "edit_deadline_") data = true -> prefixb (lit "edit_") data = true.
Proof. exact (prefixb_app (lit "edit_") (lit "deadline_") data). Qed.

Lemma first_route_not_edit data :
  first_route callback_routes data <> Some h_edit_name
  /\ first_route callback_routes data <> Some h_edit_deadline.
Proof.
  assert (Hn : cb_matches (data_prefix (lit "edit_name_")) data = true ->
               cb_matches (data_prefix (lit "edit_")) data = true) by apply prefix_edit_name.
  assert (Hd : cb_matches (data_prefix (lit "edit_deadline_")) data = true ->
               cb_matches (data_prefix (lit "edit_")) data = true) by apply prefix_edit_deadline.
  unfold callback_routes. cbn [first_route].
  repeat match goal with |- context [if cb_matches ?f data then _ else _] =>
    destruct (cb_matches f data) eqn:? end;
    split; intros Hc; simplify_eq; try congruence;
    first [specialize (Hn eq_refl); discriminate | specialize (Hd eq_refl); discriminate].
Qed.

Lemma route_message_edit st t :
  route_message st t = Some h_edit_name_input -> st = Some waiting_for_edit_name.
Proof.
  unfold route_message. repeat case_match; try discriminate; intros _.
  all: repeat match goal with H : bool_decide _ = true |- _ => apply bool_decide_eq_true_1 in H end;
       congruence.
Qed.

(** ** Invariant preservation *)

Lemma session_ok_empty : session_ok empty_session.
Proof. repeat split; discriminate. Qed.

Lemma session_of_ok uid b : sessions_ok b -> session_ok (session_of uid b).
Proof.
  intros Hs. unfold session_of. destruct (dict_get uid (b_sessions b)) as [se|] eqn:E;
    [|exact session_ok_empty].
  exact (Forall_dict_get (fun p => session_ok p.2) _ _ _ Hs E).
Qed.

Lemma sessions_ok_put uid se b : sessions_ok b -> session_ok se -> sessions_ok (put_session uid se b).
Proof. intros Hs Hse. apply (Forall_dict_set (fun p => session_ok p.2)); assumption. Qed.

Lemma session_ok_keep se d :
  session_ok se -> is_editing d = is_editing (fsm_bag se) -> edit_task_id d = edit_task_id (fsm_bag se) ->
  session_ok (mk_session (fsm_state se) d).
Proof. intros (H1 & H2 & H3 & H4 & H5) E1 E2. repeat split; cbn; congruence. Qed.

(** The FSM states a session of a reachable state may be in. *)
Definition state_ok (st : option task_state) : Prop :=
  st <> Some waiting_for_edit_name /\ st <> Some waiting_for_edit_deadline
  /\ st <> Some waiting_for_time_selection.

(** The primitives of the storage and their effect on [sessions_ok]. *)
Lemma pres_get_bind {A} (k : bot -> PyM bot A) :
  (forall b, sessions_ok b -> preserves sessions_ok (k b)) -> preserves sessions_ok (bind get k).
Proof. intros Hk b Hb. exact (Hk b Hb b Hb). Qed.

Lemma pres_get_store : preserves sessions_ok get_store.
Proof. intros b Hb. exact Hb. Qed.

Lemma pres_get_data_bind {A} uid (k : fsm_data -> PyM bot A) :
  (forall d, is_editing d = None -> edit_task_id d = None -> preserves sessions_ok (k d)) ->
  preserves sessions_ok (bind (fsm_get_data uid) k).
Proof.
  intros Hk b Hb. destruct (session_of_ok uid b Hb) as (_ & _ & _ & He & Ht).
  exact (Hk _ He Ht b Hb).
Qed.

Lemma pres_put_store s : preserves sessions_ok (put_store s).
Proof. intros b Hb. exact Hb. Qed.

Lemma pres_fsm_update uid f :
  (forall d, is_editing (f d) = is_editing d /\ edit_task_id (f d) = edit_task_id d) ->
  preserves sessions_ok (fsm_update uid f).
Proof.
  intros Hf b Hb. apply sessions_ok_put; [exact Hb|].
  destruct (Hf (fsm_bag (session_of uid b))) as [E1 E2].
  exact (session_ok_keep _ _ (session_of_ok uid b Hb) E1 E2).
Qed.

Lemma pres_fsm_set_state uid st : state_ok st -> preserves sessions_ok (fsm_set_state uid st).
Proof.
  intros (H1 & H2 & H3) b Hb. apply sessions_ok_put; [exact Hb|].
  destruct (session_of_ok uid b Hb) as (_ & _ & _ & He & Ht). repeat split; assumption.
Qed.

Lemma pres_fsm_clear uid : preserves sessions_ok (fsm_clear uid).
Proof. intros b Hb. exact (sessions_ok_put uid _ b Hb session_ok_empty). Qed.

(** One step of a handler: the storage primitive in front, a case split,
    or the end of the run. *)
Ltac pres_step :=
  match goal with
  | |- preserves _ (bind (fsm_get_data _) _) =>
      apply pres_get_data_bind; intros ?d ?He ?Ht; rewrite ?He, ?Ht; cbn [default]
  | |- preserves _ (bind get _) => apply pres_get_bind; intros ?b ?Hb
  | |- preserves _ (bind _ _) => apply preserves_bind; [|intros ?]
  | |- preserves _ (match ?x with _ => _ end) => destruct x
  | |- preserves _ (if ?x then _ else _) => destruct x
  | |- preserves _ (ret _) => apply preserves_ret
  | |- preserves _ (raise _) => apply preserves_raise
  | |- preserves _ (lift _) => apply preserves_lift
  | |- preserves _ get_store => apply pres_get_store
  | |- preserves _ (put_store _) => apply pres_put_store
  | |- preserves _ (fsm_clear _) => apply pres_fsm_clear
  | |- preserves _ (fsm_update _ _) => apply pres_fsm_update; intros; split; reflexivity
  | |- preserves _ (fsm_set_state _ _) => apply pres_fsm_set_state; repeat split; discriminate
  end.

Ltac pres_handler := repeat (cbv zeta; pres_step).

Lemma pres_day_selection now uid data : preserves sessions_ok (process_day_selection now uid data).
Proof. unfold process_day_selection. pres_handler. Qed.

(** Every handler the dispatcher can reach keeps the invariant; the rename
    and deadline-edit handlers are the ones it cannot reach. *)
Lemma pres_run_callback now uid data h :
  h <> h_edit_name -> h <> h_edit_deadline -> preserves sessions_ok (run_callback now uid data h).
Proof.
  intros Hn Hd. destruct h; try congruence; cbn [run_callback].
  all: unfold process_month_selection, process_back_to_month, process_back_to_day,
         process_hour_selection, process_exact_time, process_list_tasks, process_add_task_button,
         cmd_tasks, cmd_add, process_view_task, process_complete_task, process_delete_task,
         process_edit_task, process_hide_calendar, process_time_all_day, process_custom_minute,
         process_back_to_time, process_ignore_button, store_deadline.
  all: pres_handler; apply pres_day_selection.
Qed.

Lemma pres_run_message now uid t h :
  h <> h_edit_name_input -> preserves sessions_ok (run_message now uid t h).
Proof.
  intros Hh. destruct h; try congruence; cbn [run_message].
  all: unfold cmd_start, cmd_help, cmd_tasks, cmd_add, process_task_name.
  all: try (destruct t); pres_handler.
Qed.

Lemma pres_dispatch now u : preserves sessions_ok (dispatch now u).
Proof.
  destruct u as [uid t|uid data]; cbn [dispatch].
  - apply pres_get_bind. intros b Hb.
    destruct (route_message _ t) as [h|] eqn:Hr; [|apply preserves_ret].
    apply pres_run_message. intros ->. apply route_message_edit in Hr.
    destruct (session_of_ok uid b Hb) as (Hn & _). contradiction.
  - destruct (first_route callback_routes data) as [h|] eqn:Hr; [|apply preserves_ret].
    destruct (first_route_not_edit data) as [Hn Hd].
    apply pres_run_callback; intros ->; contradiction.
Qed.

(** A pass of the scanner does not touch the sessions. *)
Lemma step_sessions_ok e s s' : sessions_ok (sys_bot s) -> step e s = Some s' -> sessions_ok (sys_bot s').
Proof.
  intros Hi. destruct e as [now u|now]; cbn [step].
  - intros [= <-]. exact (pres_dispatch now u _ Hi).
  - destruct (sys_scanner_alive s); [|discriminate].
    destruct (check_deadlines_pass _ _) as [r w]. intros [= <-]. exact Hi.
Qed.

Lemma reachable_sessions_ok s : reachable s -> sessions_ok (sys_bot s).
Proof.
  induction 1 as [|e s s' _ IH Hst]; [constructor|exact (step_sessions_ok e s s' IH Hst)].
Qed.

(** Runs from a dead scanner: no event sends a message or revives it. *)
Lemma run_events_dead es s :
  sys_scanner_alive s = false ->
  sys_outbox (run_events es s) = sys_outbox s /\ sys_scanner_alive (run_events es s) = false.
Proof.
  revert s. induction es as [|e es IH]; intros s Hd; cbn [run_events]; [auto|].
  destruct e as [now u|now]; cbn [step default].
  - exact (IH (mk_system _ (sys_outbox s) (sys_scanner_alive s)) Hd).
  - rewrite Hd. cbn [default]. exact (IH s Hd).
Qed.

Lemma run_events_app es es' s : run_events (es ++ es') s = run_events es' (run_events es s).
Proof. revert s. induction es as [|e es IH]; intros s; [reflexivity|apply IH]. Qed.

Lemma run_events_reachable es s : reachable s -> reachable (run_events es s).
Proof.
  revert s. induction es as [|e es IH]; intros s Hs; [exact Hs|cbn [run_events]].
  apply IH. destruct (step e s) as [s'|] eqn:E; [exact (reach_step e s s' Hs E)|exact Hs].
Qed.

(** ** Scenarios *)

Definition at_1500 : datetime := mk_datetime 2026 11 9 15 0 30 0.

(** User 7 adds "Report" due 09.11.2026 16:00 with the buttons of the
    pickers at 14:57; the scanner passes at 15:00:30. *)
Definition report_dialog : list event :=
  map (ev_update nov_9_2026)
    [message_update 7 (plain_text (lit "/add")); message_update 7 (plain_text (lit "Report"));
     callback_update 7 (month_payload (11, 2026)); callback_update 7 (day_payload 9 11 2026);
     callback_update 7 (lit "hour_16"); callback_update 7 (lit "fulltime_16:00")]
  ++ [ev_pass at_1500].

(** Before that, user 5 presses the "All Day" button of an old calendar. *)
Definition stale_scenario : list event :=
  ev_update nov_9_2026 (callback_update 5 (lit "time_all_day")) :: report_dialog.

(** ** Theorems *)

(** C8: In every reachable state the dispatcher never runs the rename
    handlers nor the deadline-edit handler: every payload ["edit_name_..."]
    and ["edit_deadline_..."] goes to [process_edit_task], registered first
    with the filter ["edit_"], and no session is ever in
    [waiting_for_edit_name]. *)
Theorem edit_handlers_unreachable s uid t data :
  reachable s ->
  route_message (fsm_state (session_of uid (sys_bot s))) t <> Some h_edit_name_input
  /\ first_route callback_routes data <> Some h_edit_name
  /\ first_route callback_routes data <> Some h_edit_deadline.
Proof.
  intros Hr. destruct (first_route_not_edit data) as [Hn Hd]. split; [|split; assumption].
  intros Hm. apply route_message_edit in Hm.
  destruct (session_of_ok uid _ (reachable_sessions_ok s Hr)) as (He & _). contradiction.
Qed.

(** C32: A task without a deadline cannot be opened: the "view" button of
    a task whose deadline is [None] (the task a stale "All Day" button
    creates) raises [AttributeError] on [None.split()], which the
    handler's [except ValueError] does not catch, and changes nothing. *)
Theorem view_none_deadline_raises now uid n b t :
  lookup_task uid (py_str n) (b_tasks b) = Some t -> deadline t = None ->
  dispatch now (callback_update uid (lit "view_" ++ py_str n)) b = (Raise AttributeError, b).
Proof.
  intros Hl Hd.
  assert (Hr : first_route callback_routes (lit "view_" ++ py_str n) = Some h_view_task)
    by reflexivity.
  unfold dispatch. rewrite Hr. cbn [run_callback].
  unfold process_view_task, data_field, get_store, bind, get, ret, lift.
  rewrite split_view_payload.
  replace (py_getitem [lit "view"; py_str n] 1) with (Ok (A := pystr) (py_str n)) by reflexivity.
  cbn -[lookup_task time_status_of py_str]. rewrite Hl.
  unfold time_status_of. rewrite Hd. reflexivity.
Qed.

(** The "custom_minute" button always raises [TypeError]
    ([process_back_to_time] is called without its [state] argument), in
    every state, and changes nothing. *)
Theorem custom_minute_raises now uid b :
  dispatch now (callback_update uid (lit "custom_minute")) b = (Raise TypeError, b).
Proof. reflexivity. Qed.

(** One user's stale "All Day" button silences every user for good:
    without it the pass at 15:00:30 sends user 7 the one-hour reminder;
    after it the pass crashes on the task with no deadline, the scanner is
    dead, and whatever happens next no message is ever sent. *)
Theorem stale_button_silences_everyone es :
  sys_outbox (run_events report_dialog initial_system) = [mk_notification 7 (lit "1") Due1h]
  /\ sys_outbox (run_events (stale_scenario ++ es) initial_system) = [].
Proof.
  split; [vm_compute; reflexivity|].
  rewrite run_events_app.
  assert (Hd : sys_scanner_alive (run_events stale_scenario initial_system) = false)
    by (vm_compute; reflexivity).
  rewrite (proj1 (run_events_dead es _ Hd)). vm_compute. reflexivity.
Qed.

Lemma edit_handlers_unreachable_witness :
  reachable (run_events report_dialog initial_system)
  /\ first_route callback_routes (lit "edit_name_1") <> Some h_edit_name.
Proof.
  assert (Hr : reachable (run_events report_dialog initial_system))
    by exact (run_events_reachable _ _ reach_init).
  split; [exact Hr|apply (edit_handlers_unreachable _ 7 no_text _ Hr)].
Defined.

Lemma view_none_deadline_raises_witness :
  let s := run_events stale_scenario initial_system in
  lookup_task 5 (py_str 1) (b_tasks (sys_bot s))
    = Some (new_task None None (fmt_minute nov_9_2026))
  /\ dispatch at_1500 (callback_update 5 (lit "view_" ++ py_str 1)) (sys_bot s)
     = (Raise AttributeError, sys_bot s).
Proof.
  intros s. assert (H : lookup_task 5 (py_str 1) (b_tasks (sys_bot s))
                        = Some (new_task None None (fmt_minute nov_9_2026))) by (vm_compute; reflexivity).
  split; [exact H|exact (view_none_deadline_raises _ _ _ _ _ H eq_refl)].
Defined.

