(* ===== verification/Invariants.v ===== *)
(** * Invariants of the task store, once for every handler and the scanner

    The handlers of [Handlers] and the scanner of [Scanner] change the
    [tasks] store through a handful of mutations only: the creation of a
    task by [process_exact_time] and [process_time_all_day]
    ([create_task] of a [new_task] whose [created_at] is a minute stamp),
    [tasks[user_id] = {}] ([ensure_user]), the completion toggle, the
    rename, the deletion, the deadline change, and the stamp [send_reminder]
    appends to [reminded_at].  [StoreInv] is the interface between them and
    a predicate on the store: a predicate closed under these mutations.
    Against the interface, [dispatch_inv] shows that every update (every
    handler, the unreachable ones included) keeps it, [pass_inv] that a
    scanner pass keeps it whether it returns or raises, and
    [reachable_store_inv] that every reachable state satisfies it.

    The instances: unique keys ([store_wf]), the users of a given list as
    a prefix ([keys_from]: users are only ever added, at the end), and the
    types of the task records ([tasks_typed]: [created_at] and every entry
    of [reminded_at] are minute stamps of a clock reading, [reminded] is
    never set).  The theorems: every reachable state has unique keys, so
    the next pass computes [scan_spec] ([reachable_pass_spec]); every step
    keeps the users in order ([step_keeps_users]); every reachable state
    has well-typed task records ([reachable_tasks_typed]). *)

From stdpp Require Import base list decidable strings.
From Stdlib Require Import Ascii ZArith Lia.
From S2P Require Import Prelude PyStr DateTime TaskStore Scanner Keyboards Handlers Bot.

Local Open Scope Z_scope.
Local Open Scope py_scope.

(** ** The interface *)

(** A store predicate closed under every mutation of the program. *)
Class StoreInv (P : store -> Prop) : Prop := {
  inv_create uid nm dl now s : P s -> P (fst (create_task uid (new_task nm dl (fmt_minute now)) s));
  inv_ensure_user uid s : P s -> P (ensure_user uid s);
  inv_toggle uid tid s : P s -> P (toggle_completed uid tid s);
  inv_rename uid tid nm s : P s -> P (rename_task uid tid nm s);
  inv_delete uid tid s : P s -> P (delete_task uid tid s);
  inv_set_deadline uid otid dl s s' : P s -> set_deadline uid otid dl s = Ok s' -> P s';
  inv_stamp uid tid now s : P s -> P (update_task uid tid (push_reminded (fmt_minute now)) s)
}.

(** A store built by the mutations from one satisfying the invariant. *)
Ltac si_law :=
  match goal with
  | |- _ (fst (create_task _ (new_task _ _ (fmt_minute _)) _)) => apply inv_create; si_law
  | |- _ (ensure_user _ _) => apply inv_ensure_user; si_law
  | |- _ (toggle_completed _ _ _) => apply inv_toggle; si_law
  | |- _ (rename_task _ _ _ _) => apply inv_rename; si_law
  | |- _ (delete_task _ _ _) => apply inv_delete; si_law
  | |- _ (update_task _ _ (push_reminded (fmt_minute _)) _) => apply inv_stamp; si_law
  | E : set_deadline _ _ _ ?s = Ok ?s' |- _ ?s' => refine (inv_set_deadline _ _ _ s s' _ E); si_law
  | |- _ => assumption
  end.

(** ** The handlers keep any store invariant *)

Section Generic.
Context (P : store -> Prop) `{!StoreInv P}.

Definition bot_store_inv (b : bot) : Prop := P (b_tasks b).

Lemma si_get_bind {A} (k : bot -> PyM bot A) :
  (forall b, preserves bot_store_inv (k b)) -> preserves bot_store_inv (bind get k).
Proof. intros Hk b Hb. exact (Hk b b Hb). Qed.

Lemma si_get_store_bind {A} (k : store -> PyM bot A) :
  (forall s, P s -> preserves bot_store_inv (k s)) -> preserves bot_store_inv (bind get_store k).
Proof. intros Hk b Hb. exact (Hk _ Hb b Hb). Qed.

Lemma si_lift_bind {A B} (r : result A) (k : A -> PyM bot B) :
  (forall a, r = Ok a -> preserves bot_store_inv (k a)) -> preserves bot_store_inv (bind (lift r) k).
Proof. intros Hk b Hb. unfold bind, lift. destruct r as [a|e]; [exact (Hk a eq_refl b Hb)|exact Hb]. Qed.

Lemma si_put_store s : P s -> preserves bot_store_inv (put_store s).
Proof. intros Hs b _. exact Hs. Qed.

(** The FSM storage does not touch the store. *)
Lemma si_fsm_get_data uid : preserves bot_store_inv (fsm_get_data uid).
Proof. intros b Hb. exact Hb. Qed.

Lemma si_fsm_update uid f : preserves bot_store_inv (fsm_update uid f).
Proof. intros b Hb. exact Hb. Qed.

Lemma si_fsm_set_state uid st : preserves bot_store_inv (fsm_set_state uid st).
Proof. intros b Hb. exact Hb. Qed.

Lemma si_fsm_clear uid : preserves bot_store_inv (fsm_clear uid).
Proof. intros b Hb. exact Hb. Qed.

End Generic.

(** A handler step: the store read in front, a fallible step, or the
    structure of the computation; a write of the store is closed by the
    interface's laws. *)
Ltac si_step :=
  match goal with
  | |- preserves _ (bind get_store _) => apply si_get_store_bind; intros ?s ?Hs
  | |- preserves _ (bind (lift _) _) => apply si_lift_bind; intros ? ?E
  | |- preserves _ (bind get _) => apply si_get_bind; intros ?b
  | |- preserves _ (bind _ _) => apply preserves_bind; [|intros ?]
  | |- preserves _ (put_store _) => apply si_put_store; si_law
  | |- preserves _ (match ?x with _ => _ end) => destruct x
  | |- preserves _ (if ?x then _ else _) => destruct x
  | |- preserves _ (let _ := _ in _) => cbv zeta
  | |- preserves _ (ret _) => apply preserves_ret
  | |- preserves _ (raise _) => apply preserves_raise
  | |- preserves _ (lift _) => apply preserves_lift
  | |- preserves _ (fsm_get_data _) => apply si_fsm_get_data
  | |- preserves _ (fsm_update _ _) => apply si_fsm_update
  | |- preserves _ (fsm_set_state _ _) => apply si_fsm_set_state
  | |- preserves _ (fsm_clear _) => apply si_fsm_clear
  end.

Section Handlers.
Context (P : store -> Prop) `{!StoreInv P}.

Lemma day_selection_inv now uid data : preserves (bot_store_inv P) (process_day_selection now uid data).
Proof. unfold process_day_selection. repeat si_step. Qed.

Lemma run_message_inv now uid t h : preserves (bot_store_inv P) (run_message now uid t h).
Proof.
  destruct h; cbn [run_message];
    unfold cmd_start, cmd_help, cmd_tasks, cmd_add, process_task_name, process_edit_name_input;
    try destruct t; repeat si_step.
Qed.

Lemma run_callback_inv now uid data h : preserves (bot_store_inv P) (run_callback now uid data h).
Proof.
  destruct h; cbn [run_callback].
  all: unfold process_month_selection, process_back_to_month, process_back_to_day,
         process_hour_selection, process_exact_time, process_list_tasks, process_add_task_button,
         cmd_tasks, cmd_add, process_view_task, process_complete_task, process_delete_task,
         process_edit_task, process_edit_name, process_edit_deadline, process_hide_calendar,
         process_time_all_day, process_custom_minute, process_back_to_time,
         process_ignore_button, store_deadline.
  all: repeat si_step; apply day_selection_inv.
Qed.

(** Every handler keeps the invariant, the unreachable ones included. *)
Lemma dispatch_inv now u : preserves (bot_store_inv P) (dispatch now u).
Proof.
  destruct u as [uid t|uid data]; cbn [dispatch].
  - apply si_get_bind. intros b. destruct (route_message _ t) as [h|]; [|apply preserves_ret].
    apply run_message_inv.
  - destruct (first_route callback_routes data) as [h|]; [|apply preserves_ret].
    apply run_callback_inv.
Qed.

End Handlers.

(** ** The scanner keeps any store invariant *)

Section Scanner.
Context (P : store -> Prop) `{!StoreInv P}.

Definition world_inv (w : world) : Prop := P (w_tasks w).

(** [send_reminder]'s write is the stamp of [update_task]. *)
Lemma send_reminder_inv now uid tid td : preserves world_inv (send_reminder now uid tid td).
Proof.
  intros w Hw. unfold send_reminder, bind, get, ret, put.
  destruct (dict_get uid (w_tasks w)) as [ut|] eqn:Hu; [|exact Hw].
  destruct (dict_get tid ut) as [t|] eqn:Ht; [|exact Hw].
  destruct (completed t); [exact Hw|]. destruct (reminder_kind_of td); [|exact Hw].
  unfold world_inv. cbn [snd w_tasks].
  replace (dict_set uid _ (w_tasks w)) with (update_task uid tid (push_reminded (fmt_minute now)) (w_tasks w))
    by (unfold update_task; rewrite Hu, Ht; reflexivity).
  apply inv_stamp, Hw.
Qed.

Hint Resolve send_reminder_inv : pybot.

Lemma scan_task_inv now uid tid t : preserves world_inv (scan_task now uid tid t).
Proof. unfold scan_task. pres_struct. Qed.

(** A pass keeps the invariant, whether it returns or raises. *)
Lemma pass_inv now : preserves world_inv (check_deadlines_pass now).
Proof.
  unfold check_deadlines_pass. apply preserves_bind; [apply preserves_get|intros w].
  apply preserves_for. intros uid _. apply preserves_bind; [apply preserves_get|intros w'].
  apply preserves_for. intros [tid t] _. apply scan_task_inv.
Qed.

(** Every step of the bot keeps the invariant, hence every reachable
    state satisfies it when the empty store does. *)
Lemma step_store_inv e s s' :
  P (b_tasks (sys_bot s)) -> step e s = Some s' -> P (b_tasks (sys_bot s')).
Proof.
  intros Hs. destruct e as [now u|now]; cbn [step].
  - intros [= <-]. exact (dispatch_inv P now u (sys_bot s) Hs).
  - destruct (sys_scanner_alive s); [|discriminate].
    pose proof (pass_inv now (mk_world (b_tasks (sys_bot s)) (sys_outbox s)) Hs) as Hp.
    destruct (check_deadlines_pass _ _) as [r w]. intros [= <-]. exact Hp.
Qed.

Lemma reachable_store_inv s : P [] -> reachable s -> P (b_tasks (sys_bot s)).
Proof.
  intros H0. induction 1 as [|e s s' _ IH Hst]; [exact H0|].
  exact (step_store_inv e s s' IH Hst).
Qed.

End Scanner.

(** ** Instances *)

Lemma ensure_user_wf uid s : store_wf s -> store_wf (ensure_user uid s).
Proof.
  intros Hs. unfold ensure_user. case_bool_decide; [exact Hs|]. apply store_wf_set; [exact Hs|constructor].
Qed.

Lemma toggle_completed_wf uid tid s : store_wf s -> store_wf (toggle_completed uid tid s).
Proof. apply update_task_wf. Qed.

Lemma rename_task_wf uid tid nm s : store_wf s -> store_wf (rename_task uid tid nm s).
Proof. apply update_task_wf. Qed.

(** Unique keys. *)
#[export] Instance store_wf_inv : StoreInv store_wf.
Proof.
  split; intros *; try intros ?; eauto using create_task_wf, ensure_user_wf, toggle_completed_wf,
    rename_task_wf, delete_task_wf, update_task_wf, set_deadline_wf.
Qed.

(** The users of [K] come first, in order. *)
Definition keys_from (K : list Z) (s : store) : Prop := K `prefix_of` dict_keys s.

Lemma keys_set_prefix {A B} `{EqDecision A} (k : A) (v : B) (d : list (A * B)) :
  dict_keys d `prefix_of` dict_keys (dict_set k v d).
Proof.
  destruct (decide (k ∈ dict_keys d)).
  - rewrite dict_keys_set_in by assumption. reflexivity.
  - rewrite dict_keys_set_notin by assumption. apply prefix_app_r. reflexivity.
Qed.

Lemma update_task_keys uid tid f s : dict_keys s `prefix_of` dict_keys (update_task uid tid f s).
Proof. unfold update_task. repeat case_match; first [reflexivity|apply keys_set_prefix]. Qed.

#[export] Instance keys_from_inv K : StoreInv (keys_from K).
Proof.
  unfold keys_from. split; intros *; intros HK; try intros E; etrans; try exact HK.
  - apply keys_set_prefix.
  - unfold ensure_user. case_bool_decide; [reflexivity|apply keys_set_prefix].
  - apply update_task_keys.
  - apply update_task_keys.
  - unfold delete_task. repeat case_match; first [reflexivity|apply keys_set_prefix].
  - revert E. unfold set_deadline. repeat case_match; intros; simplify_eq; apply keys_set_prefix.
  - apply update_task_keys.
Qed.

(** The types of the task records: [reminded] is [False], [created_at]
    and every entry of [reminded_at] are minute stamps of a clock reading. *)
Definition clock_stamp (st : pystr) : Prop := exists t, st = fmt_minute t.

Definition task_typed (t : task) : Prop :=
  reminded t = false /\ clock_stamp (created_at t) /\ Forall clock_stamp (reminded_at t).

Definition tasks_typed (s : store) : Prop :=
  Forall (fun e => Forall (fun p => task_typed p.2) e.2) s.

Lemma tasks_typed_set uid ut s :
  tasks_typed s -> Forall (fun p => task_typed p.2) ut -> tasks_typed (dict_set uid ut s).
Proof. intros Hs Hu. apply (Forall_dict_set (fun e => Forall (fun p => task_typed p.2) e.2)); assumption. Qed.

Lemma tasks_typed_get uid ut s :
  tasks_typed s -> dict_get uid s = Some ut -> Forall (fun p => task_typed p.2) ut.
Proof. intros Hs Hu. exact (Forall_dict_get (fun e => Forall (fun p => task_typed p.2) e.2) _ _ _ Hs Hu). Qed.

Lemma task_set_typed (tid : pystr) t (ut : user_tasks) :
  Forall (fun p => task_typed p.2) ut -> task_typed t -> Forall (fun p => task_typed p.2) (dict_set tid t ut).
Proof. intros Hu Ht. apply (Forall_dict_set (fun p => task_typed p.2)); assumption. Qed.

(** A change of the task at [uid], [tid] that keeps its type. *)
Lemma update_task_typed uid tid f s :
  (forall t, task_typed t -> task_typed (f t)) -> tasks_typed s -> tasks_typed (update_task uid tid f s).
Proof.
  intros Hf Hs. unfold update_task.
  destruct (dict_get uid s) as [ut|] eqn:Hu; [|exact Hs].
  destruct (dict_get tid ut) as [t|] eqn:Ht; [|exact Hs].
  pose proof (tasks_typed_get _ _ _ Hs Hu) as Hut.
  apply tasks_typed_set, task_set_typed; [exact Hs|exact Hut|].
  apply Hf, (Forall_dict_get (fun p => task_typed p.2) _ _ _ Hut Ht).
Qed.

#[export] Instance tasks_typed_inv : StoreInv tasks_typed.
Proof.
  split; intros *.
  - intros Hs. unfold create_task. cbn [fst]. apply tasks_typed_set; [exact Hs|].
    apply task_set_typed.
    + unfold user_tasks_of. destruct (dict_get uid s) as [ut|] eqn:Hu; [|constructor].
      exact (tasks_typed_get _ _ _ Hs Hu).
    + split; [reflexivity|split; [eexists; reflexivity|constructor]].
  - intros Hs. unfold ensure_user. case_bool_decide; [exact Hs|].
    apply tasks_typed_set; [exact Hs|constructor].
  - apply update_task_typed. intros t (H1 & H2 & H3). split; [exact H1|split; assumption].
  - apply update_task_typed. intros t (H1 & H2 & H3). split; [exact H1|split; assumption].
  - intros Hs. unfold delete_task. destruct (dict_get uid s) as [ut|] eqn:Hu; [|exact Hs].
    case_decide; [|exact Hs]. apply tasks_typed_set; [exact Hs|].
    apply (Forall_dict_del (fun p => task_typed p.2)), (tasks_typed_get _ _ _ Hs Hu).
  - intros Hs. unfold set_deadline.
    destruct (dict_get uid s) as [ut|] eqn:Hu, otid as [tid|]; try discriminate.
    destruct (dict_get tid ut) as [t|] eqn:Ht; [|discriminate]. intros [= <-].
    pose proof (tasks_typed_get _ _ _ Hs Hu) as Hut.
    apply tasks_typed_set, task_set_typed; [exact Hs|exact Hut|].
    destruct (Forall_dict_get (fun p => task_typed p.2) _ _ _ Hut Ht) as (H1 & H2 & H3).
    split; [exact H1|split; assumption].
  - apply update_task_typed. intros t (H1 & H2 & H3). split; [exact H1|split; [exact H2|]].
    cbn [reminded_at push_reminded]. apply Forall_app_2; [exact H3|constructor; [eexists; reflexivity|constructor]].
Qed.

(** ** Theorems *)

Lemma reachable_store_wf s : reachable s -> store_wf (b_tasks (sys_bot s)).
Proof. apply reachable_store_inv; [apply _|split; constructor]. Qed.

(** In every reachable state the store has unique keys, so the next
    pass of the scanner computes [scan_spec] exactly. *)
Theorem reachable_pass_spec s now :
  reachable s ->
  store_wf (b_tasks (sys_bot s))
  /\ check_deadlines_pass now (mk_world (b_tasks (sys_bot s)) (sys_outbox s)) =
       let '(r, s', ns) := scan_spec now (b_tasks (sys_bot s)) in (r, mk_world s' (sys_outbox s ++ ns)).
Proof.
  intros Hr. pose proof (reachable_store_wf s Hr) as Hw.
  split; [exact Hw|exact (pass_computes_spec now _ _ Hw)].
Qed.

(** C19: Users are never removed nor reordered: every step of the bot (an
    update, whichever handler it reaches, the unreachable ones included,
    or a pass of the scanner, whether it returns or raises) leaves the
    users of [tasks] an extension of the users before it. *)
Theorem step_keeps_users e s s' :
  step e s = Some s' -> keys_from (dict_keys (b_tasks (sys_bot s))) (b_tasks (sys_bot s')).
Proof. apply (step_store_inv (keys_from _)). unfold keys_from. reflexivity. Qed.

(** C31: The task records keep their types in every reachable state: the
    flag [reminded] is [False] (no code sets it), and [created_at] and
    every entry of [reminded_at] are minute stamps
    [strftime("%d.%m.%Y %H:%M")] of a clock reading, the shape the
    substring gates of the scanner search. *)
Theorem reachable_tasks_typed s : reachable s -> tasks_typed (b_tasks (sys_bot s)).
Proof. apply reachable_store_inv; [apply _|constructor]. Qed.

Lemma step_keeps_users_witness :
  let e := ev_update nov_9_2026 (callback_update 5 (lit "time_all_day")) in
  let s := run_events report_dialog initial_system in
  step e s = Some (default s (step e s))
  /\ keys_from (dict_keys (b_tasks (sys_bot s))) (b_tasks (sys_bot (default s (step e s)))).
Proof.
  intros e s. assert (H : step e s = Some (default s (step e s))) by (vm_compute; reflexivity).
  split; [exact H|exact (step_keeps_users e s _ H)].
Defined.

Lemma reachable_tasks_typed_witness :
  reachable (run_events report_dialog initial_system)
  /\ tasks_typed (b_tasks (sys_bot (run_events report_dialog initial_system))).
Proof.
  assert (Hr : reachable (run_events report_dialog initial_system))
    by exact (run_events_reachable _ _ reach_init).
  split; [exact Hr|exact (reachable_tasks_typed _ Hr)].
Defined.

Lemma reachable_pass_spec_witness :
  reachable (run_events report_dialog initial_system)
  /\ store_wf (b_tasks (sys_bot (run_events report_dialog initial_system))).
Proof.
  assert (Hr : reachable (run_events report_dialog initial_system))
    by exact (run_events_reachable _ _ reach_init).
  split; [exact Hr|exact (proj1 (reachable_pass_spec _ at_1500 Hr))].
Defined.
