(* ===== verification/Interleave.v ===== *)
(** * A pass of the scanner interleaved with the handlers

    [check_deadlines] runs on the event loop of the bot: at every
    [await bot.send_message(...)] inside [send_reminder] the dispatcher may
    run handlers, which mutate the very [tasks] dictionary the pass is
    iterating over.  Three things of the source matter then:

    - [for user_id in tasks] iterates the dictionary itself: CPython's
      iterator remembers the size of the dictionary when it was created and
      every [next] raises [RuntimeError] ("dictionary changed size during
      iteration") when the size differs, the final [next] included.  No
      handler deletes a user ([Invariants.step_keeps_users], [pass_i_inv]), so while
      the size is unchanged so are the keys, and the [pos]-th key is the
      one the iterator yields.
    - [list(tasks[user_id].items())] is a snapshot of pairs whose task
      objects are shared with the store: a task read from it shows the
      handlers' in-place changes ([completed]), and a task deleted from the
      store keeps its last value ([live_task]).
    - after the [await], [task["reminded_at"].append(...)] mutates the task
      object read before it: the stamp lands in the store when the task is
      still there and is lost when a handler deleted it ([update_task]).

    A task object is identified with the task at the same user and id; the
    two differ only if, between the snapshot and the read, the task is
    deleted and a new task created under the same id.

    The handlers run at the [k]-th await are the [k]-th batch of the
    schedule [iw_sched], dispatched by [Bot.dispatch]; after the schedule
    no handler runs.  A handler runs whole inside one await: every handler
    changes [tasks] in one segment between its own awaits
    ([Concurrency.dispatch_task_writes_once]), and the batch is where that
    segment runs; the handlers' interleaving with each other at their own
    awaits, which can leave the store in a state no serial order gives, is
    in [Concurrency] and not here.  [pass_i_no_interference] shows that with an empty
    schedule the interleaved pass is the atomic pass of [Scanner];
    [pass_i_ok_same_users] that a pass that completes ended with exactly
    the users it started with (handlers only ever add users);
    [new_user_kills_scanner] that the size check is what ends such a pass:
    a pass raises [RuntimeError] only when it ends with a different number
    of users, and a pass that ends with a different number of users
    raised [RuntimeError] (or the [AttributeError] of a task without a
    deadline met first).  The exceptions a pass can raise are tracked with
    [Prelude.raises_only].  [lunch_press_kills_scanner] is the scenario: a
    user finishing a dialog while a reminder is being sent kills the
    scanner. *)

From stdpp Require Import base list decidable strings.
From Stdlib Require Import Ascii ZArith Lia.
From S2P Require Import Prelude PyStr DateTime TaskStore Scanner Keyboards Handlers Bot Invariants.

Local Open Scope Z_scope.
Local Open Scope py_scope.

(** ** The world of an interleaved pass *)

Record iworld : Type := mk_iworld {
  iw_bot : bot;
  iw_outbox : list notification;
  iw_sched : list (list (datetime * update))
}.

Definition iw_tasks (w : iworld) : store := b_tasks (iw_bot w).

Definition set_tasks (s : store) (w : iworld) : iworld :=
  mk_iworld (mk_bot s (b_sessions (iw_bot w))) (iw_outbox w) (iw_sched w).

(** The updates the event loop dispatches while the pass waits. *)
Definition run_batch (batch : list (datetime * update)) (b : bot) : bot :=
  fold_left (fun b '(now, u) => snd (dispatch now u b)) batch b.

(** [await bot.send_message(...)]: the message goes out and the next batch
    of the schedule runs. *)
Definition await_send (n : notification) : PyM iworld unit :=
  modify (fun w =>
    match iw_sched w with
    | [] => mk_iworld (iw_bot w) (iw_outbox w ++ [n]) []
    | batch :: rest => mk_iworld (run_batch batch (iw_bot w)) (iw_outbox w ++ [n]) rest
    end).

(** [send_reminder] with its [await]: the stamp goes to the task object
    read before it. *)
Definition send_reminder_i (now : datetime) (uid : Z) (tid : pystr) (td : timedelta)
    : PyM iworld unit :=
  w <- get ;;
  match dict_get uid (iw_tasks w) with
  | None => ret tt
  | Some ut =>
      match dict_get tid ut with
      | None => ret tt
      | Some t =>
          if completed t then ret tt
          else match reminder_kind_of td with
               | None => ret tt
               | Some k =>
                   await_send (mk_notification uid tid k) ;;
                   modify (fun w' => set_tasks
                     (update_task uid tid (push_reminded (fmt_minute now)) (iw_tasks w')) w')
               end
      end
  end.

(** The task object of a snapshot pair, as it reads now. *)
Definition live_task (uid : Z) (tid : pystr) (t0 : task) (s : store) : task :=
  default t0 (lookup_task uid tid s).

(** The body of the inner loop, reading the task object live. *)
Definition scan_task_i (now : datetime) (uid : Z) (tid : pystr) (t0 : task) : PyM iworld unit :=
  w <- get ;;
  let t := live_task uid tid t0 (iw_tasks w) in
  if completed t then ret tt
  else try_except
    (dl <- lift (parse_deadline (deadline t)) ;;
     let td := dt_sub dl now in
     let rec := join (reminded_at t) in
     if window_24h now td rec then send_reminder_i now uid tid td
     else if window_1h now td rec then send_reminder_i now uid tid td
     else if window_5min now td rec then send_reminder_i now uid tid td
     else if window_now now td rec then send_reminder_i now uid tid td
     else ret tt)
    (fun e => bool_decide (e = ValueError))
    (ret tt).

(** [for user_id in tasks]: each [next] compares the size with the size
    [size] at the creation of the iterator; [n] keys remain to be yielded,
    the next one at index [pos]. *)
Fixpoint dict_iter (n size pos : nat) (body : Z -> PyM iworld unit) : PyM iworld unit :=
  w <- get ;;
  if Nat.eqb (length (iw_tasks w)) size then
    match n with
    | O => ret tt
    | S n' =>
        match nth_error (dict_keys (iw_tasks w)) pos with
        | Some uid => body uid ;; dict_iter n' size (S pos) body
        | None => ret tt
        end
    end
  else raise RuntimeError.

Definition scan_user_i (now : datetime) (uid : Z) : PyM iworld unit :=
  w' <- get ;;
  for_ (user_tasks_of uid (iw_tasks w')) (fun '(tid, t) => scan_task_i now uid tid t).

(** One pass of [check_deadlines] on the event loop. *)
Definition pass_i (now : datetime) : PyM iworld unit :=
  w <- get ;;
  dict_iter (length (iw_tasks w)) (length (iw_tasks w)) 0 (scan_user_i now).

(** ** Without interference *)

(** The iworld of a world, the sessions [ss] kept and no handler to run. *)
Definition iw_of (ss : list (Z * session)) (w : world) : iworld :=
  mk_iworld (mk_bot (w_tasks w) ss) (w_outbox w) [].

Lemma send_reminder_i_alone now uid tid td s ss out :
  send_reminder_i now uid tid td (iw_of ss (mk_world s out)) =
    let '(r, w) := send_reminder now uid tid td (mk_world s out) in (r, iw_of ss w).
Proof.
  unfold send_reminder_i, send_reminder, bind, get, iw_tasks. cbn [iw_of iw_bot b_tasks w_tasks].
  destruct (dict_get uid s) as [ut|] eqn:Hu; [|reflexivity].
  destruct (dict_get tid ut) as [t|] eqn:Ht; [|reflexivity].
  destruct (completed t); [reflexivity|]. destruct (reminder_kind_of td); [|reflexivity].
  unfold await_send, modify, put, set_tasks, update_task. cbn. rewrite Hu, Ht. reflexivity.
Qed.

Lemma scan_task_i_alone now uid tid t s ss out :
  lookup_task uid tid s = Some t ->
  scan_task_i now uid tid t (iw_of ss (mk_world s out)) =
    let '(r, w) := scan_task now uid tid t (mk_world s out) in (r, iw_of ss w).
Proof.
  intros Hl. unfold scan_task_i, scan_task, live_task, bind at 1, get, iw_tasks.
  cbn [iw_of iw_bot b_tasks w_tasks]. rewrite Hl. cbn [default]. change (id t) with t.
  destruct (completed t); [reflexivity|].
  unfold try_except, bind, lift. destruct (parse_deadline (deadline t)) as [dl|e].
  - rewrite !if_chain_same.
    destruct (window_24h _ _ _ || window_1h _ _ _ || window_5min _ _ _ || window_now _ _ _);
      [|reflexivity].
    rewrite send_reminder_i_alone. destruct (send_reminder _ _ _ _ _) as [[[]|e] w]; [reflexivity|destruct (bool_decide (e = ValueError)); reflexivity].
  - destruct (bool_decide (e = ValueError)); reflexivity.
Qed.

Lemma lookup_task_mid uid tid t pre rest s :
  dict_get uid s = Some (pre ++ (tid, t) :: rest) -> tid ∉ dict_keys pre ->
  lookup_task uid tid s = Some t.
Proof. intros Hu Hnin. unfold lookup_task. rewrite Hu. exact (dict_get_app_notin _ _ _ _ Hnin). Qed.

(** The inner loop, as [scan_user_loop]. *)
Lemma scan_user_loop_i now uid items : forall pre s ss out,
  dict_get uid s = Some (pre ++ items) -> NoDup (dict_keys (pre ++ items)) ->
  for_ items (fun '(tid, t) => scan_task_i now uid tid t) (iw_of ss (mk_world s out)) =
    let '(r, items', ns) := scan_user_spec now uid items in
    (r, iw_of ss (mk_world (dict_set uid (pre ++ items') s) (out ++ ns))).
Proof.
  induction items as [|[tid t] rest IH]; intros pre s ss out Hu Hnd.
  - cbn. rewrite app_nil_r in *. rewrite dict_set_id by exact Hu. rewrite app_nil_r. reflexivity.
  - cbn [for_ scan_user_spec]. unfold bind at 1.
    pose proof (nodup_keys_split pre rest tid t Hnd) as Hnin.
    rewrite (scan_task_i_alone now uid tid t s ss out (lookup_task_mid _ _ _ _ _ _ Hu Hnin)).
    rewrite (scan_task_spec now uid tid t pre rest s out Hu Hnin).
    destruct (task_decision now t) as [[k|]|e].
    + cbv beta iota. rewrite (IH (pre ++ [(tid, push_reminded (fmt_minute now) t)])).
      * destruct (scan_user_spec now uid rest) as [[r rest'] ns]. rewrite dict_set_set.
        rewrite <- app_assoc, <- app_assoc. reflexivity.
      * rewrite dict_get_set_eq, <- app_assoc. reflexivity.
      * rewrite <- app_assoc. cbn [app]. erewrite <- dict_keys_replace. exact Hnd.
    + cbv beta iota. rewrite (IH (pre ++ [(tid, t)])).
      * destruct (scan_user_spec now uid rest) as [[r rest'] ns].
        rewrite <- app_assoc. reflexivity.
      * rewrite <- app_assoc. exact Hu.
      * rewrite <- app_assoc. exact Hnd.
    + cbv beta iota. rewrite dict_set_id by exact Hu. rewrite app_nil_r. reflexivity.
Qed.

Lemma nth_error_keys_mid {K V} (pre rest : list (K * V)) k v :
  nth_error (dict_keys (pre ++ (k, v) :: rest)) (length pre) = Some k.
Proof. unfold dict_keys. rewrite map_app, nth_error_app2, length_map, Nat.sub_diag by (rewrite length_map; lia). reflexivity. Qed.

(** The iteration over the users, as [scan_users_loop]: the size never
    changes, so every [next] passes its check. *)
Lemma scan_users_loop_i now rest : forall pre ss out,
  NoDup (dict_keys (pre ++ rest)) -> Forall (fun e => NoDup (dict_keys (snd e))) rest ->
  dict_iter (length rest) (length (pre ++ rest)) (length pre) (scan_user_i now)
    (iw_of ss (mk_world (pre ++ rest) out)) =
  let '(r, rest', ns) := scan_spec now rest in (r, iw_of ss (mk_world (pre ++ rest') (out ++ ns))).
Proof.
  induction rest as [|[uid ut] rest IH]; intros pre ss out Hnd Hf.
  - cbn [length dict_iter scan_spec]. rewrite !app_nil_r. unfold bind, get. cbn [iw_of iw_tasks iw_bot b_tasks w_tasks].
    rewrite Nat.eqb_refl. reflexivity.
  - inversion Hf as [|? ? Hut Hf']; subst. cbn [snd] in Hut.
    pose proof (nodup_keys_split pre rest uid ut Hnd) as Hnin.
    cbn [length dict_iter scan_spec]. unfold bind at 1, get at 1. cbn [iw_of iw_tasks iw_bot b_tasks w_tasks].
    rewrite Nat.eqb_refl, nth_error_keys_mid. unfold bind at 1, scan_user_i, bind at 1, get at 1.
    cbn [iw_of iw_tasks iw_bot b_tasks w_tasks].
    rewrite user_tasks_of_app_notin by exact Hnin.
    rewrite (scan_user_loop_i now uid ut [] (pre ++ (uid, ut) :: rest) ss out);
      [|rewrite dict_get_app_notin by exact Hnin; reflexivity|exact Hut].
    destruct (scan_user_spec now uid ut) as [[r ut'] ns]. cbn [app].
    rewrite dict_set_app_notin by exact Hnin.
    destruct r as [[]|e]; [|reflexivity].
    assert (Hl : length (pre ++ (uid, ut) :: rest) = length ((pre ++ [(uid, ut')]) ++ rest))
      by (rewrite <- app_assoc; rewrite !length_app; reflexivity).
    assert (Hp : S (length pre) = length (pre ++ [(uid, ut')])) by (rewrite length_app; cbn; lia).
    rewrite Hl, Hp, (app_cons_assoc pre (uid, ut') rest), (IH (pre ++ [(uid, ut')])).
    + destruct (scan_spec now rest) as [[r' rest'] ns'].
      rewrite <- !app_assoc. reflexivity.
    + rewrite <- app_assoc. cbn [app]. erewrite <- dict_keys_replace. exact Hnd.
    + exact Hf'.
Qed.

(** With no handler running during its awaits, the interleaved pass is the
    atomic pass of [Scanner] on a store with unique keys. *)
Lemma pass_i_no_interference now s ss out :
  store_wf s ->
  pass_i now (iw_of ss (mk_world s out)) =
    let '(r, w) := check_deadlines_pass now (mk_world s out) in (r, iw_of ss w).
Proof.
  intros Hwf. rewrite (pass_computes_spec now s out Hwf). destruct Hwf as [Hnd Hf].
  unfold pass_i, bind, get.
  cbn [iw_of iw_tasks iw_bot b_tasks w_tasks].
  pose proof (scan_users_loop_i now s [] ss out Hnd Hf) as H. cbn [app length] in H. rewrite H.
  destruct (scan_spec now s) as [[r s'] ns]. reflexivity.
Qed.

(** ** The size check *)

Lemma dict_iter_ok n size pos body w w' :
  dict_iter n size pos body w = (Ok tt, w') -> length (iw_tasks w') = size.
Proof.
  revert pos w. induction n as [|n IH]; intros pos w; cbn [dict_iter]; unfold bind at 1, get at 1;
    destruct (Nat.eqb_spec (length (iw_tasks w)) size) as [E|E]; try discriminate.
  - intros [= <-]. exact E.
  - destruct (nth_error _ pos) as [uid|]; [|intros [= <-]; exact E].
    unfold bind at 1. destruct (body uid w) as [[[]|e] w1]; [apply IH|discriminate].
Qed.

(** ** The exceptions of a pass *)

Lemma parse_deadline_raise dl e : parse_deadline dl = Raise e -> e = AttributeError \/ e = ValueError.
Proof.
  unfold parse_deadline. destruct dl as [dl|]; [|intros [= <-]; left; reflexivity].
  right. case_decide; eapply strptime_raise; eassumption.
Qed.

Lemma send_reminder_i_raises E now uid tid td : raises_only E (send_reminder_i now uid tid td).
Proof. unfold send_reminder_i, await_send. raises_walk. Qed.

(** The body of [for task_id, task in ...] lets only [AttributeError]
    escape: [except ValueError] catches what [strptime] raises. *)
Lemma scan_task_i_raises now uid tid t0 :
  raises_only (fun e => e = AttributeError) (scan_task_i now uid tid t0).
Proof.
  unfold scan_task_i. apply raises_only_bind; [apply raises_only_get|intros w].
  destruct (completed _); [apply raises_only_ret|].
  apply (raises_only_try _ (fun e => e = AttributeError \/ e = ValueError)).
  - apply raises_only_bind; [apply raises_only_lift; intros e; apply parse_deadline_raise|intros dl].
    repeat match goal with |- raises_only _ (if ?b then _ else _) => destruct b end;
      first [apply send_reminder_i_raises|apply raises_only_ret].
  - apply raises_only_ret.
  - intros e [-> | ->] Hc; [reflexivity|vm_compute in Hc; discriminate Hc].
Qed.

Lemma scan_user_i_raises now uid : raises_only (fun e => e = AttributeError) (scan_user_i now uid).
Proof.
  unfold scan_user_i. apply raises_only_bind; [apply raises_only_get|intros w].
  apply raises_only_for. intros [tid t]. apply scan_task_i_raises.
Qed.

(** The iterator raises [RuntimeError] only at a [next] that finds the size
    changed, and lets the body's exceptions through. *)
Lemma dict_iter_raise n size pos body w e w' :
  (forall uid, raises_only (fun e => e = AttributeError) (body uid)) ->
  dict_iter n size pos body w = (Raise e, w') ->
  (e = RuntimeError /\ length (iw_tasks w') <> size) \/ e = AttributeError.
Proof.
  intros Hb. revert pos w. induction n as [|n IH]; intros pos w; cbn [dict_iter]; unfold bind at 1, get at 1;
    destruct (Nat.eqb_spec (length (iw_tasks w)) size) as [E|E]; unfold raise;
    try (intros [= <- <-]; left; split; [reflexivity|exact E]).
  - intros [=].
  - destruct (nth_error _ pos) as [uid|]; [|intros [=]].
    unfold bind at 1. destruct (body uid w) as [[[]|e'] w1] eqn:Eb;
      [apply IH|intros [= <- <-]; right; exact (Hb _ _ _ _ Eb)].
Qed.

(** ** Store invariants through an interleaved pass *)

Section Inv.
Context (P : store -> Prop) `{!StoreInv P}.

Definition iw_inv (w : iworld) : Prop := P (iw_tasks w).

Lemma run_batch_inv batch b : bot_store_inv P b -> bot_store_inv P (run_batch batch b).
Proof.
  unfold run_batch. revert b. induction batch as [|[now u] batch IH]; intros b Hb; cbn; [exact Hb|].
  apply IH, (dispatch_inv P now u b Hb).
Qed.

Lemma await_send_inv n : preserves iw_inv (await_send n).
Proof.
  intros w Hw. unfold await_send, modify. cbn [snd].
  destruct (iw_sched w); [exact Hw|exact (run_batch_inv _ _ Hw)].
Qed.

Lemma stamp_inv uid tid now :
  preserves iw_inv
    (modify (fun w' => set_tasks (update_task uid tid (push_reminded (fmt_minute now)) (iw_tasks w')) w')).
Proof. apply preserves_modify. intros w Hw. apply inv_stamp, Hw. Qed.

Hint Resolve await_send_inv stamp_inv : pybot.

Lemma send_reminder_i_inv now uid tid td : preserves iw_inv (send_reminder_i now uid tid td).
Proof. unfold send_reminder_i. pres_struct. Qed.

Hint Resolve send_reminder_i_inv : pybot.

Lemma scan_user_i_inv now uid : preserves iw_inv (scan_user_i now uid).
Proof.
  unfold scan_user_i. apply preserves_bind; [apply preserves_get|intros w].
  apply preserves_for. intros [tid t] _. unfold scan_task_i. pres_struct.
Qed.

Lemma dict_iter_inv n size pos body :
  (forall uid, preserves iw_inv (body uid)) -> preserves iw_inv (dict_iter n size pos body).
Proof. intros Hb. revert pos. induction n as [|n IH]; intros pos; cbn [dict_iter]; pres_struct. Qed.

(** A pass keeps the invariant whatever the handlers do during its
    awaits. *)
Lemma pass_i_inv now : preserves iw_inv (pass_i now).
Proof. unfold pass_i. pres_struct. apply dict_iter_inv. intros uid. apply scan_user_i_inv. Qed.

End Inv.

(** ** The bot with interleaved passes *)

(** A pass of a live scanner, the schedule [sched] running during its
    awaits; as [Bot.step], an exception ends the scanner. *)
Definition ipass (now : datetime) (sched : list (list (datetime * update))) (s : system)
    : option system :=
  if sys_scanner_alive s then
    let '(r, w) := pass_i now (mk_iworld (sys_bot s) (sys_outbox s) sched) in
    Some (mk_system (iw_bot w) (iw_outbox w) (is_ok r))
  else None.

(** User 8 is half-way through adding "Lunch" when the scanner starts the
    pass of 15:00:30 ... *)
Definition lunch_dialog : list event :=
  map (ev_update nov_9_2026)
    [message_update 8 (plain_text (lit "/add")); message_update 8 (plain_text (lit "Lunch"));
     callback_update 8 (month_payload (11, 2026)); callback_update 8 (day_payload 9 11 2026);
     callback_update 8 (lit "hour_17")].

Definition before_pass : system :=
  run_events (removelast report_dialog ++ lunch_dialog) initial_system.

(** ... and presses the minute button while user 7's reminder is sent. *)
Definition lunch_press : list (list (datetime * update)) :=
  [[(at_1500, callback_update 8 (lit "fulltime_17:00"))]].

(** ** Theorems *)

(** Refinement: in every reachable state, a pass during whose awaits no
    handler runs is the atomic pass of [Bot.step]: same messages, same
    store, same fate of the scanner. *)
Theorem ipass_refines_step s now :
  reachable s -> ipass now [] s = step (ev_pass now) s.
Proof.
  intros Hr. pose proof (reachable_store_wf s Hr) as Hw.
  destruct s as [[tk ss] out al]. unfold ipass. cbn [step sys_scanner_alive sys_bot sys_outbox b_tasks b_sessions].
  destruct al; [|reflexivity].
  change (mk_iworld (mk_bot tk ss) out []) with (iw_of ss (mk_world tk out)).
  rewrite (pass_i_no_interference now tk ss out Hw).
  destruct (check_deadlines_pass now (mk_world tk out)) as [r [tk' out']]. reflexivity.
Qed.

(** C18: A pass that completes ends with exactly the users it started
    with, in the same order: a user added while the pass waits for
    Telegram (whatever else the handlers do in the meantime) makes it raise
    [RuntimeError]. *)
Theorem pass_i_ok_same_users now w :
  fst (pass_i now w) = Ok tt -> dict_keys (iw_tasks (snd (pass_i now w))) = dict_keys (iw_tasks w).
Proof.
  intros Hok. pose proof (pass_i_inv (keys_from (dict_keys (iw_tasks w))) now w (reflexivity _)) as Hp.
  revert Hok Hp. unfold pass_i, bind, get.
  destruct (dict_iter _ _ _ _ w) as [r w'] eqn:E. cbn [fst snd]. intros -> Hp.
  symmetry. apply prefix_length_eq; [exact Hp|].
  unfold dict_keys. rewrite !length_map, (dict_iter_ok _ _ _ _ _ _ E). reflexivity.
Qed.

(** The scenario: a user who finishes adding a task while the scanner is
    sending a reminder kills the scanner.  The pass of 15:00:30 sends user
    7 its one-hour reminder, user 8's minute button adds user 8 to [tasks]
    during the [await], the next [next] of [for user_id in tasks] raises
    [RuntimeError] and no reminder is sent again, whatever happens next;
    without the press during the await the scanner survives. *)
Example lunch_press_kills_scanner :
  exists s', ipass at_1500 lunch_press before_pass = Some s'
    /\ sys_scanner_alive s' = false
    /\ (forall es, sys_outbox (run_events es s') = [mk_notification 7 (lit "1") Due1h])
    /\ option_map sys_scanner_alive (ipass at_1500 [] before_pass) = Some true.
Proof.
  set (s' := default initial_system (ipass at_1500 lunch_press before_pass)).
  exists s'. split; [vm_compute; reflexivity|].
  assert (Hd : sys_scanner_alive s' = false)
    by (vm_compute; reflexivity).
  split; [exact Hd|]. split; [|vm_compute; reflexivity].
  intros es. rewrite (proj1 (run_events_dead es _ Hd)). vm_compute. reflexivity.
Qed.

(** C9: The size check of [for user_id in tasks] is what ends a pass that a
    handler changed: whatever the store and whatever the handlers run
    during the pass's awaits, a pass raises [RuntimeError] only when it
    ends with a different number of users than it started with, and a pass
    that ends with a different number of users raised [RuntimeError], or
    the [AttributeError] of a task with no deadline met before the next
    [next].  [ipass] then marks the scanner dead. *)
Theorem new_user_kills_scanner now w :
  (fst (pass_i now w) = Raise RuntimeError ->
     length (iw_tasks (snd (pass_i now w))) <> length (iw_tasks w))
  /\ (length (iw_tasks (snd (pass_i now w))) <> length (iw_tasks w) ->
     fst (pass_i now w) = Raise RuntimeError \/ fst (pass_i now w) = Raise AttributeError).
Proof.
  unfold pass_i, bind, get.
  destruct (dict_iter _ _ _ _ w) as [[[]|e] w'] eqn:E; cbn [fst snd].
  - split; [discriminate|]. intros Hn. exfalso. exact (Hn (dict_iter_ok _ _ _ _ _ _ E)).
  - destruct (dict_iter_raise _ _ _ _ _ _ _ (scan_user_i_raises now) E) as [[-> Hn]| ->].
    + split; [intros _; exact Hn|left; reflexivity].
    + split; [discriminate|right; reflexivity].
Qed.

Lemma ipass_refines_step_witness :
  reachable (run_events report_dialog initial_system)
  /\ ipass at_1500 [] (run_events report_dialog initial_system)
     = step (ev_pass at_1500) (run_events report_dialog initial_system).
Proof.
  assert (Hr : reachable (run_events report_dialog initial_system))
    by exact (run_events_reachable _ _ reach_init).
  split; [exact Hr|exact (ipass_refines_step _ at_1500 Hr)].
Defined.

Lemma pass_i_ok_same_users_witness :
  fst (pass_i at_1500 (mk_iworld (sys_bot before_pass) [] [])) = Ok tt
  /\ dict_keys (iw_tasks (snd (pass_i at_1500 (mk_iworld (sys_bot before_pass) [] []))))
     = dict_keys (iw_tasks (mk_iworld (sys_bot before_pass) [] [])).
Proof.
  assert (H : fst (pass_i at_1500 (mk_iworld (sys_bot before_pass) [] [])) = Ok tt)
    by (vm_compute; reflexivity).
  split; [exact H|exact (pass_i_ok_same_users _ _ H)].
Defined.

Lemma new_user_kills_scanner_witness :
  fst (pass_i at_1500 (mk_iworld (sys_bot before_pass) (sys_outbox before_pass) lunch_press)) = Raise RuntimeError
  /\ length (iw_tasks (snd (pass_i at_1500 (mk_iworld (sys_bot before_pass) (sys_outbox before_pass) lunch_press))))
     <> length (iw_tasks (mk_iworld (sys_bot before_pass) (sys_outbox before_pass) lunch_press)).
Proof.
  assert (H : fst (pass_i at_1500 (mk_iworld (sys_bot before_pass) (sys_outbox before_pass) lunch_press))
              = Raise RuntimeError) by (vm_compute; reflexivity).
  split; [exact H|exact (proj1 (new_user_kills_scanner _ _) H)].
Defined.

