(* ===== verification/Concurrency.v ===== *)
(** * Handlers as tasks of the event loop

    [dp.start_polling(bot)] runs every update as a task of its own
    (aiogram 3's [handle_as_tasks=True]), and the [Dispatcher] of
    [src/main.py] is created without an event isolation: two updates of
    the same user run concurrently.  A handler gives the event loop back
    at every network [await] ([callback.answer()], [message.answer(...)],
    [edit_text(...)]); the [MemoryStorage] calls and the [tasks] accesses
    never suspend.  So a handler is a sequence of segments, the code
    between two network awaits, and the event loop runs the segments of
    the pending handlers in any interleaving.

    [htask] is a handler suspended at an await: [Await m] resumes with the
    segment [m], which returns the rest of the handler.  The handlers
    whose accesses to [tasks] and to the FSM storage span several segments
    ([process_task_name], [process_edit_name_input], [process_exact_time],
    [process_time_all_day], [process_complete_task], [process_delete_task],
    [process_edit_name], [process_edit_deadline], [process_back_to_time])
    are split at their awaits; the others access the state in one segment
    only, and the segments around it, which touch nothing, commute with
    every other segment, so they run as one segment ([atomic]).  The clock
    reading of a handler is fixed at its update, as in [Bot].

    The theorems: the split handlers run without interleaving are the
    handlers of [Handlers] ([dispatch_task_sequential]), so an update
    delivered to an idle loop and resumed to its end is a step of [Bot]
    ([serial_dispatch]); every interleaving keeps every store invariant of
    the [StoreInv] interface ([lreachable_store_inv]); every handler task
    changes [tasks] in one segment at most ([dispatch_task_writes_once]),
    the premise of [Interleave]'s handlers run whole at one [await] of the
    scanner; and the races the
    interleavings open: a double tap on a minute button creates the task
    twice, a deletion between the two segments of [process_complete_task]
    makes it raise [KeyError], and the [state.clear()] of a finished
    dialog cancels an Add Task pressed during its last await.  The scanner
    does not run in this model (its interleaving with whole handlers is
    [Interleave]). *)

From stdpp Require Import base list decidable strings.
From Stdlib Require Import Ascii ZArith Lia.
From S2P Require Import Prelude PyStr DateTime TaskStore Scanner Keyboards Handlers Bot Invariants.

Local Open Scope Z_scope.
Local Open Scope py_scope.
#[local] Set Warnings "-register-all".

(** ** Handlers suspended at an await *)

Inductive htask : Type :=
| Done (r : reply)
| Await (m : PyM bot htask).

(** [await] a network call, then go on with [k]. *)
Definition yield (k : PyM bot htask) : PyM bot htask := ret (Await k).

(** The handler returns: its task ends with the reply [r]. *)
Definition finish (r : reply) : PyM bot htask := ret (Done r).

(** A handler whose state accesses all lie in one segment. *)
Definition atomic (m : PyM bot reply) : PyM bot htask := r <- m ;; finish r.

(** A task run to its end without giving the loop to another task. *)
Fixpoint run_task (p : htask) : PyM bot reply :=
  match p with
  | Done r => ret r
  | Await m => fun b =>
      match m b with
      | (Ok p', b') => run_task p' b'
      | (Raise e, b') => (Raise e, b')
      end
  end.

Definition run_seg (m : PyM bot htask) : PyM bot reply := bind m run_task.

(** ** The handlers split at their awaits *)

(** [process_task_name]: [update_data], [await message.answer(...)],
    [set_state]. *)
Definition process_task_name_task (now : datetime) (uid : Z) (text : option pystr)
    : PyM bot htask :=
  nm <- lift (strip_text text) ;;
  fsm_update uid (set_task_name nm) ;;
  yield (fsm_set_state uid (Some waiting_for_date_selection) ;;
         finish (with_keyboard (get_month_keyboard now))).

(** [process_edit_name_input]: the rename, [await message.answer(...)]
    (its keyboard built before the await), [state.clear()]. *)
Definition process_edit_name_input_task (uid : Z) (text : option pystr) : PyM bot htask :=
  d <- fsm_get_data uid ;;
  tid <- lift (match edit_task_id d with Some t => Ok t | None => Raise KeyError end) ;;
  s <- get_store ;;
  if task_present uid tid s then
    nm <- lift (strip_text text) ;;
    put_store (rename_task uid tid nm s) ;;
    yield (fsm_clear uid ;;
           finish (with_keyboard (get_task_keyboard (rename_task uid tid nm s) uid (Some tid))))
  else finish no_reply.

(** The segment of [process_exact_time] between [await callback.answer()]
    and [await callback.message.edit_text(...)]: the deadline is stored;
    [state.clear()] runs after the edit. *)
Definition exact_time_store (now : datetime) (uid : Z) (data : pystr) : PyM bot htask :=
  ts <- lift (data_field data 1) ;;
  d <- fsm_get_data uid ;;
  r <- store_deadline now uid d (Some (fstr_opt (date_str d) ++ " "%char :: ts)) ;;
  yield (fsm_clear uid ;; finish r).

Definition process_exact_time_task (now : datetime) (uid : Z) (data : pystr) : PyM bot htask :=
  yield (exact_time_store now uid data).

(** [process_time_all_day]: the same awaits. *)
Definition process_time_all_day_task (now : datetime) (uid : Z) : PyM bot htask :=
  yield (d <- fsm_get_data uid ;;
         s <- get_store ;;
         put_store (ensure_user uid s) ;;
         r <- store_deadline now uid d (date_str d) ;;
         yield (fsm_clear uid ;; finish r)).

(** The segment of [process_complete_task] after [await callback.answer(...)]:
    [task = tasks[user_id][task_id]] is read again for the card. *)
Definition complete_card (now : datetime) (uid : Z) (tid : pystr) : PyM bot htask :=
  s2 <- get_store ;;
  match lookup_task uid tid s2 with
  | Some t =>
      ts <- (if completed t then ret ts_empty else lift (time_status_of now (deadline t))) ;;
      finish (task_card ts (get_task_keyboard s2 uid (Some tid)))
  | None => raise KeyError
  end.

(** [process_complete_task]: the toggle, then [await callback.answer(...)]. *)
Definition process_complete_task_task (now : datetime) (uid : Z) (data : pystr)
    : PyM bot htask :=
  tid <- lift (data_field data 1) ;;
  s <- get_store ;;
  if task_present uid tid s then
    put_store (toggle_completed uid tid s) ;;
    yield (complete_card now uid tid)
  else finish no_reply.

(** [process_delete_task]: the deletion, [await callback.answer(...)],
    then the task list of the store as it is then. *)
Definition process_delete_task_task (uid : Z) (data : pystr) : PyM bot htask :=
  tid <- lift (data_field data 1) ;;
  s <- get_store ;;
  if task_present uid tid s then
    put_store (delete_task uid tid s) ;;
    yield (s2 <- get_store ;; finish (with_keyboard (get_task_keyboard s2 uid None)))
  else finish no_reply.

(** [process_edit_name]: [await callback.answer()], [update_data],
    [await edit_text(...)], [set_state]. *)
Definition process_edit_name_task (uid : Z) (data : pystr) : PyM bot htask :=
  yield (tid <- lift (data_field data 2) ;;
         fsm_update uid (set_edit_task_id tid) ;;
         yield (fsm_set_state uid (Some waiting_for_edit_name) ;; finish text_only)).

(** [process_edit_deadline]: the same awaits, two [update_data] calls. *)
Definition process_edit_deadline_task (now : datetime) (uid : Z) (data : pystr)
    : PyM bot htask :=
  yield (tid <- lift (data_field data 2) ;;
         fsm_update uid (set_edit_task_id tid) ;;
         fsm_update uid (set_is_editing true) ;;
         yield (fsm_set_state uid (Some waiting_for_date_selection) ;;
                finish (with_keyboard (get_month_keyboard now)))).

(** [process_back_to_time]: [await callback.answer()], then [get_data],
    the [int(...)] conversions and the assignment to [callback.data], which
    raises before the call of [process_day_selection]. *)
Definition process_back_to_time_task (uid : Z) : PyM bot htask :=
  yield (atomic (process_back_to_time uid)).

Definition run_message_task (now : datetime) (uid : Z) (t : msg_text) (h : msg_handler)
    : PyM bot htask :=
  match h, t with
  | h_task_name, plain_text s => process_task_name_task now uid (Some s)
  | h_task_name, no_text => process_task_name_task now uid None
  | h_edit_name_input, plain_text s => process_edit_name_input_task uid (Some s)
  | h_edit_name_input, no_text => process_edit_name_input_task uid None
  | _, _ => atomic (run_message now uid t h)
  end.

Definition run_callback_task (now : datetime) (uid : Z) (data : pystr) (h : cb_handler)
    : PyM bot htask :=
  match h with
  | h_exact_time => process_exact_time_task now uid data
  | h_time_all_day => process_time_all_day_task now uid
  | h_complete_task => process_complete_task_task now uid data
  | h_delete_task => process_delete_task_task uid data
  | h_edit_name => process_edit_name_task uid data
  | h_edit_deadline => process_edit_deadline_task now uid data
  | h_back_to_time => process_back_to_time_task uid
  | _ => atomic (run_callback now uid data h)
  end.

(** The task aiogram creates for an update: routing (the FSM state filters
    read the state) and the handler's first segment run together. *)
Definition dispatch_task (now : datetime) (u : update) : htask :=
  Await (match u with
         | message_update uid t =>
             b <- get ;;
             match route_message (fsm_state (session_of uid b)) t with
             | Some h => run_message_task now uid t h
             | None => finish no_reply
             end
         | callback_update uid data =>
             match first_route callback_routes data with
             | Some h => run_callback_task now uid data h
             | None => finish no_reply
             end
         end).

(** ** The event loop *)

(** The bot, the pending handler tasks in creation order, and the outcome
    of every finished task (its reply or the exception it died of, which
    aiogram logs). *)
Record loop : Type := mk_loop {
  l_bot : bot;
  l_pending : list htask;
  l_finished : list (result reply)
}.

(** An update arrives: polling creates its task. *)
Definition deliver (now : datetime) (u : update) (l : loop) : loop :=
  mk_loop (l_bot l) (l_pending l ++ [dispatch_task now u]) (l_finished l).

(** The loop resumes the [i]-th pending task up to its next await. *)
Definition resume (i : nat) (l : loop) : loop :=
  match l_pending l !! i with
  | Some (Await m) =>
      match m (l_bot l) with
      | (Ok (Await m'), b') => mk_loop b' (<[i := Await m']> (l_pending l)) (l_finished l)
      | (Ok (Done r), b') => mk_loop b' (delete i (l_pending l)) (l_finished l ++ [Ok r])
      | (Raise e, b') => mk_loop b' (delete i (l_pending l)) (l_finished l ++ [Raise e])
      end
  | _ => l
  end.

Inductive sched_event : Type :=
| s_deliver (now : datetime) (u : update)
| s_resume (i : nat).

Definition lstep (e : sched_event) (l : loop) : loop :=
  match e with
  | s_deliver now u => deliver now u l
  | s_resume i => resume i l
  end.

Fixpoint run_sched (es : list sched_event) (l : loop) : loop :=
  match es with
  | [] => l
  | e :: es' => run_sched es' (lstep e l)
  end.

Definition initial_loop : loop := mk_loop (mk_bot [] []) [] [].

Inductive lreachable : loop -> Prop :=
| lreach_init : lreachable initial_loop
| lreach_step e l : lreachable l -> lreachable (lstep e l).

(** ** Running a split handler without interleaving *)

Lemma run_task_await m : run_task (Await m) ≡ run_seg m.
Proof. intros b. unfold run_seg, bind. cbn [run_task]. destruct (m b) as [[p|e] b']; reflexivity. Qed.

#[export] Instance run_seg_proper : Proper ((≡) ==> (≡)) run_seg.
Proof. intros m1 m2 Hm. unfold run_seg. rewrite Hm. reflexivity. Qed.

Lemma run_seg_bind {A} (m : PyM bot A) (k : A -> PyM bot htask) :
  run_seg (bind m k) ≡ bind m (fun a => run_seg (k a)).
Proof. apply bind_assoc_eqv. Qed.

Lemma run_seg_yield k : run_seg (yield k) ≡ run_seg k.
Proof. unfold yield, run_seg at 1. rewrite bind_ret_l_eqv. apply run_task_await. Qed.

Lemma run_seg_finish r : run_seg (finish r) ≡ ret r.
Proof. intros b. reflexivity. Qed.

Lemma run_seg_raise e : run_seg (raise e) ≡ raise e.
Proof. intros b. reflexivity. Qed.

Lemma run_seg_atomic m : run_seg (atomic m) ≡ m.
Proof. unfold atomic. rewrite run_seg_bind. setoid_rewrite run_seg_finish. apply bind_ret_r_eqv. Qed.

(** The toggle and the deletion: the store written before the await is the
    one read after it when no other task runs in between. *)
Lemma run_seg_put_yield_get s (k : store -> PyM bot htask) :
  run_seg (put_store s ;; yield (bind get_store k)) ≡ (put_store s ;; run_seg (k s)).
Proof.
  intros b. cbv [run_seg bind yield ret put_store modify get_store get]. cbn [run_task b_tasks].
  destruct (k s _) as [[p|e] b']; reflexivity.
Qed.

(** A split handler against its atomic version, segment by segment. *)
Ltac run_walk :=
  repeat match goal with
  | |- ?m ≡ ?m => reflexivity
  | |- run_seg (bind (put_store _) (fun _ => yield (bind get_store _))) ≡ _ =>
      rewrite run_seg_put_yield_get
  | |- run_seg (bind (put_store _) (fun _ => yield (complete_card _ _ _))) ≡ _ =>
      unfold complete_card; rewrite run_seg_put_yield_get
  | |- run_seg (bind _ _) ≡ _ => rewrite run_seg_bind
  | |- bind _ _ ≡ bind _ _ => apply bind_proper; [reflexivity|intros ?]
  | |- run_seg (yield _) ≡ _ => rewrite run_seg_yield
  | |- run_seg (finish _) ≡ _ => apply run_seg_finish
  | |- run_seg (raise _) ≡ _ => apply run_seg_raise
  | |- run_seg (atomic _) ≡ _ => apply run_seg_atomic
  | |- run_seg (if ?c then _ else _) ≡ _ => destruct c
  | |- run_seg (match ?o with _ => _ end) ≡ _ => destruct o
  end.

(** A routed handler run to its end: atomic, or split and then compared
    with [Handlers] segment by segment. *)
Ltac split_seq :=
  lazymatch goal with
  | |- run_seg (atomic _) ≡ _ => apply run_seg_atomic
  | |- _ =>
      unfold process_task_name_task, process_edit_name_input_task, process_exact_time_task,
        exact_time_store, process_time_all_day_task, process_complete_task_task,
        process_delete_task_task, process_edit_name_task, process_edit_deadline_task,
        process_back_to_time_task,
        process_task_name, process_edit_name_input, process_exact_time, process_time_all_day,
        process_complete_task, process_delete_task, process_edit_name, process_edit_deadline,
        process_back_to_time;
      run_walk
  end.

Lemma run_message_task_seq now uid t h :
  run_seg (run_message_task now uid t h) ≡ run_message now uid t h.
Proof.
  destruct h, t; cbn [run_message_task run_message];
    split_seq.
Qed.

Lemma run_callback_task_seq now uid data h :
  run_seg (run_callback_task now uid data h) ≡ run_callback now uid data h.
Proof.
  destruct h; cbn [run_callback_task run_callback];
    split_seq.
Qed.

(** The routing and the first segment, then the rest of the task. *)
Lemma run_dispatch_task now u : run_task (dispatch_task now u) ≡ dispatch now u.
Proof.
  unfold dispatch_task. rewrite run_task_await. destruct u as [uid t|uid data]; cbn [dispatch].
  - rewrite run_seg_bind. apply bind_proper; [reflexivity|intros b].
    destruct (route_message _ t); [apply run_message_task_seq|apply run_seg_finish].
  - destruct (first_route callback_routes data); [apply run_callback_task_seq|apply run_seg_finish].
Qed.

(** The handlers split at their network awaits are the handlers of
    [Handlers]: the task aiogram creates for an update, run to its end
    without another task in between, computes exactly [Bot.dispatch], the
    same reply or exception and the same final state, for every update. *)
Theorem dispatch_task_sequential now u : run_task (dispatch_task now u) ≡ dispatch now u.
Proof. exact (run_dispatch_task now u). Qed.

(** ** Every task finishes within three resumptions *)

(** [p] finishes within [n] resumptions, whatever the state. *)
Fixpoint within (n : nat) (p : htask) {struct p} : Prop :=
  match p with
  | Done _ => True
  | Await m =>
      match n with
      | O => False
      | S n' => forall b, match fst (m b) with Ok p' => within n' p' | Raise _ => True end
      end
  end.

(** The rest of a segment finishes within [n] resumptions. *)
Definition seg_within (n : nat) (m : PyM bot htask) : Prop :=
  forall b, match fst (m b) with Ok p => within n p | Raise _ => True end.

Lemma within_await n m : seg_within n m -> within (S n) (Await m).
Proof. exact id. Qed.

Lemma seg_within_bind {A} n (m : PyM bot A) k : (forall a, seg_within n (k a)) -> seg_within n (bind m k).
Proof. intros Hk b. unfold bind. destruct (m b) as [[a|e] b']; [apply Hk|exact I]. Qed.

Lemma seg_within_yield n k : seg_within n k -> seg_within (S n) (yield k).
Proof. intros Hk b. exact Hk. Qed.

Lemma seg_within_finish n r : seg_within n (finish r).
Proof. intros b. exact I. Qed.

Lemma seg_within_raise n e : seg_within n (raise e).
Proof. intros b. exact I. Qed.

Lemma seg_within_atomic n m : seg_within n (atomic m).
Proof. apply seg_within_bind. intros r. apply seg_within_finish. Qed.

Ltac within_walk :=
  repeat match goal with
  | |- seg_within _ (bind _ _) => apply seg_within_bind; intros ?
  | |- seg_within (S _) (yield _) => apply seg_within_yield
  | |- seg_within _ (finish _) => apply seg_within_finish
  | |- seg_within _ (raise _) => apply seg_within_raise
  | |- seg_within _ (atomic _) => apply seg_within_atomic
  | |- seg_within _ (if ?c then _ else _) => destruct c
  | |- seg_within _ (match ?o with _ => _ end) => destruct o
  end.

Lemma dispatch_task_within now u : within 3 (dispatch_task now u).
Proof.
  apply within_await. destruct u as [uid t|uid data].
  - apply seg_within_bind. intros b.
    destruct (route_message _ t) as [h|]; [|apply seg_within_finish].
    destruct h, t; cbn [run_message_task];
      unfold process_task_name_task, process_edit_name_input_task; within_walk.
  - destruct (first_route callback_routes data) as [h|]; [|apply seg_within_finish].
    destruct h; cbn [run_callback_task];
      unfold process_exact_time_task, exact_time_store, process_time_all_day_task,
        process_complete_task_task, complete_card,
        process_delete_task_task, process_edit_name_task, process_edit_deadline_task,
        process_back_to_time_task; within_walk.
Qed.

(** Resuming the only pending task: it runs as [run_task], and further
    resumptions of an empty loop change nothing. *)
Lemma resume_empty k b out :
  run_sched (repeat (s_resume 0) k) (mk_loop b [] out) = mk_loop b [] out.
Proof. induction k as [|k IH]; [reflexivity|exact IH]. Qed.

Lemma resume_single n m b out :
  within n (Await m) ->
  run_sched (repeat (s_resume 0) n) (mk_loop b [Await m] out)
  = mk_loop (snd (run_task (Await m) b)) [] (out ++ [fst (run_task (Await m) b)]).
Proof.
  revert m b out. induction n as [|n IH]; intros m b out Hw; [destruct Hw|].
  specialize (Hw b). cbn [repeat run_sched lstep run_task]. unfold resume. cbn [l_pending l_bot l_finished].
  cbn [lookup list_lookup].
  destruct (m b) as [[[r|m']|e] b']; cbn [fst] in Hw.
  - apply resume_empty.
  - apply IH, Hw.
  - apply resume_empty.
Qed.

(** An update delivered to an idle event loop and resumed until its task
    ends (three resumptions suffice for every handler) is a step of [Bot]:
    the loop ends with the bot [dispatch] computes, no pending task, and
    the handler's reply or exception recorded. *)
Theorem serial_dispatch now u b out :
  run_sched (s_deliver now u :: repeat (s_resume 0) 3) (mk_loop b [] out)
  = mk_loop (snd (dispatch now u b)) [] (out ++ [fst (dispatch now u b)]).
Proof.
  cbn [run_sched lstep]. unfold deliver. cbn [l_bot l_pending l_finished app].
  unfold dispatch_task at 1. rewrite resume_single by apply dispatch_task_within.
  fold (dispatch_task now u). rewrite (run_dispatch_task now u b). reflexivity.
Qed.

(** ** Invariants of every interleaving *)

Section TaskInv.
Variable Inv : bot -> Prop.

(** Every segment of [p] keeps [I], whether it returns or raises. *)
Fixpoint task_ok (p : htask) : Prop :=
  match p with
  | Done _ => True
  | Await m =>
      forall b, Inv b -> Inv (snd (m b)) /\ match fst (m b) with Ok p' => task_ok p' | Raise _ => True end
  end.

Definition seg_ok (m : PyM bot htask) : Prop :=
  forall b, Inv b -> Inv (snd (m b)) /\ match fst (m b) with Ok p => task_ok p | Raise _ => True end.

Lemma task_ok_await m : seg_ok m -> task_ok (Await m).
Proof. exact id. Qed.

Lemma seg_ok_bind {A} (m : PyM bot A) k : preserves Inv m -> (forall a, seg_ok (k a)) -> seg_ok (bind m k).
Proof.
  intros Hm Hk b Hb. specialize (Hm b Hb). unfold bind.
  destruct (m b) as [[a|e] b']; [exact (Hk a b' Hm)|split; [exact Hm|exact I]].
Qed.

Lemma seg_ok_yield k : seg_ok k -> seg_ok (yield k).
Proof. intros Hk b Hb. split; [exact Hb|exact Hk]. Qed.

Lemma seg_ok_finish r : seg_ok (finish r).
Proof. intros b Hb. split; [exact Hb|exact I]. Qed.

Lemma seg_ok_raise e : seg_ok (raise e).
Proof. intros b Hb. split; [exact Hb|exact I]. Qed.

Lemma seg_ok_atomic m : preserves Inv m -> seg_ok (atomic m).
Proof. intros Hm. apply seg_ok_bind; [exact Hm|intros r; apply seg_ok_finish]. Qed.

(** The pending tasks and the bot of a loop. *)
Definition loop_ok (l : loop) : Prop := Inv (l_bot l) /\ Forall task_ok (l_pending l).

Lemma resume_ok i l : loop_ok l -> loop_ok (resume i l).
Proof.
  intros [Hb Hp]. unfold resume.
  destruct (l_pending l !! i) as [[r|m]|] eqn:Hi; try (split; assumption).
  pose proof (Forall_lookup_1 _ _ _ _ Hp Hi (l_bot l) Hb) as Hm.
  destruct (m (l_bot l)) as [[[r|m']|e] b']; cbn [fst snd] in Hm; destruct Hm as [HI Hk];
    split; cbn [l_bot l_pending];
    first [exact HI | apply Forall_delete, Hp | apply Forall_insert; [exact Hp|exact Hk]].
Qed.

Hypothesis dispatch_ok : forall now u, task_ok (dispatch_task now u).

Lemma lstep_ok e l : loop_ok l -> loop_ok (lstep e l).
Proof.
  destruct e as [now u|i]; cbn [lstep]; [|apply resume_ok].
  intros [Hb Hp]. split; [exact Hb|]. apply Forall_app_2; [exact Hp|].
  apply Forall_cons_2; [apply dispatch_ok|apply Forall_nil_2].
Qed.

Lemma lreachable_ok l : Inv (l_bot initial_loop) -> lreachable l -> loop_ok l.
Proof.
  intros H0. induction 1 as [|e l _ IH].
  - split; [exact H0|apply Forall_nil_2].
  - apply lstep_ok, IH.
Qed.

End TaskInv.

Lemma lreachable_run es l : lreachable l -> lreachable (run_sched es l).
Proof. revert l. induction es as [|e es IH]; intros l Hl; [exact Hl|apply IH; constructor; exact Hl]. Qed.

Section StoreInterleavings.
Context (P : store -> Prop) `{!StoreInv P}.

Lemma seg_ok_get_store k :
  (forall s, P s -> seg_ok (bot_store_inv P) (k s)) -> seg_ok (bot_store_inv P) (bind get_store k).
Proof. intros Hk b Hb. exact (Hk _ Hb b Hb). Qed.

(** A computation of [Handlers] inside a segment keeps the invariant. *)
Ltac si_pres :=
  solve [ apply (run_callback_inv P) | apply (run_message_inv P) | apply (day_selection_inv P)
        | unfold store_deadline; repeat si_step | unfold process_back_to_time; repeat si_step
        | repeat si_step ].

Ltac ok_walk :=
  repeat match goal with
  | |- seg_ok _ (bind get_store _) => apply seg_ok_get_store; intros ?s ?Hs
  | |- seg_ok _ (bind _ _) => apply seg_ok_bind; [si_pres|intros ?]
  | |- seg_ok _ (yield _) => apply seg_ok_yield
  | |- seg_ok _ (finish _) => apply seg_ok_finish
  | |- seg_ok _ (raise _) => apply seg_ok_raise
  | |- seg_ok _ (atomic _) => apply seg_ok_atomic; si_pres
  | |- seg_ok _ (if ?c then _ else _) => destruct c
  | |- seg_ok _ (match ?o with _ => _ end) => destruct o
  end.

(** Every segment of every handler keeps the invariant. *)
Lemma dispatch_task_ok now u : task_ok (bot_store_inv P) (dispatch_task now u).
Proof.
  apply task_ok_await. destruct u as [uid t|uid data].
  - apply seg_ok_bind; [apply preserves_get|intros b].
    destruct (route_message _ t) as [h|]; [|apply seg_ok_finish].
    destruct h, t; cbn [run_message_task];
      unfold process_task_name_task, process_edit_name_input_task; ok_walk.
  - destruct (first_route callback_routes data) as [h|]; [|apply seg_ok_finish].
    destruct h; cbn [run_callback_task];
      unfold process_exact_time_task, exact_time_store, process_time_all_day_task,
        process_complete_task_task, complete_card,
        process_delete_task_task, process_edit_name_task, process_edit_deadline_task,
        process_back_to_time_task; ok_walk.
Qed.

(** Every store invariant of the [StoreInv] interface that holds of
    the empty store holds in every state of the event loop, whatever the
    interleaving of the handlers' segments at their network awaits: the
    handlers' mutations of [tasks] never run on a store another segment
    left half-changed. *)
Theorem lreachable_store_inv l : P [] -> lreachable l -> P (b_tasks (l_bot l)).
Proof. intros H0 Hl. exact (proj1 (lreachable_ok _ dispatch_task_ok l H0 Hl)). Qed.

End StoreInterleavings.

(** ** Each handler writes [tasks] in one segment

    The scanner observes [tasks] only; a handler task changes it in one
    segment at most, so for the scanner a handler's effect on [tasks] is
    one atomic step, which [Interleave] places at one [await] of the
    pass. *)

(** No segment of [p] changes [tasks]. *)
Fixpoint quiet (p : htask) : Prop :=
  match p with
  | Done _ => True
  | Await m => forall b, b_tasks (snd (m b)) = b_tasks b /\
                         match fst (m b) with Ok p' => quiet p' | Raise _ => True end
  end.

(** At most one segment of [p] changes [tasks]. *)
Fixpoint writes_once (p : htask) : Prop :=
  match p with
  | Done _ => True
  | Await m => forall b, match fst (m b) with
                         | Ok p' => (b_tasks (snd (m b)) = b_tasks b /\ writes_once p') \/ quiet p'
                         | Raise _ => True
                         end
  end.

Definition seg_quiet (m : PyM bot htask) : Prop :=
  forall b, b_tasks (snd (m b)) = b_tasks b /\ match fst (m b) with Ok p => quiet p | Raise _ => True end.

Definition seg_once (m : PyM bot htask) : Prop :=
  forall b, match fst (m b) with
            | Ok p => (b_tasks (snd (m b)) = b_tasks b /\ writes_once p) \/ quiet p
            | Raise _ => True
            end.

(** A computation that leaves [tasks] as it is. *)
Definition store_pure {A} (m : PyM bot A) : Prop := forall b, b_tasks (snd (m b)) = b_tasks b.

Lemma store_pure_bind {A B} (m : PyM bot A) (k : A -> PyM bot B) :
  store_pure m -> (forall a, store_pure (k a)) -> store_pure (bind m k).
Proof.
  intros Hm Hk b. unfold bind. specialize (Hm b).
  destruct (m b) as [[a|e] b']; cbn [snd] in *; [rewrite Hk|]; exact Hm.
Qed.

Lemma store_pure_modify_session (f : bot -> bot) :
  (forall b, b_tasks (f b) = b_tasks b) -> store_pure (modify f).
Proof. intros Hf b. apply Hf. Qed.

Lemma seg_quiet_bind {A} (m : PyM bot A) k :
  store_pure m -> (forall a, seg_quiet (k a)) -> seg_quiet (bind m k).
Proof.
  intros Hm Hk b. unfold bind. specialize (Hm b).
  destruct (m b) as [[a|e] b']; cbn [fst snd] in *; [|split; [exact Hm|exact I]].
  destruct (Hk a b') as [H1 H2]. split; [congruence|exact H2].
Qed.

Lemma seg_quiet_yield k : seg_quiet k -> seg_quiet (yield k).
Proof. intros Hk b. split; [reflexivity|exact Hk]. Qed.

Lemma seg_quiet_finish r : seg_quiet (finish r).
Proof. intros b. split; [reflexivity|exact I]. Qed.

Lemma seg_quiet_raise e : seg_quiet (raise e).
Proof. intros b. split; [reflexivity|exact I]. Qed.

(** A segment that writes, then leaves [tasks] alone to the end. *)
Lemma seg_once_write {A} (m : PyM bot A) k : (forall a, seg_quiet (k a)) -> seg_once (bind m k).
Proof.
  intros Hk b. unfold bind. destruct (m b) as [[a|e] b']; [|exact I].
  specialize (Hk a b'). destruct (fst (k a b')); [right; apply Hk|exact I].
Qed.

(** Two writes in one segment, then nothing. *)
Lemma seg_once_write2 {A B} (m : PyM bot A) (m2 : A -> PyM bot B) k :
  (forall c, seg_quiet (k c)) -> seg_once (bind m (fun a => bind (m2 a) k)).
Proof.
  intros Hk b. rewrite <- (bind_assoc m m2 k b). revert b. apply seg_once_write, Hk.
Qed.

Lemma seg_once_bind {A} (m : PyM bot A) k :
  store_pure m -> (forall a, seg_once (k a)) -> seg_once (bind m k).
Proof.
  intros Hm Hk b. unfold bind. specialize (Hm b).
  destruct (m b) as [[a|e] b']; cbn [fst snd] in *; [|exact I].
  specialize (Hk a b'). destruct (fst (k a b')); [|exact I].
  destruct Hk as [[H1 H2]|H]; [left; split; [congruence|exact H2]|right; exact H].
Qed.

Lemma seg_once_yield k : seg_once k -> seg_once (yield k).
Proof. intros Hk b. left. split; [reflexivity|exact Hk]. Qed.

Lemma seg_once_finish r : seg_once (finish r).
Proof. intros b. right. exact I. Qed.

Lemma seg_once_raise e : seg_once (raise e).
Proof. intros b. exact I. Qed.

(** The FSM storage, reads and failures leave [tasks] alone. *)
Ltac store_pure_tac :=
  lazymatch goal with
  | |- store_pure (bind _ _) => apply store_pure_bind; [store_pure_tac|intros ?; store_pure_tac]
  | |- store_pure (fsm_update _ _) => apply store_pure_modify_session; reflexivity
  | |- store_pure (fsm_set_state _ _) => apply store_pure_modify_session; reflexivity
  | |- store_pure (fsm_clear _) => apply store_pure_modify_session; reflexivity
  | |- store_pure (if ?c then _ else _) => destruct c; store_pure_tac
  | |- store_pure _ => intros ?; reflexivity
  end.

Ltac once_walk :=
  repeat match goal with
  | |- seg_once (bind (put_store _) (fun _ => bind (store_deadline _ _ _ _) _)) =>
      apply seg_once_write2; intros ?
  | |- seg_once (bind ?m _) =>
      first [ apply seg_once_bind; [solve [store_pure_tac]|intros ?]
            | apply seg_once_write; intros ? ]
  | |- seg_quiet (bind _ _) => apply seg_quiet_bind; [solve [store_pure_tac]|intros ?]
  | |- seg_once (yield _) => apply seg_once_yield
  | |- seg_quiet (yield _) => apply seg_quiet_yield
  | |- seg_once (finish _) => apply seg_once_finish
  | |- seg_quiet (finish _) => apply seg_quiet_finish
  | |- seg_once (raise _) => apply seg_once_raise
  | |- seg_quiet (raise _) => apply seg_quiet_raise
  | |- seg_once (atomic _) => apply seg_once_write; intros ?; apply seg_quiet_finish
  | |- seg_once (if ?c then _ else _) => destruct c
  | |- seg_quiet (if ?c then _ else _) => destruct c
  | |- seg_once (match ?o with _ => _ end) => destruct o
  | |- seg_quiet (match ?o with _ => _ end) => destruct o
  end.

(** C12: Every handler task changes [tasks] in one segment at most: the
    handlers write the store before their first network await or between
    two of them, never on both sides of one, so whatever the other tasks do
    meanwhile a later segment of the same handler leaves [tasks] alone, and
    a scanner pass waiting at its own await sees each handler's change of
    the store whole. *)
Theorem dispatch_task_writes_once now u : writes_once (dispatch_task now u).
Proof.
  change (writes_once (dispatch_task now u)) with (seg_once (match u with
    | message_update uid t =>
        b <- get ;;
        match route_message (fsm_state (session_of uid b)) t with
        | Some h => run_message_task now uid t h
        | None => finish no_reply
        end
    | callback_update uid data =>
        match first_route callback_routes data with
        | Some h => run_callback_task now uid data h
        | None => finish no_reply
        end
    end)).
  destruct u as [uid t|uid data].
  - apply seg_once_bind; [intros ?; reflexivity|intros b].
    destruct (route_message _ t) as [h|]; [|apply seg_once_finish].
    destruct h, t; cbn [run_message_task];
      unfold process_task_name_task, process_edit_name_input_task; once_walk.
  - destruct (first_route callback_routes data) as [h|]; [|apply seg_once_finish].
    destruct h; cbn [run_callback_task];
      unfold process_exact_time_task, exact_time_store, process_time_all_day_task,
        process_complete_task_task, complete_card, process_delete_task_task, process_edit_name_task,
        process_edit_deadline_task, process_back_to_time_task; once_walk.
Qed.

(** ** Races *)

Lemma run_sched_cons e es l : run_sched (e :: es) l = run_sched es (lstep e l).
Proof. reflexivity. Qed.

(** One scheduling event on a loop given by its fields. *)
Ltac lstep_simpl :=
  rewrite run_sched_cons; cbn [lstep]; unfold deliver, resume;
  cbn [l_bot l_pending l_finished app lookup list_lookup insert list_insert delete list_delete].

(** The end of a segment: [state.clear()] and the task's reply. *)
Ltac clear_simpl := cbv [bind fsm_clear modify finish ret put_session]; cbn [b_tasks b_sessions].

(** [callback.data.split("_")[1]] of a button ["<p>_<x>"]. *)
Lemma data_field_button (p x : pystr) :
  Forall (fun c => bool_decide (c = "_"%char) = false) p ->
  Forall (fun c => bool_decide (c = "_"%char) = false) x ->
  data_field (p ++ "_"%char :: x) 1 = Ok x.
Proof.
  intros Hp Hx. unfold data_field, split_on.
  rewrite split_by_app by (exact Hp || reflexivity). rewrite split_by_no_sep by exact Hx.
  reflexivity.
Qed.

Lemma dispatch_fulltime now uid ts :
  dispatch_task now (callback_update uid (lit "fulltime_" ++ ts))
  = Await (process_exact_time_task now uid (lit "fulltime_" ++ ts)).
Proof. reflexivity. Qed.

(** The segment of a minute button that creates the task. *)
Lemma exact_time_store_create now uid ts b :
  Forall (fun c => bool_decide (c = "_"%char) = false) ts ->
  is_editing (fsm_bag (session_of uid b)) <> Some true ->
  exact_time_store now uid (lit "fulltime_" ++ ts) b
  = let s' := fst (create_task uid
                     (new_task (task_name (fsm_bag (session_of uid b)))
                        (Some (fstr_opt (date_str (fsm_bag (session_of uid b))) ++ " "%char :: ts))
                        (fmt_minute now)) (b_tasks b)) in
    (Ok (Await (fsm_clear uid ;; finish (with_keyboard (get_task_keyboard s' uid None)))),
     mk_bot s' (b_sessions b)).
Proof.
  intros Hts Hed. unfold exact_time_store, store_deadline.
  change (lit "fulltime_" ++ ts) with (lit "fulltime" ++ "_"%char :: ts).
  rewrite data_field_button by first [exact Hts | repeat constructor].
  unfold fsm_get_data, get_store, put_store. py_unfold. cbn [b_tasks b_sessions].
  destruct (is_editing (fsm_bag (session_of uid b))) as [[]|]; [congruence| |]; reflexivity.
Qed.

(** Two taps on the same minute button: both tasks answer the callback,
    both store the task, then both clear the state. *)
Definition double_tap (now : datetime) (uid : Z) (ts : pystr) : list sched_event :=
  let u := callback_update uid (lit "fulltime_" ++ ts) in
  [s_deliver now u; s_deliver now u; s_resume 0; s_resume 1; s_resume 0; s_resume 1;
   s_resume 0; s_resume 0].

Lemma double_tap_trace now uid ts b out :
  Forall (fun c => bool_decide (c = "_"%char) = false) ts ->
  is_editing (fsm_bag (session_of uid b)) <> Some true ->
  let d := fsm_bag (session_of uid b) in
  let t := new_task (task_name d) (Some (fstr_opt (date_str d) ++ " "%char :: ts)) (fmt_minute now) in
  exists r1 r2 : reply,
  run_sched (double_tap now uid ts) (mk_loop b [] out)
  = mk_loop (mk_bot (fst (create_task uid t (fst (create_task uid t (b_tasks b)))))
                    (dict_set uid empty_session (b_sessions b))) [] (out ++ [Ok r1; Ok r2]).
Proof.
  intros Hts Hed d t. eexists _, _. unfold double_tap. cbv zeta.
  do 2 lstep_simpl. rewrite !dispatch_fulltime.
  do 2 (lstep_simpl; cbv [process_exact_time_task yield ret]).
  lstep_simpl. rewrite exact_time_store_create by assumption. cbv beta iota zeta.
  lstep_simpl. rewrite exact_time_store_create by (exact Hts || exact Hed). cbv beta iota zeta.
  do 2 (lstep_simpl; clear_simpl).
  cbn [run_sched]. rewrite dict_set_set, <- app_assoc. reflexivity.
Qed.

Lemma dispatch_fulltime_atomic now uid ts b :
  dispatch now (callback_update uid (lit "fulltime_" ++ ts)) b
  = process_exact_time now uid (lit "fulltime_" ++ ts) b.
Proof. reflexivity. Qed.

(** C11: A double tap on a minute button creates the task twice.  Both
    callbacks answer ([await callback.answer()]) before either reads the
    FSM data, and the first clears the state only after its
    [await edit_text(...)]: the second reads the same name and date and
    stores a second, identical task.  Run one after the other, the same two
    updates store the task and then a task named [None] whose deadline is
    ["None HH:MM"]: the interleaving has an outcome no serial order has. *)
Theorem double_tap_creates_twice now uid ts b out :
  Forall (fun c => bool_decide (c = "_"%char) = false) ts ->
  is_editing (fsm_bag (session_of uid b)) <> Some true ->
  let d := fsm_bag (session_of uid b) in
  let t := new_task (task_name d) (Some (fstr_opt (date_str d) ++ " "%char :: ts)) (fmt_minute now) in
  let u := callback_update uid (lit "fulltime_" ++ ts) in
  b_tasks (l_bot (run_sched (double_tap now uid ts) (mk_loop b [] out)))
    = fst (create_task uid t (fst (create_task uid t (b_tasks b))))
  /\ b_tasks (snd (dispatch now u (snd (dispatch now u b))))
    = fst (create_task uid (new_task None (Some (lit "None" ++ " "%char :: ts)) (fmt_minute now))
             (fst (create_task uid t (b_tasks b)))).
Proof.
  intros Hts Hed d t u. split.
  - destruct (double_tap_trace now uid ts b out Hts Hed) as (r1 & r2 & ->). reflexivity.
  - unfold u. rewrite !dispatch_fulltime_atomic, (process_exact_time_create now uid ts b Hts Hed).
    cbn [snd]. rewrite process_exact_time_create
      by first [exact Hts | unfold session_of; cbn [b_sessions]; rewrite dict_get_set_eq; discriminate].
    unfold session_of. cbn [snd b_tasks b_sessions]. rewrite dict_get_set_eq. reflexivity.
Qed.

Lemma task_present_toggle uid tid s :
  task_present uid tid (toggle_completed uid tid s) = task_present uid tid s.
Proof.
  unfold task_present, toggle_completed, update_task.
  destruct (dict_get uid s) as [ut|] eqn:Eu; [|rewrite Eu; reflexivity].
  destruct (dict_get tid ut) as [t|] eqn:Et; [|rewrite Eu; reflexivity].
  rewrite dict_get_set_eq, dict_keys_set_in by (eapply dict_get_Some_in; exact Et). reflexivity.
Qed.

Lemma lookup_delete_task uid tid s : store_wf s -> lookup_task uid tid (delete_task uid tid s) = None.
Proof.
  intros Hs. pose proof (store_wf_user uid s Hs) as Hu. unfold user_tasks_of in Hu.
  unfold lookup_task, delete_task.
  destruct (dict_get uid s) as [ut|] eqn:Eu; cbn [default] in Hu; [|rewrite Eu; reflexivity].
  destruct (decide (tid ∈ dict_keys ut)) as [Hin|Hnin].
  - rewrite dict_get_set_eq. apply dict_get_del_eq, Hu.
  - rewrite Eu. apply dict_get_None_notin, Hnin.
Qed.

(** The first segment of a Complete button: the toggle. *)
Lemma complete_toggle now uid tid b :
  Forall (fun c => bool_decide (c = "_"%char) = false) tid -> task_present uid tid (b_tasks b) = true ->
  process_complete_task_task now uid (lit "complete_" ++ tid) b
  = (Ok (Await (complete_card now uid tid)), mk_bot (toggle_completed uid tid (b_tasks b)) (b_sessions b)).
Proof.
  intros Ht Hp. unfold process_complete_task_task.
  change (lit "complete_" ++ tid) with (lit "complete" ++ "_"%char :: tid).
  rewrite data_field_button by first [exact Ht | repeat constructor].
  unfold get_store, put_store. py_unfold. cbn [b_tasks b_sessions]. rewrite Hp. reflexivity.
Qed.

(** The first segment of a Delete button: the deletion. *)
Lemma delete_first uid tid b :
  Forall (fun c => bool_decide (c = "_"%char) = false) tid -> task_present uid tid (b_tasks b) = true ->
  process_delete_task_task uid (lit "delete_" ++ tid) b
  = (Ok (Await (s2 <- get_store ;; finish (with_keyboard (get_task_keyboard s2 uid None)))),
     mk_bot (delete_task uid tid (b_tasks b)) (b_sessions b)).
Proof.
  intros Ht Hp. unfold process_delete_task_task.
  change (lit "delete_" ++ tid) with (lit "delete" ++ "_"%char :: tid).
  rewrite data_field_button by first [exact Ht | repeat constructor].
  unfold get_store, put_store. py_unfold. cbn [b_tasks b_sessions]. rewrite Hp. reflexivity.
Qed.

(** A Complete button and a Delete button of the same task, pressed in
    quick succession: the toggle, the deletion and the task list, then the
    card of the toggled task. *)
Definition complete_then_delete (now : datetime) (uid : Z) (tid : pystr) : list sched_event :=
  [s_deliver now (callback_update uid (lit "complete_" ++ tid));
   s_deliver now (callback_update uid (lit "delete_" ++ tid));
   s_resume 0; s_resume 1; s_resume 1; s_resume 0].

(** C14: A task deleted while its Complete button is being answered makes
    [process_complete_task] raise [KeyError]: the toggle runs, the handler
    awaits [callback.answer(...)], the Delete button's handler deletes the
    task, and [task = tasks[user_id][task_id]] after the await finds it
    gone.  The toggled task is deleted and the card is never shown. *)
Theorem complete_delete_race now uid tid b out :
  Forall (fun c => bool_decide (c = "_"%char) = false) tid ->
  store_wf (b_tasks b) -> task_present uid tid (b_tasks b) = true ->
  let l := run_sched (complete_then_delete now uid tid) (mk_loop b [] out) in
  b_tasks (l_bot l) = delete_task uid tid (toggle_completed uid tid (b_tasks b))
  /\ l_pending l = [] /\ exists r, l_finished l = out ++ [Ok r; Raise KeyError].
Proof.
  intros Ht Hs Hp l. subst l. unfold complete_then_delete.
  do 2 lstep_simpl.
  change (dispatch_task now (callback_update uid (lit "complete_" ++ tid)))
    with (Await (process_complete_task_task now uid (lit "complete_" ++ tid))).
  change (dispatch_task now (callback_update uid (lit "delete_" ++ tid)))
    with (Await (process_delete_task_task uid (lit "delete_" ++ tid))).
  lstep_simpl. rewrite complete_toggle by assumption. cbv beta iota zeta.
  lstep_simpl. rewrite delete_first by (cbn [b_tasks]; rewrite ?task_present_toggle; assumption).
  cbv beta iota zeta.
  lstep_simpl. cbv [bind get_store get finish ret]. cbn [b_tasks].
  lstep_simpl. unfold complete_card, get_store. cbv [bind get ret]. cbn [b_tasks].
  rewrite lookup_delete_task by (apply update_task_wf, Hs). cbn [run_sched l_bot l_pending l_finished raise].
  split; [reflexivity|split; [reflexivity|]]. eexists. rewrite <- app_assoc. reflexivity.
Qed.

(** The Add Task menu button: [cmd_add] sets [waiting_for_task_name]. *)
Lemma dispatch_add_atomic now uid b :
  dispatch now (message_update uid menu_add_task) b
  = (Ok text_only, put_session uid (mk_session (Some waiting_for_task_name) (fsm_bag (session_of uid b))) b).
Proof. reflexivity. Qed.

Lemma dispatch_add_task now uid :
  exists m, dispatch_task now (message_update uid menu_add_task) = Await m
  /\ forall b, m b = (Ok (Done text_only),
                      put_session uid (mk_session (Some waiting_for_task_name) (fsm_bag (session_of uid b))) b).
Proof. eexists. split; [reflexivity|]. intros b. reflexivity. Qed.

(** A minute button, and the Add Task menu button pressed while its
    handler awaits [edit_text(...)]. *)
Definition add_during_clear (now : datetime) (uid : Z) (ts : pystr) : list sched_event :=
  [s_deliver now (callback_update uid (lit "fulltime_" ++ ts)); s_resume 0; s_resume 0;
   s_deliver now (message_update uid menu_add_task); s_resume 1; s_resume 0].

(** C15: The [state.clear()] that [process_exact_time] runs after its
    [await edit_text(...)] cancels an Add Task pressed in the meantime:
    [cmd_add] sets [waiting_for_task_name], then the pending clear empties
    the session, so the task name the user sends next reaches no handler.
    Run one after the other, the same two updates leave the session
    waiting for the name. *)
Theorem add_task_cancelled_by_clear now uid ts b out :
  Forall (fun c => bool_decide (c = "_"%char) = false) ts ->
  is_editing (fsm_bag (session_of uid b)) <> Some true ->
  session_of uid (l_bot (run_sched (add_during_clear now uid ts) (mk_loop b [] out))) = empty_session
  /\ fsm_state (session_of uid (snd (dispatch now (message_update uid menu_add_task)
                                      (snd (dispatch now (callback_update uid (lit "fulltime_" ++ ts)) b)))))
     = Some waiting_for_task_name.
Proof.
  intros Hts Hed. split.
  - destruct (dispatch_add_task now uid) as (m & Hd & Hm). unfold add_during_clear.
    lstep_simpl. rewrite dispatch_fulltime.
    lstep_simpl. cbv [process_exact_time_task yield ret].
    lstep_simpl. rewrite exact_time_store_create by assumption. cbv beta iota zeta.
    lstep_simpl. rewrite Hd. lstep_simpl. rewrite Hm. cbv beta iota zeta.
    lstep_simpl. clear_simpl. cbn [run_sched l_bot]. unfold session_of at 1. cbn [b_sessions].
    rewrite dict_get_set_eq. reflexivity.
  - rewrite dispatch_fulltime_atomic, process_exact_time_create by assumption. cbn [snd].
    rewrite dispatch_add_atomic. cbn [snd]. rewrite session_of_put. reflexivity.
Qed.

(** ** Witnesses *)

(** User 42 in the middle of the creation dialog of [Handlers]: the name,
    the month, the day and the hour picked, the minute buttons shown. *)
Definition mid_dialog : bot :=
  snd ((process_task_name nov_9_2026 42 (Some (lit "Report")) ;;
        process_month_selection nov_9_2026 42 (month_payload (1, 2030)) ;;
        process_day_selection nov_9_2026 42 (day_payload 1 1 2030) ;;
        process_hour_selection nov_9_2026 42 (lit "hour_" ++ fmt02 10)) (mk_bot [] [])).

Lemma lreachable_store_inv_witness :
  store_wf [] /\ store_wf (b_tasks (l_bot (run_sched (double_tap nov_9_2026 42 (lit "10:30")) initial_loop))).
Proof.
  split; [decide_by_eval|].
  apply (lreachable_store_inv store_wf); [decide_by_eval|apply lreachable_run, lreach_init].
Defined.

Lemma double_tap_creates_twice_witness :
  let t := new_task (Some (lit "Report")) (Some (lit "01.01.2030 10:30")) (fmt_minute nov_9_2026) in
  b_tasks (l_bot (run_sched (double_tap nov_9_2026 42 (lit "10:30")) (mk_loop mid_dialog [] [])))
  = fst (create_task 42 t (fst (create_task 42 t []))).
Proof.
  exact (proj1 (double_tap_creates_twice nov_9_2026 42 (lit "10:30") mid_dialog []
                  ltac:(repeat constructor) ltac:(vm_compute; discriminate))).
Defined.

Lemma complete_delete_race_witness :
  exists r, l_finished (run_sched (complete_then_delete nov_9_2026 42 (lit "1"))
                          (mk_loop after_report_dialog [] [])) = [Ok r; Raise KeyError].
Proof.
  destruct (complete_delete_race nov_9_2026 42 (lit "1") after_report_dialog []
              ltac:(repeat constructor) ltac:(decide_by_eval) ltac:(vm_compute; reflexivity))
    as (_ & _ & r & Hr).
  exists r. exact Hr.
Defined.

Lemma add_task_cancelled_by_clear_witness :
  session_of 42 (l_bot (run_sched (add_during_clear nov_9_2026 42 (lit "10:30")) (mk_loop mid_dialog [] [])))
  = empty_session.
Proof.
  exact (proj1 (add_task_cancelled_by_clear nov_9_2026 42 (lit "10:30") mid_dialog []
                  ltac:(repeat constructor) ltac:(vm_compute; discriminate))).
Defined.
