(* ===== verification/Isolation.v ===== *)
(** * Handlers of different users do not interfere

    Every handler of [src/main.py] works on the part of the bot that
    belongs to the user of its update: [tasks[user_id]] and the FSM
    session of [state].  [user_view u b] is that part, [same_at u] relates
    two bots that agree on it, and [≡] two bots that agree for every user
    (whatever the order of the users in the dictionaries).

    Two properties of every handler of user [u]:
    - what it computes, and what it leaves at [u], depend only on
      [user_view u] ([rel2 u], a relation between two runs on bots that
      agree at [u]; [dispatch_rel]);
    - it leaves every other user's part as it was ([frame_at]).
    For the split tasks of [Concurrency] both hold hereditarily
    ([task_local], [dispatch_task_local]): every segment, resumed on
    whatever bot the other tasks left, again satisfies them.

    They are proved once for every handler by two walks over the code: a
    relational walk ([rel_step]) that runs the same handler on two stores
    equal at [u] in lockstep, closing the equalities of the values it
    computes with the lemmas [*_at] on the store functions, and a frame walk
    ([fr_step]) with the lemmas [*_ne] that a mutation at [u] leaves the
    entry of [v <> u] alone.

    Consequences: the updates of two users commute ([dispatch_commute]);
    and a schedule of the event loop that never has two pending tasks of
    one user ([per_user_serial], the per-chat serialization the spec
    assumes of aiogram) ends, once no task is pending, in the bot of the
    updates dispatched one after the other in delivery order ([serial]),
    with the same outcomes up to their order ([per_user_serial_equiv], by
    the simulation invariant [loop_inv]).  The double tap of
    [Concurrency] is not such a schedule ([double_tap_not_per_user]). *)

From stdpp Require Import base list decidable strings.
From Stdlib Require Import Ascii ZArith Lia.
From S2P Require Import Prelude PyStr DateTime TaskStore Scanner Keyboards Handlers Bot Invariants Concurrency.

Local Open Scope Z_scope.
Local Open Scope py_scope.

(** ** What a user's handlers see *)

Definition user_view (u : Z) (b : bot) : option user_tasks * option session :=
  (dict_get u (b_tasks b), dict_get u (b_sessions b)).

Definition same_at (u : Z) (b1 b2 : bot) : Prop := user_view u b1 = user_view u b2.

#[export] Instance same_at_equivalence u : Equivalence (same_at u).
Proof. unfold same_at. split; [intros ?|intros ?? ?|intros ??? ??]; congruence. Qed.

(** Two bots agree for every user. *)
#[export] Instance bot_equiv : Equiv bot := fun b1 b2 => forall u, same_at u b1 b2.

#[export] Instance bot_equivalence : Equivalence (≡@{bot}).
Proof.
  split; [intros b u; reflexivity|intros b1 b2 H u; symmetry; apply H|].
  intros b1 b2 b3 H1 H2 u. etransitivity; [apply H1|apply H2].
Qed.

(** Two runs of computations on bots that agree at [u]: the same outcome,
    and bots that still agree at [u]. *)
Definition rel2 {A} (u : Z) (m1 m2 : PyM bot A) : Prop :=
  forall b1 b2, same_at u b1 b2 -> fst (m1 b1) = fst (m2 b2) /\ same_at u (snd (m1 b1)) (snd (m2 b2)).

#[export] Instance rel2_proper {A} u : Proper ((≡) ==> (≡) ==> iff) (@rel2 A u).
Proof.
  intros m1 m1' H1 m2 m2' H2. unfold rel2. split; intros H b1 b2 Hb.
  - rewrite <- (H1 b1), <- (H2 b2). exact (H b1 b2 Hb).
  - rewrite (H1 b1), (H2 b2). exact (H b1 b2 Hb).
Qed.

(** ** The store functions at one user *)

Lemma keys_at k (s1 s2 : store) :
  dict_get k s1 = dict_get k s2 -> (k ∈ dict_keys s1 <-> k ∈ dict_keys s2).
Proof.
  intros H. split; intros Hin; apply dec_stable; intros Hn; apply dict_get_None_notin in Hn;
    [rewrite <- H in Hn|rewrite H in Hn]; apply dict_get_None_notin in Hn; contradiction.
Qed.

Section At.
Variable u : Z.
Variables s1 s2 : store.
Hypothesis Hs : dict_get u s1 = dict_get u s2.

Lemma task_present_at tid : task_present u tid s1 = task_present u tid s2.
Proof. unfold task_present. rewrite Hs. reflexivity. Qed.

Lemma lookup_task_at tid : lookup_task u tid s1 = lookup_task u tid s2.
Proof. unfold lookup_task. rewrite Hs. reflexivity. Qed.

Lemma get_task_keyboard_at x : get_task_keyboard s1 u x = get_task_keyboard s2 u x.
Proof. unfold get_task_keyboard. rewrite Hs. reflexivity. Qed.

Lemma ensure_user_at : dict_get u (ensure_user u s1) = dict_get u (ensure_user u s2).
Proof.
  unfold ensure_user. pose proof (keys_at u s1 s2 Hs) as Hk.
  do 2 case_bool_decide; rewrite ?dict_get_set_eq; tauto || exact Hs || reflexivity.
Qed.

Lemma create_task_at t : dict_get u (fst (create_task u t s1)) = dict_get u (fst (create_task u t s2)).
Proof. unfold create_task, user_tasks_of. cbn [fst]. rewrite !dict_get_set_eq, Hs. reflexivity. Qed.

Lemma update_task_at tid f : dict_get u (update_task u tid f s1) = dict_get u (update_task u tid f s2).
Proof.
  unfold update_task. rewrite Hs. destruct (dict_get u s2) as [ut|] eqn:E; [|congruence].
  destruct (dict_get tid ut); [rewrite !dict_get_set_eq; reflexivity|congruence].
Qed.

Lemma toggle_completed_at tid :
  dict_get u (toggle_completed u tid s1) = dict_get u (toggle_completed u tid s2).
Proof. apply update_task_at. Qed.

Lemma rename_task_at tid nm : dict_get u (rename_task u tid nm s1) = dict_get u (rename_task u tid nm s2).
Proof. apply update_task_at. Qed.

Lemma delete_task_at tid : dict_get u (delete_task u tid s1) = dict_get u (delete_task u tid s2).
Proof.
  unfold delete_task. rewrite Hs. destruct (dict_get u s2) as [ut|] eqn:E; [|congruence].
  case_decide; [rewrite !dict_get_set_eq; reflexivity|congruence].
Qed.

End At.

Lemma session_of_at u b1 b2 : same_at u b1 b2 -> session_of u b1 = session_of u b2.
Proof. intros Hb. unfold session_of. injection Hb as _ H2. rewrite H2. reflexivity. Qed.

(** Equal values computed from stores equal at [u]. *)
Ltac at_eq :=
  first
  [ reflexivity
  | assumption
  | apply task_present_at; at_eq
  | apply lookup_task_at; at_eq
  | apply get_task_keyboard_at; at_eq
  | apply ensure_user_at; at_eq
  | apply create_task_at; at_eq
  | apply toggle_completed_at; at_eq
  | apply rename_task_at; at_eq
  | apply delete_task_at; at_eq
  | apply update_task_at; at_eq
  | apply session_of_at; assumption
  | f_equal; at_eq ].

(** ** The primitives, run twice *)

Section Rel.
Variable u : Z.

Lemma same_at_put_session se b1 b2 :
  same_at u b1 b2 -> same_at u (put_session u se b1) (put_session u se b2).
Proof.
  intros Hb. unfold same_at, user_view, put_session in *. cbn [b_tasks b_sessions].
  injection Hb as H1 _. rewrite H1, !dict_get_set_eq. reflexivity.
Qed.

Lemma rel2_ret {A} (x : A) : rel2 u (ret x) (ret x).
Proof. intros b1 b2 Hb. split; [reflexivity|exact Hb]. Qed.

Lemma rel2_raise {A} e : rel2 u (@raise _ A e) (raise e).
Proof. intros b1 b2 Hb. split; [reflexivity|exact Hb]. Qed.

Lemma rel2_lift {A} (r : result A) : rel2 u (lift r) (lift r).
Proof. intros b1 b2 Hb. unfold lift. destruct r; split; [reflexivity|exact Hb|reflexivity|exact Hb]. Qed.

Lemma rel2_bind {A B} (m1 m2 : PyM bot A) (k1 k2 : A -> PyM bot B) :
  rel2 u m1 m2 -> (forall a, rel2 u (k1 a) (k2 a)) -> rel2 u (bind m1 k1) (bind m2 k2).
Proof.
  intros Hm Hk b1 b2 Hb. destruct (Hm b1 b2 Hb) as [Hr Hs]. unfold bind.
  destruct (m1 b1) as [r1 b1'], (m2 b2) as [r2 b2']. cbn [fst snd] in Hr, Hs. subst r2.
  destruct r1 as [a|e]; [exact (Hk a b1' b2' Hs)|split; [reflexivity|exact Hs]].
Qed.

Lemma rel2_get {A} (k1 k2 : bot -> PyM bot A) :
  (forall b1 b2, same_at u b1 b2 -> rel2 u (k1 b1) (k2 b2)) -> rel2 u (bind get k1) (bind get k2).
Proof. intros Hk b1 b2 Hb. exact (Hk b1 b2 Hb b1 b2 Hb). Qed.

Lemma rel2_get_store {A} (k1 k2 : store -> PyM bot A) :
  (forall s1 s2, dict_get u s1 = dict_get u s2 -> rel2 u (k1 s1) (k2 s2)) ->
  rel2 u (bind get_store k1) (bind get_store k2).
Proof. intros Hk b1 b2 Hb. exact (Hk _ _ (f_equal fst Hb) b1 b2 Hb). Qed.

Lemma rel2_put_store s1 s2 : dict_get u s1 = dict_get u s2 -> rel2 u (put_store s1) (put_store s2).
Proof.
  intros Hs b1 b2 Hb. split; [reflexivity|]. unfold same_at, user_view in *. cbn.
  injection Hb as _ H2. rewrite Hs, H2. reflexivity.
Qed.

(** The deadline change of the editing branches: the stores it returns
    agree at [u], or it raises the same [KeyError]. *)
Lemma rel2_set_deadline_bind {A} otid dl s1 s2 (k1 k2 : store -> PyM bot A) :
  dict_get u s1 = dict_get u s2 ->
  (forall x1 x2, dict_get u x1 = dict_get u x2 -> rel2 u (k1 x1) (k2 x2)) ->
  rel2 u (bind (lift (set_deadline u otid dl s1)) k1) (bind (lift (set_deadline u otid dl s2)) k2).
Proof.
  intros Hs Hk b1 b2 Hb. unfold set_deadline, bind, lift. rewrite Hs.
  destruct (dict_get u s2) as [ut|], otid as [tid|]; cbn; try (split; [reflexivity|exact Hb]).
  destruct (dict_get tid ut); cbn; [|split; [reflexivity|exact Hb]].
  refine (Hk _ _ _ b1 b2 Hb). rewrite !dict_get_set_eq. reflexivity.
Qed.

Lemma rel2_ret2 {A} (x1 x2 : A) : x1 = x2 -> rel2 u (ret x1) (ret x2).
Proof. intros <-. apply rel2_ret. Qed.

Lemma rel2_lift2 {A} (r1 r2 : result A) : r1 = r2 -> rel2 u (lift r1) (lift r2).
Proof. intros <-. apply rel2_lift. Qed.

Lemma rel2_fsm_get_data : rel2 u (fsm_get_data u) (fsm_get_data u).
Proof.
  intros b1 b2 Hb. unfold fsm_get_data, bind, get, ret. cbn [fst snd].
  rewrite (session_of_at _ _ _ Hb). split; [reflexivity|exact Hb].
Qed.

Lemma rel2_fsm_update f : rel2 u (fsm_update u f) (fsm_update u f).
Proof.
  intros b1 b2 Hb. unfold fsm_update, modify. cbn [fst snd]. cbv zeta.
  rewrite (session_of_at _ _ _ Hb). split; [reflexivity|apply same_at_put_session, Hb].
Qed.

Lemma rel2_fsm_set_state st : rel2 u (fsm_set_state u st) (fsm_set_state u st).
Proof.
  intros b1 b2 Hb. unfold fsm_set_state, modify. cbn [fst snd].
  rewrite (session_of_at _ _ _ Hb). split; [reflexivity|apply same_at_put_session, Hb].
Qed.

Lemma rel2_fsm_clear : rel2 u (fsm_clear u) (fsm_clear u).
Proof. intros b1 b2 Hb. split; [reflexivity|apply same_at_put_session, Hb]. Qed.

(** A split handler's segment run to the end of its task. *)
Lemma rel2_run_seg_bind {A} (m1 m2 : PyM bot A) k1 k2 :
  rel2 u (bind m1 (fun a => run_seg (k1 a))) (bind m2 (fun a => run_seg (k2 a))) ->
  rel2 u (run_seg (bind m1 k1)) (run_seg (bind m2 k2)).
Proof. intros H. rewrite !run_seg_bind. exact H. Qed.

Lemma rel2_run_seg_yield k1 k2 : rel2 u (run_seg k1) (run_seg k2) -> rel2 u (run_seg (yield k1)) (run_seg (yield k2)).
Proof. intros H. rewrite !run_seg_yield. exact H. Qed.

Lemma rel2_run_seg_finish r1 r2 : r1 = r2 -> rel2 u (run_seg (finish r1)) (run_seg (finish r2)).
Proof. intros <-. rewrite run_seg_finish. apply rel2_ret. Qed.

Lemma rel2_run_seg_raise e : rel2 u (run_seg (raise e)) (run_seg (raise e)).
Proof. rewrite run_seg_raise. apply rel2_raise. Qed.

Lemma rel2_run_seg_atomic m1 m2 : rel2 u m1 m2 -> rel2 u (run_seg (atomic m1)) (run_seg (atomic m2)).
Proof. intros H. rewrite !run_seg_atomic. exact H. Qed.

End Rel.

(** One step of the two runs in lockstep: a read of the store or of the
    bot gives stores equal at [u]; a branch on values computed from them
    is taken the same way on both sides. *)
Ltac unfold_handlers :=
  unfold cmd_start, cmd_help, cmd_tasks, cmd_add, process_list_tasks, process_add_task_button,
    process_task_name, process_edit_name_input, process_month_selection, process_back_to_month,
    process_day_selection, process_back_to_day, process_hour_selection, store_deadline,
    process_exact_time, process_time_all_day, process_custom_minute, process_back_to_time,
    process_hide_calendar, process_ignore_button, process_view_task, process_complete_task,
    process_delete_task, process_edit_task, process_edit_name, process_edit_deadline,
    process_task_name_task, process_edit_name_input_task, exact_time_store, process_exact_time_task,
    process_time_all_day_task, complete_card, process_complete_task_task, process_delete_task_task,
    process_edit_name_task, process_edit_deadline_task, process_back_to_time_task.

Ltac rel_scrut x1 x2 :=
  first [ constr_eq x1 x2; destruct x1
        | let E := fresh "E" in assert (E : x1 = x2) by at_eq; rewrite E; clear E; destruct x2 ].

Ltac rel_step :=
  match goal with
  | |- rel2 _ (run_seg (bind _ _)) (run_seg (bind _ _)) => apply rel2_run_seg_bind
  | |- rel2 _ (run_seg (yield _)) (run_seg (yield _)) => apply rel2_run_seg_yield
  | |- rel2 _ (run_seg (finish _)) (run_seg (finish _)) => apply rel2_run_seg_finish; at_eq
  | |- rel2 _ (run_seg (raise _)) (run_seg (raise _)) => apply rel2_run_seg_raise
  | |- rel2 _ (run_seg (atomic _)) (run_seg (atomic _)) => apply rel2_run_seg_atomic
  | |- rel2 _ (run_seg (match ?x1 with _ => _ end)) (run_seg (match ?x2 with _ => _ end)) => rel_scrut x1 x2
  | |- rel2 _ (run_seg (let _ := _ in _)) _ => cbv zeta
  | |- rel2 _ (bind get_store _) (bind get_store _) => apply rel2_get_store; intros ?s1 ?s2 ?Hs
  | |- rel2 _ (bind get _) (bind get _) => apply rel2_get; intros ?b1 ?b2 ?Hb
  | |- rel2 _ (bind (lift (set_deadline _ _ _ _)) _) (bind (lift (set_deadline _ _ _ _)) _) =>
      apply rel2_set_deadline_bind; [at_eq|intros ?x1 ?x2 ?Hx]
  | |- rel2 _ (bind _ _) (bind _ _) => apply rel2_bind; [|intros ?]
  | |- rel2 _ (put_store _) (put_store _) => apply rel2_put_store; at_eq
  | |- rel2 _ (ret _) (ret _) => apply rel2_ret2; at_eq
  | |- rel2 _ (raise _) (raise _) => apply rel2_raise
  | |- rel2 _ (lift _) (lift _) => apply rel2_lift2; at_eq
  | |- rel2 _ (fsm_get_data _) (fsm_get_data _) => apply rel2_fsm_get_data
  | |- rel2 _ (fsm_update _ _) (fsm_update _ _) => apply rel2_fsm_update
  | |- rel2 _ (fsm_set_state _ _) (fsm_set_state _ _) => apply rel2_fsm_set_state
  | |- rel2 _ (fsm_clear _) (fsm_clear _) => apply rel2_fsm_clear
  | |- rel2 _ (match ?x1 with _ => _ end) (match ?x2 with _ => _ end) => rel_scrut x1 x2
  | |- rel2 _ (let _ := _ in _) _ => cbv zeta
  | |- rel2 _ _ _ => progress unfold_handlers
  end.

Definition update_user (e : update) : Z :=
  match e with message_update uid _ => uid | callback_update uid _ => uid end.

(** What a handler computes, and leaves at its user, depends only on its
    user's part of the bot. *)
Lemma dispatch_rel now e : rel2 (update_user e) (dispatch now e) (dispatch now e).
Proof.
  destruct e as [uid t|uid data]; cbn [dispatch update_user].
  - apply rel2_get; intros b1 b2 Hb. rewrite (session_of_at _ _ _ Hb).
    destruct (route_message _ t) as [h|]; [|apply rel2_ret].
    destruct h, t; cbn [run_message]; unfold_handlers; repeat rel_step.
  - destruct (first_route callback_routes data) as [h|]; [|apply rel2_ret].
    destruct h; cbn [run_callback]; unfold_handlers; repeat rel_step.
Qed.

(** ** A handler leaves the other users alone *)

Definition frame_at (v : Z) (c : option user_tasks * option session) (b : bot) : Prop :=
  user_view v b = c.

Section Frame.
Variables u v : Z.
Hypothesis Huv : u <> v.

Lemma ensure_user_ne s : dict_get v (ensure_user u s) = dict_get v s.
Proof. unfold ensure_user. case_bool_decide; [reflexivity|apply dict_get_set_ne, Huv]. Qed.

Lemma create_task_ne t s : dict_get v (fst (create_task u t s)) = dict_get v s.
Proof. unfold create_task. apply dict_get_set_ne, Huv. Qed.

Lemma update_task_ne tid f s : dict_get v (update_task u tid f s) = dict_get v s.
Proof.
  unfold update_task. destruct (dict_get u s) as [ut|]; [|reflexivity].
  destruct (dict_get tid ut); [apply dict_get_set_ne, Huv|reflexivity].
Qed.

Lemma toggle_completed_ne tid s : dict_get v (toggle_completed u tid s) = dict_get v s.
Proof. apply update_task_ne. Qed.

Lemma rename_task_ne tid nm s : dict_get v (rename_task u tid nm s) = dict_get v s.
Proof. apply update_task_ne. Qed.

Lemma delete_task_ne tid s : dict_get v (delete_task u tid s) = dict_get v s.
Proof.
  unfold delete_task. destruct (dict_get u s) as [ut|]; [|reflexivity].
  case_decide; [apply dict_get_set_ne, Huv|reflexivity].
Qed.

Lemma set_deadline_ne otid dl s s' : set_deadline u otid dl s = Ok s' -> dict_get v s' = dict_get v s.
Proof.
  unfold set_deadline. destruct (dict_get u s) as [ut|], otid as [tid|]; try discriminate.
  destruct (dict_get tid ut); [|discriminate]. intros [= <-]. apply dict_get_set_ne, Huv.
Qed.

Variable c : option user_tasks * option session.

Lemma fr_get_store_bind {A} (k : store -> PyM bot A) :
  (forall s, dict_get v s = fst c -> preserves (frame_at v c) (k s)) ->
  preserves (frame_at v c) (bind get_store k).
Proof. intros Hk b Hb. exact (Hk _ (f_equal fst Hb) b Hb). Qed.

Lemma fr_get_bind {A} (k : bot -> PyM bot A) :
  (forall b, preserves (frame_at v c) (k b)) -> preserves (frame_at v c) (bind get k).
Proof. intros Hk b Hb. exact (Hk b b Hb). Qed.

Lemma fr_lift_bind {A B} (r : result A) (k : A -> PyM bot B) :
  (forall a, r = Ok a -> preserves (frame_at v c) (k a)) -> preserves (frame_at v c) (bind (lift r) k).
Proof. intros Hk b Hb. unfold bind, lift. destruct r as [a|e]; [exact (Hk a eq_refl b Hb)|exact Hb]. Qed.

Lemma fr_put_store s : dict_get v s = fst c -> preserves (frame_at v c) (put_store s).
Proof.
  intros Hs b Hb. unfold frame_at, user_view in *. cbn [snd put_store modify b_tasks b_sessions].
  rewrite Hs, <- Hb. reflexivity.
Qed.

Lemma fr_put_session se b : frame_at v c b -> frame_at v c (put_session u se b).
Proof.
  unfold frame_at, user_view, put_session. cbn [b_tasks b_sessions].
  rewrite dict_get_set_ne by exact Huv. exact id.
Qed.

Lemma fr_fsm_get_data : preserves (frame_at v c) (fsm_get_data u).
Proof. intros b Hb. exact Hb. Qed.

Lemma fr_fsm_update f : preserves (frame_at v c) (fsm_update u f).
Proof. intros b Hb. apply fr_put_session, Hb. Qed.

Lemma fr_fsm_set_state st : preserves (frame_at v c) (fsm_set_state u st).
Proof. intros b Hb. apply fr_put_session, Hb. Qed.

Lemma fr_fsm_clear : preserves (frame_at v c) (fsm_clear u).
Proof. intros b Hb. apply fr_put_session, Hb. Qed.

End Frame.

(** A store written at [u] agrees at [v] with the store read. *)
Ltac fr_law :=
  repeat match goal with
  | E : set_deadline ?u _ _ _ = Ok ?s' |- context [dict_get ?v ?s'] =>
      let H := fresh in assert (H : u <> v) by assumption;
      rewrite (set_deadline_ne u v H _ _ _ _ E); clear H
  | |- _ =>
      first [ rewrite ensure_user_ne by assumption | rewrite create_task_ne by assumption
            | rewrite toggle_completed_ne by assumption | rewrite rename_task_ne by assumption
            | rewrite delete_task_ne by assumption | rewrite update_task_ne by assumption ]
  end; assumption.

Ltac fr_step :=
  match goal with
  | |- preserves _ (bind get_store _) => apply fr_get_store_bind; intros ?s ?Hs
  | |- preserves _ (bind (lift _) _) => apply fr_lift_bind; intros ? ?E
  | |- preserves _ (bind get _) => apply fr_get_bind; intros ?b
  | |- preserves _ (bind _ _) => apply preserves_bind; [|intros ?]
  | |- preserves _ (put_store _) => apply fr_put_store; fr_law
  | |- preserves _ (fsm_get_data _) => apply fr_fsm_get_data
  | |- preserves _ (fsm_update _ _) => apply fr_fsm_update; assumption
  | |- preserves _ (fsm_set_state _ _) => apply fr_fsm_set_state; assumption
  | |- preserves _ (fsm_clear _) => apply fr_fsm_clear; assumption
  | |- preserves _ (yield _) => apply preserves_ret
  | |- preserves _ (finish _) => apply preserves_ret
  | |- preserves _ (atomic _) => unfold atomic
  | |- preserves _ (ret _) => apply preserves_ret
  | |- preserves _ (raise _) => apply preserves_raise
  | |- preserves _ (lift _) => apply preserves_lift
  | |- preserves _ (match ?x with _ => _ end) => destruct x
  | |- preserves _ (let _ := _ in _) => cbv zeta
  | |- preserves _ _ => progress unfold_handlers
  end.

(** ** Every segment of a handler task is local to its user *)

(** From every await on: the rest of the task, run to its end, computes
    and leaves at [u] what [user_view u] determines; and each segment
    leaves every other user's part as it finds it. *)
Fixpoint task_local (u : Z) (p : htask) : Prop :=
  match p with
  | Done _ => True
  | Await m =>
      rel2 u (run_seg m) (run_seg m)
      /\ (forall v c, u <> v -> preserves (frame_at v c) m)
      /\ forall b, match m b with (Ok p', _) => task_local u p' | (Raise _, _) => True end
  end.

Definition seg_local (u : Z) (m : PyM bot htask) : Prop :=
  forall b, match m b with (Ok p', _) => task_local u p' | (Raise _, _) => True end.

Section Local.
Variable u : Z.

Lemma task_local_await m :
  rel2 u (run_seg m) (run_seg m) -> (forall v c, u <> v -> preserves (frame_at v c) m) ->
  seg_local u m -> task_local u (Await m).
Proof. intros H1 H2 H3. exact (conj H1 (conj H2 H3)). Qed.

Lemma seg_local_bind {A} (m : PyM bot A) k : (forall a, seg_local u (k a)) -> seg_local u (bind m k).
Proof. intros Hk b. unfold bind. destruct (m b) as [[a|e] b']; [apply Hk|exact I]. Qed.

Lemma seg_local_yield k : task_local u (Await k) -> seg_local u (yield k).
Proof. intros H b. exact H. Qed.

Lemma seg_local_finish r : seg_local u (finish r).
Proof. intros b. exact I. Qed.

Lemma seg_local_raise e : seg_local u (raise e).
Proof. intros b. exact I. Qed.

Lemma seg_local_atomic m : seg_local u (atomic m).
Proof. apply seg_local_bind. intros r. apply seg_local_finish. Qed.

End Local.

Ltac local_step :=
  match goal with
  | |- task_local _ (Await _) =>
      apply task_local_await; [repeat rel_step|intros ?v ?c ?Hv; repeat fr_step|]
  | |- seg_local _ (atomic _) => apply seg_local_atomic
  | |- seg_local _ (bind _ _) => apply seg_local_bind; intros ?
  | |- seg_local _ (yield _) => apply seg_local_yield
  | |- seg_local _ (finish _) => apply seg_local_finish
  | |- seg_local _ (raise _) => apply seg_local_raise
  | |- seg_local _ (match ?x with _ => _ end) => destruct x
  | |- seg_local _ (let _ := _ in _) => cbv zeta
  | |- seg_local _ _ => progress unfold_handlers
  end.

(** Every handler task is local to the user of its update. *)
Lemma dispatch_task_local now e : task_local (update_user e) (dispatch_task now e).
Proof.
  apply task_local_await.
  - rewrite <- run_task_await. fold (dispatch_task now e). rewrite run_dispatch_task. apply dispatch_rel.
  - intros v c Hv. destruct e as [uid t|uid data]; cbn [update_user] in Hv.
    + apply fr_get_bind. intros b. destruct (route_message _ t) as [h|]; [|apply preserves_ret].
      destruct h, t; cbn [run_message_task run_message]; repeat fr_step.
    + destruct (first_route callback_routes data) as [h|]; [|apply preserves_ret].
      destruct h; cbn [run_callback_task run_callback]; repeat fr_step.
  - destruct e as [uid t|uid data]; cbn [update_user].
    + apply seg_local_bind. intros b. destruct (route_message _ t) as [h|]; [|apply seg_local_finish].
      destruct h, t; cbn [run_message_task]; repeat local_step.
    + destruct (first_route callback_routes data) as [h|]; [|apply seg_local_finish].
      destruct h; cbn [run_callback_task]; repeat local_step.
Qed.

Lemma run_task_rel u p : task_local u p -> rel2 u (run_task p) (run_task p).
Proof.
  destruct p as [r|m]; cbn [task_local]; [intros _; apply rel2_ret|].
  intros [H _]. rewrite run_task_await. exact H.
Qed.

Lemma run_task_frame u : forall p, task_local u p -> forall v c, u <> v -> preserves (frame_at v c) (run_task p).
Proof.
  fix IH 1. intros [r|m] Hp v c Hv b Hb; [exact Hb|].
  destruct Hp as (_ & Hfr & Hk). specialize (Hk b). pose proof (Hfr v c Hv b Hb) as Hb'.
  cbn [run_task]. destruct (m b) as [[p'|e] b']; cbn [snd] in Hb' |- *; [|exact Hb'].
  exact (IH p' Hk v c Hv b' Hb').
Qed.

(** A segment at [u] leaves every other user's part as it was. *)
Lemma local_other {A} u (m : PyM bot A) b v :
  (forall v c, u <> v -> preserves (frame_at v c) m) -> u <> v -> same_at v (snd (m b)) b.
Proof. intros Hfr Hv. exact (Hfr v (user_view v b) Hv b eq_refl). Qed.

Lemma dispatch_other now e v b : update_user e <> v -> same_at v (snd (dispatch now e b)) b.
Proof.
  intros Hv. rewrite <- (run_dispatch_task now e b).
  exact (run_task_frame _ _ (dispatch_task_local now e) v (user_view v b) Hv b eq_refl).
Qed.

Lemma dispatch_same now e b1 b2 :
  same_at (update_user e) b1 b2 ->
  fst (dispatch now e b1) = fst (dispatch now e b2)
  /\ same_at (update_user e) (snd (dispatch now e b1)) (snd (dispatch now e b2)).
Proof. apply dispatch_rel. Qed.

(** ** Per-user serialization of the event loop *)

(** The schedule never has two pending tasks of one user: [us] are the
    users of the pending tasks, in the order of [l_pending]; a resumption
    that ends a task drops its user. *)
Fixpoint per_user_serial (es : list sched_event) (l : loop) (us : list Z) : bool :=
  match es with
  | [] => true
  | s_deliver now e :: es' =>
      bool_decide (update_user e ∉ us)
      && per_user_serial es' (deliver now e l) (us ++ [update_user e])
  | s_resume i :: es' =>
      per_user_serial es' (resume i l)
        (if Nat.ltb (length (l_pending (resume i l))) (length (l_pending l)) then delete i us else us)
  end.

(** The updates of a schedule handled one after the other, in the order
    they were delivered: the final bot and the outcome of each. *)
Fixpoint serial (es : list sched_event) (b : bot) : bot * list (result reply) :=
  match es with
  | [] => (b, [])
  | s_deliver now e :: es' =>
      let '(r, b') := dispatch now e b in
      let '(b'', rs) := serial es' b' in (b'', r :: rs)
  | s_resume _ :: es' => serial es' b
  end.

Section Serial.
Variable out : list (result reply).

(** The loop against the serial run so far ([S], outcomes [R]): each
    pending task, run alone to its end from the current bot, brings its
    user where the serial run has it; every other user is already there;
    and the outcomes of the finished and pending tasks are those of the
    serial run, in some order. *)
Definition loop_inv (S : bot) (R : list (result reply)) (l : loop) (us : list Z) : Prop :=
  NoDup us
  /\ Forall2 task_local us (l_pending l)
  /\ (forall j u p, us !! j = Some u -> l_pending l !! j = Some p -> same_at u S (snd (run_task p (l_bot l))))
  /\ (forall v, v ∉ us -> same_at v S (l_bot l))
  /\ l_finished l ++ ((fun p => fst (run_task p (l_bot l))) <$> l_pending l) ≡ₚ out ++ R.

(** The other pending tasks do not see a segment of [ui]'s task. *)
Lemma pending_stable us ps b b' i ui :
  NoDup us -> Forall2 task_local us ps -> us !! i = Some ui ->
  (forall v, ui <> v -> same_at v b' b) ->
  forall j u p, j <> i -> us !! j = Some u -> ps !! j = Some p ->
  fst (run_task p b') = fst (run_task p b) /\ same_at u (snd (run_task p b')) (snd (run_task p b)).
Proof.
  intros Hnd Hf Hi Hb j u p Hji Hj Hp.
  assert (Hu : ui <> u) by (intros <-; exact (Hji (NoDup_lookup _ _ _ _ Hnd Hj Hi))).
  exact (run_task_rel u p (Forall2_lookup_lr _ _ _ _ _ _ Hf Hj Hp) b' b (Hb u Hu)).
Qed.

Lemma deliver_inv S R l us now e :
  loop_inv S R l us -> update_user e ∉ us ->
  loop_inv (snd (dispatch now e S)) (R ++ [fst (dispatch now e S)]) (deliver now e l) (us ++ [update_user e]).
Proof.
  intros (Hnd & Hf & Hv & Ho & Hp) Hu. unfold loop_inv, deliver. cbn [l_bot l_pending l_finished].
  pose proof (Forall2_length _ _ _ Hf) as Hlen.
  destruct (dispatch_same now e S (l_bot l) (Ho _ Hu)) as [Hr Hs].
  split; [|split; [|split; [|split]]].
  - apply NoDup_app. split; [exact Hnd|split; [|apply NoDup_singleton]].
    intros x Hx ->%list_elem_of_singleton. exact (Hu Hx).
  - apply Forall2_app; [exact Hf|]. constructor; [apply dispatch_task_local|constructor].
  - intros j v p Hj Hpj. destruct (decide (j < length us)%nat) as [Hlt|Hge].
    + rewrite lookup_app_l in Hj by exact Hlt. rewrite lookup_app_l in Hpj by lia.
      assert (Hvu : update_user e <> v) by (intros <-; apply Hu; eapply list_elem_of_lookup_2; exact Hj).
      transitivity S; [apply dispatch_other, Hvu|exact (Hv j v p Hj Hpj)].
    + rewrite lookup_app_r in Hj by lia. rewrite lookup_app_r in Hpj by lia.
      apply list_lookup_singleton_Some in Hj as [_ <-]. apply list_lookup_singleton_Some in Hpj as [_ <-].
      rewrite (run_dispatch_task now e (l_bot l)). exact Hs.
  - intros v Hv'. apply not_elem_of_app in Hv' as [Hv1 Hv2].
    assert (Hvu : update_user e <> v) by (intros <-; apply Hv2; constructor).
    transitivity S; [apply dispatch_other, Hvu|exact (Ho v Hv1)].
  - rewrite fmap_app, app_assoc, Hp, <- app_assoc. cbn [fmap list_fmap].
    rewrite (run_dispatch_task now e (l_bot l)), <- Hr. reflexivity.
Qed.

(** A resumption that ends the task [i]: its outcome joins the finished ones. *)
Lemma finish_inv S R l us i m o b' :
  loop_inv S R l us -> l_pending l !! i = Some (Await m) -> snd (m (l_bot l)) = b' ->
  run_task (Await m) (l_bot l) = (o, b') ->
  loop_inv S R (mk_loop b' (delete i (l_pending l)) (l_finished l ++ [o])) (delete i us).
Proof.
  intros (Hnd & Hf & Hv & Ho & Hp) Hi Hmb Hrun. unfold loop_inv. cbn [l_bot l_pending l_finished].
  destruct (Forall2_lookup_r _ _ _ _ _ Hf Hi) as (ui & Hui & Hloc).
  assert (Hb : forall v, ui <> v -> same_at v b' (l_bot l))
    by (intros v Hv'; rewrite <- Hmb; exact (local_other ui m (l_bot l) v (proj1 (proj2 Hloc)) Hv')).
  pose proof (pending_stable us (l_pending l) (l_bot l) b' i ui Hnd Hf Hui Hb) as Hst.
  pose proof (delete_Permutation us i ui Hui) as Pu.
  assert (Hrep : (fun p => fst (run_task p b')) <$> delete i (l_pending l)
                 = (fun p => fst (run_task p (l_bot l))) <$> delete i (l_pending l)).
  { apply list_eq. intros j. rewrite !list_lookup_fmap, list_lookup_delete.
    assert (Hj' : (if decide (j < i)%nat then j else Datatypes.S j) <> i) by (case_decide; lia).
    destruct (l_pending l !! (if decide (j < i)%nat then j else Datatypes.S j)) as [p|] eqn:Hpj; [|reflexivity].
    cbn [fmap option_fmap option_map]. destruct (Forall2_lookup_r _ _ _ _ _ Hf Hpj) as (u & Hj & _).
    rewrite (proj1 (Hst _ u p Hj' Hj Hpj)). reflexivity. }
  split; [|split; [|split; [|split]]].
  - rewrite Pu in Hnd. apply NoDup_cons in Hnd as [_ Hnd]. exact Hnd.
  - apply Forall2_delete, Hf.
  - intros j u p Hj Hpj. rewrite list_lookup_delete in Hj. rewrite list_lookup_delete in Hpj.
    assert (Hj' : (if decide (j < i)%nat then j else Datatypes.S j) <> i) by (case_decide; lia).
    destruct (Hst _ u p Hj' Hj Hpj) as [_ H].
    etransitivity; [exact (Hv _ u p Hj Hpj)|symmetry; exact H].
  - intros v Hv'. destruct (decide (v = ui)) as [->|Hne].
    + pose proof (Hv i ui (Await m) Hui Hi) as H. rewrite Hrun in H. exact H.
    + assert (Hv1 : v ∉ us) by (rewrite Pu; intros [->|H]%elem_of_cons; [exact (Hne eq_refl)|exact (Hv' H)]).
      transitivity (l_bot l); [exact (Ho v Hv1)|symmetry; apply Hb; congruence].
  - rewrite <- Hp, <- app_assoc. apply Permutation_app_head.
    rewrite (delete_Permutation (l_pending l) i _ Hi) at 2. cbn [fmap list_fmap app].
    rewrite Hrun, Hrep. reflexivity.
Qed.

(** A resumption that suspends the task [i] again at its next await. *)
Lemma continue_inv S R l us i m m' b' :
  loop_inv S R l us -> l_pending l !! i = Some (Await m) -> m (l_bot l) = (Ok (Await m'), b') ->
  loop_inv S R (mk_loop b' (<[i := Await m']> (l_pending l)) (l_finished l)) us.
Proof.
  intros (Hnd & Hf & Hv & Ho & Hp) Hi Hm. unfold loop_inv. cbn [l_bot l_pending l_finished].
  destruct (Forall2_lookup_r _ _ _ _ _ Hf Hi) as (ui & Hui & Hloc).
  pose proof Hloc as (_ & Hfr & Hk). specialize (Hk (l_bot l)). rewrite Hm in Hk.
  assert (Hb : forall v, ui <> v -> same_at v b' (l_bot l)).
  { intros v Hv'. pose proof (local_other ui m (l_bot l) v Hfr Hv') as H. rewrite Hm in H. exact H. }
  assert (Hrun : run_task (Await m) (l_bot l) = run_task (Await m') b') by (cbn [run_task]; rewrite Hm; reflexivity).
  pose proof (pending_stable us (l_pending l) (l_bot l) b' i ui Hnd Hf Hui Hb) as Hst.
  pose proof (lookup_lt_Some _ _ _ Hi) as Hlt.
  split; [exact Hnd|split; [|split; [|split]]].
  - rewrite <- (list_insert_id us i ui Hui). apply Forall2_insert; [exact Hf|exact Hk].
  - intros j u p Hj Hpj. destruct (decide (j = i)) as [->|Hji].
    + rewrite list_lookup_insert_eq in Hpj by exact Hlt. injection Hpj as <-.
      rewrite Hui in Hj. injection Hj as <-. rewrite <- Hrun. exact (Hv i ui (Await m) Hui Hi).
    + rewrite list_lookup_insert_ne in Hpj by congruence.
      destruct (Hst j u p Hji Hj Hpj) as [_ H]. etransitivity; [exact (Hv j u p Hj Hpj)|symmetry; exact H].
  - intros v Hv'. assert (Hne : ui <> v) by (intros <-; apply Hv'; eapply list_elem_of_lookup_2; exact Hui).
    transitivity (l_bot l); [exact (Ho v Hv')|symmetry; exact (Hb v Hne)].
  - rewrite <- Hp. apply Permutation_app_head.
    match goal with |- ?A ≡ₚ ?B => enough (E : A = B) by (rewrite E; reflexivity) end.
    apply list_eq. intros j. rewrite !list_lookup_fmap.
    destruct (decide (j = i)) as [->|Hji].
    + rewrite list_lookup_insert_eq, Hi by exact Hlt. cbn [fmap option_fmap option_map]. rewrite Hrun. reflexivity.
    + rewrite list_lookup_insert_ne by congruence.
      destruct (l_pending l !! j) as [p|] eqn:Hpj; [|reflexivity]. cbn [fmap option_fmap option_map].
      destruct (Forall2_lookup_r _ _ _ _ _ Hf Hpj) as (u & Hj & _).
      rewrite (proj1 (Hst j u p Hji Hj Hpj)). reflexivity.
Qed.

Lemma resume_inv S R l us i :
  loop_inv S R l us ->
  loop_inv S R (resume i l)
    (if Nat.ltb (length (l_pending (resume i l))) (length (l_pending l)) then delete i us else us).
Proof.
  intros Hinv. unfold resume.
  destruct (l_pending l !! i) as [[r|m]|] eqn:Hi; try (rewrite Nat.ltb_irrefl; exact Hinv).
  pose proof (lookup_lt_Some _ _ _ Hi) as Hlt.
  destruct (m (l_bot l)) as [[[r|m']|e] b'] eqn:Hm; cbn [l_pending].
  - rewrite length_delete by (rewrite Hi; eauto).
    replace (Nat.ltb _ _) with true by (symmetry; apply Nat.ltb_lt; lia).
    apply (finish_inv S R l us i m (Ok r) b' Hinv Hi); [rewrite Hm; reflexivity|cbn [run_task]; rewrite Hm; reflexivity].
  - rewrite length_insert, Nat.ltb_irrefl. exact (continue_inv S R l us i m m' b' Hinv Hi Hm).
  - rewrite length_delete by (rewrite Hi; eauto).
    replace (Nat.ltb _ _) with true by (symmetry; apply Nat.ltb_lt; lia).
    apply (finish_inv S R l us i m (Raise e) b' Hinv Hi); [rewrite Hm; reflexivity|cbn [run_task]; rewrite Hm; reflexivity].
Qed.

Lemma serial_run es : forall S R l us,
  loop_inv S R l us -> per_user_serial es l us = true ->
  exists us', loop_inv (fst (serial es S)) (R ++ snd (serial es S)) (run_sched es l) us'.
Proof.
  induction es as [|[now e|i] es IH]; intros S R l us Hinv Hs; cbn [serial run_sched per_user_serial lstep] in *.
  - exists us. rewrite app_nil_r. exact Hinv.
  - apply andb_prop in Hs as [Hu Hs]. apply bool_decide_eq_true in Hu.
    pose proof (deliver_inv S R l us now e Hinv Hu) as H.
    destruct (dispatch now e S) as [r S'] eqn:Ed. cbn [fst snd] in H.
    destruct (IH _ _ _ _ H Hs) as [us' H']. destruct (serial es S') as [S'' rs]. cbn [fst snd] in H' |- *.
    exists us'. rewrite <- app_assoc in H'. exact H'.
  - exact (IH _ _ _ _ (resume_inv _ _ _ _ _ Hinv) Hs).
Qed.

End Serial.

(** C16: The interleavings that keep one pending task per user are
    serializable.  On the event loop of [Concurrency], any schedule of
    deliveries and resumptions that never has two pending tasks of the same
    user, run until no task is pending, ends with the bot of the updates
    handled one after the other in delivery order (every user's tasks and
    FSM session the same, the users possibly in another order in the
    dictionaries) and with the outcomes of the serial run, in some order.
    The handlers of different users do not interfere: the races of
    [Concurrency] need two tasks of one user. *)
Theorem per_user_serial_equiv es b out :
  per_user_serial es (mk_loop b [] out) [] = true ->
  l_pending (run_sched es (mk_loop b [] out)) = [] ->
  l_bot (run_sched es (mk_loop b [] out)) ≡ fst (serial es b)
  /\ l_finished (run_sched es (mk_loop b [] out)) ≡ₚ out ++ snd (serial es b).
Proof.
  intros Hs Hp.
  assert (H0 : loop_inv out b [] (mk_loop b [] out) []).
  { split_and!; [constructor|constructor|intros j u p Hj; cbn in Hj; discriminate|intros v _; reflexivity|].
    cbn. rewrite !app_nil_r. reflexivity. }
  destruct (serial_run out es _ _ _ _ H0 Hs) as (us & Hnd & Hf & Hv & Ho & Hfin).
  rewrite Hp in Hf, Hfin. apply Forall2_nil_inv_r in Hf as ->. cbn in Hfin. rewrite app_nil_r in Hfin.
  split; [intros v; symmetry; apply Ho, not_elem_of_nil|exact Hfin].
Qed.

(** C17: Updates of two different users commute: handled in either order,
    each gets the same reply or exception, and the bots they leave agree
    for every user (each user's tasks and FSM session). *)
Theorem dispatch_commute now1 now2 e1 e2 b :
  update_user e1 <> update_user e2 ->
  fst (dispatch now1 e1 b) = fst (dispatch now1 e1 (snd (dispatch now2 e2 b)))
  /\ fst (dispatch now2 e2 b) = fst (dispatch now2 e2 (snd (dispatch now1 e1 b)))
  /\ snd (dispatch now2 e2 (snd (dispatch now1 e1 b))) ≡ snd (dispatch now1 e1 (snd (dispatch now2 e2 b))).
Proof.
  intros Hne.
  assert (H1 : same_at (update_user e1) b (snd (dispatch now2 e2 b)))
    by (symmetry; apply dispatch_other; congruence).
  assert (H2 : same_at (update_user e2) b (snd (dispatch now1 e1 b)))
    by (symmetry; apply dispatch_other; exact Hne).
  destruct (dispatch_same now1 e1 _ _ H1) as [Hr1 Hs1], (dispatch_same now2 e2 _ _ H2) as [Hr2 Hs2].
  split; [exact Hr1|split; [exact Hr2|]]. intros v.
  destruct (decide (v = update_user e1)) as [->|Hv1]; [|destruct (decide (v = update_user e2)) as [->|Hv2]].
  - rewrite dispatch_other by congruence. exact Hs1.
  - symmetry. rewrite dispatch_other by congruence. exact Hs2.
  - rewrite !dispatch_other by congruence. reflexivity.
Qed.

(** ** Scenario *)

(** User 42 taps 10:30 at the end of the dialog of [Concurrency.mid_dialog]
    while user 8 asks to add a task: their tasks interleave at user 42's
    awaits. *)
Definition two_users : list sched_event :=
  [s_deliver nov_9_2026 (callback_update 42 (lit "fulltime_10:30"));
   s_deliver nov_9_2026 (message_update 8 (plain_text (lit "/add")));
   s_resume 0; s_resume 1; s_resume 0; s_resume 0].

(** The double tap of [Concurrency] is not such a schedule: its two tasks
    of user 42 are pending together. *)
Remark double_tap_not_per_user :
  per_user_serial (double_tap nov_9_2026 42 (lit "10:30")) (mk_loop mid_dialog [] []) [] = false.
Proof. vm_compute. reflexivity. Qed.

(** ** Witnesses *)

Lemma per_user_serial_equiv_witness :
  per_user_serial two_users (mk_loop mid_dialog [] []) [] = true
  /\ l_pending (run_sched two_users (mk_loop mid_dialog [] [])) = []
  /\ l_bot (run_sched two_users (mk_loop mid_dialog [] [])) ≡ fst (serial two_users mid_dialog)
  /\ l_finished (run_sched two_users (mk_loop mid_dialog [] [])) ≡ₚ [] ++ snd (serial two_users mid_dialog).
Proof.
  assert (H1 : per_user_serial two_users (mk_loop mid_dialog [] []) [] = true) by (vm_compute; reflexivity).
  assert (H2 : l_pending (run_sched two_users (mk_loop mid_dialog [] [])) = []) by (vm_compute; reflexivity).
  split; [exact H1|split; [exact H2|exact (per_user_serial_equiv two_users mid_dialog [] H1 H2)]].
Defined.

Lemma dispatch_commute_witness :
  update_user (callback_update 42 (lit "fulltime_10:30")) <> update_user (message_update 8 (plain_text (lit "/add")))
  /\ fst (dispatch nov_9_2026 (callback_update 42 (lit "fulltime_10:30")) mid_dialog)
     = fst (dispatch nov_9_2026 (callback_update 42 (lit "fulltime_10:30"))
              (snd (dispatch nov_9_2026 (message_update 8 (plain_text (lit "/add"))) mid_dialog)))
  /\ fst (dispatch nov_9_2026 (message_update 8 (plain_text (lit "/add"))) mid_dialog)
     = fst (dispatch nov_9_2026 (message_update 8 (plain_text (lit "/add")))
              (snd (dispatch nov_9_2026 (callback_update 42 (lit "fulltime_10:30")) mid_dialog)))
  /\ snd (dispatch nov_9_2026 (message_update 8 (plain_text (lit "/add")))
         (snd (dispatch nov_9_2026 (callback_update 42 (lit "fulltime_10:30")) mid_dialog)))
     ≡ snd (dispatch nov_9_2026 (callback_update 42 (lit "fulltime_10:30"))
         (snd (dispatch nov_9_2026 (message_update 8 (plain_text (lit "/add"))) mid_dialog))).
Proof.
  assert (Hne : update_user (callback_update 42 (lit "fulltime_10:30"))
                <> update_user (message_update 8 (plain_text (lit "/add")))) by (cbn; lia).
  split; [exact Hne|exact (dispatch_commute nov_9_2026 nov_9_2026 _ _ mid_dialog Hne)].
Defined.

