(* ===== verification/EventLoop.v ===== *)
(** * The scanner and the handlers on one event loop

    [check_deadlines] is a task of the same event loop as the handler
    tasks of [Concurrency]: created by [start_background_tasks], it gives
    the loop back at every [await bot.send_message(...)] inside
    [send_reminder] and at [await asyncio.sleep(30)] between passes.  Here
    a pass is a resumption [stask] written in continuation-passing style:
    the code of the pass between two sends is one segment, and the event
    loop interleaves the scanner's segments with the handlers' segments in
    any order.

    The scanner's state is [Interleave]'s [iworld] with no batch of its
    own ([iw_sched] empty): the handlers do not run inside the scanner's
    awaits any more, they run as tasks of the loop.  The pass reuses
    [Interleave]'s pieces ([live_task], [await_send], [set_tasks]) and
    CPython's size check on [for user_id in tasks].  The [try]/[except
    ValueError] of the loop body catches only what [strptime] raises: no
    exception can arise after the [await] of [send_reminder] (the stamp is
    appended to a task object the code holds).

    The theorems: run without interleaving, the pass is [Interleave]'s
    [pass_i] ([srun_pass_r]); on the event loop, a pass that no handler
    interrupts is a scanner step of [Bot] ([pass_alone_is_step]); every
    interleaving of handler segments and scanner segments keeps every
    store invariant of the [StoreInv] interface
    ([ureachable_store_inv]); in every state the loop reaches, a pass no
    handler interrupts computes [Scanner.scan_spec]
    ([ureachable_wake_spec]), and the pass in progress ends after finitely
    many resumptions whatever ran before ([scanner_pass_ends]); the one
    segment of a handler that adds a user kills the scanner when it runs
    during a send and not after the pass
    ([store_segment_kills_scanner]).  No fuel: the pass is a finite
    resumption, and [scanner_resumes] follows its structure. *)

From stdpp Require Import base list decidable strings.
From Stdlib Require Import Ascii ZArith Lia.
From S2P Require Import Prelude PyStr DateTime TaskStore Scanner Keyboards Handlers Bot Invariants Interleave Concurrency.

Local Open Scope Z_scope.
Local Open Scope py_scope.
#[local] Set Warnings "-register-all".

(** ** A pass as a resumption *)

(** A pass suspended at [await bot.send_message(...)], or finished. *)
Inductive stask : Type :=
| SFin
| SAwait (m : PyM iworld stask).

(** [send_reminder] in continuation-passing style: [k] is the rest of the
    pass; the message goes out at the [await], after which the stamp is
    appended and the pass goes on. *)
Definition send_reminder_r (now : datetime) (uid : Z) (tid : pystr) (td : timedelta)
    (k : PyM iworld stask) : PyM iworld stask :=
  w <- get ;;
  match dict_get uid (iw_tasks w) with
  | None => k
  | Some ut =>
      match dict_get tid ut with
      | None => k
      | Some t =>
          if completed t then k
          else match reminder_kind_of td with
               | None => k
               | Some kd =>
                   await_send (mk_notification uid tid kd) ;;
                   ret (SAwait
                     (modify (fun w' => set_tasks
                        (update_task uid tid (push_reminded (fmt_minute now)) (iw_tasks w')) w') ;;
                      k))
               end
      end
  end.

(** The body of the inner loop: the task object read live, the deadline
    parsed ([ValueError] skips the task), the four windows. *)
Definition scan_task_r (now : datetime) (uid : Z) (tid : pystr) (t0 : task)
    (k : PyM iworld stask) : PyM iworld stask :=
  w <- get ;;
  let t := live_task uid tid t0 (iw_tasks w) in
  if completed t then k
  else match parse_deadline (deadline t) with
       | Ok dl =>
           let td := dt_sub dl now in
           let rec := join (reminded_at t) in
           if window_24h now td rec then send_reminder_r now uid tid td k
           else if window_1h now td rec then send_reminder_r now uid tid td k
           else if window_5min now td rec then send_reminder_r now uid tid td k
           else if window_now now td rec then send_reminder_r now uid tid td k
           else k
       | Raise e => if bool_decide (e = ValueError) then k else raise e
       end.

(** [for x in xs: body(x)], the rest [k] after the loop. *)
Fixpoint for_r {A} (xs : list A) (body : A -> PyM iworld stask -> PyM iworld stask)
    (k : PyM iworld stask) : PyM iworld stask :=
  match xs with
  | [] => k
  | x :: xs' => body x (for_r xs' body k)
  end.

Definition scan_user_r (now : datetime) (uid : Z) (k : PyM iworld stask) : PyM iworld stask :=
  w <- get ;;
  for_r (user_tasks_of uid (iw_tasks w)) (fun '(tid, t) k' => scan_task_r now uid tid t k') k.

(** [for user_id in tasks] with CPython's size check at every [next]. *)
Fixpoint dict_iter_r (n size pos : nat) (body : Z -> PyM iworld stask -> PyM iworld stask)
    (k : PyM iworld stask) : PyM iworld stask :=
  w <- get ;;
  if Nat.eqb (length (iw_tasks w)) size then
    match n with
    | O => k
    | S n' =>
        match nth_error (dict_keys (iw_tasks w)) pos with
        | Some uid => body uid (dict_iter_r n' size (S pos) body k)
        | None => k
        end
    end
  else raise RuntimeError.

(** One pass of [check_deadlines], up to its first send. *)
Definition pass_r (now : datetime) : PyM iworld stask :=
  w <- get ;;
  dict_iter_r (length (iw_tasks w)) (length (iw_tasks w)) 0 (scan_user_r now) (ret SFin).

(** ** The pass run without interleaving *)

Fixpoint run_stask (p : stask) : PyM iworld unit :=
  match p with
  | SFin => ret tt
  | SAwait m => fun w =>
      match m w with
      | (Ok p', w') => run_stask p' w'
      | (Raise e, w') => (Raise e, w')
      end
  end.

Definition srun_seg (m : PyM iworld stask) : PyM iworld unit := bind m run_stask.

#[export] Instance srun_seg_proper : Proper ((≡) ==> (≡)) srun_seg.
Proof. intros m1 m2 Hm. unfold srun_seg. rewrite Hm. reflexivity. Qed.

Lemma srun_seg_bind {A} (m : PyM iworld A) (k : A -> PyM iworld stask) :
  srun_seg (bind m k) ≡ bind m (fun a => srun_seg (k a)).
Proof. apply bind_assoc_eqv. Qed.

Lemma srun_seg_await k : srun_seg (ret (SAwait k)) ≡ srun_seg k.
Proof.
  intros w. unfold srun_seg, bind, ret. cbn [run_stask]. destruct (k w) as [[p|e] w']; reflexivity.
Qed.

Lemma srun_seg_fin : srun_seg (ret SFin) ≡ ret tt.
Proof. intros w. reflexivity. Qed.

Lemma srun_seg_raise e : srun_seg (raise e) ≡ raise e.
Proof. intros w. reflexivity. Qed.

(** A continuation-passing piece against its direct-style counterpart. *)
Ltac cps_walk :=
  repeat match goal with
  | |- ?m ≡ ?m => reflexivity
  | |- srun_seg (bind _ _) ≡ _ => rewrite srun_seg_bind
  | |- srun_seg (ret (SAwait _)) ≡ _ => rewrite srun_seg_await
  | |- _ ≡ bind (bind _ _) _ => rewrite bind_assoc_eqv
  | |- _ ≡ bind (ret _) _ => rewrite bind_ret_l_eqv
  | |- bind _ _ ≡ bind _ _ => apply bind_proper; [reflexivity|intros ?]
  | |- srun_seg (if ?c then _ else _) ≡ _ => destruct c
  | |- srun_seg (match ?o with _ => _ end) ≡ _ => destruct o
  end.

Lemma send_reminder_r_run now uid tid td k :
  srun_seg (send_reminder_r now uid tid td k) ≡ (send_reminder_i now uid tid td ;; srun_seg k).
Proof. unfold send_reminder_r, send_reminder_i. cps_walk. Qed.

(** [send_reminder] never raises. *)
Lemma send_reminder_i_ok now uid tid td w : fst (send_reminder_i now uid tid td w) = Ok tt.
Proof.
  unfold send_reminder_i, bind, get, ret. repeat case_match; try reflexivity.
  all: unfold await_send, modify in *; simplify_eq; reflexivity.
Qed.

(** A [try] whose body fails only in its first step. *)
Lemma try_lift_safe {S A} (r : result A) (body : A -> PyM S unit) caught :
  (forall a s, fst (body a s) = Ok tt) ->
  try_except (a <- lift r ;; body a) caught (ret tt)
  ≡ match r with Ok a => body a | Raise e => if caught e then ret tt else raise e end.
Proof.
  intros Hb s. unfold try_except, bind, lift. destruct r as [a|e]; [|destruct (caught e); reflexivity].
  specialize (Hb a s). destruct (body a s) as [[[]|e] s']; [reflexivity|discriminate].
Qed.

Lemma window_chain_ok now uid tid dl w rec :
  let td := dt_sub dl now in
  fst ((if window_24h now td rec then send_reminder_i now uid tid td
        else if window_1h now td rec then send_reminder_i now uid tid td
        else if window_5min now td rec then send_reminder_i now uid tid td
        else if window_now now td rec then send_reminder_i now uid tid td
        else ret tt) w) = Ok tt.
Proof. cbv zeta. repeat case_match; first [apply send_reminder_i_ok | reflexivity]. Qed.

Lemma scan_task_r_run now uid tid t0 k :
  srun_seg (scan_task_r now uid tid t0 k) ≡ (scan_task_i now uid tid t0 ;; srun_seg k).
Proof.
  unfold scan_task_r, scan_task_i. rewrite srun_seg_bind, bind_assoc_eqv.
  apply bind_proper; [reflexivity|intros w]. cbv zeta.
  destruct (completed _); [rewrite bind_ret_l_eqv; reflexivity|].
  rewrite try_lift_safe by (intros; apply window_chain_ok).
  destruct (parse_deadline _) as [dl|e].
  - repeat match goal with
           | |- srun_seg (if ?c then _ else _) ≡ _ => destruct c
           end; first [apply send_reminder_r_run | rewrite bind_ret_l_eqv; reflexivity].
  - destruct (bool_decide (e = ValueError)); [rewrite bind_ret_l_eqv; reflexivity|apply srun_seg_raise].
Qed.

Lemma for_r_run {A} (xs : list A) body_r body_i :
  (forall x k, srun_seg (body_r x k) ≡ (body_i x ;; srun_seg k)) ->
  forall k, srun_seg (for_r xs body_r k) ≡ (for_ xs body_i ;; srun_seg k).
Proof.
  intros Hb. induction xs as [|x xs IH]; intros k; cbn [for_r for_].
  - rewrite bind_ret_l_eqv. reflexivity.
  - rewrite Hb, bind_assoc_eqv. apply bind_proper; [reflexivity|intros []]. apply IH.
Qed.

Lemma scan_user_r_run now uid k :
  srun_seg (scan_user_r now uid k) ≡ (scan_user_i now uid ;; srun_seg k).
Proof.
  unfold scan_user_r, scan_user_i. rewrite srun_seg_bind, bind_assoc_eqv.
  apply bind_proper; [reflexivity|intros w]. apply for_r_run.
  intros [tid t] k'. apply scan_task_r_run.
Qed.

Lemma dict_iter_r_run n size pos body_r body_i :
  (forall uid k, srun_seg (body_r uid k) ≡ (body_i uid ;; srun_seg k)) ->
  forall k, srun_seg (dict_iter_r n size pos body_r k) ≡ (dict_iter n size pos body_i ;; srun_seg k).
Proof.
  intros Hb. revert pos. induction n as [|n IH]; intros pos k; cbn [dict_iter_r dict_iter];
    rewrite srun_seg_bind, bind_assoc_eqv; apply bind_proper; [reflexivity|intros w| reflexivity|intros w].
  - destruct (Nat.eqb _ _); [rewrite bind_ret_l_eqv; reflexivity|apply srun_seg_raise].
  - destruct (Nat.eqb _ _); [|apply srun_seg_raise].
    destruct (nth_error _ pos) as [uid|]; [|rewrite bind_ret_l_eqv; reflexivity].
    rewrite Hb, bind_assoc_eqv. apply bind_proper; [reflexivity|intros []]. apply IH.
Qed.

(** Run without interleaving, the pass is [Interleave]'s [pass_i]. *)
Lemma srun_pass_r now : srun_seg (pass_r now) ≡ pass_i now.
Proof.
  unfold pass_r, pass_i. rewrite srun_seg_bind. apply bind_proper; [reflexivity|intros w].
  rewrite dict_iter_r_run by apply scan_user_r_run.
  etransitivity; [apply bind_proper; [reflexivity|intros []; apply srun_seg_fin]|apply bind_ret_r_eqv].
Qed.

(** ** Invariants of the pass's segments *)

Section SegInv.
Variable Inv : iworld -> Prop.
Hypothesis send_keeps : forall n, preserves Inv (await_send n).
Hypothesis stamp_keeps : forall uid tid now,
  preserves Inv (modify (fun w' => set_tasks
    (update_task uid tid (push_reminded (fmt_minute now)) (iw_tasks w')) w')).

(** Every segment of [p] keeps [Inv], whether it returns or raises. *)
Fixpoint stask_ok (p : stask) : Prop :=
  match p with
  | SFin => True
  | SAwait m =>
      forall w, Inv w -> Inv (snd (m w)) /\ match fst (m w) with Ok p' => stask_ok p' | Raise _ => True end
  end.

Definition sseg_ok (m : PyM iworld stask) : Prop :=
  forall w, Inv w -> Inv (snd (m w)) /\ match fst (m w) with Ok p => stask_ok p | Raise _ => True end.

Lemma sseg_ok_bind {A} (m : PyM iworld A) k :
  preserves Inv m -> (forall a, sseg_ok (k a)) -> sseg_ok (bind m k).
Proof.
  intros Hm Hk w Hw. specialize (Hm w Hw). unfold bind.
  destruct (m w) as [[a|e] w']; [exact (Hk a w' Hm)|split; [exact Hm|exact I]].
Qed.

Lemma sseg_ok_get k : (forall w, Inv w -> sseg_ok (k w)) -> sseg_ok (bind get k).
Proof. intros Hk w Hw. exact (Hk w Hw w Hw). Qed.

Lemma sseg_ok_raise e : sseg_ok (raise e).
Proof. intros w Hw. split; [exact Hw|exact I]. Qed.

Lemma sseg_ok_fin : sseg_ok (ret SFin).
Proof. intros w Hw. split; [exact Hw|exact I]. Qed.

Lemma sseg_ok_send_reminder now uid tid td k : sseg_ok k -> sseg_ok (send_reminder_r now uid tid td k).
Proof.
  intros Hk. unfold send_reminder_r. apply sseg_ok_get. intros w _.
  repeat case_match; try exact Hk.
  apply sseg_ok_bind; [apply send_keeps|intros []].
  intros w' Hw'. split; [exact Hw'|]. apply sseg_ok_bind; [apply stamp_keeps|intros []; exact Hk].
Qed.

Lemma sseg_ok_scan_task now uid tid t0 k : sseg_ok k -> sseg_ok (scan_task_r now uid tid t0 k).
Proof.
  intros Hk. unfold scan_task_r. apply sseg_ok_get. intros w _. cbv zeta.
  repeat case_match; first [exact Hk | apply sseg_ok_send_reminder, Hk | apply sseg_ok_raise].
Qed.

Lemma sseg_ok_for {A} (xs : list A) body k :
  (forall x k', sseg_ok k' -> sseg_ok (body x k')) -> sseg_ok k -> sseg_ok (for_r xs body k).
Proof. intros Hb Hk. induction xs as [|x xs IH]; cbn [for_r]; [exact Hk|apply Hb, IH]. Qed.

Lemma sseg_ok_dict_iter n size pos body k :
  (forall uid k', sseg_ok k' -> sseg_ok (body uid k')) -> sseg_ok k ->
  sseg_ok (dict_iter_r n size pos body k).
Proof.
  intros Hb Hk. revert pos. induction n as [|n IH]; intros pos; cbn [dict_iter_r];
    apply sseg_ok_get; intros w _; repeat case_match;
    first [exact Hk | apply sseg_ok_raise | apply Hb, IH].
Qed.

Lemma pass_r_ok now : sseg_ok (pass_r now).
Proof.
  unfold pass_r. apply sseg_ok_get. intros w _.
  apply sseg_ok_dict_iter; [|apply sseg_ok_fin].
  intros uid k' Hk'. unfold scan_user_r. apply sseg_ok_get. intros w' _.
  apply sseg_ok_for; [|exact Hk']. intros [tid t] k'' Hk''. apply sseg_ok_scan_task, Hk''.
Qed.

End SegInv.

(** ** The event loop with the scanner task *)

(** The task [start_background_tasks] creates: before a pass (its
    [await asyncio.sleep(30)], or not started yet), suspended at a send of
    the current pass, or ended by an exception. *)
Inductive scanner_state : Type :=
| sc_sleeping
| sc_scanning (m : PyM iworld stask)
| sc_dead (e : exn).

Record uloop : Type := mk_uloop {
  ul_loop : loop;
  ul_outbox : list notification;
  ul_scanner : scanner_state
}.

(** What the scanner sees: the bot and the messages sent so far. *)
Definition scanner_world (ul : uloop) : iworld := mk_iworld (l_bot (ul_loop ul)) (ul_outbox ul) [].

(** The scanner runs the segment [m] up to its next send, the end of the
    pass, or an exception. *)
Definition scanner_run (m : PyM iworld stask) (ul : uloop) : uloop :=
  let '(r, w) := m (scanner_world ul) in
  let l' := mk_loop (iw_bot w) (l_pending (ul_loop ul)) (l_finished (ul_loop ul)) in
  match r with
  | Ok (SAwait m') => mk_uloop l' (iw_outbox w) (sc_scanning m')
  | Ok SFin => mk_uloop l' (iw_outbox w) sc_sleeping
  | Raise e => mk_uloop l' (iw_outbox w) (sc_dead e)
  end.

Inductive uevent : Type :=
| u_handler (e : sched_event)
| u_wake (now : datetime)
| u_scanner.

Definition ustep (e : uevent) (ul : uloop) : uloop :=
  match e with
  | u_handler e' => mk_uloop (lstep e' (ul_loop ul)) (ul_outbox ul) (ul_scanner ul)
  | u_wake now => match ul_scanner ul with sc_sleeping => scanner_run (pass_r now) ul | _ => ul end
  | u_scanner => match ul_scanner ul with sc_scanning m => scanner_run m ul | _ => ul end
  end.

Fixpoint run_u (es : list uevent) (ul : uloop) : uloop :=
  match es with
  | [] => ul
  | e :: es' => run_u es' (ustep e ul)
  end.

Definition initial_uloop : uloop := mk_uloop initial_loop [] sc_sleeping.

Inductive ureachable : uloop -> Prop :=
| ureach_init : ureachable initial_uloop
| ureach_step e ul : ureachable ul -> ureachable (ustep e ul).

(** ** A pass that no handler interrupts *)

Definition sched_empty (w : iworld) : Prop := iw_sched w = [].

Lemma send_keeps_sched n : preserves sched_empty (await_send n).
Proof. intros w Hw. unfold sched_empty, await_send, modify in *. cbn [snd]. rewrite Hw. reflexivity. Qed.

Lemma stamp_keeps_sched uid tid now :
  preserves sched_empty (modify (fun w' => set_tasks
    (update_task uid tid (push_reminded (fmt_minute now)) (iw_tasks w')) w')).
Proof. intros w Hw. exact Hw. Qed.

(** The loop after the scanner's pass ended with [r] in the world [w]. *)
Definition scanner_end (r : result unit) (w : iworld) (l : loop) : uloop :=
  mk_uloop (mk_loop (iw_bot w) (l_pending l) (l_finished l)) (iw_outbox w)
    (match r with Ok _ => sc_sleeping | Raise e => sc_dead e end).

Definition scanner_at (p : stask) : scanner_state :=
  match p with SFin => sc_sleeping | SAwait m => sc_scanning m end.

Lemma loop_eta l : mk_loop (l_bot l) (l_pending l) (l_finished l) = l.
Proof. destruct l; reflexivity. Qed.

(** A suspended pass resumed with no handler in between runs to its end. *)
Lemma scanner_resumes : forall (p : stask) l out,
  stask_ok sched_empty p ->
  exists n, run_u (repeat u_scanner n) (mk_uloop l out (scanner_at p))
            = let '(r, w) := run_stask p (mk_iworld (l_bot l) out []) in scanner_end r w l.
Proof.
  fix IH 1. intros [|m] l out Hp.
  - exists 0%nat. destruct l. reflexivity.
  - destruct (Hp (mk_iworld (l_bot l) out []) eq_refl) as [Hs Hk].
    cbn [run_stask]. destruct (m (mk_iworld (l_bot l) out [])) as [[p'|e] w'] eqn:E;
      cbn [fst snd] in Hs, Hk.
    + destruct (IH p' (mk_loop (iw_bot w') (l_pending l) (l_finished l)) (iw_outbox w') Hk) as [n Hn].
      exists (S n). cbn [repeat run_u ustep ul_scanner scanner_at]. unfold scanner_run, scanner_world.
      cbn [ul_loop ul_outbox]. rewrite E.
      destruct w' as [b' o' sc']. unfold sched_empty in Hs. cbn in Hs. subst sc'.
      destruct p' as [|m']; cbn [l_bot iw_bot iw_outbox scanner_at] in Hn |- *; rewrite Hn; reflexivity.
    + exists 1%nat. cbn [repeat run_u ustep ul_scanner scanner_at]. unfold scanner_run, scanner_world.
      cbn [ul_loop ul_outbox]. rewrite E. reflexivity.
Qed.

Lemma scanner_run_to_end m l out sc :
  sseg_ok sched_empty m ->
  exists n, run_u (repeat u_scanner n) (scanner_run m (mk_uloop l out sc))
            = let '(r, w) := srun_seg m (mk_iworld (l_bot l) out []) in scanner_end r w l.
Proof.
  intros Hm. destruct (Hm (mk_iworld (l_bot l) out []) eq_refl) as [Hs Hk].
  unfold scanner_run, scanner_world, srun_seg, bind. cbn [ul_loop ul_outbox].
  destruct (m (mk_iworld (l_bot l) out [])) as [[p|e] w] eqn:E; cbn [fst snd] in Hs, Hk.
  - destruct w as [b' o' sc']. unfold sched_empty in Hs. cbn in Hs. subst sc'.
    destruct (scanner_resumes p (mk_loop b' (l_pending l) (l_finished l)) o' Hk) as [n Hn].
    exists n. destruct p as [|m']; exact Hn.
  - exists 0%nat. reflexivity.
Qed.

(** Waking the sleeping scanner and resuming it after each send, with no
    handler in between, runs [Interleave]'s pass with an empty schedule. *)
Lemma wake_runs_pass_i now l out :
  exists n, run_u (u_wake now :: repeat u_scanner n) (mk_uloop l out sc_sleeping)
  = let '(r, w) := pass_i now (mk_iworld (l_bot l) out []) in scanner_end r w l.
Proof.
  cbn [run_u ustep ul_scanner].
  destruct (scanner_run_to_end (pass_r now) l out sc_sleeping
              (pass_r_ok sched_empty send_keeps_sched stamp_keeps_sched now)) as [n Hn].
  exists n. rewrite Hn, (srun_pass_r now _). reflexivity.
Qed.

(** A pass no handler interrupts is the scanner's step of [Bot]: from
    a sleeping scanner on a store with unique keys, the wake-up at [now]
    and enough resumptions after its sends give exactly the store, the
    messages and the fate of the scanner of [check_deadlines_pass], and
    leave the sessions and the pending handler tasks as they were. *)
Theorem pass_alone_is_step now l out :
  store_wf (b_tasks (l_bot l)) ->
  exists n, run_u (u_wake now :: repeat u_scanner n) (mk_uloop l out sc_sleeping)
  = let '(r, w) := check_deadlines_pass now (mk_world (b_tasks (l_bot l)) out) in
    mk_uloop (mk_loop (mk_bot (w_tasks w) (b_sessions (l_bot l))) (l_pending l) (l_finished l))
      (w_outbox w) (match r with Ok _ => sc_sleeping | Raise e => sc_dead e end).
Proof.
  intros Hwf. destruct (wake_runs_pass_i now l out) as [n Hn]. exists n. rewrite Hn.
  destruct l as [[tk ss] pend fin]. cbn [l_bot b_tasks b_sessions] in *.
  change (mk_iworld (mk_bot tk ss) out []) with (iw_of ss (mk_world tk out)).
  rewrite (pass_i_no_interference now tk ss out Hwf).
  destruct (check_deadlines_pass now (mk_world tk out)) as [r [tk' out']]. reflexivity.
Qed.

(** ** Store invariants of every interleaving *)

Lemma ureachable_run es ul : ureachable ul -> ureachable (run_u es ul).
Proof. revert ul. induction es as [|e es IH]; intros ul Hu; [exact Hu|apply IH; constructor; exact Hu]. Qed.

Section UStore.
Context (P : store -> Prop) `{!StoreInv P}.

(** The store satisfies [P], every pending handler segment and the
    scanner's pending segment keep it. *)
Definition uloop_ok (ul : uloop) : Prop :=
  loop_ok (bot_store_inv P) (ul_loop ul)
  /\ match ul_scanner ul with sc_scanning m => sseg_ok (iw_inv P) m | _ => True end.

Lemma scanner_run_ok m ul : sseg_ok (iw_inv P) m -> uloop_ok ul -> uloop_ok (scanner_run m ul).
Proof.
  intros Hm [[Hb Hp] _]. specialize (Hm (scanner_world ul) Hb). unfold scanner_run.
  destruct (m (scanner_world ul)) as [[[|m']|e] w]; cbn [fst snd] in Hm; destruct Hm as [Hw Hk];
    (split; [split; [exact Hw|exact Hp]|]); cbn [ul_scanner]; [exact I|exact Hk|exact I].
Qed.

Lemma ustep_ok e ul : uloop_ok ul -> uloop_ok (ustep e ul).
Proof.
  intros [Hl Hs]. destruct e as [e'|now|]; cbn [ustep].
  - split; [apply (lstep_ok _ (dispatch_task_ok P)), Hl|exact Hs].
  - destruct (ul_scanner ul) eqn:E; try (split; [exact Hl|rewrite E; exact Hs]).
    apply scanner_run_ok; [|split; [exact Hl|rewrite E; exact I]].
    apply pass_r_ok; [apply (await_send_inv P)|apply (stamp_inv P)].
  - destruct (ul_scanner ul) eqn:E; try (split; [exact Hl|rewrite E; exact Hs]).
    apply scanner_run_ok; [exact Hs|split; [exact Hl|rewrite E; exact Hs]].
Qed.

Lemma ureachable_ok ul : P [] -> ureachable ul -> uloop_ok ul.
Proof.
  intros H0 Hu. induction Hu as [|e ul _ IH]; [|apply ustep_ok, IH].
  split; [split; [exact H0|apply Forall_nil_2]|exact I].
Qed.

(** C13: Every store invariant of the [StoreInv] interface that holds of
    the empty store holds in every state of the event loop on which the
    scanner and the handlers run, whatever the interleaving of the
    scanner's segments between its sends and the handlers' segments
    between their awaits: the scanner's reads interleave with the
    handlers' mutations without ever corrupting the store. *)
Theorem ureachable_store_inv ul : P [] -> ureachable ul -> P (b_tasks (l_bot (ul_loop ul))).
Proof. intros H0 Hu. exact (proj1 (proj1 (ureachable_ok ul H0 Hu))). Qed.

End UStore.

(** C10: In every state the event loop reaches, whatever the interleaving
    of handler and scanner segments before it, a sleeping scanner woken at
    [now] and resumed with no handler in between computes [scan_spec]: the
    pass ends with the specification's store, its reminders appended to
    the outbox, the scanner asleep again or dead with the specification's
    exception, and the sessions and handler tasks untouched. *)
Theorem ureachable_wake_spec ul now :
  ureachable ul -> ul_scanner ul = sc_sleeping ->
  exists n, run_u (u_wake now :: repeat u_scanner n) ul
  = let '(r, s', ns) := scan_spec now (b_tasks (l_bot (ul_loop ul))) in
    mk_uloop (mk_loop (mk_bot s' (b_sessions (l_bot (ul_loop ul))))
                (l_pending (ul_loop ul)) (l_finished (ul_loop ul)))
      (ul_outbox ul ++ ns) (match r with Ok _ => sc_sleeping | Raise e => sc_dead e end).
Proof.
  intros Hu Hs. pose proof (proj1 (proj1 (ureachable_ok store_wf ul (conj (NoDup_nil_2) (Forall_nil_2 _)) Hu))) as Hwf.
  destruct ul as [l out sc]; cbn [ul_scanner ul_loop ul_outbox] in *; subst sc.
  destruct (wake_runs_pass_i now l out) as [n Hn]. exists n. rewrite Hn.
  destruct l as [[tk ss] pend fin]. cbn [l_bot b_tasks b_sessions] in *.
  change (mk_iworld (mk_bot tk ss) out []) with (iw_of ss (mk_world tk out)).
  rewrite (pass_i_no_interference now tk ss out Hwf), (pass_computes_spec now tk out Hwf).
  destruct (scan_spec now tk) as [[r s'] ns]. reflexivity.
Qed.

(** ** The pass in progress always ends *)

Definition scanner_busy (sc : scanner_state) : bool :=
  match sc with sc_scanning _ => true | _ => false end.

(** The scanner's pending segment, resumed on a world with no scheduled
    handler, goes on to a segment of the same kind. *)
Definition scanner_pending_ok (ul : uloop) : Prop :=
  match ul_scanner ul with sc_scanning m => sseg_ok sched_empty m | _ => True end.

Lemma scanner_run_pending_ok m ul : sseg_ok sched_empty m -> scanner_pending_ok (scanner_run m ul).
Proof.
  intros Hm. destruct (Hm (scanner_world ul) eq_refl) as [_ Hk]. unfold scanner_run.
  destruct (m (scanner_world ul)) as [[[|m']|e] w]; exact I || exact Hk.
Qed.

Lemma ustep_pending_ok e ul : scanner_pending_ok ul -> scanner_pending_ok (ustep e ul).
Proof.
  intros Hs. destruct e as [e'|now|]; cbn [ustep]; [exact Hs| |];
    destruct (ul_scanner ul) as [|m|] eqn:E; try exact Hs; apply scanner_run_pending_ok.
  - exact (pass_r_ok sched_empty send_keeps_sched stamp_keeps_sched now).
  - unfold scanner_pending_ok in Hs. rewrite E in Hs. exact Hs.
Qed.

Lemma ureachable_pending_ok ul : ureachable ul -> scanner_pending_ok ul.
Proof. induction 1; [exact I|apply ustep_pending_ok; assumption]. Qed.

(** Whatever the handlers and the scanner did before, the pass of
    [check_deadlines] in progress is never stuck: resumed by the event loop
    at each of its sends it ends, asleep until the next wake-up or dead,
    after finitely many resumptions, and leaves the pending handler tasks
    as they were. *)
Theorem scanner_pass_ends ul :
  ureachable ul ->
  exists n, scanner_busy (ul_scanner (run_u (repeat u_scanner n) ul)) = false
            /\ l_pending (ul_loop (run_u (repeat u_scanner n) ul)) = l_pending (ul_loop ul).
Proof.
  intros Hu. pose proof (ureachable_pending_ok ul Hu) as Hs.
  destruct ul as [l out [|m|e]]; [exists 0%nat; split; reflexivity| |exists 0%nat; split; reflexivity].
  destruct (scanner_run_to_end m l out (sc_scanning m) Hs) as [n Hn].
  exists (S n). cbn [repeat run_u ustep ul_scanner]. rewrite Hn.
  destruct (srun_seg m _) as [[[]|e] w]; split; reflexivity.
Qed.

(** ** The scanner killed by one segment of a handler *)

(** The bot of [Interleave]'s scenario: user 7's Report task is due at
    16:00, user 8 has picked the date and hour of a Lunch task. *)
Definition lunch_loop : uloop := mk_uloop (mk_loop (sys_bot before_pass) [] []) [] sc_sleeping.

(** User 8 taps 17:00 as the pass of 15:00:30 starts; the tap's handler
    answers the callback and stores the task while the scanner waits for
    Telegram, then the scanner resumes. *)
Definition tap_during_send : list uevent :=
  [u_handler (s_deliver at_1500 (callback_update 8 (lit "fulltime_17:00"))); u_wake at_1500;
   u_handler (s_resume 0); u_handler (s_resume 0); u_scanner].

(** The same, but the handler's second segment runs after the pass. *)
Definition tap_after_pass : list uevent :=
  [u_handler (s_deliver at_1500 (callback_update 8 (lit "fulltime_17:00"))); u_wake at_1500;
   u_handler (s_resume 0); u_scanner; u_handler (s_resume 0)].

(** Only the segment of the handler that stores the task matters: run
    during the scanner's [await], it adds user 8 to [tasks] and the next
    [next] of [for user_id in tasks] raises [RuntimeError]; the same
    segment run after the pass leaves the scanner alive.  Either way user
    7 gets its one-hour reminder. *)
Theorem store_segment_kills_scanner :
  ul_scanner (run_u tap_during_send lunch_loop) = sc_dead RuntimeError
  /\ ul_scanner (run_u tap_after_pass lunch_loop) = sc_sleeping
  /\ ul_outbox (run_u tap_during_send lunch_loop) = [mk_notification 7 (lit "1") Due1h]
  /\ ul_outbox (run_u tap_after_pass lunch_loop) = [mk_notification 7 (lit "1") Due1h].
Proof. vm_compute. repeat split; reflexivity. Qed.

(** [Bot]'s creation dialog of user 7's Report task, each update
    delivered as a task and resumed to its end, then the wake-up of 15:00:30,
    whose pass suspends at the one-hour reminder. *)
Definition report_uevents : list uevent :=
  flat_map (fun u => u_handler (s_deliver nov_9_2026 u) :: repeat (u_handler (s_resume 0)) 3)
    [message_update 7 (plain_text (lit "/add")); message_update 7 (plain_text (lit "Report"));
     callback_update 7 (month_payload (11, 2026)); callback_update 7 (day_payload 9 11 2026);
     callback_update 7 (lit "hour_16"); callback_update 7 (lit "fulltime_16:00")]
  ++ [u_wake at_1500].

(** ** Witnesses *)

Lemma pass_alone_is_step_witness :
  store_wf (b_tasks (l_bot (mk_loop (sys_bot before_pass) [] [])))
  /\ exists n, run_u (u_wake at_1500 :: repeat u_scanner n)
       (mk_uloop (mk_loop (sys_bot before_pass) [] []) [] sc_sleeping)
     = let '(r, w) := check_deadlines_pass at_1500
                        (mk_world (b_tasks (l_bot (mk_loop (sys_bot before_pass) [] []))) []) in
       mk_uloop (mk_loop (mk_bot (w_tasks w) (b_sessions (l_bot (mk_loop (sys_bot before_pass) [] []))))
                   (l_pending (mk_loop (sys_bot before_pass) [] []))
                   (l_finished (mk_loop (sys_bot before_pass) [] [])))
         (w_outbox w) (match r with Ok _ => sc_sleeping | Raise e => sc_dead e end).
Proof.
  assert (Hwf : store_wf (b_tasks (l_bot (mk_loop (sys_bot before_pass) [] [])))) by decide_by_eval.
  split; [exact Hwf|exact (pass_alone_is_step at_1500 (mk_loop (sys_bot before_pass) [] []) [] Hwf)].
Defined.

Lemma ureachable_store_inv_witness :
  tasks_typed [] /\ tasks_typed (b_tasks (l_bot (ul_loop (run_u tap_during_send initial_uloop)))).
Proof.
  assert (H0 : tasks_typed []) by apply Forall_nil_2.
  split; [exact H0|].
  apply (ureachable_store_inv tasks_typed); [exact H0|apply ureachable_run, ureach_init].
Defined.

Lemma ureachable_wake_spec_witness :
  ureachable (run_u tap_during_send initial_uloop) /\ ul_scanner (run_u tap_during_send initial_uloop) = sc_sleeping
  /\ exists n, run_u (u_wake at_1500 :: repeat u_scanner n) (run_u tap_during_send initial_uloop)
     = let '(r, s', ns) := scan_spec at_1500 (b_tasks (l_bot (ul_loop (run_u tap_during_send initial_uloop)))) in
       mk_uloop (mk_loop (mk_bot s' (b_sessions (l_bot (ul_loop (run_u tap_during_send initial_uloop)))))
                   (l_pending (ul_loop (run_u tap_during_send initial_uloop))) (l_finished (ul_loop (run_u tap_during_send initial_uloop))))
         (ul_outbox (run_u tap_during_send initial_uloop) ++ ns) (match r with Ok _ => sc_sleeping | Raise e => sc_dead e end).
Proof.
  assert (Hu : ureachable (run_u tap_during_send initial_uloop)) by apply ureachable_run, ureach_init.
  assert (Hs : ul_scanner (run_u tap_during_send initial_uloop) = sc_sleeping) by (vm_compute; reflexivity).
  split; [exact Hu|split; [exact Hs|exact (ureachable_wake_spec (run_u tap_during_send initial_uloop) at_1500 Hu Hs)]].
Defined.

Lemma scanner_pass_ends_witness :
  ureachable (run_u report_uevents initial_uloop) /\ scanner_busy (ul_scanner (run_u report_uevents initial_uloop)) = true
  /\ exists n, scanner_busy (ul_scanner (run_u (repeat u_scanner n) (run_u report_uevents initial_uloop))) = false
            /\ l_pending (ul_loop (run_u (repeat u_scanner n) (run_u report_uevents initial_uloop))) = l_pending (ul_loop (run_u report_uevents initial_uloop)).
Proof.
  assert (Hu : ureachable (run_u report_uevents initial_uloop)) by apply ureachable_run, ureach_init.
  split; [exact Hu|split; [vm_compute; reflexivity|exact (scanner_pass_ends _ Hu)]].
Defined.
